(** * libnunchuk: record stores, storage facade and Electrum synchronizer

    A shallow embedding of the persistence core of libnunchuk and of the
    part of the Electrum synchronizer that writes into it.

    Source files embedded here:
    - [src/unnamed/part_002] (storage.cpp, the revision that still holds
      the record-store classes [NunchukDb], [NunchukWalletDb],
      [NunchukSignerDb] next to the facade [NunchukStorage]);
    - [src/src/storage/roomdb.cpp], second document (storage.cpp, the
      later revision of the facade: [CreateWallet] takes
      [allow_used_signer] and delegates to [CreateWallet0]);
    - [src/unnamed/part_003], second document (synchronizer.cpp).

    Every record store is an SQLite database.  A table is modelled as the
    list of its rows in rowid (insertion) order, a table that does not
    exist as [None].  Statements are the few shapes the source uses
    (INSERT, INSERT .. ON CONFLICT DO UPDATE, UPDATE .. WHERE,
    DELETE .. WHERE), each returning the table afterwards together with
    the number [sqlite3_changes] reports for it; an INSERT that violates
    the PRIMARY KEY makes [sqlite3_finalize] return an error, which
    SQLCHECK throws as SQL_ERROR.  Encryption (the passphrase of
    [sqlite3_key]) is not modelled: every store is opened with the
    passphrase it was written with.  A store id names a file directly
    below [wallets] or [signers]: path separators inside an id are not
    followed. *)

From Stdlib Require Import ZArith Lia Ascii String DecimalString Sorted.
From stdpp Require Import base option list gmap strings.

Local Open Scope string_scope.
Local Open Scope list_scope.
Local Open Scope Z_scope.

(** ** Exceptions *)

Module StorageException.
Inductive code :=
  | WALLET_NOT_FOUND | MASTERSIGNER_NOT_FOUND | TX_NOT_FOUND | SIGNER_USED
  | INVALID_DATADIR | SQL_ERROR | WALLET_EXISTED | SIGNER_EXISTS
  | SIGNER_NOT_FOUND | ADDRESS_NOT_FOUND.
End StorageException.

Module NunchukException.
Inductive code :=
  | INVALID_PARAMETER | INVALID_BIP32_PATH | INVALID_PASSPHRASE
  | PASSPHRASE_ALREADY_USED | INVALID_SIGNER_PASSPHRASE | INVALID_AMOUNT
  | AMOUNT_OUT_OF_RANGE | SERVER_REQUEST_ERROR.
End NunchukException.

Inductive Exception :=
| StorageExc (c : StorageException.code)
| NunchukExc (c : NunchukException.code)
| JsonException.   (* nlohmann::json: parsing a text that is not JSON,
                        or converting a null *)

(** A call either returns or throws. *)
Inductive Result (A : Type) :=
| Ok (a : A)
| Throw (e : Exception).
Arguments Ok {A} a.
Arguments Throw {A} e.

Definition bind {A B : Type} (r : Result A) (k : A -> Result B) : Result B :=
  match r with
  | Ok a => k a
  | Throw e => Throw e
  end.

Notation "'let*' x ':=' e 'in' k" := (bind e (fun x => k))
  (at level 10, x name, e at level 200, k at level 200).

(** [sqlite3_column_int] of a stored 64-bit integer: its low 32 bits as a
    signed [int]. *)
Definition to_int (z : Z) : Z := (z + 2 ^ 31) mod 2 ^ 32 - 2 ^ 31.

#[global] Instance StorageException_code_eq_dec :
  EqDecision StorageException.code.
Proof. solve_decision. Defined.
#[global] Instance NunchukException_code_eq_dec :
  EqDecision NunchukException.code.
Proof. solve_decision. Defined.
#[global] Instance Exception_eq_dec : EqDecision Exception.
Proof. solve_decision. Defined.

(** ** Strings as the C++ code reads them *)

(** [std::string((char* )sqlite3_column_text(..))]: the text up to the
    first NUL byte. *)
Fixpoint cstr (s : string) : string :=
  match s with
  | EmptyString => EmptyString
  | String c s' => if Ascii.eqb c "000"%char then EmptyString
                   else String c (cstr s')
  end.

(** [boost::algorithm::to_lower_copy] in the "C" locale. *)
Definition to_lower_char (c : ascii) : ascii :=
  let n := nat_of_ascii c in
  if ((65 <=? n)%nat && (n <=? 90)%nat)%bool then ascii_of_nat (n + 32) else c.

Fixpoint to_lower_copy (s : string) : string :=
  match s with
  | EmptyString => EmptyString
  | String c s' => String (to_lower_char c) (to_lower_copy s')
  end.

Definition string_empty (s : string) : bool :=
  match s with EmptyString => true | _ => false end.

(** ** SQLite statements *)

Module Sqlite.
Section Statements.
Context {R : Type}.

  (** What stepping one statement yields: the rows afterwards and the
      count [sqlite3_changes] returns once the statement has completed. *)
Definition outcome : Type := list R * Z.

Definition count (p : R -> bool) (t : list R) : Z :=
    Z.of_nat (List.length (List.filter p t)).

  (** [UPDATE t SET .. WHERE p].  Every row matching the WHERE clause is
      counted, whether or not the assignment alters it. *)
Definition update (p : R -> bool) (f : R -> R) (t : list R) : outcome :=
    (map (fun r => if p r then f r else r) t, count p t).

  (** [INSERT INTO t VALUES r] under a PRIMARY KEY: a row with the same
      key makes the statement fail with SQLITE_CONSTRAINT; the statement
      is rolled back and the change counter is set to 0.  The error is
      what [sqlite3_finalize] returns for the statement afterwards
      ([constraint_failed] below). *)
Definition insert (same_key : R -> R -> bool) (r : R) (t : list R)
    : outcome :=
    if existsb (same_key r) t then (t, 0) else (t ++ [r], 1).

  (** Whether [sqlite3_finalize] returns an error for the INSERT of [r]
      that was stepped on the table: it does when a row with the key of
      [r] is there.  On a missing table the statement is NULL and
      [sqlite3_finalize(NULL)] is SQLITE_OK. *)
Definition constraint_failed (same_key : R -> R -> bool) (r : R)
      (t : option (list R)) : bool :=
    match t with
    | Some rows => existsb (same_key r) rows
    | None => false
    end.

  (** [INSERT .. ON CONFLICT(key) DO UPDATE SET ..]: one row is written
      either way, so one change is counted either way. *)
Definition upsert (same_key : R -> R -> bool) (r : R) (f : R -> R)
      (t : list R) : outcome :=
    if existsb (same_key r) t
    then (map (fun r' => if same_key r r' then f r' else r') t, 1)
    else (t ++ [r], 1).

  (** [DELETE FROM t WHERE p]. *)
Definition delete (p : R -> bool) (t : list R) : outcome :=
    (List.filter (fun r => negb (p r)) t, count p t).

  (** Running a statement on a connection whose change counter is
      [changes].  When the table is missing, [sqlite3_prepare] fails and
      leaves a NULL statement: [sqlite3_step] and [sqlite3_finalize] on
      NULL do nothing, and [sqlite3_changes] still answers for the
      previous statement. *)
Definition exec (stmt : list R -> outcome) (t : option (list R))
      (changes : Z) : option (list R) * Z :=
    match t with
    | Some rows => let '(rows', n) := stmt rows in (Some rows', n)
    | None => (None, changes)
    end.

  (** [SELECT .. WHERE p] followed by one [sqlite3_step]: the first
      matching row, if any. *)
Definition first_row (p : R -> bool) (t : option (list R)) : option R :=
    match t with
    | Some rows => List.find p rows
    | None => None
    end.

  (** [SELECT .. WHERE p] stepped to the end. *)
Definition all_rows (p : R -> bool) (t : option (list R)) : list R :=
    match t with
    | Some rows => List.filter p rows
    | None => []
    end.

Fixpoint insert_by_key (key : R -> string) (r : R) (t : list R) : list R :=
    match t with
    | [] => [r]
    | x :: t' =>
      if String.leb (key r) (key x) then r :: t
      else x :: insert_by_key key r t'
    end.

  (** [SELECT key FROM t] without a WHERE clause, for a table whose TEXT
      column [key] is its PRIMARY KEY: the query reads nothing but the
      key, so it is answered from the index of the key, and the rows come
      in the order of their keys (compared byte by byte), not in the
      order of insertion. *)
Definition index_scan (key : R -> string) (t : option (list R)) : list R :=
    match t with
    | Some rows => fold_right (insert_by_key key) [] rows
    | None => []
    end.
End Statements.
End Sqlite.

(** part_002:27-34: SQLCHECK on the result code of a statement or of
    [sqlite3_open]. *)
Definition SQLCHECK (failed : bool) : Result unit :=
  if failed then Throw (StorageExc StorageException.SQL_ERROR) else Ok tt.

(** ** NunchukDb: the record-store primitive (part_002:43-176) *)

Record NunchukDb := mkNunchukDb {
  id_ : string;
  VSTR : option (list (Z * string));   (* ID INT PRIMARY KEY, VALUE TEXT *)
  VINT : option (list (Z * Z));        (* ID INT PRIMARY KEY, VALUE INT *)
  changes : Z                          (* sqlite3_changes(db_) *)
}.

Definition same_id {V : Type} (r r' : Z * V) : bool := fst r =? fst r'.

(** part_002:109-122 *)
Definition PutString (key : Z) (value : string) (db : NunchukDb)
  : bool * NunchukDb :=
  let '(t, n) :=
    Sqlite.exec (Sqlite.upsert same_id (key, value) (fun _ => (key, value)))
                (VSTR db) (changes db) in
  let updated := n =? 1 in
  (updated, mkNunchukDb (id_ db) t (VINT db) n).

(** part_002:124-137 *)
Definition PutInt (key : Z) (value : Z) (db : NunchukDb)
  : bool * NunchukDb :=
  let '(t, n) :=
    Sqlite.exec (Sqlite.upsert same_id (key, value) (fun _ => (key, value)))
                (VINT db) (changes db) in
  let updated := n =? 1 in
  (updated, mkNunchukDb (id_ db) (VSTR db) t n).

(** part_002:139-151 *)
Definition GetString (key : Z) (db : NunchukDb) : string :=
  match Sqlite.first_row (fun r => fst r =? key) (VSTR db) with
  | Some r => cstr (snd r)
  | None => EmptyString
  end.

(** part_002:153-165 *)
Definition GetInt (key : Z) (db : NunchukDb) : Z :=
  match Sqlite.first_row (fun r => fst r =? key) (VINT db) with
  | Some r => snd r
  | None => 0
  end.

(** part_002:167-176.  The three tables a derived store may or may not
    have are fields of the derived records below, so [TableExists] is
    asked of the field. *)
Definition TableExists {R : Type} (t : option (list R)) : bool :=
  match t with Some _ => true | None => false end.

(** ** Types of the public API (nunchuk.h; only declarations are used) *)

Inductive Chain := MAIN | TESTNET | REGTEST.
Inductive WalletType := SINGLE_SIG | MULTI_SIG | ESCROW.
Inductive AddressType := ANY | LEGACY | NESTED_SEGWIT | NATIVE_SEGWIT.
Inductive DescriptorPath :=
  ANY_PATH | INTERNAL_ALL | INTERNAL | EXTERNAL_ALL | EXTERNAL | TEMPLATE.
Inductive TransactionStatus :=
| PENDING_SIGNATURES | READY_TO_BROADCAST | NETWORK_REJECTED
| PENDING_CONFIRMATION | REPLACED | CONFIRMED.

#[global] Instance Chain_eq_dec : EqDecision Chain.
Proof. solve_decision. Defined.
#[global] Instance WalletType_eq_dec : EqDecision WalletType.
Proof. solve_decision. Defined.
#[global] Instance AddressType_eq_dec : EqDecision AddressType.
Proof. solve_decision. Defined.
#[global] Instance TransactionStatus_eq_dec : EqDecision TransactionStatus.
Proof. solve_decision. Defined.

(** Amounts are [int64_t] satoshi, times are [time_t]; no arithmetic of
    the modelled code leaves the range of its type on amounts within
    [MAX_MONEY], so both are plain integers here. *)
Definition Amount := Z.
Definition time_t := Z.

Record SingleSigner := mkSingleSigner {
  get_name : string;
  get_xpub : string;
  get_public_key : string;
  get_derivation_path : string;
  get_master_fingerprint : string;
  get_last_health_check : time_t;
  get_master_signer_id : string;
  is_used : bool
}.

Definition has_master_signer (s : SingleSigner) : bool :=
  negb (string_empty (get_master_signer_id s)).

Definition TxInput : Type := string * Z.      (* txid, vout *)
Definition TxOutput : Type := string * Amount. (* address, amount *)

Record Transaction := mkTransaction {
  get_txid : string;
  get_height : Z;
  get_inputs : list TxInput;
  get_outputs : list TxOutput;
  get_user_outputs : list TxOutput;
  get_receive_outputs : list TxOutput;
  get_change_index : Z;
  get_m : Z;
  get_signers : list (string * bool);
  get_memo : string;
  get_status : TransactionStatus;
  get_replaced_by_txid : string;
  get_fee : Amount;
  get_fee_rate : Amount;
  get_blocktime : time_t;
  subtract_fee_from_amount : bool;
  is_receive : bool;
  get_sub_amount : Amount
}.

Module UnspentOutput.
Record t := mk {
    get_txid : string;
    get_vout : Z;
    get_address : string;
    get_amount : Amount;
    get_height : Z;
    get_memo : string
  }.
End UnspentOutput.

Record Wallet := mkWallet {
  wallet_id : string;
  wallet_m : Z;
  wallet_n : Z;
  wallet_signers : list SingleSigner;
  wallet_address_type : AddressType;
  wallet_is_escrow : bool;
  wallet_create_date : time_t;
  wallet_name : string;
  wallet_description : string;
  wallet_balance : Amount
}.

(** ** Collaborators whose code is outside the embedded files *)

(** utils/bip32.hpp: the canonical derivation path of a bucket index,
    the cache-kind tag of a bucket and the index a path ends in. *)
Class Bip32 := {
  GetBip32Path : Chain -> WalletType -> AddressType -> Z -> string;
  GetBip32Type : WalletType -> AddressType -> string;
  GetIndexFromPath : string -> Z
}.

(** descriptor.h (part_000:16-37) and the checksum of Bitcoin Core's
    descriptor module.  [GetDescriptorForSigners] is called with its
    defaults [index = -1] and [sorted = true]. *)
Class Descriptor := {
  FormalizePath : string -> string;
  GetDescriptorForSigners :
    list SingleSigner -> Z -> DescriptorPath -> AddressType -> WalletType
    -> string;
  GetDescriptorChecksum : string -> string
}.

(** The transaction codec (utils/txutils.hpp over Bitcoin Core): a raw
    transaction or a PSBT is an opaque text, decoded by pure functions.
    An output is given by the address of its script. *)
Record CMutableTransaction := mkCMutableTransaction {
  GetHash : string;
  vin : list TxInput;
  vout : list TxOutput
}.

Record PartiallySignedTransaction := mkPartiallySignedTransaction {
  psbt_tx : CMutableTransaction;
  psbt_signed : list string   (* master fingerprints with a signature *)
}.

Class TxCodec := {
  DecodeRawTransaction : string -> CMutableTransaction;
  DecodePsbt : string -> PartiallySignedTransaction
}.

(** utils/txutils.hpp: the [Transaction] of a decoded raw transaction at
    a height, and of a decoded draft for an m-of-n wallet. *)
Class TxUtils := {
  GetTransactionFromCMutableTransaction :
    CMutableTransaction -> list SingleSigner -> Z -> Transaction;
  GetTransactionFromPartiallySignedTransaction :
    PartiallySignedTransaction -> list SingleSigner -> Z -> Transaction
}.

(** Keys of the [VSTR]/[VINT] rows and the schema version (storage.h). *)
Class DbKeys := {
  KEY_ID : Z; KEY_VERSION : Z; KEY_NAME : Z; KEY_DESCRIPTION : Z;
  KEY_FINGERPRINT : Z; KEY_MNEMONIC : Z; KEY_SIGNER_DEVICE_TYPE : Z;
  KEY_SIGNER_DEVICE_MODEL : Z; KEY_LAST_HEALTH_CHECK : Z;
  STORAGE_VER : Z
}.

(** ** NunchukWalletDb (part_002:178-1023) *)

(** Columns that hold the text of a JSON document ([EXTRA], [UTXO], the
    [KEY] of a signer slot, the [IMMUTABLE_DATA] row of [VSTR]) are
    modelled by the document itself: the store only parses what
    [dump] wrote. *)

Record Extra := mkExtra {
  ex_signers : option (list (string * bool));
  ex_outputs : option (list (string * Amount));
  ex_fee_rate : option Amount;
  ex_subtract : option bool;
  ex_replace_txid : option string;
  ex_replaced_by_txid : option string;
  ex_reject_msg : option string
}.

Module VTX.
Record row := mk {
    ID : string; VALUE : string; HEIGHT : Z; FEE : Z; MEMO : string;
    CHANGEPOS : Z; BLOCKTIME : Z;
    EXTRA : option Extra   (* [None] is the empty text *)
  }.
End VTX.

(** One entry of an unspent-output snapshot, in the format of either
    backend. *)
Inductive UtxoItem :=
| ElectrumUtxo (tx_hash : string) (tx_pos : Z) (value : Amount)
| CoreRpcUtxo (txid : string) (vout : Z) (amount : Amount).

Module ADDRESS.
Record row := mk {
    ADDR : string; IDX : Z; INTERNAL : Z; USED : Z;
    UTXO : option (list UtxoItem)   (* [None] is SQL NULL *)
  }.
End ADDRESS.

Module SIGNER.
Record row := mk {
    KEY_xpub : string; KEY_public_key : string;
    KEY_derivation_path : string; KEY_master_fingerprint : string;
    NAME : string; MASTER_ID : string; LAST_HEALTHCHECK : Z
  }.
End SIGNER.

Record ImmutableData := mkImmutableData {
  im_m : Z; im_n : Z; im_address_type : AddressType; im_is_escrow : bool;
  im_create_date : time_t
}.

Record NunchukWalletDb := mkNunchukWalletDb {
  wdb : NunchukDb;
  IMMUTABLE_DATA : option ImmutableData;
  VTX : option (list VTX.row);
  ADDRESS : option (list ADDRESS.row);
  SIGNER : option (list SIGNER.row)
}.

Definition set_changes (n : Z) (db : NunchukDb) : NunchukDb :=
  mkNunchukDb (id_ db) (VSTR db) (VINT db) n.

Definition create_table {R : Type} (t : option (list R)) : option (list R) :=
  match t with Some rows => Some rows | None => Some [] end.

(** part_002:60-73 *)
Definition CreateTable `{DbKeys} (db : NunchukDb) : NunchukDb :=
  let db := mkNunchukDb (id_ db) (create_table (VSTR db))
                        (create_table (VINT db)) (changes db) in
  let db := snd (PutString KEY_ID (id_ db) db) in
  snd (PutInt KEY_VERSION STORAGE_VER db).

Module WalletDb.
Section WalletDb.
Context `{DbKeys} `{TxCodec} `{TxUtils}.

Definition with_wdb (b : NunchukDb) (db : NunchukWalletDb) :=
    mkNunchukWalletDb b (IMMUTABLE_DATA db) (VTX db) (ADDRESS db) (SIGNER db).

Definition exec_VTX (stmt : list VTX.row -> Sqlite.outcome)
      (db : NunchukWalletDb) : NunchukWalletDb :=
    let '(t, n) := Sqlite.exec stmt (VTX db) (changes (wdb db)) in
    mkNunchukWalletDb (set_changes n (wdb db)) (IMMUTABLE_DATA db) t
                      (ADDRESS db) (SIGNER db).

Definition exec_ADDRESS (stmt : list ADDRESS.row -> Sqlite.outcome)
      (db : NunchukWalletDb) : NunchukWalletDb :=
    let '(t, n) := Sqlite.exec stmt (ADDRESS db) (changes (wdb db)) in
    mkNunchukWalletDb (set_changes n (wdb db)) (IMMUTABLE_DATA db) (VTX db)
                      t (SIGNER db).

Definition exec_SIGNER (stmt : list SIGNER.row -> Sqlite.outcome)
      (db : NunchukWalletDb) : NunchukWalletDb :=
    let '(t, n) := Sqlite.exec stmt (SIGNER db) (changes (wdb db)) in
    mkNunchukWalletDb (set_changes n (wdb db)) (IMMUTABLE_DATA db) (VTX db)
                      (ADDRESS db) t.

Definition updated (db : NunchukWalletDb) : bool := changes (wdb db) =? 1.

  (** part_002:241-248; the key is the JSON object of these four texts. *)
Definition GetSingleSignerKey (signer : SingleSigner)
    : string * string * string * string :=
    (get_xpub signer, get_public_key signer, get_derivation_path signer,
     to_lower_copy (get_master_fingerprint signer)).

Definition SIGNER_key (r : SIGNER.row) : string * string * string * string :=
    (SIGNER.KEY_xpub r, SIGNER.KEY_public_key r,
     SIGNER.KEY_derivation_path r, SIGNER.KEY_master_fingerprint r).

Definition same_SIGNER (r r' : SIGNER.row) : bool :=
    bool_decide (SIGNER_key r = SIGNER_key r').

  (** part_002:250-267.  The store is returned next to the result: what
      was written before a throw stays written. *)
Definition AddSigner (signer : SingleSigner) (db : NunchukWalletDb)
    : Result bool * NunchukWalletDb :=
    let '(x, p, d, f) := GetSingleSignerKey signer in
    let r := SIGNER.mk x p d f (get_name signer)
               (to_lower_copy (get_master_signer_id signer))
               (get_last_health_check signer) in
    let failed := Sqlite.constraint_failed same_SIGNER r (SIGNER db) in
    let db := exec_SIGNER (Sqlite.insert same_SIGNER r) db in
    (let* _ := SQLCHECK failed in Ok (updated db), db).

  (** part_002:222-224, the loop over the signers: the first throw
      leaves it. *)
Fixpoint AddSigners (signers : list SingleSigner) (db : NunchukWalletDb)
    : Result unit * NunchukWalletDb :=
    match signers with
    | [] => (Ok tt, db)
    | signer :: rest =>
      match AddSigner signer db with
      | (Ok _, db) => AddSigners rest db
      | (Throw e, db) => (Throw e, db)
      end
    end.

  (** part_002:178-225 *)
Definition InitWallet (name : string) (m n : Z)
      (signers : list SingleSigner) (address_type : AddressType)
      (is_escrow : bool) (create_date : time_t) (description : string)
      (db : NunchukWalletDb) : Result unit * NunchukWalletDb :=
    let db := with_wdb (CreateTable (wdb db)) db in
    let db := mkNunchukWalletDb (wdb db) (IMMUTABLE_DATA db)
                (create_table (VTX db)) (create_table (ADDRESS db))
                (create_table (SIGNER db)) in
    let db := with_wdb (snd (PutString KEY_NAME name (wdb db))) db in
    let db := with_wdb (snd (PutString KEY_DESCRIPTION description (wdb db)))
                       db in
    let db := mkNunchukWalletDb (set_changes 1 (wdb db))
                (Some (mkImmutableData m n address_type is_escrow create_date))
                (VTX db) (ADDRESS db) (SIGNER db) in
    AddSigners signers db.

  (** part_002:300-326 *)
Definition GetSigners (db : NunchukWalletDb) : list SingleSigner :=
    map (fun r =>
           mkSingleSigner (cstr (SIGNER.NAME r)) (SIGNER.KEY_xpub r)
             (SIGNER.KEY_public_key r) (SIGNER.KEY_derivation_path r)
             (to_lower_copy (SIGNER.KEY_master_fingerprint r))
             (SIGNER.LAST_HEALTHCHECK r) (cstr (SIGNER.MASTER_ID r)) false)
        (Sqlite.all_rows (fun _ => true) (SIGNER db)).

Definition same_ADDR (r r' : ADDRESS.row) : bool :=
    String.eqb (ADDRESS.ADDR r) (ADDRESS.ADDR r').

  (** part_002:328-341 *)
Definition AddAddress (address : string) (index : Z) (internal : bool)
      (db : NunchukWalletDb) : Result bool * NunchukWalletDb :=
    let r := ADDRESS.mk address index (if internal then 1 else 0) 0 None in
    let failed := Sqlite.constraint_failed same_ADDR r (ADDRESS db) in
    (let* _ := SQLCHECK failed in Ok true,
     exec_ADDRESS (Sqlite.insert same_ADDR r) db).

Definition set_USED (r : ADDRESS.row) : ADDRESS.row :=
    ADDRESS.mk (ADDRESS.ADDR r) (ADDRESS.IDX r) (ADDRESS.INTERNAL r) 1
               (ADDRESS.UTXO r).

  (** part_002:343-353 *)
Definition UseAddress (address : string) (db : NunchukWalletDb)
    : bool * NunchukWalletDb :=
    if string_empty address then (false, db)
    else
      let db := exec_ADDRESS
                  (Sqlite.update
                     (fun r => String.eqb (ADDRESS.ADDR r) address) set_USED)
                  db in
      (updated db, db).

  (** part_002:355-371 *)
Definition GetAddresses (used internal : bool) (db : NunchukWalletDb)
    : list string :=
    map (fun r => cstr (ADDRESS.ADDR r))
        (Sqlite.all_rows
           (fun r => (ADDRESS.USED r =? (if used then 1 else 0))
                     && (ADDRESS.INTERNAL r =? (if internal then 1 else 0)))
           (ADDRESS db)).

  (** part_002:397-409: [SELECT ADDR FROM ADDRESS], the one query of the
      store that reads nothing but a primary key. *)
Definition GetAllAddresses (db : NunchukWalletDb) : list string :=
    map (fun r => cstr (ADDRESS.ADDR r))
        (Sqlite.index_scan ADDRESS.ADDR (ADDRESS db)).

Definition set_UTXO (u : list UtxoItem) (r : ADDRESS.row) : ADDRESS.row :=
    ADDRESS.mk (ADDRESS.ADDR r) (ADDRESS.IDX r) (ADDRESS.INTERNAL r)
               (ADDRESS.USED r) (Some u).

  (** part_002:743-754 *)
Definition SetUtxos (address : string) (utxo : list UtxoItem)
      (db : NunchukWalletDb) : bool * NunchukWalletDb :=
    let db := exec_ADDRESS
                (Sqlite.update
                   (fun r => String.eqb (ADDRESS.ADDR r) address)
                   (set_UTXO utxo))
                db in
    (updated db, db).

  (** part_002:946-975.  A key missing from the [signers] or [outputs]
      object reads as absent. *)
Definition FillExtra (extra : option Extra) (tx : Transaction)
    : Transaction :=
    match extra with
    | None => tx
    | Some e =>
      let signers :=
        match ex_signers e with
        | Some sg =>
          if 0 <=? get_height tx
          then map (fun s : string * bool =>
                      (fst s,
                       match List.find (fun p => String.eqb (fst p) (fst s)) sg
                       with Some p => snd p | None => false end))
                   (get_signers tx)
          else get_signers tx
        | None => get_signers tx
        end in
      let user_outputs :=
        match ex_outputs e with
        | Some outs =>
          get_user_outputs tx ++
          flat_map (fun o : TxOutput =>
                      match List.find (fun p => String.eqb (fst p) (fst o)) outs
                      with Some p => [(fst o, snd p)] | None => [] end)
                   (get_outputs tx)
        | None => get_user_outputs tx
        end in
      let replaced :=
        match get_status tx, ex_replaced_by_txid e with
        | PENDING_CONFIRMATION, Some by_txid => Some by_txid
        | _, _ => None
        end in
      {| get_txid := get_txid tx; get_height := get_height tx;
         get_inputs := get_inputs tx; get_outputs := get_outputs tx;
         get_user_outputs := user_outputs;
         get_receive_outputs := get_receive_outputs tx;
         get_change_index := get_change_index tx; get_m := get_m tx;
         get_signers := signers; get_memo := get_memo tx;
         get_status := match replaced with
                       | Some _ => REPLACED
                       | None => get_status tx
                       end;
         get_replaced_by_txid := match replaced with
                                 | Some t => t
                                 | None => get_replaced_by_txid tx
                                 end;
         get_fee := get_fee tx;
         get_fee_rate := match ex_fee_rate e with
                         | Some r => r
                         | None => get_fee_rate tx
                         end;
         get_blocktime := get_blocktime tx;
         subtract_fee_from_amount :=
           match ex_subtract e with
           | Some b => b
           | None => subtract_fee_from_amount tx
           end;
         is_receive := is_receive tx; get_sub_amount := get_sub_amount tx |}
    end.

  (** The body shared by [GetTransaction] (part_002:666-698) and
      [GetTransactions] (part_002:871-899): one row of [VTX] turned into
      a [Transaction].  [HEIGHT] and [CHANGEPOS] were bound from an
      [int]; [FEE] was bound as [int64_t] and is read back as [int]. *)
Definition row_transaction (r : VTX.row) (db : NunchukWalletDb)
    : Result Transaction :=
    match IMMUTABLE_DATA db with
    | None => Throw JsonException
    | Some im =>
      let m := im_m im in
      let signers := GetSigners db in
      let value := cstr (VTX.VALUE r) in
      let height := VTX.HEIGHT r in
      let tx :=
        if height =? -1
        then GetTransactionFromPartiallySignedTransaction
               (DecodePsbt value) signers m
        else GetTransactionFromCMutableTransaction
               (DecodeRawTransaction value) signers height in
      Ok (FillExtra (VTX.EXTRA r)
            {| get_txid := cstr (VTX.ID r); get_height := get_height tx;
               get_inputs := get_inputs tx; get_outputs := get_outputs tx;
               get_user_outputs := get_user_outputs tx;
               get_receive_outputs := get_receive_outputs tx;
               get_change_index := VTX.CHANGEPOS r; get_m := m;
               get_signers := get_signers tx;
               get_memo := cstr (VTX.MEMO r);
               get_status := get_status tx;
               get_replaced_by_txid := get_replaced_by_txid tx;
               get_fee := to_int (VTX.FEE r);
               get_fee_rate := get_fee_rate tx;
               get_blocktime := VTX.BLOCKTIME r;
               subtract_fee_from_amount := subtract_fee_from_amount tx;
               is_receive := false; get_sub_amount := 0 |})
    end.

  (** part_002:660-705 *)
Definition GetTransaction (tx_id : string) (db : NunchukWalletDb)
    : Result Transaction :=
    match Sqlite.first_row (fun r => String.eqb (VTX.ID r) tx_id) (VTX db) with
    | Some r => row_transaction r db
    | None => Throw (StorageExc StorageException.TX_NOT_FOUND)
    end.

Fixpoint collect {A B : Type} (f : A -> Result B) (l : list A)
    : Result (list B) :=
    match l with
    | [] => Ok []
    | a :: l' => let* b := f a in let* bs := collect f l' in Ok (b :: bs)
    end.

  (** part_002:863-904; the parameters [count] and [skip] are not read. *)
Definition GetTransactions (db : NunchukWalletDb)
    : Result (list Transaction) :=
    collect (fun r => row_transaction r db)
            (Sqlite.all_rows (fun _ => true) (VTX db)).

Definition same_ID (r r' : VTX.row) : bool :=
    String.eqb (VTX.ID r) (VTX.ID r').

Definition UseAddresses (outputs : list TxOutput) (db : NunchukWalletDb)
    : NunchukWalletDb :=
    fold_left (fun db (o : TxOutput) => snd (UseAddress (fst o) db)) outputs db.

  (** part_002:425-452.  The store is returned next to the result: what
      was written before a throw stays written. *)
Definition InsertTransaction (raw_tx : string) (height : Z)
      (blocktime : time_t) (fee : Amount) (memo : string) (change_pos : Z)
      (db : NunchukWalletDb) : Result Transaction * NunchukWalletDb :=
    let tx_id := GetHash (DecodeRawTransaction raw_tx) in
    let r := VTX.mk tx_id raw_tx height fee memo change_pos blocktime None in
    let failed := Sqlite.constraint_failed same_ID r (VTX db) in
    let db := exec_VTX (Sqlite.insert same_ID r) db in
    match SQLCHECK failed with
    | Throw e => (Throw e, db)
    | Ok _ =>
      match GetTransaction tx_id db with
      | Ok tx =>
        if height >? 0 then (Ok tx, UseAddresses (get_outputs tx) db)
        else (Ok tx, db)
      | Throw e => (Throw e, db)
      end
    end.

Definition set_replaced_by (new_txid : string) (e : Extra) : Extra :=
    mkExtra (ex_signers e) (ex_outputs e) (ex_fee_rate e) (ex_subtract e)
            (ex_replace_txid e) (Some new_txid) (ex_reject_msg e).

Definition set_EXTRA (e : Extra) (r : VTX.row) : VTX.row :=
    VTX.mk (VTX.ID r) (VTX.VALUE r) (VTX.HEIGHT r) (VTX.FEE r) (VTX.MEMO r)
           (VTX.CHANGEPOS r) (VTX.BLOCKTIME r) (Some e).

  (** part_002:454-478 *)
Definition SetReplacedBy (old_txid new_txid : string)
      (db : NunchukWalletDb) : Result unit * NunchukWalletDb :=
    match Sqlite.first_row (fun r => String.eqb (VTX.ID r) old_txid) (VTX db)
    with
    | Some r =>
      match VTX.EXTRA r with
      | None => (Throw JsonException, db)
      | Some e =>
        (Ok tt,
         exec_VTX (Sqlite.update (fun r => String.eqb (VTX.ID r) old_txid)
                                 (set_EXTRA (set_replaced_by new_txid e)))
                  db)
      end
    | None => (Ok tt, db)
    end.

Definition set_tx (raw_tx : string) (height : Z) (blocktime : time_t)
      (extra : option Extra) (r : VTX.row) : VTX.row :=
    VTX.mk (VTX.ID r) raw_tx height (VTX.FEE r) (VTX.MEMO r)
           (VTX.CHANGEPOS r) blocktime
           (match extra with Some e => Some e | None => VTX.EXTRA r end).

  (** part_002:488-514: the signers of an existing draft are persisted
      into its extension blob before the draft becomes a transaction. *)
Definition persist_signers (tx_id reject_msg : string) (height : Z)
      (db : NunchukWalletDb) : Result (option Extra) * NunchukWalletDb :=
    if height <=? 0 then
      match Sqlite.first_row
              (fun r => String.eqb (VTX.ID r) tx_id && (VTX.HEIGHT r =? -1))
              (VTX db) with
      | Some r =>
        match VTX.EXTRA r with
        | None => (Throw JsonException, db)
        | Some e =>
          let tx := GetTransactionFromPartiallySignedTransaction
                      (DecodePsbt (cstr (VTX.VALUE r))) (GetSigners db) 0 in
          let e' := mkExtra (Some (get_signers tx)) (ex_outputs e)
                      (ex_fee_rate e) (ex_subtract e) (ex_replace_txid e)
                      (ex_replaced_by_txid e)
                      (if string_empty reject_msg then ex_reject_msg e
                       else Some reject_msg) in
          match ex_replace_txid e' with
          | Some old_txid =>
            let '(res, db) := SetReplacedBy old_txid tx_id db in
            (let* _ := res in Ok (Some e'), db)
          | None => (Ok (Some e'), db)
          end
        end
      | None => (Ok None, db)
      end
    else (Ok None, db).

  (** part_002:480-540 *)
Definition UpdateTransaction (raw_tx : string) (height : Z)
      (blocktime : time_t) (reject_msg : string) (db : NunchukWalletDb)
    : Result bool * NunchukWalletDb :=
    if height =? -1 then (Ok false, db)
    else
      let tx_id := GetHash (DecodeRawTransaction raw_tx) in
      let '(extra, db) := persist_signers tx_id reject_msg height db in
      match extra with
      | Throw e => (Throw e, db)
      | Ok extra =>
        let db := exec_VTX
                    (Sqlite.update (fun r => String.eqb (VTX.ID r) tx_id)
                                   (set_tx raw_tx height blocktime extra))
                    db in
        let updated := updated db in
        if updated && (height >? 0) then
          match GetTransaction tx_id db with
          | Ok tx => (Ok updated, UseAddresses (get_outputs tx) db)
          | Throw e => (Throw e, db)
          end
        else (Ok updated, db)
      end.

Definition set_MEMO (memo : string) (r : VTX.row) : VTX.row :=
    VTX.mk (VTX.ID r) (VTX.VALUE r) (VTX.HEIGHT r) (VTX.FEE r) memo
           (VTX.CHANGEPOS r) (VTX.BLOCKTIME r) (VTX.EXTRA r).

  (** part_002:542-553 *)
Definition UpdateTransactionMemo (tx_id memo : string)
      (db : NunchukWalletDb) : bool * NunchukWalletDb :=
    let db := exec_VTX
                (Sqlite.update (fun r => String.eqb (VTX.ID r) tx_id)
                               (set_MEMO memo)) db in
    (updated db, db).

  (** part_002:707-716 *)
Definition DeleteTransaction (tx_id : string) (db : NunchukWalletDb)
    : bool * NunchukWalletDb :=
    let db := exec_VTX
                (Sqlite.delete (fun r => String.eqb (VTX.ID r) tx_id)) db in
    (updated db, db).

Definition sum_amounts (l : list Amount) : Amount := fold_left Z.add l 0.

  (** The output an input spends, as [FillSendReceiveData] looks it up
      (part_002:987-992).  Indexing past the end of the outputs is
      undefined in the source; it reads as the empty output here. *)
Definition prev_out (input : TxInput) (db : NunchukWalletDb)
    : Result TxOutput :=
    match GetTransaction (fst input) db with
    | Ok t =>
      Ok (if snd input <? 0 then (EmptyString, 0)
          else nth (Z.to_nat (snd input)) (get_outputs t) (EmptyString, 0))
    | Throw (StorageExc StorageException.TX_NOT_FOUND) => Ok (EmptyString, 0)
    | Throw e => Throw e
    end.

Fixpoint first_index {A : Type} (p : A -> bool) (l : list A) (i : Z)
    : option Z :=
    match l with
    | [] => None
    | a :: l' => if p a then Some i else first_index p l' (i + 1)
    end.

  (** part_002:978-1023 *)
Definition FillSendReceiveData (tx : Transaction) (db : NunchukWalletDb)
    : Result Transaction :=
    let addresses := GetAllAddresses db in
    let is_my_address (a : string) := existsb (String.eqb a) addresses in
    let* prev := collect (fun i => prev_out i db) (get_inputs tx) in
    let mine := List.filter (fun o : TxOutput => is_my_address (fst o)) prev in
    let is_send_tx := negb (Nat.eqb (List.length mine) 0) in
    let my_outputs :=
      List.filter (fun o : TxOutput => is_my_address (fst o))
                  (get_outputs tx) in
    let other_outputs :=
      List.filter (fun o : TxOutput => negb (is_my_address (fst o)))
                  (get_outputs tx) in
    Ok {| get_txid := get_txid tx; get_height := get_height tx;
          get_inputs := get_inputs tx; get_outputs := get_outputs tx;
          get_user_outputs := get_user_outputs tx;
          get_receive_outputs :=
            if is_send_tx then get_receive_outputs tx
            else get_receive_outputs tx ++ my_outputs;
          get_change_index :=
            if is_send_tx && (get_change_index tx <? 0) then
              match first_index (fun o : TxOutput => is_my_address (fst o))
                                (get_outputs tx) 0 with
              | Some i => i
              | None => get_change_index tx
              end
            else get_change_index tx;
          get_m := get_m tx; get_signers := get_signers tx;
          get_memo := get_memo tx; get_status := get_status tx;
          get_replaced_by_txid := get_replaced_by_txid tx;
          get_fee :=
            if is_send_tx
            then sum_amounts (map snd mine)
                 - sum_amounts (map snd (get_outputs tx))
            else get_fee tx;
          get_fee_rate := get_fee_rate tx;
          get_blocktime := get_blocktime tx;
          subtract_fee_from_amount := subtract_fee_from_amount tx;
          is_receive := negb is_send_tx;
          get_sub_amount :=
            if is_send_tx
            then get_fee tx + sum_amounts (map snd other_outputs)
            else sum_amounts (map snd my_outputs) |}.

  (** *** Unspent outputs and balance (part_002:756-861) *)

  (** The set [locked_utxos] holds the texts ["txid:vout"]; since [vout]
      is printed as a decimal [int], the text determines the pair, and
      the set is kept as a list of pairs. *)
Definition outpoint : Type := string * Z.

Definition is_locked (locked : list outpoint) (o : outpoint) : bool :=
    existsb (fun l => String.eqb (fst l) (fst o) && (snd l =? snd o)) locked.

Fixpoint enumerate {A : Type} (l : list A) (i : Z) : list (Z * A) :=
    match l with
    | [] => []
    | a :: l' => (i, a) :: enumerate l' (i + 1)
    end.

  (** What the first loop (part_002:790-819) accumulates. *)
Record Scan := mkScan {
    locked_utxos : list outpoint;
    memo_map : gmap string string;
    height_map : gmap string Z;
    rs : list UnspentOutput.t
  }.

  (** part_002:797-812: the change outputs of an unconfirmed
      transaction, added by hand. *)
Definition change_outputs (is_my_change_address : string -> bool)
      (tx : Transaction) : list UnspentOutput.t :=
    flat_map
      (fun io : Z * TxOutput =>
         if is_my_change_address (fst (snd io))
         then [UnspentOutput.mk (get_txid tx) (fst io) (fst (snd io))
                 (snd (snd io)) (get_height tx) (get_memo tx)]
         else [])
      (enumerate (get_outputs tx) 0).

  (** One iteration of the loop over the transactions. *)
Definition scan_transaction (remove_locked : bool)
      (is_my_change_address : string -> bool) (sc : Scan) (tx : Transaction)
    : Scan :=
    let memos := <[get_txid tx := get_memo tx]> (memo_map sc) in
    let heights := <[get_txid tx := get_height tx]> (height_map sc) in
    if negb (get_height tx =? 0)
    then mkScan (locked_utxos sc) memos heights (rs sc)
    else
      let added := change_outputs is_my_change_address tx in
      let locked :=
        locked_utxos sc ++
        map (fun u => (UnspentOutput.get_txid u, UnspentOutput.get_vout u))
            added in
      let locked :=
        if remove_locked then locked ++ get_inputs tx else locked in
      mkScan locked memos heights (rs sc ++ added).

Definition utxo_outpoint (item : UtxoItem) : outpoint :=
    match item with
    | ElectrumUtxo h p _ => (h, p)
    | CoreRpcUtxo t v _ => (t, v)
    end.

Definition utxo_amount (item : UtxoItem) : Amount :=
    match item with
    | ElectrumUtxo _ _ v => v
    | CoreRpcUtxo _ _ a => a
    end.

  (** part_002:826-858 for one row of [ADDRESS] whose snapshot is not
      NULL. *)
Definition snapshot_outputs (sc : Scan) (address : string)
      (snapshot : list UtxoItem) : list UnspentOutput.t :=
    flat_map
      (fun item =>
         let o := utxo_outpoint item in
         if is_locked (locked_utxos sc) o then []
         else [UnspentOutput.mk (fst o) (snd o) address (utxo_amount item)
                 (default 0 (height_map sc !! fst o))
                 (default EmptyString (memo_map sc !! fst o))])
      snapshot.

Definition scan_transactions (remove_locked : bool)
      (is_my_change_address : string -> bool) (txs : list Transaction)
    : Scan :=
    fold_left (scan_transaction remove_locked is_my_change_address) txs
              (mkScan [] ∅ ∅ []).

Definition scan_snapshots (sc : Scan) (db : NunchukWalletDb)
    : list UnspentOutput.t :=
    flat_map
      (fun r => match ADDRESS.UTXO r with
                | Some snapshot =>
                  snapshot_outputs sc (cstr (ADDRESS.ADDR r)) snapshot
                | None => []
                end)
      (Sqlite.all_rows (fun _ => true) (ADDRESS db)).

  (** part_002:773-861 *)
Definition GetUnspentOutputs (remove_locked : bool) (db : NunchukWalletDb)
    : Result (list UnspentOutput.t) :=
    let* transactions := GetTransactions db in
    let change_addresses := GetAddresses false true db in
    let is_my_change_address (a : string) :=
      existsb (String.eqb a) change_addresses in
    let sc := scan_transactions remove_locked is_my_change_address
                                transactions in
    Ok (rs sc ++ scan_snapshots sc db).

  (** part_002:756-771 *)
Definition GetBalance (db : NunchukWalletDb) : Result Amount :=
    let* utxos := GetUnspentOutputs true db in
    let change_addresses := GetAddresses false true db in
    let is_my_change_address (a : string) :=
      existsb (String.eqb a) change_addresses in
    Ok (sum_amounts
          (map UnspentOutput.get_amount
             (List.filter
                (fun u => (UnspentOutput.get_height u >? 0)
                          || is_my_change_address (UnspentOutput.get_address u))
                utxos))).

  (** part_002:373-384.  [IDX] is read back as an [int]. *)
Definition GetAddressIndex (address : string) (db : NunchukWalletDb) : Z :=
    match Sqlite.first_row (fun r => String.eqb (ADDRESS.ADDR r) address)
                           (ADDRESS db) with
    | Some r => to_int (ADDRESS.IDX r)
    | None => -1
    end.

  (** part_002:411-423: [MAX(IDX)] over the rows of the flag, grouped by
      the flag; without a row there is no group and no result row. *)
Definition GetCurrentAddressIndex (internal : bool) (db : NunchukWalletDb)
    : Z :=
    match Sqlite.all_rows
            (fun r => ADDRESS.INTERNAL r =? (if internal then 1 else 0))
            (ADDRESS db) with
    | [] => -1
    | r :: rows =>
      to_int (fold_left Z.max (map ADDRESS.IDX rows) (ADDRESS.IDX r))
    end.

  (** part_002:386-395 *)
Definition GetAddressBalance (address : string) (db : NunchukWalletDb)
    : Result Amount :=
    let* utxos := GetUnspentOutputs true db in
    Ok (sum_amounts
          (map UnspentOutput.get_amount
             (List.filter
                (fun u => (UnspentOutput.get_height u >? 0)
                          && String.eqb (UnspentOutput.get_address u) address)
                utxos))).

  (** part_002:555-588.  [outputs] is a [std::map]; the extension blob
      holds it as the JSON object of its entries. *)
Definition CreatePsbt (psbt : string) (fee : Amount) (memo : string)
      (change_pos : Z) (outputs : gmap string Amount) (fee_rate : Amount)
      (subtract_fee_from_amount : bool) (replace_tx : string)
      (db : NunchukWalletDb) : Result Transaction * NunchukWalletDb :=
    let tx_id := GetHash (psbt_tx (DecodePsbt psbt)) in
    let extra :=
      mkExtra None (Some (map_to_list outputs)) (Some fee_rate)
              (Some subtract_fee_from_amount)
              (if string_empty replace_tx then None else Some replace_tx)
              None None in
    let r := VTX.mk tx_id psbt (-1) fee memo change_pos 0 (Some extra) in
    let failed := Sqlite.constraint_failed same_ID r (VTX db) in
    let db := exec_VTX (Sqlite.insert same_ID r) db in
    (let* _ := SQLCHECK failed in GetTransaction tx_id db, db).

Definition set_VALUE (value : string) (r : VTX.row) : VTX.row :=
    VTX.mk (VTX.ID r) value (VTX.HEIGHT r) (VTX.FEE r) (VTX.MEMO r)
           (VTX.CHANGEPOS r) (VTX.BLOCKTIME r) (VTX.EXTRA r).

Definition is_draft (tx_id : string) (r : VTX.row) : bool :=
    String.eqb (VTX.ID r) tx_id && (VTX.HEIGHT r =? -1).

  (** part_002:590-602 *)
Definition UpdatePsbt (psbt : string) (db : NunchukWalletDb)
    : bool * NunchukWalletDb :=
    let tx_id := GetHash (psbt_tx (DecodePsbt psbt)) in
    let db := exec_VTX (Sqlite.update (is_draft tx_id) (set_VALUE psbt)) db in
    (updated db, db).

  (** part_002:604-642.  The fee is read as an [int] before it is
      written back; the block time of the copy is 0.  When the insertion
      of the copy fails, SQLCHECK throws before [DeleteTransaction]. *)
Definition UpdatePsbtTxId (old_id new_id : string) (db : NunchukWalletDb)
    : Result bool * NunchukWalletDb :=
    match Sqlite.first_row (is_draft old_id) (VTX db) with
    | Some r =>
      let r' := VTX.mk new_id (cstr (VTX.VALUE r)) (-1) (to_int (VTX.FEE r))
                       (cstr (VTX.MEMO r)) (VTX.CHANGEPOS r) 0
                       (VTX.EXTRA r) in
      let failed := Sqlite.constraint_failed same_ID r' (VTX db) in
      let db := exec_VTX (Sqlite.insert same_ID r') db in
      match SQLCHECK failed with
      | Throw e => (Throw e, db)
      | Ok _ =>
        let '(deleted, db) := DeleteTransaction old_id db in
        (Ok deleted, db)
      end
    | None => (Throw (StorageExc StorageException.TX_NOT_FOUND), db)
    end.

  (** part_002:644-658 *)
Definition GetPsbt (tx_id : string) (db : NunchukWalletDb) : string :=
    match Sqlite.first_row (is_draft tx_id) (VTX db) with
    | Some r => cstr (VTX.VALUE r)
    | None => EmptyString
    end.

  (** part_002:276-282 *)
Definition SetName (value : string) (db : NunchukWalletDb)
    : bool * NunchukWalletDb :=
    let '(b, base) := PutString KEY_NAME value (wdb db) in
    (b, with_wdb base db).

Definition SetDescription (value : string) (db : NunchukWalletDb)
    : bool * NunchukWalletDb :=
    let '(b, base) := PutString KEY_DESCRIPTION value (wdb db) in
    (b, with_wdb base db).
End WalletDb.
End WalletDb.

(** ** NunchukSignerDb (part_002:1025-1371) *)

Module BIP32.
Record row := mk {
    PATH : string; XPUB : string; TYPE : string;
    USED : Z   (* -1 while unallocated, 1 once allocated *)
  }.
End BIP32.

Module REMOTE.
Record row := mk {
    PATH : string; XPUB : string; PUBKEY : string; NAME : string;
    LAST_HEALTHCHECK : Z;
    USED : Z
  }.
End REMOTE.

Record Device := mkDevice {
  device_type : string;
  device_model : string;
  device_master_fingerprint : string
}.

Record NunchukSignerDb := mkNunchukSignerDb {
  sdb : NunchukDb;
  chain_ : Chain;
  BIP32 : option (list BIP32.row);
  REMOTE : option (list REMOTE.row)
}.

Module SignerDb.
Section SignerDb.
Context `{DbKeys} `{Bip32}.

Definition with_sdb (b : NunchukDb) (db : NunchukSignerDb) :=
    mkNunchukSignerDb b (chain_ db) (BIP32 db) (REMOTE db).

Definition exec_BIP32 (stmt : list BIP32.row -> Sqlite.outcome)
      (db : NunchukSignerDb) : NunchukSignerDb :=
    let '(t, n) := Sqlite.exec stmt (BIP32 db) (changes (sdb db)) in
    mkNunchukSignerDb (set_changes n (sdb db)) (chain_ db) t (REMOTE db).

Definition exec_REMOTE (stmt : list REMOTE.row -> Sqlite.outcome)
      (db : NunchukSignerDb) : NunchukSignerDb :=
    let '(t, n) := Sqlite.exec stmt (REMOTE db) (changes (sdb db)) in
    mkNunchukSignerDb (set_changes n (sdb db)) (chain_ db) (BIP32 db) t.

Definition updated (db : NunchukSignerDb) : bool := changes (sdb db) =? 1.

  (** part_002:1025-1040 *)
Definition InitSigner (name : string) (device : Device) (mnemonic : string)
      (db : NunchukSignerDb) : NunchukSignerDb :=
    let db := with_sdb (CreateTable (sdb db)) db in
    let db := mkNunchukSignerDb (sdb db) (chain_ db) (create_table (BIP32 db))
                                (REMOTE db) in
    let put k v db := with_sdb (snd (PutString k v (sdb db))) db in
    let db := put KEY_NAME name db in
    let db := put KEY_FINGERPRINT (device_master_fingerprint device) db in
    let db := put KEY_MNEMONIC mnemonic db in
    let db := put KEY_SIGNER_DEVICE_TYPE (device_type device) db in
    put KEY_SIGNER_DEVICE_MODEL (device_model device) db.

Definition same_PATH (r r' : BIP32.row) : bool :=
    String.eqb (BIP32.PATH r) (BIP32.PATH r').

Definition set_XPUB (xpub : string) (r : BIP32.row) : BIP32.row :=
    BIP32.mk (BIP32.PATH r) xpub (BIP32.TYPE r) (BIP32.USED r).

  (** part_002:1048-1063 *)
Definition AddXPub (path xpub type : string) (db : NunchukSignerDb)
    : bool * NunchukSignerDb :=
    let db := exec_BIP32
                (Sqlite.upsert same_PATH (BIP32.mk path xpub type (-1))
                               (set_XPUB xpub)) db in
    (updated db, db).

  (** part_002:1065-1071, the overload of [AddXPub] that takes the
      bucket and the index. *)
Definition AddXPubAt (wallet_type : WalletType) (address_type : AddressType)
      (index : Z) (xpub : string) (db : NunchukSignerDb)
    : bool * NunchukSignerDb :=
    let path := GetBip32Path (chain_ db) wallet_type address_type index in
    let type := GetBip32Type wallet_type address_type in
    AddXPub path xpub type db.

Definition set_USED (r : BIP32.row) : BIP32.row :=
    BIP32.mk (BIP32.PATH r) (BIP32.XPUB r) (BIP32.TYPE r) 1.

  (** part_002:1073-1085 *)
Definition UseIndex (wallet_type : WalletType) (address_type : AddressType)
      (index : Z) (db : NunchukSignerDb) : bool * NunchukSignerDb :=
    let path := GetBip32Path (chain_ db) wallet_type address_type index in
    let db := exec_BIP32
                (Sqlite.update
                   (fun r => String.eqb (BIP32.PATH r) path
                             && (BIP32.USED r =? -1))
                   set_USED) db in
    (updated db, db).

  (** part_002:1087-1099 *)
Definition GetXpub (path : string) (db : NunchukSignerDb) : string :=
    match Sqlite.first_row (fun r => String.eqb (BIP32.PATH r) path) (BIP32 db)
    with
    | Some r => cstr (BIP32.XPUB r)
    | None => EmptyString
    end.

  (** part_002:1108-1122 *)
Definition GetUnusedIndex (wallet_type : WalletType)
      (address_type : AddressType) (db : NunchukSignerDb) : Z :=
    let type := GetBip32Type wallet_type address_type in
    match Sqlite.first_row
            (fun r => String.eqb (BIP32.TYPE r) type && (BIP32.USED r =? -1))
            (BIP32 db) with
    | Some r => GetIndexFromPath (cstr (BIP32.PATH r))
    | None => -1
    end.

  (** part_002:1124-1141 *)
Definition GetCachedIndex (wallet_type : WalletType)
      (address_type : AddressType) (db : NunchukSignerDb) : Z :=
    let type := GetBip32Type wallet_type address_type in
    fold_left
      (fun value r =>
         let index := GetIndexFromPath (cstr (BIP32.PATH r)) in
         if index >? value then index else value)
      (Sqlite.all_rows (fun r => String.eqb (BIP32.TYPE r) type) (BIP32 db))
      (-1).

  (** part_002:1169-1173 *)
Definition IsMaster (db : NunchukSignerDb) : bool := TableExists (BIP32 db).

  (** part_002:1194-1204 *)
Definition InitRemote (db : NunchukSignerDb) : NunchukSignerDb :=
    mkNunchukSignerDb (sdb db) (chain_ db) (BIP32 db)
                      (create_table (REMOTE db)).

Definition same_REMOTE (r r' : REMOTE.row) : bool :=
    String.eqb (REMOTE.PATH r) (REMOTE.PATH r').

  (** part_002:1206-1226; [used] defaults to [false] in the header. *)
Definition AddRemote (name xpub public_key path : string) (used : bool)
      (db : NunchukSignerDb) : Result bool * NunchukSignerDb :=
    let db := InitRemote db in
    let r := REMOTE.mk path xpub public_key name 0 (if used then 1 else -1) in
    let failed := Sqlite.constraint_failed same_REMOTE r (REMOTE db) in
    let db := exec_REMOTE (Sqlite.insert same_REMOTE r) db in
    (let* _ := SQLCHECK failed in Ok (updated db), db).

Definition remote_signer (id path : string) (r : REMOTE.row)
    : SingleSigner :=
    mkSingleSigner (cstr (REMOTE.NAME r)) (cstr (REMOTE.XPUB r))
                   (cstr (REMOTE.PUBKEY r)) path id
                   (REMOTE.LAST_HEALTHCHECK r) EmptyString
                   (REMOTE.USED r =? 1).

  (** part_002:1228-1251 *)
Definition GetRemoteSigner (path : string) (db : NunchukSignerDb)
    : Result SingleSigner :=
    match Sqlite.first_row (fun r => String.eqb (REMOTE.PATH r) path)
                           (REMOTE db) with
    | Some r => Ok (remote_signer (id_ (sdb db)) path r)
    | None => Throw (StorageExc StorageException.SIGNER_NOT_FOUND)
    end.

  (** part_002:1253-1262 *)
Definition DeleteRemoteSigner (path : string) (db : NunchukSignerDb)
    : bool * NunchukSignerDb :=
    let db := exec_REMOTE
                (Sqlite.delete
                   (fun r => String.eqb (REMOTE.PATH r) path
                             && (REMOTE.USED r =? -1))) db in
    (updated db, db).

Definition set_REMOTE_USED (r : REMOTE.row) : REMOTE.row :=
    REMOTE.mk (REMOTE.PATH r) (REMOTE.XPUB r) (REMOTE.PUBKEY r)
              (REMOTE.NAME r) (REMOTE.LAST_HEALTHCHECK r) 1.

  (** part_002:1264-1275 *)
Definition UseRemote (path : string) (db : NunchukSignerDb)
    : bool * NunchukSignerDb :=
    let db := exec_REMOTE
                (Sqlite.update
                   (fun r => String.eqb (REMOTE.PATH r) path
                             && (REMOTE.USED r =? -1))
                   set_REMOTE_USED) db in
    (updated db, db).

Definition set_REMOTE_NAME (value : string) (r : REMOTE.row) : REMOTE.row :=
    REMOTE.mk (REMOTE.PATH r) (REMOTE.XPUB r) (REMOTE.PUBKEY r) value
              (REMOTE.LAST_HEALTHCHECK r) (REMOTE.USED r).

  (** part_002:1277-1288 *)
Definition SetRemoteName (path value : string) (db : NunchukSignerDb)
    : bool * NunchukSignerDb :=
    let db := exec_REMOTE
                (Sqlite.update (fun r => String.eqb (REMOTE.PATH r) path)
                               (set_REMOTE_NAME value)) db in
    (updated db, db).

Definition set_REMOTE_HEALTH (value : time_t) (r : REMOTE.row)
    : REMOTE.row :=
    REMOTE.mk (REMOTE.PATH r) (REMOTE.XPUB r) (REMOTE.PUBKEY r)
              (REMOTE.NAME r) value (REMOTE.USED r).

  (** part_002:1290-1301 *)
Definition SetRemoteLastHealthCheck (path : string) (value : time_t)
      (db : NunchukSignerDb) : bool * NunchukSignerDb :=
    let db := exec_REMOTE
                (Sqlite.update (fun r => String.eqb (REMOTE.PATH r) path)
                               (set_REMOTE_HEALTH value)) db in
    (updated db, db).

  (** part_002:1303-1325 *)
Definition GetRemoteSigners (db : NunchukSignerDb) : list SingleSigner :=
    if IsMaster db then []
    else map (fun r => remote_signer (id_ (sdb db)) (cstr (REMOTE.PATH r)) r)
             (Sqlite.all_rows (fun _ => true) (REMOTE db)).

  (** part_002:1143-1149 *)
Definition SetName (value : string) (db : NunchukSignerDb)
    : bool * NunchukSignerDb :=
    let '(b, base) := PutString KEY_NAME value (sdb db) in
    (b, with_sdb base db).

Definition SetLastHealthCheck (value : time_t) (db : NunchukSignerDb)
    : bool * NunchukSignerDb :=
    let '(b, base) := PutInt KEY_LAST_HEALTH_CHECK value (sdb db) in
    (b, with_sdb base db).

  (** part_002:1151-1167 *)
Definition GetFingerprint (db : NunchukSignerDb) : string :=
    GetString KEY_FINGERPRINT (sdb db).

Definition GetName (db : NunchukSignerDb) : string :=
    GetString KEY_NAME (sdb db).

Definition GetLastHealthCheck (db : NunchukSignerDb) : time_t :=
    GetInt KEY_LAST_HEALTH_CHECK (sdb db).

  (** part_002:1101-1106, the overload of [GetXpub] that takes the
      bucket and the index. *)
Definition GetXpubAt (wallet_type : WalletType) (address_type : AddressType)
      (index : Z) (db : NunchukSignerDb) : string :=
    GetXpub (GetBip32Path (chain_ db) wallet_type address_type index) db.

  (** part_002:1351-1371 *)
Definition GetSingleSigners (db : NunchukSignerDb) : list SingleSigner :=
    map (fun r =>
           mkSingleSigner (GetName db) (cstr (BIP32.XPUB r)) EmptyString
                          (cstr (BIP32.PATH r)) (GetFingerprint db)
                          (GetLastHealthCheck db) (id_ (sdb db)) true)
        (Sqlite.all_rows (fun r => negb (BIP32.USED r =? -1)) (BIP32 db)).
End SignerDb.
End SignerDb.

(** ** NunchukStorage: the facade *)

(** The files below one chain's directory: [wallets/<name>] and
    [signers/<name>].  A file holds the tables of its store; the change
    counter belongs to a connection and starts at 0 on every open. *)
Record ChainDir := mkChainDir {
  wallets : gmap string NunchukWalletDb;
  signers : gmap string NunchukSignerDb
}.

(** part_002:1463-1471: the constructor of the facade makes the
    directories of testnet and mainnet, each with [wallets] and
    [signers]; for regtest it makes none, and no other code makes
    one. *)
Record NunchukStorage := mkNunchukStorage {
  mainnet : ChainDir;
  testnet : ChainDir
}.

(** part_002:1524-1541: [ChainStr] selects the directory.  Regtest has no
    directory, so it has no file. *)
Definition chain_dir (chain : Chain) (st : NunchukStorage) : ChainDir :=
  match chain with
  | TESTNET => testnet st
  | MAIN => mainnet st
  | REGTEST => mkChainDir ∅ ∅
  end.

Definition set_chain_dir (chain : Chain) (d : ChainDir) (st : NunchukStorage)
  : NunchukStorage :=
  match chain with
  | TESTNET => mkNunchukStorage (mainnet st) d
  | MAIN => mkNunchukStorage d (testnet st)
  | REGTEST => st
  end.

(** A result together with the storage the call leaves behind.  A throw
    does not undo what was written before it: no call of the facade runs
    inside an SQL transaction. *)
Definition Effect (A : Type) : Type := Result A * NunchukStorage.

Module Files.
Definition has_directories (chain : Chain) : bool :=
    match chain with
    | REGTEST => false
    | _ => true
    end.

  (** The path of a store reaches [stat] and [sqlite3_open] as a C
      string: of the id, the text up to its first NUL names the file. *)
Definition file_name (id : string) : string := cstr id.

  (** [GetWalletDir(chain, id)] and [GetSignerDir(chain, id)]
      (part_002:1533-1541) name a directory, not a file below [wallets]
      or [signers], when the file name is empty (the path is the
      directory itself), [.] or [..]. *)
Definition names_directory (id : string) : bool :=
    string_empty (file_name id) || String.eqb (file_name id) "."
    || String.eqb (file_name id) "..".

  (** The id is joined to the directory as a path (part_002:1533-1541).
      With a path separator in its file name the id names a path below
      or outside the directory, of which the maps of [ChainDir], which
      hold the files directly in [wallets] and [signers], say
      nothing. *)
Definition has_separator (id : string) : bool :=
    existsb (Ascii.eqb "/"%char) (list_ascii_of_string (file_name id)).

  (** Whether [sqlite3_open] (part_002:46) succeeds on the path of the
      id: the directories of the chain have to exist and the path must not
      name a directory.  A file that is missing is created. *)
Definition can_open (chain : Chain) (id : string) : bool :=
    has_directories chain && negb (names_directory id).

Definition signer_file (chain : Chain) (id : string) (st : NunchukStorage)
    : option NunchukSignerDb :=
    if names_directory id then None
    else signers (chain_dir chain st) !! file_name id.

Definition wallet_file (chain : Chain) (id : string) (st : NunchukStorage)
    : option NunchukWalletDb :=
    if names_directory id then None
    else wallets (chain_dir chain st) !! file_name id.

  (** What a connection to the signer file of the id reads: the tables of
      the file, none when the file is new. *)
Definition signer_store (chain : Chain) (id : string) (st : NunchukStorage)
    : NunchukSignerDb :=
    match signer_file chain id st with
    | Some f =>
      mkNunchukSignerDb (mkNunchukDb id (VSTR (sdb f)) (VINT (sdb f)) 0)
                        chain (BIP32 f) (REMOTE f)
    | None => mkNunchukSignerDb (mkNunchukDb id None None 0) chain None None
    end.

Definition wallet_store (chain : Chain) (id : string) (st : NunchukStorage)
    : NunchukWalletDb :=
    match wallet_file chain id st with
    | Some f =>
      mkNunchukWalletDb (mkNunchukDb id (VSTR (wdb f)) (VINT (wdb f)) 0)
                        (IMMUTABLE_DATA f) (VTX f) (ADDRESS f) (SIGNER f)
    | None => mkNunchukWalletDb (mkNunchukDb id None None 0) None None None None
    end.

  (** The constructor of [NunchukDb] (part_002:42-56) on the signer file
      of the id: SQLCHECK throws when [sqlite3_open] fails. *)
Definition open_signer (chain : Chain) (id : string) (st : NunchukStorage)
    : Result NunchukSignerDb :=
    let* _ := SQLCHECK (negb (can_open chain id)) in
    Ok (signer_store chain id st).

  (** The same constructor on the wallet file of the id. *)
Definition open_wallet (chain : Chain) (id : string) (st : NunchukStorage)
    : Result NunchukWalletDb :=
    let* _ := SQLCHECK (negb (can_open chain id)) in
    Ok (wallet_store chain id st).

  (** The file of a connection after its writes; a connection is there
      only once the file was opened. *)
Definition save_signer (chain : Chain) (id : string) (db : NunchukSignerDb)
      (st : NunchukStorage) : NunchukStorage :=
    let d := chain_dir chain st in
    set_chain_dir chain
      (mkChainDir (wallets d)
         (<[file_name id :=
              mkNunchukSignerDb (set_changes 0 (sdb db)) (chain_ db)
                                (BIP32 db) (REMOTE db)]> (signers d)))
      st.

Definition save_wallet (chain : Chain) (id : string) (db : NunchukWalletDb)
      (st : NunchukStorage) : NunchukStorage :=
    let d := chain_dir chain st in
    set_chain_dir chain
      (mkChainDir
         (<[file_name id :=
              mkNunchukWalletDb (set_changes 0 (wdb db))
                (IMMUTABLE_DATA db) (VTX db) (ADDRESS db) (SIGNER db)]>
            (wallets d))
         (signers d))
      st.

  (** [fs::exists(GetWalletDir(chain, id))]: the path exists when it
      names a directory that is there or a file that is there. *)
Definition wallet_exists (chain : Chain) (id : string) (st : NunchukStorage)
    : bool :=
    has_directories chain
    && (names_directory id
        || bool_decide (is_Some (wallets (chain_dir chain st)
                                   !! file_name id))).

  (** [fs::exists(GetSignerDir(chain, id))] *)
Definition signer_exists (chain : Chain) (id : string) (st : NunchukStorage)
    : bool :=
    has_directories chain
    && (names_directory id
        || bool_decide (is_Some (signers (chain_dir chain st)
                                   !! file_name id))).

  (** [fs::remove(GetWalletDir(chain, id))] of a wallet file. *)
Definition remove_wallet (chain : Chain) (id : string) (st : NunchukStorage)
    : NunchukStorage :=
    let d := chain_dir chain st in
    set_chain_dir chain
      (mkChainDir (delete (file_name id) (wallets d)) (signers d)) st.
End Files.

Definition wallet_type_of (n : Z) (is_escrow : bool) : WalletType :=
  if n =? 1 then SINGLE_SIG else if is_escrow then ESCROW else MULTI_SIG.

(** *** The facade of part_002 *)

Module Facade.
Section Facade.
Context `{DbKeys} `{Bip32} `{Descriptor} `{TxCodec} `{TxUtils}.

  (** part_002:1547-1555 *)
Definition GetWalletDb (chain : Chain) (id : string) (st : NunchukStorage)
    : Result NunchukWalletDb :=
    if Files.wallet_exists chain id st
    then Files.open_wallet chain id st
    else Throw (StorageExc StorageException.WALLET_NOT_FOUND).

  (** part_002:1585-1606, the body of the loop over the signers.  The
      store of the fingerprint is opened, and so created, before
      anything else. *)
Definition CreateWallet_signer (chain : Chain) (wallet_type : WalletType)
      (address_type : AddressType) (signer : SingleSigner)
      (st : NunchukStorage) : Effect unit :=
    let master_id := get_master_fingerprint signer in
    match Files.open_signer chain master_id st with
    | Throw e => (Throw e, st)
    | Ok signer_db =>
      if SignerDb.IsMaster signer_db && has_master_signer signer then
        let '(used, signer_db) :=
          SignerDb.UseIndex wallet_type address_type
            (GetIndexFromPath (get_derivation_path signer)) signer_db in
        let st := Files.save_signer chain master_id signer_db st in
        if used then (Ok tt, st)
        else (Throw (StorageExc StorageException.SIGNER_USED), st)
      else
        match SignerDb.GetRemoteSigner (get_derivation_path signer) signer_db
        with
        | Ok _ =>
          let '(_, signer_db) :=
            SignerDb.UseRemote (get_derivation_path signer) signer_db in
          (Ok tt, Files.save_signer chain master_id signer_db st)
        | Throw (StorageExc StorageException.SIGNER_NOT_FOUND) =>
          let '(added, signer_db) :=
            SignerDb.AddRemote (get_name signer) (get_xpub signer)
              (get_public_key signer) (get_derivation_path signer) true
              signer_db in
          (let* _ := added in Ok tt,
           Files.save_signer chain master_id signer_db st)
        | Throw e => (Throw e, Files.save_signer chain master_id signer_db st)
        end
    end.

  (** part_002:1584-1607, the loop: the first throw leaves it. *)
Fixpoint CreateWallet_signers (chain : Chain) (wallet_type : WalletType)
      (address_type : AddressType) (signers : list SingleSigner)
      (st : NunchukStorage) : Effect unit :=
    match signers with
    | [] => (Ok tt, st)
    | signer :: rest =>
      match CreateWallet_signer chain wallet_type address_type signer st with
      | (Ok _, st) =>
        CreateWallet_signers chain wallet_type address_type rest st
      | (Throw e, st) => (Throw e, st)
      end
    end.

  (** part_002:1575-1624; [now] is what [std::time(0)] returns. *)
Definition CreateWallet (chain : Chain) (name : string) (m n : Z)
      (signers : list SingleSigner) (address_type : AddressType)
      (is_escrow : bool) (description : string) (now : time_t)
      (st : NunchukStorage) : Effect Wallet :=
    let wallet_type := wallet_type_of n is_escrow in
    match CreateWallet_signers chain wallet_type address_type signers st with
    | (Throw e, st) => (Throw e, st)
    | (Ok _, st) =>
      let external_desc :=
        GetDescriptorForSigners signers m EXTERNAL_ALL address_type
                                wallet_type in
      let id := GetDescriptorChecksum external_desc in
      if Files.wallet_exists chain id st
      then (Throw (StorageExc StorageException.WALLET_EXISTED), st)
      else
        match Files.open_wallet chain id st with
        | Throw e => (Throw e, st)
        | Ok wallet_db =>
          let create_date := now in
          let '(initialized, wallet_db) :=
            WalletDb.InitWallet name m n signers address_type is_escrow
                                create_date description wallet_db in
          (let* _ := initialized in
           Ok (mkWallet id m n signers address_type is_escrow create_date
                        name description 0),
           Files.save_wallet chain id wallet_db st)
        end
    end.

  (** A mutating call forwarded to the wallet store. *)
Definition on_wallet {A : Type} (chain : Chain) (wallet_id : string)
      (f : NunchukWalletDb -> Result A * NunchukWalletDb)
      (st : NunchukStorage) : Effect A :=
    match GetWalletDb chain wallet_id st with
    | Ok db =>
      let '(r, db) := f db in (r, Files.save_wallet chain wallet_id db st)
    | Throw e => (Throw e, st)
    end.

Definition returning {A S : Type} (f : S -> A * S) (s : S) : Result A * S :=
    let '(a, s) := f s in (Ok a, s).

  (** part_002:1871-1876 *)
Definition AddAddress (chain : Chain) (wallet_id address : string)
      (index : Z) (internal : bool) : NunchukStorage -> Effect bool :=
    on_wallet chain wallet_id (WalletDb.AddAddress address index internal).

  (** part_002:1878-1882 *)
Definition UseAddress (chain : Chain) (wallet_id address : string)
    : NunchukStorage -> Effect bool :=
    on_wallet chain wallet_id (returning (WalletDb.UseAddress address)).

  (** part_002:1890-1894 *)
Definition GetAllAddresses (chain : Chain) (wallet_id : string)
      (st : NunchukStorage) : Result (list string) :=
    let* db := GetWalletDb chain wallet_id st in
    Ok (WalletDb.GetAllAddresses db).

  (** part_002:1903-1910; [memo] and [change_pos] default to the empty
      text and -1 in the header. *)
Definition InsertTransaction (chain : Chain) (wallet_id raw_tx : string)
      (height : Z) (blocktime : time_t) (fee : Amount) (memo : string)
      (change_pos : Z) : NunchukStorage -> Effect Transaction :=
    on_wallet chain wallet_id
      (WalletDb.InsertTransaction raw_tx height blocktime fee memo change_pos).

  (** part_002:1945-1949 *)
Definition GetUnspentOutputs (chain : Chain) (wallet_id : string)
      (remove_locked : bool) (st : NunchukStorage)
    : Result (list UnspentOutput.t) :=
    let* db := GetWalletDb chain wallet_id st in
    WalletDb.GetUnspentOutputs remove_locked db.

  (** part_002:1951-1959 *)
Definition GetTransaction (chain : Chain) (wallet_id tx_id : string)
      (st : NunchukStorage) : Result Transaction :=
    let* db := GetWalletDb chain wallet_id st in
    let* tx := WalletDb.GetTransaction tx_id db in
    WalletDb.FillSendReceiveData tx db.

  (** part_002:1961-1969 *)
Definition UpdateTransaction (chain : Chain) (wallet_id raw_tx : string)
      (height : Z) (blocktime : time_t) (reject_msg : string)
    : NunchukStorage -> Effect bool :=
    on_wallet chain wallet_id
      (WalletDb.UpdateTransaction raw_tx height blocktime reject_msg).

  (** part_002:2016-2021 *)
Definition SetUtxos (chain : Chain) (wallet_id address : string)
      (utxo : list UtxoItem) : NunchukStorage -> Effect bool :=
    on_wallet chain wallet_id (returning (WalletDb.SetUtxos address utxo)).

  (** part_002:2023-2026 *)
Definition GetBalance (chain : Chain) (wallet_id : string)
      (st : NunchukStorage) : Result Amount :=
    let* db := GetWalletDb chain wallet_id st in
    WalletDb.GetBalance db.

  (** part_002:1557-1565 *)
Definition GetSignerDb (chain : Chain) (id : string) (st : NunchukStorage)
    : Result NunchukSignerDb :=
    if Files.signer_exists chain id st
    then Files.open_signer chain id st
    else Throw (StorageExc StorageException.MASTERSIGNER_NOT_FOUND).

  (** part_002:1626-1636 *)
Definition CreateMasterSigner (chain : Chain) (name : string)
      (device : Device) (mnemonic : string) (st : NunchukStorage)
    : Effect string :=
    let id := device_master_fingerprint device in
    match Files.open_signer chain id st with
    | Throw e => (Throw e, st)
    | Ok signer_db =>
      let signer_db := SignerDb.InitSigner name device mnemonic signer_db in
      (Ok id, Files.save_signer chain id signer_db st)
    end.

  (** part_002:1638-1654.  The store of the fingerprint is opened, and
      so created, before either test. *)
Definition CreateSingleSigner (chain : Chain)
      (name xpub public_key derivation_path master_fingerprint : string)
      (st : NunchukStorage) : Effect SingleSigner :=
    let id := master_fingerprint in
    match Files.open_signer chain id st with
    | Throw e => (Throw e, st)
    | Ok signer_db =>
      if SignerDb.IsMaster signer_db
      then (Throw (StorageExc StorageException.SIGNER_EXISTS),
            Files.save_signer chain id signer_db st)
      else
        let '(added, signer_db) :=
          SignerDb.AddRemote name xpub public_key derivation_path false
                             signer_db in
        let st := Files.save_signer chain id signer_db st in
        match added with
        | Throw e => (Throw e, st)
        | Ok added =>
          if negb added
          then (Throw (StorageExc StorageException.SIGNER_EXISTS), st)
          else (Ok (mkSingleSigner name xpub public_key derivation_path
                                   master_fingerprint 0 EmptyString false),
                st)
        end
    end.

  (** part_002:1846-1850 *)
Definition DeleteWallet (chain : Chain) (id : string) (st : NunchukStorage)
    : Effect bool :=
    match GetWalletDb chain id st with
    | Ok _ => (Ok true, Files.remove_wallet chain id st)
    | Throw e => (Throw e, st)
    end.

  (** part_002:2111-2119 *)
Definition GetAddressIndex (chain : Chain) (wallet_id address : string)
      (st : NunchukStorage) : Result Z :=
    let* db := GetWalletDb chain wallet_id st in
    let index := WalletDb.GetAddressIndex address db in
    if index <? 0
    then Throw (StorageExc StorageException.ADDRESS_NOT_FOUND)
    else Ok index.

  (** part_002:2121-2126 *)
Definition GetAddressBalance (chain : Chain) (wallet_id address : string)
      (st : NunchukStorage) : Result Amount :=
    let* db := GetWalletDb chain wallet_id st in
    WalletDb.GetAddressBalance address db.

  (** part_002:1971-1984 *)
Definition UpdateTransactionMemo (chain : Chain)
      (wallet_id tx_id memo : string) : NunchukStorage -> Effect bool :=
    on_wallet chain wallet_id
              (returning (WalletDb.UpdateTransactionMemo tx_id memo)).

Definition DeleteTransaction (chain : Chain) (wallet_id tx_id : string)
    : NunchukStorage -> Effect bool :=
    on_wallet chain wallet_id (returning (WalletDb.DeleteTransaction tx_id)).
End Facade.
End Facade.

(** *** The later revision of [CreateWallet]
    (src/src/storage/roomdb.cpp, second document) *)

Module FacadeRev.
Section FacadeRev.
Context `{DbKeys} `{Bip32} `{Descriptor} `{TxCodec} `{TxUtils}.

  (** roomdb.cpp:636-665, the body of the loop over the signers. *)
Definition CreateWallet0_signer (chain : Chain) (wallet_type : WalletType)
      (address_type : AddressType) (allow_used_signer : bool)
      (signer : SingleSigner) (st : NunchukStorage) : Effect unit :=
    let master_id := get_master_fingerprint signer in
    match Files.open_signer chain master_id st with
    | Throw e => (Throw e, st)
    | Ok signer_db =>
      if SignerDb.IsMaster signer_db && negb (string_empty (get_xpub signer))
      then
        let index := GetIndexFromPath (get_derivation_path signer) in
        if negb (String.eqb
                   (FormalizePath
                      (GetBip32Path chain wallet_type address_type index))
                   (FormalizePath (get_derivation_path signer)))
        then (Throw (NunchukExc NunchukException.INVALID_BIP32_PATH),
              Files.save_signer chain master_id signer_db st)
        else
          let '(_, signer_db) :=
            SignerDb.AddXPubAt wallet_type address_type index
                               (get_xpub signer) signer_db in
          let '(used, signer_db) :=
            SignerDb.UseIndex wallet_type address_type index signer_db in
          let st := Files.save_signer chain master_id signer_db st in
          if negb used && negb allow_used_signer
          then (Throw (StorageExc StorageException.SIGNER_USED), st)
          else (Ok tt, st)
      else
        match SignerDb.GetRemoteSigner (get_derivation_path signer) signer_db
        with
        | Ok _ =>
          let '(_, signer_db) :=
            SignerDb.UseRemote (get_derivation_path signer) signer_db in
          (Ok tt, Files.save_signer chain master_id signer_db st)
        | Throw (StorageExc StorageException.SIGNER_NOT_FOUND) =>
          let '(added, signer_db) :=
            SignerDb.AddRemote "import" (get_xpub signer)
              (get_public_key signer) (get_derivation_path signer) true
              signer_db in
          (let* _ := added in Ok tt,
           Files.save_signer chain master_id signer_db st)
        | Throw e => (Throw e, Files.save_signer chain master_id signer_db st)
        end
    end.

  (** roomdb.cpp:635-666, the loop. *)
Fixpoint CreateWallet0_signers (chain : Chain) (wallet_type : WalletType)
      (address_type : AddressType) (allow_used_signer : bool)
      (signers : list SingleSigner) (st : NunchukStorage) : Effect unit :=
    match signers with
    | [] => (Ok tt, st)
    | signer :: rest =>
      match CreateWallet0_signer chain wallet_type address_type
                                 allow_used_signer signer st with
      | (Ok _, st) =>
        CreateWallet0_signers chain wallet_type address_type
                              allow_used_signer rest st
      | (Throw e, st) => (Throw e, st)
      end
    end.

  (** roomdb.cpp:617-682 *)
Definition CreateWallet0 (chain : Chain) (name : string) (m n : Z)
      (signers : list SingleSigner) (address_type : AddressType)
      (is_escrow : bool) (description : string) (allow_used_signer : bool)
      (create_date : time_t) (st : NunchukStorage) : Effect Wallet :=
    if m >? n then (Throw (NunchukExc NunchukException.INVALID_PARAMETER), st)
    else if negb (n =? Z.of_nat (List.length signers))
    then (Throw (NunchukExc NunchukException.INVALID_PARAMETER), st)
    else
      let wallet_type := wallet_type_of n is_escrow in
      match CreateWallet0_signers chain wallet_type address_type
                                  allow_used_signer signers st with
      | (Throw e, st) => (Throw e, st)
      | (Ok _, st) =>
        let external_desc :=
          GetDescriptorForSigners signers m EXTERNAL_ALL address_type
                                  wallet_type in
        let id := GetDescriptorChecksum external_desc in
        if Files.wallet_exists chain id st
        then (Throw (StorageExc StorageException.WALLET_EXISTED), st)
        else
          match Files.open_wallet chain id st with
          | Throw e => (Throw e, st)
          | Ok wallet_db =>
            let '(initialized, wallet_db) :=
              WalletDb.InitWallet name m n signers address_type is_escrow
                                  create_date description wallet_db in
            (let* _ := initialized in
             Ok (mkWallet id m n signers address_type is_escrow create_date
                          name description 0),
             Files.save_wallet chain id wallet_db st)
          end
      end.

  (** roomdb.cpp:606-615; [now] is what [std::time(0)] returns. *)
Definition CreateWallet (chain : Chain) (name : string) (m n : Z)
      (signers : list SingleSigner) (address_type : AddressType)
      (is_escrow : bool) (description : string) (allow_used_signer : bool)
      (now : time_t) (st : NunchukStorage) : Effect Wallet :=
    CreateWallet0 chain name m n signers address_type is_escrow description
                  allow_used_signer now st.
End FacadeRev.
End FacadeRev.

(** ** ElectrumSynchronizer (part_003, second document) *)

Inductive Status := UNINITIALIZED | CONNECTING | SYNCING | READY | STOPPED.

#[global] Instance Status_eq_dec : EqDecision Status.
Proof. solve_decision. Defined.

(** One entry of [blockchain.scripthash.get_history]. *)
Record HistoryItem := mkHistoryItem {
  item_tx_hash : string;
  item_height : Z;
  item_fee : option Amount
}.

Inductive HistoryJson :=
| NotAnArray
| HistoryArray (items : list HistoryItem).

(** The answer to [blockchain.transaction.get]. *)
Record TransactionJson := mkTransactionJson {
  tx_hex : string;
  tx_blocktime : option time_t
}.

(** The backend as the synchronizer calls it: each request is answered
    by the server, whose answers are the methods of this class.
    [AddressToScriptHash] is utils/addressutils.hpp. *)
Class ElectrumClient := {
  AddressToScriptHash : string -> string;
  blockchain_transaction_get : string -> TransactionJson;
  blockchain_scripthash_get_history : string -> HistoryJson;
  blockchain_scripthash_listunspent : string -> list UtxoItem
}.

(** A call of [transaction_listener_]. *)
Record TransactionEvent := mkTransactionEvent {
  event_tx_id : string;
  event_status : TransactionStatus;
  event_wallet_id : string
}.

Record ElectrumSynchronizer := mkElectrumSynchronizer {
  status_ : Status;
  app_chain : Chain;   (* app_settings_.get_chain() *)
  scripthash_to_wallet_address_ : gmap string (string * string);
  storage_ : NunchukStorage;
  transaction_events : list TransactionEvent   (* oldest first *)
}.

Module Synchronizer.
Section Synchronizer.
Context `{DbKeys} `{Bip32} `{Descriptor} `{TxCodec} `{TxUtils}
          `{ElectrumClient}.

Definition with_storage (st : NunchukStorage) (s : ElectrumSynchronizer)
    : ElectrumSynchronizer :=
    mkElectrumSynchronizer (status_ s) (app_chain s)
      (scripthash_to_wallet_address_ s) st (transaction_events s).

Definition transaction_listener_ (tx_id : string)
      (status : TransactionStatus) (wallet_id : string)
      (s : ElectrumSynchronizer) : ElectrumSynchronizer :=
    mkElectrumSynchronizer (status_ s) (app_chain s)
      (scripthash_to_wallet_address_ s) (storage_ s)
      (transaction_events s ++ [mkTransactionEvent tx_id status wallet_id]).

  (** part_003:86-93, the body of the [try]. *)
Definition reconcile_known (chain : Chain) (wallet_id : string)
      (item : HistoryItem) (s : ElectrumSynchronizer)
    : Result unit * ElectrumSynchronizer :=
    let tx_id := item_tx_hash item in
    let height := item_height item in
    match Facade.GetTransaction chain wallet_id tx_id (storage_ s) with
    | Throw e => (Throw e, s)
    | Ok tx =>
      if negb (bool_decide (get_status tx = CONFIRMED)) && (height >? 0) then
        let tx := blockchain_transaction_get tx_id in
        match tx_blocktime tx with
        | None => (Throw JsonException, s)
        | Some blocktime =>
          let '(r, st) :=
            Facade.UpdateTransaction chain wallet_id (tx_hex tx) height
                                     blocktime EmptyString (storage_ s) in
          let s := with_storage st s in
          match r with
          | Throw e => (Throw e, s)
          | Ok _ => (Ok tt, transaction_listener_ tx_id CONFIRMED wallet_id s)
          end
        end
      else (Ok tt, s)
    end.

  (** part_003:95-108, the handler of [TX_NOT_FOUND]. *)
Definition reconcile_unknown (chain : Chain) (wallet_id : string)
    (item : HistoryItem) (s : ElectrumSynchronizer)
  : Result unit * ElectrumSynchronizer :=
  let tx_id := item_tx_hash item in
  let tx := blockchain_transaction_get tx_id in
  let time := default 0 (tx_blocktime tx) in
  let height_fee : Result (Z * Amount) :=
    if item_height item <=? 0 then
      match item_fee item with
      | Some fee => Ok (0, fee)
      | None => Throw JsonException
      end
    else Ok (item_height item, 0) in
  match height_fee with
  | Throw e => (Throw e, s)
  | Ok (height, fee) =>
    let '(r, st) :=
      Facade.InsertTransaction chain wallet_id (tx_hex tx) height time fee
                               EmptyString (-1) (storage_ s) in
    let s := with_storage st s in
    match r with
    | Throw e => (Throw e, s)
    | Ok _ =>
      let status :=
        if height <=? 0 then PENDING_CONFIRMATION else CONFIRMED in
      (Ok tt, transaction_listener_ tx_id status wallet_id s)
    end
  end.

(** part_003:81-109, one iteration over the history. *)
Definition UpdateTransactions_item (chain : Chain) (wallet_id : string)
      (item : HistoryItem) (s : ElectrumSynchronizer)
    : Result unit * ElectrumSynchronizer :=
    match reconcile_known chain wallet_id item s with
    | (Throw (StorageExc se), s) =>
      if bool_decide (se = StorageException.TX_NOT_FOUND)
      then reconcile_unknown chain wallet_id item s
      else (Ok tt, s)
    | r => r
    end.

Fixpoint UpdateTransactions_items (chain : Chain) (wallet_id : string)
      (items : list HistoryItem) (s : ElectrumSynchronizer)
    : Result unit * ElectrumSynchronizer :=
    match items with
    | [] => (Ok tt, s)
    | item :: rest =>
      match UpdateTransactions_item chain wallet_id item s with
      | (Ok _, s) => UpdateTransactions_items chain wallet_id rest s
      | (Throw e, s) => (Throw e, s)
      end
    end.

  (** part_003:77-111 *)
Definition UpdateTransactions (chain : Chain) (wallet_id : string)
      (history : HistoryJson) (s : ElectrumSynchronizer)
    : Result unit * ElectrumSynchronizer :=
    match history with
    | NotAnArray => (Ok tt, s)
    | HistoryArray items => UpdateTransactions_items chain wallet_id items s
    end.



End Synchronizer.
End Synchronizer.

(** ** Stand-ins for the collaborators

    Concrete collaborators, used where a statement is evaluated on an
    explicit store.  None of the functions they stand for is in src. *)

Module SpecModel.
  (** Modelled from the spec: storage.h (the [DbKeys] constants and
      [STORAGE_VER]) is not in src; the keys are pairwise distinct
      integers and the schema version is the one the migration of
      part_002:2049 compares with. *)
Definition keys : DbKeys :=
    {| KEY_ID := 0; KEY_VERSION := 1; KEY_NAME := 2; KEY_DESCRIPTION := 3;
       KEY_FINGERPRINT := 4; KEY_MNEMONIC := 5; KEY_SIGNER_DEVICE_TYPE := 6;
       KEY_SIGNER_DEVICE_MODEL := 7; KEY_LAST_HEALTH_CHECK := 8;
       STORAGE_VER := 3 |}.

Definition decimal (z : Z) : string := NilZero.string_of_int (Z.to_int z).

Definition purpose (w : WalletType) (a : AddressType) : string :=
    match w, a with
    | SINGLE_SIG, LEGACY => "44"
    | SINGLE_SIG, NESTED_SEGWIT => "49"
    | SINGLE_SIG, NATIVE_SEGWIT => "84"
    | SINGLE_SIG, ANY => "0"
    | MULTI_SIG, _ => "48"
    | ESCROW, _ => "45"
    end.

  (** The text after the last ['/'] of a path. *)
Fixpoint last_component (s acc : string) : string :=
    match s with
    | EmptyString => acc
    | String c s' =>
      if Ascii.eqb c "/"%char then last_component s' EmptyString
      else last_component s' (acc ++ String c EmptyString)%string
    end.

Fixpoint drop_hardened (s : string) : string :=
    match s with
    | EmptyString => EmptyString
    | String c EmptyString =>
      if (Ascii.eqb c "h"%char || Ascii.eqb c "'"%char)%bool then EmptyString
      else s
    | String c s' => String c (drop_hardened s')
    end.

  (** Modelled from the spec: utils/bip32.hpp is not in src.  The spec
      asks of [DerivePath] that it be total and injective per bucket and
      of [ParseIndexFromPath] that it invert the index component; the
      path is purpose, coin type and index, each hardened. *)
Definition bip32 : Bip32 :=
    {| GetBip32Path chain w a index :=
         ("m/" ++ purpose w a ++ "h/"
          ++ (match chain with MAIN => "0" | _ => "1" end) ++ "h/"
          ++ decimal index ++ "h")%string;
       GetBip32Type w a := ("bip" ++ purpose w a)%string;
       GetIndexFromPath path :=
         match NilZero.int_of_string
                 (drop_hardened (last_component path EmptyString)) with
         | Some i => Z.of_int i
         | None => -1
         end |}.

Fixpoint insert_sorted (x : string) (l : list string) : list string :=
    match l with
    | [] => [x]
    | y :: l' => if String.leb x y then x :: l else y :: insert_sorted x l'
    end.

Definition sort_strings (l : list string) : list string :=
    fold_right insert_sorted [] l.

Fixpoint replace_h (s : string) : string :=
    match s with
    | EmptyString => EmptyString
    | String c s' =>
      String (if Ascii.eqb c "h"%char then "'"%char else c) (replace_h s')
    end.

Definition formalize (path : string) : string :=
    match replace_h path with
    | String "m"%char rest => rest
    | other => other
    end.

Definition key_text (s : SingleSigner) : string :=
    ("[" ++ get_master_fingerprint s ++ formalize (get_derivation_path s)
     ++ "]" ++ get_xpub s ++ get_public_key s)%string.

Definition hex_digit (n : N) : ascii :=
    nth (N.to_nat n)
        (list_ascii_of_string "0123456789abcdef") "0"%char.

Fixpoint hex_digits (k : nat) (n : N) : string :=
    match k with
    | O => EmptyString
    | S k' => (hex_digits k' (n / 16) ++ String (hex_digit (n mod 16)) EmptyString)%string
    end.

Fixpoint digest (s : string) (acc : N) : N :=
    match s with
    | EmptyString => acc
    | String c s' => digest s' ((acc * 31 + N_of_ascii c) mod 4294967296)%N
    end.

  (** Modelled from the spec: descriptor.cpp and the checksum of the
      descriptor library are not in src.  The spec asks of the descriptor
      that it be a pure function of the key material of the signer set
      and of the policy, independent of the order of the signers, and of
      the id that it be 8 hexadecimal characters computed from the
      descriptor. *)
Definition descriptor : Descriptor :=
    {| FormalizePath := formalize;
       GetDescriptorForSigners signers m path a w :=
         ((match a with
           | LEGACY => "sh" | NESTED_SEGWIT => "sh-wsh" | _ => "wsh"
           end)
          ++ (match w with
              | SINGLE_SIG => "(pk(" | MULTI_SIG => "(sortedmulti("
              | ESCROW => "(multi("
              end)
          ++ decimal m
          ++ fold_right (fun k acc => "," ++ k ++ acc) EmptyString
                        (sort_strings (map key_text signers))
          ++ (match path with
              | EXTERNAL_ALL => "/0/*" | INTERNAL_ALL => "/1/*" | _ => EmptyString
              end)
          ++ "))")%string;
       GetDescriptorChecksum d := hex_digits 8 (digest d 0%N) |}.

  (** A codec given by the table of the texts it decodes; any other text
      decodes to the empty transaction. *)
Definition empty_tx : CMutableTransaction :=
    mkCMutableTransaction EmptyString [] [].

Definition decode (table : list (string * CMutableTransaction))
      (raw : string) : CMutableTransaction :=
    match List.find (fun p => String.eqb (fst p) raw) table with
    | Some p => snd p
    | None => empty_tx
    end.

Definition codec (table : list (string * CMutableTransaction)) : TxCodec :=
    {| DecodeRawTransaction := decode table;
       DecodePsbt raw := mkPartiallySignedTransaction (decode table raw) [] |}.

Module TxUtilsModel.
  (** Modelled from the spec: [GetTransactionFromCMutableTransaction] of
      utils/txutils.hpp is not in src.  The spec gives the lifecycle by
      height: 0 is broadcast and unconfirmed, above 0 is confirmed at that
      height; a height below 0 on a finalized transaction is a rejected
      broadcast. *)
Definition GetTransactionFromCMutableTransaction (tx : CMutableTransaction)
      (signers : list SingleSigner) (height : Z) : Transaction :=
    {| get_txid := GetHash tx; get_height := height;
       get_inputs := vin tx; get_outputs := vout tx;
       get_user_outputs := []; get_receive_outputs := [];
       get_change_index := -1; get_m := 0;
       get_signers := map (fun s => (get_master_fingerprint s, false)) signers;
       get_memo := EmptyString;
       get_status := if height >? 0 then CONFIRMED
                     else if height =? 0 then PENDING_CONFIRMATION
                     else NETWORK_REJECTED;
       get_replaced_by_txid := EmptyString;
       get_fee := 0; get_fee_rate := 0; get_blocktime := 0;
       subtract_fee_from_amount := false; is_receive := false;
       get_sub_amount := 0 |}.

  (** Modelled from the spec: [GetTransactionFromPartiallySignedTransaction]
      of utils/txutils.hpp is not in src.  A draft has height -1 and tracks
      which signers have contributed signature material; it is ready to
      broadcast once [m] of them have. *)
Definition GetTransactionFromPartiallySignedTransaction
      (psbt : PartiallySignedTransaction) (signers : list SingleSigner)
      (m : Z) : Transaction :=
    let signed :=
      map (fun s => (get_master_fingerprint s,
                     existsb (String.eqb (get_master_fingerprint s))
                             (psbt_signed psbt))) signers in
    {| get_txid := GetHash (psbt_tx psbt); get_height := -1;
       get_inputs := vin (psbt_tx psbt); get_outputs := vout (psbt_tx psbt);
       get_user_outputs := []; get_receive_outputs := [];
       get_change_index := -1; get_m := m;
       get_signers := signed;
       get_memo := EmptyString;
       get_status :=
         if m <=? Sqlite.count (fun p : string * bool => snd p) signed
         then READY_TO_BROADCAST else PENDING_SIGNATURES;
       get_replaced_by_txid := EmptyString;
       get_fee := 0; get_fee_rate := 0; get_blocktime := 0;
       subtract_fee_from_amount := false; is_receive := false;
       get_sub_amount := 0 |}.
End TxUtilsModel.

Definition txutils : TxUtils :=
    {| GetTransactionFromCMutableTransaction :=
         TxUtilsModel.GetTransactionFromCMutableTransaction;
       GetTransactionFromPartiallySignedTransaction :=
         TxUtilsModel.GetTransactionFromPartiallySignedTransaction |}.

  (** A backend given by the tables of its answers. *)
Definition client (txs : list (string * TransactionJson))
      (histories : list (string * HistoryJson))
      (unspent : list (string * list UtxoItem)) : ElectrumClient :=
    {| AddressToScriptHash address := ("sh:" ++ address)%string;
       blockchain_transaction_get tx_id :=
         match List.find (fun p => String.eqb (fst p) tx_id) txs with
         | Some p => snd p
         | None => mkTransactionJson EmptyString None
         end;
       blockchain_scripthash_get_history scripthash :=
         match List.find (fun p => String.eqb (fst p) scripthash) histories
         with
         | Some p => snd p
         | None => HistoryArray []
         end;
       blockchain_scripthash_listunspent scripthash :=
         match List.find (fun p => String.eqb (fst p) scripthash) unspent with
         | Some p => snd p
         | None => []
         end |}.
End SpecModel.

(** ** Histories of calls

    Sequences of calls on one store, for statements about every later
    state of it. *)

Module WalletHistory.
Section WalletHistory.
Context `{DbKeys} `{TxCodec} `{TxUtils}.

(** The calls of [NunchukWalletDb] that write the address ledger or run
    [UseAddress] on the way, together with those that write the
    transaction ledger and the signer slots.  ([CreatePsbt], [UpdatePsbt]
    and [UpdatePsbtTxId] write [VTX] only; [DeleteWallet] drops the
    store.) *)
Inductive Call :=
| CallAddSigner (signer : SingleSigner)
| CallAddAddress (address : string) (index : Z) (internal : bool)
| CallUseAddress (address : string)
| CallSetUtxos (address : string) (utxo : list UtxoItem)
| CallInsertTransaction (raw_tx : string) (height : Z) (blocktime : time_t)
    (fee : Amount) (memo : string) (change_pos : Z)
| CallUpdateTransaction (raw_tx : string) (height : Z) (blocktime : time_t)
    (reject_msg : string)
| CallUpdateTransactionMemo (tx_id memo : string)
| CallDeleteTransaction (tx_id : string).

Definition call (c : Call) (db : NunchukWalletDb) : NunchukWalletDb :=
  match c with
  | CallAddSigner signer => snd (WalletDb.AddSigner signer db)
  | CallAddAddress a i b => snd (WalletDb.AddAddress a i b db)
  | CallUseAddress a => snd (WalletDb.UseAddress a db)
  | CallSetUtxos a u => snd (WalletDb.SetUtxos a u db)
  | CallInsertTransaction r h b f m c =>
    snd (WalletDb.InsertTransaction r h b f m c db)
  | CallUpdateTransaction r h b m =>
    snd (WalletDb.UpdateTransaction r h b m db)
  | CallUpdateTransactionMemo t m => snd (WalletDb.UpdateTransactionMemo t m db)
  | CallDeleteTransaction t => snd (WalletDb.DeleteTransaction t db)
  end.

Definition calls (cs : list Call) (db : NunchukWalletDb) : NunchukWalletDb :=
  fold_left (fun db c => call c db) cs db.

(** The [USED] column of the row of an address, [false] when the ledger
    has no such row. *)
Definition address_used (address : string) (db : NunchukWalletDb) : bool :=
  match Sqlite.first_row (fun r => String.eqb (ADDRESS.ADDR r) address)
                         (ADDRESS db) with
  | Some r => ADDRESS.USED r =? 1
  | None => false
  end.

(** Whether the ledger has a row for the address. *)
Definition in_ledger (address : string) (db : NunchukWalletDb) : bool :=
  match ADDRESS db with
  | Some rows => existsb (fun r => String.eqb (ADDRESS.ADDR r) address) rows
  | None => false
  end.

Definition addr_is (a : string) (r : ADDRESS.row) : bool :=
  String.eqb (ADDRESS.ADDR r) a.

(** What every write to [ADDRESS] does to the row of [a]: the first row
    of [a] stays the first row of [a] with its index and its change
    flag, and a set [USED] flag stays set. *)
Definition ledger_le (a : string) (t t' : option (list ADDRESS.row)) : Prop :=
  forall r, Sqlite.first_row (addr_is a) t = Some r ->
  exists r', Sqlite.first_row (addr_is a) t' = Some r'
             /\ ADDRESS.IDX r' = ADDRESS.IDX r
             /\ ADDRESS.INTERNAL r' = ADDRESS.INTERNAL r
             /\ (ADDRESS.USED r = 1 -> ADDRESS.USED r' = 1).


(** The row update of [UseAddress]. *)
Definition mark_used (a : string) (r : ADDRESS.row) : ADDRESS.row :=
  if String.eqb (ADDRESS.ADDR r) a then WalletDb.set_USED r else r.

(** Whether [VTX] has a row under the id. *)
Definition in_vtx (tx_id : string) (db : NunchukWalletDb) : bool :=
  match VTX db with
  | Some rows => existsb (fun r => String.eqb (VTX.ID r) tx_id) rows
  | None => false
  end.
End WalletHistory.
End WalletHistory.

(** ** Invariants of the tables *)

Module Invariants.
(** A property of every row of a table; a table that does not exist has
    no row. *)
Definition table_all {R : Type} (P : R -> Prop) (t : option (list R))
  : Prop :=
  match t with
  | Some rows => Forall P rows
  | None => True
  end.

(** The two flags of a row of [ADDRESS] hold 0 or 1, the values
    [AddAddress] and [UseAddress] bind. *)
Definition flags_set (r : ADDRESS.row) : Prop :=
  (ADDRESS.USED r = 0 \/ ADDRESS.USED r = 1)
  /\ (ADDRESS.INTERNAL r = 0 \/ ADDRESS.INTERNAL r = 1).

(** The range of a C++ [int]. *)
Definition is_int (z : Z) : Prop := - 2 ^ 31 <= z < 2 ^ 31.
End Invariants.


(** The transactions of one wallet across two states of the storage:
    the wallet is still there and holds a transaction under every id it
    held one under. *)
Definition wallet_vtx_le (chain : Chain) (wallet_id : string)
    (st st' : NunchukStorage) : Prop :=
  forall db, Facade.GetWalletDb chain wallet_id st = Ok db ->
  exists db', Facade.GetWalletDb chain wallet_id st' = Ok db'
              /\ forall tx_id, WalletHistory.in_vtx tx_id db = true ->
                               WalletHistory.in_vtx tx_id db' = true.

Module SynchronizerHistory.
Section SynchronizerHistory.
Context `{TxCodec} `{ElectrumClient}.




End SynchronizerHistory.
End SynchronizerHistory.

Module SignerHistory.
Section SignerHistory.
Context `{DbKeys} `{Bip32}.

(** The calls of [NunchukSignerDb] that write the store, short of
    [DeleteSigner], which drops it. *)
Inductive Call :=
| CallInitSigner (name : string) (device : Device) (mnemonic : string)
| CallAddXPub (path xpub type : string)
| CallAddXPubAt (wallet_type : WalletType) (address_type : AddressType)
    (index : Z) (xpub : string)
| CallUseIndex (wallet_type : WalletType) (address_type : AddressType)
    (index : Z)
| CallAddRemote (name xpub public_key path : string) (used : bool)
| CallUseRemote (path : string)
| CallDeleteRemoteSigner (path : string)
| CallSetRemoteName (path value : string)
| CallSetRemoteLastHealthCheck (path : string) (value : time_t)
| CallSetName (value : string)
| CallSetLastHealthCheck (value : time_t).

Definition call (c : Call) (db : NunchukSignerDb) : NunchukSignerDb :=
  match c with
  | CallInitSigner n d m => SignerDb.InitSigner n d m db
  | CallAddXPub p x t => snd (SignerDb.AddXPub p x t db)
  | CallAddXPubAt w a i x => snd (SignerDb.AddXPubAt w a i x db)
  | CallUseIndex w a i => snd (SignerDb.UseIndex w a i db)
  | CallAddRemote n x k p u => snd (SignerDb.AddRemote n x k p u db)
  | CallUseRemote p => snd (SignerDb.UseRemote p db)
  | CallDeleteRemoteSigner p => snd (SignerDb.DeleteRemoteSigner p db)
  | CallSetRemoteName p v => snd (SignerDb.SetRemoteName p v db)
  | CallSetRemoteLastHealthCheck p v =>
    snd (SignerDb.SetRemoteLastHealthCheck p v db)
  | CallSetName v => snd (SignerDb.SetName v db)
  | CallSetLastHealthCheck v => snd (SignerDb.SetLastHealthCheck v db)
  end.

Definition calls (cs : list Call) (db : NunchukSignerDb) : NunchukSignerDb :=
  fold_left (fun db c => call c db) cs db.

Definition path_is (path : string) (r : BIP32.row) : bool :=
  String.eqb (BIP32.PATH r) path.

(** The allocation state of the cache entry of a path. *)
Definition unallocated (path : string) (db : NunchukSignerDb) : bool :=
  match Sqlite.first_row (path_is path) (BIP32 db) with
  | Some r => BIP32.USED r =? -1
  | None => false
  end.

(** Whether the cache holds an entry for the path. *)
Definition in_cache (path : string) (db : NunchukSignerDb) : bool :=
  match BIP32 db with
  | Some rows => existsb (path_is path) rows
  | None => false
  end.

(** Allocated is whatever is not unallocated: [GetSingleSigners]
    (part_002:1357) selects the allocated entries by [USED != -1]. *)
Definition allocated (path : string) (db : NunchukSignerDb) : bool :=
  match Sqlite.first_row (path_is path) (BIP32 db) with
  | Some r => negb (BIP32.USED r =? -1)
  | None => false
  end.

(** The paths of a table are pairwise distinct, as PRIMARY KEY makes
    them. *)
Definition unique_table (t : option (list BIP32.row)) : Prop :=
  match t with
  | Some rows => NoDup (map BIP32.PATH rows)
  | None => True
  end.

Definition unique_paths (db : NunchukSignerDb) : Prop :=
  unique_table (BIP32 db).

(** What a write to [BIP32] may do to the entry of a path: its first row
    stays its first row and an allocation is never taken back. *)
Definition cache_le (path : string) (t t' : option (list BIP32.row)) : Prop :=
  forall r, Sqlite.first_row (path_is path) t = Some r ->
  exists r', Sqlite.first_row (path_is path) t' = Some r'
             /\ (BIP32.USED r <> -1 -> BIP32.USED r' <> -1).

(** Every entry tagged for the bucket holds the path derived for the
    bucket from the index the path ends in. *)
Definition bucket_canonical (wallet_type : WalletType)
    (address_type : AddressType) (db : NunchukSignerDb) : bool :=
  forallb
    (fun r =>
       negb (String.eqb (BIP32.TYPE r)
                        (GetBip32Type wallet_type address_type))
       || String.eqb (BIP32.PATH r)
            (GetBip32Path (chain_ db) wallet_type address_type
               (GetIndexFromPath (cstr (BIP32.PATH r)))))
    (Sqlite.all_rows (fun _ => true) (BIP32 db)).
End SignerHistory.
End SignerHistory.

Module SignerRecords.
Section SignerRecords.
Context `{DbKeys} `{Bip32} `{Descriptor}.

Definition remote_is (path : string) (r : REMOTE.row) : bool :=
  String.eqb (REMOTE.PATH r) path.

(** Whether the remote entry of a path is marked used; as for the cache,
    used is whatever is not -1 ([DeleteRemoteSigner] removes an entry
    only [WHERE USED = -1]). *)
Definition remote_used (path : string) (db : NunchukSignerDb) : bool :=
  match Sqlite.first_row (remote_is path) (REMOTE db) with
  | Some r => negb (REMOTE.USED r =? -1)
  | None => false
  end.

Definition remote_le (path : string) (t t' : option (list REMOTE.row))
  : Prop :=
  forall r, Sqlite.first_row (remote_is path) t = Some r ->
  exists r', Sqlite.first_row (remote_is path) t' = Some r'
             /\ (REMOTE.USED r <> -1 -> REMOTE.USED r' <> -1).

(** One signer store before and after calls of the wallet-creation
    loop: it is a master or not as before, and no allocation and no use
    mark is taken back. *)
Definition signer_le (db db' : NunchukSignerDb) : Prop :=
  TableExists (BIP32 db') = TableExists (BIP32 db)
  /\ (forall path, SignerHistory.cache_le path (BIP32 db) (BIP32 db'))
  /\ (forall path, remote_le path (REMOTE db) (REMOTE db')).

Definition records_le (chain : Chain) (st st' : NunchukStorage) : Prop :=
  forall id, signer_le (Files.signer_store chain id st)
                       (Files.signer_store chain id st').

(** The test by which the loop takes a signer for a key of a local
    master signer: [has_master_signer] in part_002:1588, a non-empty
    xpub in roomdb.cpp:639. *)
Definition local_part002 (signer : SingleSigner) : bool :=
  has_master_signer signer.

Definition local_rev (signer : SingleSigner) : bool :=
  negb (string_empty (get_xpub signer)).

(** What the loop leaves in the signer's record: the cache index of the
    signer's path allocated, for a key of a master signer, and the
    remote entry of the path marked used otherwise. *)
Definition applied (local : SingleSigner -> bool) (chain : Chain)
    (wallet_type : WalletType) (address_type : AddressType)
    (signer : SingleSigner) (st : NunchukStorage) : bool :=
  let db := Files.signer_store chain (get_master_fingerprint signer) st in
  if SignerDb.IsMaster db && local signer
  then SignerHistory.allocated
         (GetBip32Path chain wallet_type address_type
            (GetIndexFromPath (get_derivation_path signer))) db
  else remote_used (get_derivation_path signer) db.




(** A signer set the store persists slot by slot: fingerprints in lower
    case, as every record is keyed, and no key twice. *)
Definition valid_signers (signers : list SingleSigner) : Prop :=
  Forall (fun s => to_lower_copy (get_master_fingerprint s)
                   = get_master_fingerprint s) signers
  /\ NoDup (map WalletDb.GetSingleSignerKey signers).

(** The branch both revisions of the loop take for a signer that is not
    a key of a local master signer (part_002:1594-1605,
    roomdb.cpp:653-664), with the name the new remote entry is given. *)
Definition remote_branch (name : string) (chain : Chain)
    (signer : SingleSigner) (st : NunchukStorage) : Effect unit :=
  let master_id := get_master_fingerprint signer in
  match Files.open_signer chain master_id st with
  | Throw e => (Throw e, st)
  | Ok signer_db =>
    match SignerDb.GetRemoteSigner (get_derivation_path signer) signer_db
    with
    | Ok _ =>
      let '(_, signer_db) :=
        SignerDb.UseRemote (get_derivation_path signer) signer_db in
      (Ok tt, Files.save_signer chain master_id signer_db st)
    | Throw (StorageExc StorageException.SIGNER_NOT_FOUND) =>
      let '(added, signer_db) :=
        SignerDb.AddRemote name (get_xpub signer) (get_public_key signer)
          (get_derivation_path signer) true signer_db in
      (let* _ := added in Ok tt,
       Files.save_signer chain master_id signer_db st)
    | Throw e => (Throw e, Files.save_signer chain master_id signer_db st)
    end
  end.
End SignerRecords.
End SignerRecords.

(** ** Stores the statements are evaluated on *)

Module C5Example.
(** A wallet holding one address with one unspent output [t1:0] in its
    snapshot and one draft [d1] (height -1) that spends [t1:0]. *)
Definition codec : TxCodec :=
  SpecModel.codec
    [("psbt-d1", mkCMutableTransaction "d1" [("t1", 0)] [("dest", 900)]);
     ("raw-b1", mkCMutableTransaction "b1" [("t2", 1)] [("dest", 500)])].

Definition draft_extra : Extra :=
  mkExtra None (Some [("dest", 900)]) (Some 1) (Some false) None None None.

Definition db : NunchukWalletDb :=
  mkNunchukWalletDb (mkNunchukDb "wallet" (Some []) (Some []) 0)
    (Some (mkImmutableData 1 1 NATIVE_SEGWIT false 0))
    (Some [VTX.mk "d1" "psbt-d1" (-1) 100 "memo" (-1) 0 (Some draft_extra);
           VTX.mk "b1" "raw-b1" 0 100 "sent" (-1) 0 None])
    (Some [ADDRESS.mk "addr1" 0 0 0
             (Some [ElectrumUtxo "t1" 0 1000; ElectrumUtxo "t2" 1 700])])
    (Some []).

Definition transactions : list Transaction :=
  Eval vm_compute in
    match @WalletDb.GetTransactions codec SpecModel.txutils db with
    | Ok txs => txs
    | Throw _ => []
    end.
End C5Example.

Module C3Example.
(** Five cached keys of the bucket MULTI_SIG/ANY, indices 0 to 4, none
    allocated. *)
Definition db : NunchukSignerDb :=
  mkNunchukSignerDb (mkNunchukDb "abcd1234" (Some []) (Some []) 0) MAIN
    (Some [BIP32.mk "m/48h/0h/0h" "xpub0" "bip48" (-1);
           BIP32.mk "m/48h/0h/1h" "xpub1" "bip48" (-1);
           BIP32.mk "m/48h/0h/2h" "xpub2" "bip48" (-1);
           BIP32.mk "m/48h/0h/3h" "xpub3" "bip48" (-1);
           BIP32.mk "m/48h/0h/4h" "xpub4" "bip48" (-1)])
    None.

Definition later : list SignerHistory.Call :=
  [SignerHistory.CallAddXPubAt MULTI_SIG ANY 5 "xpub5";
   SignerHistory.CallAddXPubAt MULTI_SIG ANY 0 "xpub0'";
   SignerHistory.CallUseIndex MULTI_SIG ANY 0;
   SignerHistory.CallAddRemote "remote" "xpubR" EmptyString "m/45h" false;
   SignerHistory.CallSetName "renamed"].
End C3Example.

Module C6Example.
(** A wallet [w1] on testnet holding the transaction [tx150], confirmed
    at height 150, and a synchronizer that is ready. *)
Definition codec : TxCodec :=
  SpecModel.codec
    [("raw-tx150",
      mkCMutableTransaction "tx150" [("prev", 0)] [("addr1", 5000)])].

Definition wallet : NunchukWalletDb :=
  mkNunchukWalletDb (mkNunchukDb "w1" (Some []) (Some []) 0)
    (Some (mkImmutableData 2 3 NATIVE_SEGWIT false 0))
    (Some [VTX.mk "tx150" "raw-tx150" 150 0 EmptyString (-1) 1600000000 None])
    (Some [ADDRESS.mk "addr1" 0 0 1 None])
    (Some []).

Definition storage : NunchukStorage :=
  mkNunchukStorage (mkChainDir ∅ ∅)
                   (mkChainDir {[ "w1" := wallet ]} ∅).

Definition synchronizer : ElectrumSynchronizer :=
  mkElectrumSynchronizer READY TESTNET ∅ storage [].

Definition backend : ElectrumClient :=
  SpecModel.client
    [("tx150", mkTransactionJson "raw-tx150" (Some 1600000000))]
    [("sh:addr1", HistoryArray [mkHistoryItem "tx150" 150 None]);
     ("sh:addr2", HistoryArray [mkHistoryItem "tx150" 150 None]);
     ("sh:addr3", HistoryArray [])]
    [("sh:addr2", [ElectrumUtxo "tx150" 0 5000])].
End C6Example.

Module C8Example.
(** The wallet [w1] of [C6Example] and a backend whose history of [addr4]
    lists [tx200], which the wallet does not hold, confirmed at height
    200, and [tx150], which it holds. *)
Definition codec : TxCodec :=
  SpecModel.codec
    [("raw-tx150",
      mkCMutableTransaction "tx150" [("prev", 0)] [("addr1", 5000)]);
     ("raw-tx200",
      mkCMutableTransaction "tx200" [("other", 3)] [("addr4", 900)])].

Definition backend : ElectrumClient :=
  SpecModel.client
    [("tx150", mkTransactionJson "raw-tx150" (Some 1600000000));
     ("tx200", mkTransactionJson "raw-tx200" (Some 1600030000))]
    [("sh:addr4", HistoryArray [mkHistoryItem "tx200" 200 None;
                                mkHistoryItem "tx150" 150 None])]
    [("sh:addr4", [ElectrumUtxo "tx200" 0 900])].
End C8Example.

Module C9Example.
(** Testnet holds a master signer [abcd1234] with two cached keys of the
    bucket MULTI_SIG/ANY, both unallocated, no record for the air-gapped
    signer [ffff0000], and already a wallet store under the id of the
    2-of-2 wallet of the two keys below. *)
Definition master_key : SingleSigner :=
  mkSingleSigner "ledger" "xpubM0" EmptyString "m/48h/1h/0h" "abcd1234" 0
                 "abcd1234" false.

Definition airgap_key : SingleSigner :=
  mkSingleSigner "airgap" "xpubA" EmptyString "m/48h/1h/9h" "ffff0000" 0
                 EmptyString false.

Definition wallet_signers : list SingleSigner := [master_key; airgap_key].

Definition id : string :=
  Eval vm_compute in
    @GetDescriptorChecksum SpecModel.descriptor
      (@GetDescriptorForSigners SpecModel.descriptor wallet_signers 2
         EXTERNAL_ALL NATIVE_SEGWIT MULTI_SIG).

Definition master_store : NunchukSignerDb :=
  mkNunchukSignerDb (mkNunchukDb "abcd1234" (Some []) (Some []) 0) TESTNET
    (Some [BIP32.mk "m/48h/1h/0h" "xpubM0" "bip48" (-1);
           BIP32.mk "m/48h/1h/1h" "xpubM1" "bip48" (-1)])
    None.

Definition imported_wallet : NunchukWalletDb :=
  mkNunchukWalletDb (mkNunchukDb id (Some []) (Some []) 0)
    (Some (mkImmutableData 2 2 NATIVE_SEGWIT false 0))
    (Some []) (Some []) (Some []).

(** The signer records alone, and the same with the wallet store. *)
Definition records : NunchukStorage :=
  mkNunchukStorage (mkChainDir ∅ ∅)
                   (mkChainDir ∅ {[ "abcd1234" := master_store ]}).

Definition storage : NunchukStorage :=
  mkNunchukStorage (mkChainDir ∅ ∅)
                   (mkChainDir {[ id := imported_wallet ]}
                               {[ "abcd1234" := master_store ]}).

(** The master key under a path that is not the one derived for its
    index in the bucket. *)
Definition master_key_other_path : SingleSigner :=
  mkSingleSigner "ledger" "xpubM0" EmptyString "m/44h/1h/0h" "abcd1234" 0
                 "abcd1234" false.
End C9Example.

Module LedgerExample.
(** A wallet with three receive addresses and one change address.  The
    transaction [tx150] is confirmed at height 150 and pays [addr1] and
    [addr2]; [b1], broadcast and unconfirmed, spends [tx150:1] and pays
    150 back to the change address. *)
Definition codec : TxCodec :=
  SpecModel.codec
    [("raw-tx150",
      mkCMutableTransaction "tx150" [("prev", 0)]
                            [("addr1", 5000); ("addr2", 700)]);
     ("raw-b1",
      mkCMutableTransaction "b1" [("tx150", 1)]
                            [("dest", 500); ("chg1", 150)]);
     ("psbt-d2",
      mkCMutableTransaction "d2" [("tx150", 0)] [("dest", 4900)]);
     ("psbt-d2-signed",
      mkCMutableTransaction "d2" [("tx150", 0)] [("dest", 4900)]);
     ("raw-tx200",
      mkCMutableTransaction "tx200" [("prev2", 0)] [("addr3", 300)])].

Definition db : NunchukWalletDb :=
  mkNunchukWalletDb (mkNunchukDb "w1" (Some []) (Some []) 0)
    (Some (mkImmutableData 1 1 NATIVE_SEGWIT false 0))
    (Some [VTX.mk "tx150" "raw-tx150" 150 0 EmptyString (-1) 1600000000 None;
           VTX.mk "b1" "raw-b1" 0 50 "sent" (-1) 0 None])
    (Some [ADDRESS.mk "addr1" 0 0 1 (Some [ElectrumUtxo "tx150" 0 5000]);
           ADDRESS.mk "addr2" 1 0 1 (Some [ElectrumUtxo "tx150" 1 700]);
           ADDRESS.mk "chg1" 0 1 0 None;
           ADDRESS.mk "addr3" 2 0 0 None])
    (Some []).

(** The same store holding the draft [d2] besides. *)
Definition drafted : NunchukWalletDb :=
  mkNunchukWalletDb (mkNunchukDb "w1" (Some []) (Some []) 1)
    (IMMUTABLE_DATA db)
    (Some [VTX.mk "tx150" "raw-tx150" 150 0 EmptyString (-1) 1600000000 None;
           VTX.mk "b1" "raw-b1" 0 50 "sent" (-1) 0 None;
           VTX.mk "d2" "psbt-d2" (-1) 100 "draft" (-1) 0
                  (Some (mkExtra None (Some [("dest", 4900)]) (Some 2)
                                 (Some false) None None None))])
    (ADDRESS db) (SIGNER db).

Definition later : list WalletHistory.Call :=
  [WalletHistory.CallAddAddress "addr4" 3 false;
   WalletHistory.CallUseAddress "addr3";
   WalletHistory.CallSetUtxos "addr3" [ElectrumUtxo "tx9" 0 10];
   WalletHistory.CallAddAddress "chg2" 1 true].
End LedgerExample.

Module RemoteExample.
(** A signer known only by the keys others imported: one entry not yet
    used by a wallet, one used. *)
Definition db : NunchukSignerDb :=
  mkNunchukSignerDb (mkNunchukDb "ffff0000" (Some []) (Some []) 0) TESTNET
    None
    (Some [REMOTE.mk "m/48h/1h/7h" "xpubA" EmptyString "airgap" 0 (-1);
           REMOTE.mk "m/48h/1h/9h" "xpubB" EmptyString "import" 0 1]).
End RemoteExample.

(** * Properties *)

(** ** SQLite statements *)

Section SqliteFacts.
Context {R : Type}.

Lemma find_app_l (p : R -> bool) (t t' : list R) (r : R) :
  List.find p t = Some r -> List.find p (t ++ t') = Some r.
Proof.
  induction t as [|x t IH]; simpl; [discriminate|].
  destruct (p x); auto.
Qed.

Lemma find_app_r (p : R -> bool) (t t' : list R) :
  List.find p t = None -> List.find p (t ++ t') = List.find p t'.
Proof.
  induction t as [|x t IH]; simpl; [reflexivity|].
  destruct (p x); [discriminate|auto].
Qed.

Lemma find_none_existsb (p : R -> bool) (t : list R) :
  existsb p t = false -> List.find p t = None.
Proof.
  induction t as [|x t IH]; simpl; [reflexivity|].
  destruct (p x); simpl; [discriminate|auto].
Qed.

Lemma count_nonneg (p : R -> bool) (t : list R) : 0 <= Sqlite.count p t.
Proof. unfold Sqlite.count. lia. Qed.

Lemma count_zero (p : R -> bool) (t : list R) :
  existsb p t = false -> Sqlite.count p t = 0.
Proof.
  unfold Sqlite.count. induction t as [|x t IH]; simpl; [reflexivity|].
  destruct (p x); simpl; [discriminate|auto].
Qed.

Lemma update_none (p : R -> bool) (f : R -> R) (t : list R) :
  existsb p t = false -> Sqlite.update p f t = (t, 0).
Proof.
  intros Hn. unfold Sqlite.update. rewrite (count_zero _ _ Hn). f_equal.
  induction t as [|x t IH]; simpl in *; [reflexivity|].
  destruct (p x); simpl in *; [discriminate|]. now rewrite IH.
Qed.
End SqliteFacts.

(** ** The record-store primitive *)

Section NunchukDbFacts.

Lemma find_upsert_same {V : Type} (k : Z) (v : V) (t : list (Z * V)) :
  List.find (fun r => fst r =? k)
            (fst (Sqlite.upsert same_id (k, v) (fun _ => (k, v)) t))
  = Some (k, v).
Proof.
  unfold Sqlite.upsert.
  destruct (existsb (same_id (k, v)) t) eqn:He; simpl.
  - induction t as [|[k' v'] t IH]; simpl in *; [discriminate|].
    unfold same_id in *; simpl in *.
    destruct (k =? k') eqn:Hk; simpl.
    + now rewrite Z.eqb_refl.
    + rewrite Z.eqb_sym, Hk. auto.
  - rewrite find_app_r.
    + simpl. now rewrite Z.eqb_refl.
    + apply find_none_existsb.
      rewrite <- He. clear He. induction t as [|[k' v'] t IH]; simpl; auto.
      unfold same_id; simpl. now rewrite IH, Z.eqb_sym.
Qed.

Lemma find_upsert_other {V : Type} (k k' : Z) (v : V) (t : list (Z * V)) :
  k' <> k ->
  List.find (fun r => fst r =? k')
            (fst (Sqlite.upsert same_id (k, v) (fun _ => (k, v)) t))
  = List.find (fun r => fst r =? k') t.
Proof.
  intros Hne. unfold Sqlite.upsert.
  destruct (existsb (same_id (k, v)) t) eqn:He; simpl.
  - clear He. induction t as [|[k1 v1] t IH]; simpl; [reflexivity|].
    unfold same_id; simpl.
    destruct (k =? k1) eqn:Hk; simpl.
    + apply Z.eqb_eq in Hk. subst k1.
      destruct (k =? k') eqn:Hk'; [apply Z.eqb_eq in Hk'; congruence|].
      exact IH.
    + destruct (k1 =? k'); [reflexivity|exact IH].
  - destruct (List.find (fun r => fst r =? k') t) as [r|] eqn:Hf.
    + now apply find_app_l.
    + rewrite find_app_r by exact Hf. simpl.
      destruct (k =? k') eqn:Hk'; [apply Z.eqb_eq in Hk'; congruence|].
      reflexivity.
Qed.

Lemma upsert_changes {V : Type} (r : Z * V) (f : Z * V -> Z * V)
    (t : list (Z * V)) :
  snd (Sqlite.upsert same_id r f t) = 1.
Proof. unfold Sqlite.upsert. now destruct (existsb _ t). Qed.

(** C7, as the code has it.  On a store whose tables exist, [PutString]
    and [PutInt] insert the key or overwrite its value: afterwards the
    key reads back as the value written (a text up to its first NUL
    byte) and every other key reads as before.  The boolean result is
    [true] on every such write, also when the value written is the one
    already stored: it reports that one row was written, not that the
    value differed. *)
Theorem PutString_PutInt_upsert (db : NunchukDb) (key : Z) (text : string)
    (number : Z)
    (Hstr : TableExists (VSTR db) = true)
    (Hint : TableExists (VINT db) = true) :
  (fst (PutString key text db) = true
   /\ GetString key (snd (PutString key text db)) = cstr text
   /\ forall k, k <> key ->
        GetString k (snd (PutString key text db)) = GetString k db)
  /\ (fst (PutInt key number db) = true
      /\ GetInt key (snd (PutInt key number db)) = number
      /\ forall k, k <> key ->
           GetInt k (snd (PutInt key number db)) = GetInt k db).
Proof.
  destruct db as [i [s|] [n|] c]; try discriminate. clear Hstr Hint.
  unfold PutString, PutInt, GetString, GetInt, Sqlite.exec; simpl.
  split.
  - pose proof (find_upsert_same key text s) as Hs.
    pose proof (upsert_changes (key, text) (fun _ => (key, text)) s) as Hc.
    destruct (Sqlite.upsert same_id (key, text) _ s) as [t' c'] eqn:Hu.
    simpl in *. subst c'. split; [reflexivity|]. split.
    + now rewrite Hs.
    + intros k Hk. pose proof (find_upsert_other key k text s Hk) as Ho.
      rewrite Hu in Ho. simpl in Ho. now rewrite Ho.
  - pose proof (find_upsert_same key number n) as Hs.
    pose proof (upsert_changes (key, number) (fun _ => (key, number)) n) as Hc.
    destruct (Sqlite.upsert same_id (key, number) _ n) as [t' c'] eqn:Hu.
    simpl in *. subst c'. split; [reflexivity|]. split.
    + now rewrite Hs.
    + intros k Hk. pose proof (find_upsert_other key k number n Hk) as Ho.
      rewrite Hu in Ho. simpl in Ho. now rewrite Ho.
Qed.

(** C7, as the claim states it, fails: a store that already holds the
    text [name] under key 2 and the number 3 under key 1 answers [true]
    to writing exactly these values again. *)
Lemma PutString_PutInt_same_value_true :
  let db := mkNunchukDb "wallet" (Some [(2, "name")]) (Some [(1, 3)]) 0 in
  GetString 2 db = "name" /\ fst (PutString 2 "name" db) = true
  /\ GetInt 1 db = 3 /\ fst (PutInt 1 3 db) = true.
Proof. vm_compute. repeat split. Qed.

Lemma PutString_PutInt_upsert_witness :
  let db := mkNunchukDb "wallet" (Some [(2, "name")]) (Some [(1, 3)]) 0 in
  fst (PutString 2 "renamed" db) = true
  /\ GetString 2 (snd (PutString 2 "renamed" db)) = "renamed"
  /\ fst (PutInt 1 4 db) = true.
Proof.
  intros db.
  destruct (PutString_PutInt_upsert db 2 "renamed" 4 eq_refl eq_refl)
    as [(Hs & Hg & _) (Hi & _ & _)].
  split; [exact Hs|]. split; [exact Hg|exact Hi].
Defined.
End NunchukDbFacts.

(** ** The address ledger *)

Section AddressLedger.
Context `{DbKeys} `{TxCodec} `{TxUtils}.
Import WalletHistory.

Lemma ledger_le_refl a t : ledger_le a t t.
Proof. intros r Hr. eauto. Qed.

Lemma ledger_le_trans a t1 t2 t3 :
  ledger_le a t1 t2 -> ledger_le a t2 t3 -> ledger_le a t1 t3.
Proof.
  intros H12 H23 r Hr. destruct (H12 r Hr) as (r2 & Hr2 & Hi2 & Hn2 & Hu2).
  destruct (H23 r2 Hr2) as (r3 & Hr3 & Hi3 & Hn3 & Hu3).
  exists r3. repeat split; [assumption|congruence|congruence|auto].
Qed.

Lemma find_map_keeping (a : string) (p : ADDRESS.row -> bool)
    (f : ADDRESS.row -> ADDRESS.row) (rows : list ADDRESS.row) r :
  (forall x, ADDRESS.ADDR (f x) = ADDRESS.ADDR x) ->
  List.find (addr_is a) rows = Some r ->
  List.find (addr_is a) (map (fun x => if p x then f x else x) rows)
  = Some (if p r then f r else r).
Proof.
  intros Hf. induction rows as [|x rows IH]; simpl; [discriminate|].
  intros Hr.
  assert (addr_is a (if p x then f x else x) = addr_is a x) as ->
    by (unfold addr_is; destruct (p x); rewrite ?Hf; auto).
  destruct (addr_is a x); [now inversion Hr|auto].
Qed.

Lemma ledger_le_update a p f t c :
  (forall x, ADDRESS.ADDR (f x) = ADDRESS.ADDR x) ->
  (forall x, ADDRESS.IDX (f x) = ADDRESS.IDX x) ->
  (forall x, ADDRESS.INTERNAL (f x) = ADDRESS.INTERNAL x) ->
  (forall x, ADDRESS.USED x = 1 -> ADDRESS.USED (f x) = 1) ->
  ledger_le a t (fst (Sqlite.exec (Sqlite.update p f) t c)).
Proof.
  intros Hk Hi Hn Hu. destruct t as [rows|]; simpl; [|apply ledger_le_refl].
  intros r Hr. simpl in Hr.
  exists (if p r then f r else r). split.
  - now apply find_map_keeping.
  - destruct (p r); auto.
Qed.

Lemma ledger_le_insert a r0 t c :
  ledger_le a t (fst (Sqlite.exec (Sqlite.insert WalletDb.same_ADDR r0) t c)).
Proof.
  destruct t as [rows|]; simpl; [|apply ledger_le_refl].
  unfold Sqlite.insert. destruct (existsb _ rows); simpl.
  - apply ledger_le_refl.
  - intros r Hr. simpl in Hr. exists r. split; [|auto].
    simpl. now apply find_app_l.
Qed.

Lemma exec_ADDRESS_table stmt db :
  ADDRESS (WalletDb.exec_ADDRESS stmt db)
  = fst (Sqlite.exec stmt (ADDRESS db) (changes (wdb db))).
Proof.
  unfold WalletDb.exec_ADDRESS.
  now destruct (Sqlite.exec stmt (ADDRESS db) (changes (wdb db))).
Qed.

Lemma exec_VTX_ADDRESS stmt db :
  ADDRESS (WalletDb.exec_VTX stmt db) = ADDRESS db.
Proof.
  unfold WalletDb.exec_VTX.
  now destruct (Sqlite.exec stmt (VTX db) (changes (wdb db))).
Qed.

Lemma exec_SIGNER_ADDRESS stmt db :
  ADDRESS (WalletDb.exec_SIGNER stmt db) = ADDRESS db.
Proof.
  unfold WalletDb.exec_SIGNER.
  now destruct (Sqlite.exec stmt (SIGNER db) (changes (wdb db))).
Qed.

Lemma UseAddress_le a address db :
  ledger_le a (ADDRESS db) (ADDRESS (snd (WalletDb.UseAddress address db))).
Proof.
  unfold WalletDb.UseAddress. destruct (string_empty address); simpl.
  - apply ledger_le_refl.
  - rewrite exec_ADDRESS_table. apply ledger_le_update; auto.
Qed.

Lemma UseAddresses_le a outputs db :
  ledger_le a (ADDRESS db) (ADDRESS (WalletDb.UseAddresses outputs db)).
Proof.
  unfold WalletDb.UseAddresses. revert db.
  induction outputs as [|o outputs IH]; intros db; simpl.
  - apply ledger_le_refl.
  - eapply ledger_le_trans; [apply UseAddress_le|apply IH].
Qed.

Lemma SetReplacedBy_ADDRESS o n db :
  ADDRESS (snd (WalletDb.SetReplacedBy o n db)) = ADDRESS db.
Proof.
  unfold WalletDb.SetReplacedBy.
  destruct (Sqlite.first_row _ (VTX db)) as [r|]; [|reflexivity].
  destruct (VTX.EXTRA r); [|reflexivity]. simpl. apply exec_VTX_ADDRESS.
Qed.

Lemma persist_signers_ADDRESS t m h db :
  ADDRESS (snd (WalletDb.persist_signers t m h db)) = ADDRESS db.
Proof.
  unfold WalletDb.persist_signers.
  destruct (h <=? 0); [|reflexivity].
  destruct (Sqlite.first_row _ (VTX db)) as [r|]; [|reflexivity].
  destruct (VTX.EXTRA r) as [e|]; [|reflexivity]. simpl.
  destruct (ex_replace_txid e) as [o|]; [|reflexivity].
  pose proof (SetReplacedBy_ADDRESS o t db) as Hs.
  destruct (WalletDb.SetReplacedBy o t db) as [res db']. exact Hs.
Qed.

Lemma call_le a c db :
  ledger_le a (ADDRESS db) (ADDRESS (WalletHistory.call c db)).
Proof.
  destruct c; simpl.
  - unfold WalletDb.AddSigner.
    destruct (WalletDb.GetSingleSignerKey signer) as [[[x p] d] f]. simpl.
    rewrite exec_SIGNER_ADDRESS. apply ledger_le_refl.
  - unfold WalletDb.AddAddress. simpl. rewrite exec_ADDRESS_table.
    apply ledger_le_insert.
  - apply UseAddress_le.
  - unfold WalletDb.SetUtxos. simpl. rewrite exec_ADDRESS_table.
    apply ledger_le_update; auto.
  - unfold WalletDb.InsertTransaction.
    destruct (SQLCHECK _) as [[]|e0]; simpl;
      [|rewrite exec_VTX_ADDRESS; apply ledger_le_refl].
    destruct (WalletDb.GetTransaction _ _) as [tx|e]; simpl.
    + destruct (height >? 0); simpl.
      * eapply ledger_le_trans; [|apply UseAddresses_le].
        rewrite exec_VTX_ADDRESS. apply ledger_le_refl.
      * rewrite exec_VTX_ADDRESS. apply ledger_le_refl.
    + rewrite exec_VTX_ADDRESS. apply ledger_le_refl.
  - unfold WalletDb.UpdateTransaction.
    destruct (height =? -1); [apply ledger_le_refl|].
    pose proof (persist_signers_ADDRESS
                  (GetHash (DecodeRawTransaction raw_tx)) reject_msg height db)
      as Hp.
    destruct (WalletDb.persist_signers _ _ _ db) as [[extra|e] db1];
      simpl in Hp; simpl; [|rewrite Hp; apply ledger_le_refl].
    match goal with
    | |- context [WalletDb.exec_VTX ?s db1] =>
      set (db2 := WalletDb.exec_VTX s db1)
    end.
    assert (ADDRESS db2 = ADDRESS db) as H2
      by (unfold db2; rewrite exec_VTX_ADDRESS; exact Hp).
    destruct (WalletDb.updated db2 && (height >? 0)).
    + destruct (WalletDb.GetTransaction _ db2) as [tx|e]; simpl.
      * rewrite <- H2. apply UseAddresses_le.
      * rewrite H2. apply ledger_le_refl.
    + simpl. rewrite H2. apply ledger_le_refl.
  - unfold WalletDb.UpdateTransactionMemo. simpl.
    rewrite exec_VTX_ADDRESS. apply ledger_le_refl.
  - unfold WalletDb.DeleteTransaction. simpl.
    rewrite exec_VTX_ADDRESS. apply ledger_le_refl.
Qed.

Lemma calls_le a cs db :
  ledger_le a (ADDRESS db) (ADDRESS (WalletHistory.calls cs db)).
Proof.
  unfold WalletHistory.calls. revert db.
  induction cs as [|c cs IH]; intros db; simpl.
  - apply ledger_le_refl.
  - eapply ledger_le_trans; [apply call_le|apply IH].
Qed.

Lemma address_used_le a db db' :
  ledger_le a (ADDRESS db) (ADDRESS db') ->
  WalletHistory.address_used a db = true ->
  WalletHistory.address_used a db' = true.
Proof.
  unfold WalletHistory.address_used. intros Hle.
  fold (addr_is a).
  destruct (Sqlite.first_row (addr_is a) (ADDRESS db)) as [r|] eqn:Hr;
    [|discriminate].
  intros Hu. apply Z.eqb_eq in Hu.
  destruct (Hle r Hr) as (r' & Hr' & _ & _ & Hk). rewrite Hr'.
  apply Z.eqb_eq. auto.
Qed.
End AddressLedger.

Section UseAddressTwice.
Context `{DbKeys} `{TxCodec} `{TxUtils}.
Import WalletHistory.

Lemma count_addr_unique a (rows : list ADDRESS.row) :
  NoDup (map ADDRESS.ADDR rows) -> In a (map ADDRESS.ADDR rows) ->
  Sqlite.count (fun r => String.eqb (ADDRESS.ADDR r) a) rows = 1.
Proof.
  unfold Sqlite.count. induction rows as [|x rows IH]; simpl; [tauto|].
  intros Hnd Hin. inversion Hnd as [|? ? Hx Hnd']; subst.
  destruct (String.eqb (ADDRESS.ADDR x) a) eqn:He.
  - apply String.eqb_eq in He. subst a. simpl.
    assert (existsb (fun r => String.eqb (ADDRESS.ADDR r) (ADDRESS.ADDR x))
                    rows = false) as Hno.
    { apply not_true_is_false. intros Hex. apply existsb_exists in Hex.
      destruct Hex as (y & Hy & Hey). apply String.eqb_eq in Hey.
      apply Hx. rewrite <- Hey. apply list_elem_of_In. now apply in_map. }
    pose proof (count_zero _ _ Hno) as Hz. unfold Sqlite.count in Hz. lia.
  - destruct Hin as [Hin|Hin]; [apply String.eqb_neq in He; congruence|].
    now apply IH.
Qed.

Lemma map_set_USED_twice a (rows : list ADDRESS.row) :
  map (mark_used a) (map (mark_used a) rows) = map (mark_used a) rows.
Proof.
  rewrite map_map. apply map_ext. intros r. unfold mark_used.
  destruct (String.eqb (ADDRESS.ADDR r) a) eqn:He; simpl; [|now rewrite He].
  now rewrite He.
Qed.

Lemma count_map_keeping a f (rows : list ADDRESS.row) :
  (forall x, ADDRESS.ADDR (f x) = ADDRESS.ADDR x) ->
  Sqlite.count (fun r => String.eqb (ADDRESS.ADDR r) a) (map f rows)
  = Sqlite.count (fun r => String.eqb (ADDRESS.ADDR r) a) rows.
Proof.
  intros Hf. unfold Sqlite.count. f_equal.
  induction rows as [|x rows IH]; simpl; [reflexivity|].
  rewrite Hf. destruct (String.eqb (ADDRESS.ADDR x) a); simpl; now rewrite IH.
Qed.

Lemma find_addr_in a (rows : list ADDRESS.row) :
  In a (map ADDRESS.ADDR rows) ->
  exists r, List.find (addr_is a) rows = Some r /\ ADDRESS.ADDR r = a.
Proof.
  induction rows as [|x rows IH]; simpl; [tauto|].
  unfold addr_is at 1. destruct (String.eqb (ADDRESS.ADDR x) a) eqn:He.
  - apply String.eqb_eq in He. eauto.
  - intros [Hin|Hin]; [apply String.eqb_neq in He; congruence|auto].
Qed.

Lemma UseAddress_recorded (db : NunchukWalletDb) (address : string)
    (rows : list ADDRESS.row) :
  ADDRESS db = Some rows ->
  Sqlite.count (fun r => String.eqb (ADDRESS.ADDR r) address) rows = 1 ->
  address <> EmptyString ->
  WalletDb.UseAddress address db
  = (true, mkNunchukWalletDb (set_changes 1 (wdb db)) (IMMUTABLE_DATA db)
             (VTX db) (Some (map (mark_used address) rows)) (SIGNER db)).
Proof.
  intros Hledger Hc Hne.
  assert (string_empty address = false) as He
    by (destruct address; [congruence|reflexivity]).
  unfold WalletDb.UseAddress. rewrite He.
  unfold WalletDb.exec_ADDRESS, WalletDb.updated. rewrite Hledger. simpl.
  unfold Sqlite.update. rewrite Hc. reflexivity.
Qed.

(** C4, as the code has it.  For a non-empty address recorded in the
    ledger, [UseAddress] returns [true] and sets the flag; a second call
    leaves the store exactly as the first left it, and returns [true]
    again, since the row is matched again; after the first call the flag
    stays set whatever calls follow. *)
Theorem UseAddress_idempotent (db : NunchukWalletDb) (address : string)
    (rows : list ADDRESS.row) (later : list Call)
    (Hledger : ADDRESS db = Some rows)
    (Hkey : NoDup (map ADDRESS.ADDR rows))
    (Hnonempty : address <> EmptyString)
    (Hrecorded : In address (map ADDRESS.ADDR rows)) :
  let first := WalletDb.UseAddress address db in
  let second := WalletDb.UseAddress address (snd first) in
  fst first = true
  /\ address_used address (snd first) = true
  /\ fst second = true
  /\ snd second = snd first
  /\ address_used address (calls later (snd first)) = true.
Proof.
  intros first second.
  pose proof (count_addr_unique address rows Hkey Hrecorded) as Hc.
  pose proof (UseAddress_recorded db address rows Hledger Hc Hnonempty)
    as Hfirst.
  fold first in Hfirst.
  assert (Sqlite.count (fun r => String.eqb (ADDRESS.ADDR r) address)
                       (map (mark_used address) rows) = 1) as Hc'.
  { rewrite count_map_keeping; [exact Hc|].
    intros x. unfold mark_used. now destruct (String.eqb _ _). }
  assert (second = first) as Hsecond.
  { unfold second. rewrite Hfirst. simpl.
    erewrite (UseAddress_recorded _ address (map (mark_used address) rows));
      [|reflexivity|exact Hc'|exact Hnonempty].
    simpl. unfold set_changes. simpl.
    rewrite (map_set_USED_twice address rows). reflexivity. }
  assert (address_used address (snd first) = true) as Hused.
  { rewrite Hfirst. unfold address_used. simpl.
    destruct (find_addr_in address rows Hrecorded) as (r & Hr & Ha).
    assert (List.find (fun r => String.eqb (ADDRESS.ADDR r) address)
                      (map (mark_used address) rows)
            = Some (mark_used address r)) as ->
      by exact (find_map_keeping address
                  (fun r => String.eqb (ADDRESS.ADDR r) address)
                  WalletDb.set_USED rows r (fun _ => eq_refl) Hr).
    unfold mark_used. rewrite Ha, String.eqb_refl. reflexivity. }
  rewrite Hsecond. split; [now rewrite Hfirst|].
  split; [exact Hused|]. split; [now rewrite Hfirst|].
  split; [reflexivity|].
  eapply address_used_le; [apply calls_le|exact Hused].
Qed.

End UseAddressTwice.

(** C4, as the claim states it, fails: on a ledger that records the
    address, the second [UseAddress] returns [true], not [false]. *)
Lemma UseAddress_second_call_true :
  let db := mkNunchukWalletDb (mkNunchukDb "wallet" (Some []) (Some []) 0)
              None (Some [])
              (Some [ADDRESS.mk "bc1qaddress" 0 0 0 None]) (Some []) in
  let first := WalletDb.UseAddress "bc1qaddress" db in
  let second := WalletDb.UseAddress "bc1qaddress" (snd first) in
  WalletHistory.in_ledger "bc1qaddress" db = true
  /\ fst first = true /\ fst second = true.
Proof. vm_compute. repeat split. Qed.

Lemma UseAddress_idempotent_witness :
  let db := mkNunchukWalletDb (mkNunchukDb "wallet" (Some []) (Some []) 0)
              None (Some [])
              (Some [ADDRESS.mk "bc1qaddress" 0 0 0 None]) (Some []) in
  let later := [WalletHistory.CallAddAddress "bc1qaddress" 5 true;
                WalletHistory.CallSetUtxos "bc1qaddress" []] in
  snd (WalletDb.UseAddress "bc1qaddress"
         (snd (WalletDb.UseAddress "bc1qaddress" db)))
  = snd (WalletDb.UseAddress "bc1qaddress" db)
  /\ WalletHistory.address_used "bc1qaddress"
       (@WalletHistory.calls (SpecModel.codec []) SpecModel.txutils later
          (snd (WalletDb.UseAddress "bc1qaddress" db))) = true.
Proof.
  intros db later.
  assert (NoDup (map ADDRESS.ADDR [ADDRESS.mk "bc1qaddress" 0 0 0 None]))
    as Hkey by (apply NoDup_singleton).
  assert ("bc1qaddress" <> EmptyString) as Hne by discriminate.
  assert (In "bc1qaddress"
             (map ADDRESS.ADDR [ADDRESS.mk "bc1qaddress" 0 0 0 None]))
    as Hin by (simpl; tauto).
  destruct (@UseAddress_idempotent (SpecModel.codec []) SpecModel.txutils
              db "bc1qaddress" _ later eq_refl Hkey Hne Hin)
    as (_ & _ & _ & Hsame & Hlater).
  split; [exact Hsame|exact Hlater].
Defined.

(** ** Unspent outputs and balance *)

Section UnspentOutputs.
Context `{DbKeys} `{TxCodec} `{TxUtils}.

Lemma is_locked_In (locked : list WalletDb.outpoint) (o : WalletDb.outpoint) :
  In o locked -> WalletDb.is_locked locked o = true.
Proof.
  intros Hin. unfold WalletDb.is_locked. apply existsb_exists.
  exists o. split; [exact Hin|].
  now rewrite String.eqb_refl, Z.eqb_refl.
Qed.

Lemma scan_transaction_locked_mono b f sc tx o :
  In o (WalletDb.locked_utxos sc) ->
  In o (WalletDb.locked_utxos (WalletDb.scan_transaction b f sc tx)).
Proof.
  intros Hin. unfold WalletDb.scan_transaction.
  destruct (negb (get_height tx =? 0)); simpl; [exact Hin|].
  destruct b; rewrite ?in_app_iff; auto.
Qed.

Lemma fold_scan_locked_mono b f txs sc o :
  In o (WalletDb.locked_utxos sc) ->
  In o (WalletDb.locked_utxos
          (fold_left (WalletDb.scan_transaction b f) txs sc)).
Proof.
  revert sc. induction txs as [|tx txs IH]; intros sc Hin; simpl; [exact Hin|].
  apply IH. now apply scan_transaction_locked_mono.
Qed.

Lemma fold_scan_locks_inputs f txs sc tx o :
  In tx txs -> get_height tx = 0 -> In o (get_inputs tx) ->
  In o (WalletDb.locked_utxos
          (fold_left (WalletDb.scan_transaction true f) txs sc)).
Proof.
  revert sc. induction txs as [|x txs IH]; intros sc Htx Hh Ho; simpl;
    [destruct Htx|].
  destruct Htx as [->|Htx]; [|now apply IH].
  apply fold_scan_locked_mono. unfold WalletDb.scan_transaction.
  rewrite Hh. simpl. rewrite in_app_iff. now right.
Qed.

Lemma fold_scan_rs b f txs sc :
  WalletDb.rs (fold_left (WalletDb.scan_transaction b f) txs sc)
  = WalletDb.rs sc
    ++ flat_map (WalletDb.change_outputs f)
                (List.filter (fun tx => get_height tx =? 0) txs).
Proof.
  revert sc. induction txs as [|x txs IH]; intros sc; simpl.
  - now rewrite app_nil_r.
  - rewrite IH. unfold WalletDb.scan_transaction.
    destruct (get_height x =? 0); simpl; [|reflexivity].
    now rewrite <- app_assoc.
Qed.

(** C5, as the code has it.  The result of [GetUnspentOutputs(true)] is
    the change outputs the first loop adds by hand for the transactions
    stored at height 0, followed by the outputs [listed] from the
    snapshots persisted for the addresses.  Every listed output is an
    entry of the snapshot of its address, and none is an input of a
    transaction of the wallet stored at height 0.  The balance adds up,
    over that result, the outputs whose height is above 0 and those at an
    unused change address. *)
Theorem GetUnspentOutputs_excludes_unconfirmed_inputs (db : NunchukWalletDb)
    (txs : list Transaction)
    (Htxs : WalletDb.GetTransactions db = Ok txs) :
  let is_change :=
    fun a => existsb (String.eqb a) (WalletDb.GetAddresses false true db) in
  let added :=
    flat_map (WalletDb.change_outputs is_change)
             (List.filter (fun tx => get_height tx =? 0) txs) in
  let listed :=
    WalletDb.scan_snapshots (WalletDb.scan_transactions true is_change txs)
                            db in
  WalletDb.GetUnspentOutputs true db = Ok (added ++ listed)
  /\ (forall u, In u listed ->
        (exists r snapshot item,
            Sqlite.all_rows (fun _ => true) (ADDRESS db) <> []
            /\ In r (Sqlite.all_rows (fun _ => true) (ADDRESS db))
            /\ ADDRESS.UTXO r = Some snapshot /\ In item snapshot
            /\ WalletDb.utxo_outpoint item
               = (UnspentOutput.get_txid u, UnspentOutput.get_vout u)
            /\ UnspentOutput.get_address u = cstr (ADDRESS.ADDR r))
        /\ forall tx, In tx txs -> get_height tx = 0 ->
             ~ In (UnspentOutput.get_txid u, UnspentOutput.get_vout u)
                  (get_inputs tx))
  /\ WalletDb.GetBalance db
     = Ok (WalletDb.sum_amounts
             (map UnspentOutput.get_amount
                (List.filter
                   (fun u => (UnspentOutput.get_height u >? 0)
                             || is_change (UnspentOutput.get_address u))
                   (added ++ listed)))).
Proof.
  intros is_change added listed.
  assert (WalletDb.GetUnspentOutputs true db = Ok (added ++ listed)) as Hget.
  { unfold WalletDb.GetUnspentOutputs. rewrite Htxs. simpl.
    fold is_change. unfold WalletDb.scan_transactions at 1.
    rewrite fold_scan_rs. simpl. reflexivity. }
  split; [exact Hget|]. split.
  - intros u Hu. unfold listed, WalletDb.scan_snapshots in Hu.
    apply in_flat_map in Hu. destruct Hu as (r & Hr & Hu).
    destruct (ADDRESS.UTXO r) as [snapshot|] eqn:Hs; [|destruct Hu].
    unfold WalletDb.snapshot_outputs in Hu.
    apply in_flat_map in Hu. destruct Hu as (item & Hitem & Hu).
    destruct (WalletDb.is_locked _ (WalletDb.utxo_outpoint item)) eqn:Hl;
      [destruct Hu|].
    destruct Hu as [<-|[]]. simpl. split.
    + exists r, snapshot, item. repeat split; auto.
      * intros Hnil. rewrite Hnil in Hr. destruct Hr.
      * now destruct (WalletDb.utxo_outpoint item).
    + intros tx Htx Hh Hin.
      assert (WalletDb.is_locked
                (WalletDb.locked_utxos
                   (WalletDb.scan_transactions true is_change txs))
                (WalletDb.utxo_outpoint item) = true) as Hl'.
      { apply is_locked_In. unfold WalletDb.scan_transactions.
        eapply fold_scan_locks_inputs; eauto.
        now destruct (WalletDb.utxo_outpoint item). }
      congruence.
  - unfold WalletDb.GetBalance. rewrite Hget. reflexivity.
Qed.
End UnspentOutputs.


(** C5, as the claim states it, fails: the output [t1:0] is consumed as
    an input by the wallet's own draft [d1], and [GetUnspentOutputs(true)]
    returns it all the same; [t2:1], consumed by the broadcast
    transaction [b1] at height 0, is the one left out. *)
Lemma GetUnspentOutputs_lists_input_of_draft :
  exists draft sent,
    @WalletDb.GetTransactions C5Example.codec SpecModel.txutils C5Example.db
    = Ok [draft; sent]
    /\ get_height draft = -1 /\ get_status draft = PENDING_SIGNATURES
    /\ In ("t1", 0) (get_inputs draft)
    /\ @WalletDb.GetUnspentOutputs C5Example.codec SpecModel.txutils true
         C5Example.db
       = Ok [UnspentOutput.mk "t1" 0 "addr1" 1000 0 EmptyString].
Proof.
  eexists. eexists. split; [vm_compute; reflexivity|].
  vm_compute. repeat split. now left.
Qed.

Lemma GetUnspentOutputs_excludes_unconfirmed_inputs_witness :
  @WalletDb.GetTransactions C5Example.codec SpecModel.txutils C5Example.db
  = Ok C5Example.transactions
  /\ exists utxos balance,
       @WalletDb.GetUnspentOutputs C5Example.codec SpecModel.txutils true
         C5Example.db = Ok utxos
       /\ @WalletDb.GetBalance C5Example.codec SpecModel.txutils C5Example.db
          = Ok balance.
Proof.
  assert (@WalletDb.GetTransactions C5Example.codec SpecModel.txutils
            C5Example.db = Ok C5Example.transactions) as Htxs
    by (vm_compute; reflexivity).
  split; [exact Htxs|].
  destruct (@GetUnspentOutputs_excludes_unconfirmed_inputs
              C5Example.codec SpecModel.txutils C5Example.db _ Htxs)
    as (Hget & _ & Hbalance).
  eexists. eexists. split; [exact Hget|exact Hbalance].
Defined.

(** ** The derived-key cache *)

Section KeyCache.
Context `{DbKeys} `{Bip32}.
Import SignerHistory.

Lemma exec_BIP32_table stmt db :
  BIP32 (SignerDb.exec_BIP32 stmt db)
  = fst (Sqlite.exec stmt (BIP32 db) (changes (sdb db))).
Proof.
  unfold SignerDb.exec_BIP32.
  now destruct (Sqlite.exec stmt (BIP32 db) (changes (sdb db))).
Qed.

Lemma exec_BIP32_chain stmt db :
  chain_ (SignerDb.exec_BIP32 stmt db) = chain_ db.
Proof.
  unfold SignerDb.exec_BIP32.
  now destruct (Sqlite.exec stmt (BIP32 db) (changes (sdb db))).
Qed.

Lemma exec_REMOTE_BIP32 stmt db :
  BIP32 (SignerDb.exec_REMOTE stmt db) = BIP32 db.
Proof.
  unfold SignerDb.exec_REMOTE.
  now destruct (Sqlite.exec stmt (REMOTE db) (changes (sdb db))).
Qed.


Lemma paths_map_keeping (p : BIP32.row -> bool) (f : BIP32.row -> BIP32.row)
    (rows : list BIP32.row) :
  (forall x, BIP32.PATH (f x) = BIP32.PATH x) ->
  map BIP32.PATH (map (fun x => if p x then f x else x) rows)
  = map BIP32.PATH rows.
Proof.
  intros Hf. rewrite map_map. apply map_ext. intros x.
  destruct (p x); auto.
Qed.

Lemma find_path_map_keeping path (p : BIP32.row -> bool)
    (f : BIP32.row -> BIP32.row) (rows : list BIP32.row) r :
  (forall x, BIP32.PATH (f x) = BIP32.PATH x) ->
  List.find (path_is path) rows = Some r ->
  List.find (path_is path) (map (fun x => if p x then f x else x) rows)
  = Some (if p r then f r else r).
Proof.
  intros Hf. induction rows as [|x rows IH]; simpl; [discriminate|].
  intros Hr.
  assert (path_is path (if p x then f x else x) = path_is path x) as ->
    by (unfold path_is; destruct (p x); rewrite ?Hf; auto).
  destruct (path_is path x); [now inversion Hr|auto].
Qed.

Lemma no_row_of_path path (rows : list BIP32.row) :
  path ∉ map BIP32.PATH rows ->
  existsb (path_is path) rows = false.
Proof.
  intros Hno. apply not_true_is_false. intros Hex.
  apply existsb_exists in Hex. destruct Hex as (y & Hy & Hey).
  apply String.eqb_eq in Hey. apply Hno. rewrite <- Hey.
  apply list_elem_of_In. now apply in_map.
Qed.

Lemma existsb_weaken {A : Type} (p q : A -> bool) (l : list A) :
  (forall x, p x = true -> q x = true) ->
  existsb q l = false -> existsb p l = false.
Proof.
  intros Hpq Hq. apply not_true_is_false. intros Hp.
  apply existsb_exists in Hp. destruct Hp as (x & Hx & Hpx).
  assert (existsb q l = true) by (apply existsb_exists; eauto). congruence.
Qed.

(** Under the key constraint, the rows matched by [UseIndex] are the
    first row of the path when that row is unallocated, and none
    otherwise. *)
Lemma count_unallocated path (rows : list BIP32.row) :
  NoDup (map BIP32.PATH rows) ->
  Sqlite.count (fun r => String.eqb (BIP32.PATH r) path
                         && (BIP32.USED r =? -1)) rows
  = match List.find (path_is path) rows with
    | Some r => if BIP32.USED r =? -1 then 1 else 0
    | None => 0
    end.
Proof.
  induction rows as [|x rows IH]; simpl; [reflexivity|].
  intros Hnd. apply NoDup_cons in Hnd. destruct Hnd as [Hx Hnd].
  unfold path_is at 1. unfold Sqlite.count in *. simpl.
  destruct (String.eqb (BIP32.PATH x) path) eqn:He; simpl.
  - apply String.eqb_eq in He. subst path.
    assert (existsb (fun r => String.eqb (BIP32.PATH r) (BIP32.PATH x)
                              && (BIP32.USED r =? -1)) rows = false) as Hno.
    { eapply existsb_weaken; [|apply (no_row_of_path _ _ Hx)].
      intros y Hy. apply andb_true_iff in Hy. apply Hy. }
    pose proof (count_zero _ _ Hno) as Hz. unfold Sqlite.count in Hz.
    destruct (BIP32.USED x =? -1); simpl; lia.
  - now apply IH.
Qed.

Lemma UseIndex_table wallet_type address_type index db rows :
  BIP32 db = Some rows ->
  let path := GetBip32Path (chain_ db) wallet_type address_type index in
  let p := fun r => String.eqb (BIP32.PATH r) path && (BIP32.USED r =? -1) in
  SignerDb.UseIndex wallet_type address_type index db
  = (Sqlite.count p rows =? 1,
     mkNunchukSignerDb (set_changes (Sqlite.count p rows) (sdb db)) (chain_ db)
       (Some (map (fun r => if p r then SignerDb.set_USED r else r) rows))
       (REMOTE db)).
Proof.
  intros Hrows path p. unfold SignerDb.UseIndex, SignerDb.exec_BIP32.
  rewrite Hrows. reflexivity.
Qed.


Lemma cache_le_refl path t : cache_le path t t.
Proof. intros r Hr. eauto. Qed.

Lemma cache_le_trans path t1 t2 t3 :
  cache_le path t1 t2 -> cache_le path t2 t3 -> cache_le path t1 t3.
Proof.
  intros H12 H23 r Hr. destruct (H12 r Hr) as (r2 & Hr2 & Hu2).
  destruct (H23 r2 Hr2) as (r3 & Hr3 & Hu3). eauto.
Qed.

Lemma cache_le_update path p f t c :
  (forall x, BIP32.PATH (f x) = BIP32.PATH x) ->
  (forall x, BIP32.USED x <> -1 -> BIP32.USED (f x) <> -1) ->
  cache_le path t (fst (Sqlite.exec (Sqlite.update p f) t c)).
Proof.
  intros Hk Hu. destruct t as [rows|]; simpl; [|apply cache_le_refl].
  intros r Hr. simpl in Hr. exists (if p r then f r else r). split.
  - now apply find_path_map_keeping.
  - destruct (p r); auto.
Qed.


Lemma cache_le_upsert path r0 f t c :
  (forall x, BIP32.PATH (f x) = BIP32.PATH x) ->
  (forall x, BIP32.USED x <> -1 -> BIP32.USED (f x) <> -1) ->
  cache_le path t
    (fst (Sqlite.exec (Sqlite.upsert SignerDb.same_PATH r0 f) t c)).
Proof.
  intros Hk Hu. destruct t as [rows|]; simpl; [|apply cache_le_refl].
  unfold Sqlite.upsert. destruct (existsb _ rows); simpl.
  - intros r Hr. simpl in Hr.
    exists (if SignerDb.same_PATH r0 r then f r else r). split.
    + now apply find_path_map_keeping.
    + destruct (SignerDb.same_PATH r0 r); auto.
  - intros r Hr. simpl in Hr. exists r. split; [|auto].
    simpl. now apply find_app_l.
Qed.

Lemma unique_upsert r0 f t c :
  (forall x, BIP32.PATH (f x) = BIP32.PATH x) ->
  unique_table t ->
  unique_table (fst (Sqlite.exec (Sqlite.upsert SignerDb.same_PATH r0 f) t c)).
Proof.
  intros Hk. destruct t as [rows|]; simpl; [|auto].
  unfold Sqlite.upsert.
  destruct (existsb (SignerDb.same_PATH r0) rows) eqn:He; simpl.
  - now rewrite paths_map_keeping.
  - intros Hnd. rewrite map_app. simpl. apply NoDup_app.
    split; [exact Hnd|]. split; [|apply NoDup_singleton].
    intros x Hx Hx0. apply list_elem_of_singleton in Hx0. subst x.
    apply list_elem_of_In, in_map_iff in Hx.
    destruct Hx as (y & Hy & Hin).
    assert (existsb (SignerDb.same_PATH r0) rows = true); [|congruence].
    apply existsb_exists. exists y. split; [exact Hin|].
    unfold SignerDb.same_PATH. rewrite Hy. apply String.eqb_refl.
Qed.
End KeyCache.

Section AllocationMonotonic.
Context `{DbKeys} `{Bip32}.
Import SignerHistory.




Lemma unique_row_of_path (rows : list BIP32.row) (r x : BIP32.row) :
  NoDup (map BIP32.PATH rows) ->
  List.find (path_is (BIP32.PATH x)) rows = Some r -> In x rows -> x = r.
Proof.
  induction rows as [|y rows IH]; simpl; [tauto|].
  intros Hnd Hfind Hin. apply NoDup_cons in Hnd. destruct Hnd as [Hy Hnd].
  unfold path_is at 1 in Hfind.
  destruct (String.eqb (BIP32.PATH y) (BIP32.PATH x)) eqn:He.
  - inversion Hfind; subst y. destruct Hin as [Hin|Hin]; [auto|].
    exfalso. apply Hy. apply String.eqb_eq in He. rewrite He.
    apply list_elem_of_In. now apply in_map.
  - destruct Hin as [Hin|Hin]; [|auto].
    subst y. now rewrite String.eqb_refl in He.
Qed.


End AllocationMonotonic.



(** ** Remote entries of a signer that became a master *)

Section RemoteAfterUpgrade.
Context `{DbKeys} `{Bip32}.

Lemma PutString_id k v db : id_ (snd (PutString k v db)) = id_ db.
Proof.
  unfold PutString. now destruct (Sqlite.exec _ (VSTR db) (changes db)).
Qed.

Lemma PutInt_id k v db : id_ (snd (PutInt k v db)) = id_ db.
Proof.
  unfold PutInt. now destruct (Sqlite.exec _ (VINT db) (changes db)).
Qed.

Lemma CreateTable_id db : id_ (CreateTable db) = id_ db.
Proof. unfold CreateTable. now rewrite PutInt_id, PutString_id. Qed.

Lemma InitSigner_id name device mnemonic db :
  id_ (sdb (SignerDb.InitSigner name device mnemonic db)) = id_ (sdb db).
Proof.
  unfold SignerDb.InitSigner, SignerDb.with_sdb. simpl.
  now rewrite !PutString_id, CreateTable_id.
Qed.

Lemma find_unique_path path (rows : list REMOTE.row) r :
  NoDup (map REMOTE.PATH rows) ->
  In r rows ->
  REMOTE.PATH r = path ->
  List.find (fun x => String.eqb (REMOTE.PATH x) path) rows = Some r.
Proof.
  intros Hnd Hin Hp. induction rows as [|x rows IH]; [destruct Hin|].
  cbn [List.find]. cbn [map] in Hnd. apply NoDup_cons in Hnd as [Hx Hnd].
  destruct Hin as [->|Hin].
  - now rewrite Hp, String.eqb_refl.
  - destruct (String.eqb (REMOTE.PATH x) path) eqn:He; [|now apply IH].
    apply String.eqb_eq in He. exfalso. apply Hx.
    rewrite He, <- Hp. apply list_elem_of_In. now apply in_map.
Qed.

(** C10.  [InitSigner] on a store that holds remote entries (the upgrade
    of a remote signer to a master signer) creates the cache table, so
    [IsMaster] holds; it leaves the table of remote entries as it was;
    afterwards [GetRemoteSigners] returns the empty list, while
    [GetRemoteSigner] answers for every path exactly as before the
    upgrade: for the path of every entry of the table (the paths being
    its primary key) it returns the signer with the entry's xpub, public
    key, name, health-check time and use mark, under the path asked for
    and the id of the store; for a path without an entry it throws
    SIGNER_NOT_FOUND. *)
Theorem GetRemoteSigners_empty_after_upgrade (db : NunchukSignerDb)
    (name : string) (device : Device) (mnemonic : string) :
  let master := SignerDb.InitSigner name device mnemonic db in
  SignerDb.IsMaster master = true
  /\ REMOTE master = REMOTE db
  /\ SignerDb.GetRemoteSigners master = []
  /\ (forall path,
        SignerDb.GetRemoteSigner path master
        = SignerDb.GetRemoteSigner path db)
  /\ (forall rows r,
        REMOTE db = Some rows ->
        NoDup (map REMOTE.PATH rows) ->
        In r rows ->
        SignerDb.GetRemoteSigner (REMOTE.PATH r) master
        = Ok (mkSingleSigner (cstr (REMOTE.NAME r)) (cstr (REMOTE.XPUB r))
                (cstr (REMOTE.PUBKEY r)) (REMOTE.PATH r) (id_ (sdb db))
                (REMOTE.LAST_HEALTHCHECK r) EmptyString
                (REMOTE.USED r =? 1)))
  /\ (forall path,
        Sqlite.first_row (fun r => String.eqb (REMOTE.PATH r) path)
                         (REMOTE db) = None ->
        SignerDb.GetRemoteSigner path master
        = Throw (StorageExc StorageException.SIGNER_NOT_FOUND)).
Proof.
  intros master.
  assert (SignerDb.IsMaster master = true) as Hm.
  { unfold master, SignerDb.IsMaster.
    change (BIP32 (SignerDb.InitSigner name device mnemonic db))
      with (create_table (BIP32 db)).
    now destruct (BIP32 db). }
  assert (forall path,
             SignerDb.GetRemoteSigner path master
             = SignerDb.GetRemoteSigner path db) as Hsame.
  { intros path. unfold SignerDb.GetRemoteSigner.
    change (REMOTE master) with (REMOTE db).
    unfold master. now rewrite InitSigner_id. }
  split; [exact Hm|]. split; [reflexivity|]. split; [|split; [|split]].
  - unfold SignerDb.GetRemoteSigners. now rewrite Hm.
  - exact Hsame.
  - intros rows r Hrows Hnd Hin. rewrite Hsame.
    unfold SignerDb.GetRemoteSigner. rewrite Hrows. cbn [Sqlite.first_row].
    now rewrite (find_unique_path (REMOTE.PATH r) rows r Hnd Hin eq_refl).
  - intros path Hnone. rewrite Hsame. unfold SignerDb.GetRemoteSigner.
    now rewrite Hnone.
Qed.
End RemoteAfterUpgrade.

(** C10 on a store: a remote signer with one imported entry is listed by
    [GetRemoteSigners]; after the upgrade the list is empty and the entry
    is still returned by [GetRemoteSigner]. *)
Lemma GetRemoteSigners_empty_after_upgrade_witness :
  let remote :=
    mkNunchukSignerDb (mkNunchukDb "abcd1234" (Some []) (Some []) 0) MAIN None
      (Some [REMOTE.mk "m/48h/0h/7h" "xpubR" EmptyString "airgap" 0 (-1)]) in
  let master :=
    @SignerDb.InitSigner SpecModel.keys "ledger"
      (mkDevice "ledger" "nano" "abcd1234") EmptyString remote in
  let entry :=
    mkSingleSigner "airgap" "xpubR" EmptyString "m/48h/0h/7h" "abcd1234" 0
                   EmptyString false in
  SignerDb.GetRemoteSigners remote = [entry]
  /\ SignerDb.IsMaster master = true
  /\ SignerDb.GetRemoteSigners master = []
  /\ SignerDb.GetRemoteSigner "m/48h/0h/7h" master = Ok entry
  /\ SignerDb.GetRemoteSigner "m/48h/0h/8h" master
     = Throw (StorageExc StorageException.SIGNER_NOT_FOUND).
Proof.
  intros remote master entry.
  destruct (@GetRemoteSigners_empty_after_upgrade SpecModel.keys remote
              "ledger" (mkDevice "ledger" "nano" "abcd1234") EmptyString)
    as (Hm & _ & Hlist & _ & Hentry & Hnone).
  split; [reflexivity|]. split; [exact Hm|]. split; [exact Hlist|]. split.
  - apply (Hentry _ (REMOTE.mk "m/48h/0h/7h" "xpubR" EmptyString "airgap" 0
                                (-1)) eq_refl).
    + apply (bool_decide_unpack _). vm_compute. exact I.
    + now left.
  - apply Hnone. reflexivity.
Defined.

(** ** History reconciliation *)

Section Reconciliation.
Context `{DbKeys} `{Bip32} `{Descriptor} `{TxCodec} `{TxUtils}
        `{ElectrumClient}.

Lemma UpdateTransactions_item_confirmed chain wallet_id item s tx :
  Facade.GetTransaction chain wallet_id (item_tx_hash item) (storage_ s)
  = Ok tx ->
  get_status tx = CONFIRMED ->
  Synchronizer.UpdateTransactions_item chain wallet_id item s = (Ok tt, s).
Proof.
  intros Hget Hstatus.
  unfold Synchronizer.UpdateTransactions_item, Synchronizer.reconcile_known.
  rewrite Hget. rewrite bool_decide_eq_true_2 by exact Hstatus. reflexivity.
Qed.

(** C6.  When every (txid, height) pair of a history names a transaction
    whose local record has status CONFIRMED, [UpdateTransactions] returns
    with the synchronizer exactly as it was: the storage is not written
    and no transaction-status event is fired. *)
Theorem UpdateTransactions_confirmed_noop (s : ElectrumSynchronizer)
    (chain : Chain) (wallet_id : string) (items : list HistoryItem)
    (Hconfirmed :
       Forall (fun item =>
                 exists tx,
                   Facade.GetTransaction chain wallet_id (item_tx_hash item)
                                         (storage_ s) = Ok tx
                   /\ get_status tx = CONFIRMED)
              items) :
  Synchronizer.UpdateTransactions chain wallet_id (HistoryArray items) s
  = (Ok tt, s).
Proof.
  simpl. induction Hconfirmed as [|item items (tx & Hget & Hstatus) _ IH];
    simpl; [reflexivity|].
  rewrite (UpdateTransactions_item_confirmed _ _ _ _ tx Hget Hstatus).
  exact IH.
Qed.
End Reconciliation.

Lemma UpdateTransactions_confirmed_noop_witness :
  @Synchronizer.UpdateTransactions C6Example.codec SpecModel.txutils
    C6Example.backend TESTNET "w1"
    (HistoryArray [mkHistoryItem "tx150" 150 None; mkHistoryItem "tx150" 150 None])
    C6Example.synchronizer
  = (Ok tt, C6Example.synchronizer).
Proof.
  apply (@UpdateTransactions_confirmed_noop C6Example.codec SpecModel.txutils
           C6Example.backend).
  repeat constructor; eexists; (split; [vm_compute; reflexivity|reflexivity]).
Defined.

(** ** Store files *)

Lemma chain_dir_set chain d st :
  Files.has_directories chain = true ->
  chain_dir chain (set_chain_dir chain d st) = d.
Proof. now destruct chain. Qed.

Lemma can_open_true chain id :
  Files.can_open chain id = true ->
  Files.has_directories chain = true /\ Files.names_directory id = false.
Proof.
  unfold Files.can_open. destruct (Files.has_directories chain); simpl;
    [|discriminate].
  destruct (Files.names_directory id); simpl; [discriminate|]. auto.
Qed.

Lemma open_wallet_can chain id st :
  Files.can_open chain id = true ->
  Files.open_wallet chain id st = Ok (Files.wallet_store chain id st).
Proof. unfold Files.open_wallet. now intros ->. Qed.

Lemma open_signer_can chain id st :
  Files.can_open chain id = true ->
  Files.open_signer chain id st = Ok (Files.signer_store chain id st).
Proof. unfold Files.open_signer. now intros ->. Qed.

Lemma open_wallet_Ok chain id st db :
  Files.open_wallet chain id st = Ok db ->
  Files.can_open chain id = true /\ db = Files.wallet_store chain id st.
Proof.
  unfold Files.open_wallet. destruct (Files.can_open chain id); simpl;
    [|discriminate].
  intros [= <-]. auto.
Qed.

Lemma open_signer_Ok chain id st db :
  Files.open_signer chain id st = Ok db ->
  Files.can_open chain id = true /\ db = Files.signer_store chain id st.
Proof.
  unfold Files.open_signer. destruct (Files.can_open chain id); simpl;
    [|discriminate].
  intros [= <-]. auto.
Qed.

Lemma open_wallet_Throw chain id st e :
  Files.open_wallet chain id st = Throw e ->
  Files.can_open chain id = false
  /\ e = StorageExc StorageException.SQL_ERROR.
Proof.
  unfold Files.open_wallet. destruct (Files.can_open chain id); simpl;
    [discriminate|].
  intros [= <-]. auto.
Qed.

Lemma open_signer_Throw chain id st e :
  Files.open_signer chain id st = Throw e ->
  Files.can_open chain id = false
  /\ e = StorageExc StorageException.SQL_ERROR.
Proof.
  unfold Files.open_signer. destruct (Files.can_open chain id); simpl;
    [discriminate|].
  intros [= <-]. auto.
Qed.


Lemma GetSignerDb_Ok chain id st db :
  Facade.GetSignerDb chain id st = Ok db ->
  Files.can_open chain id = true /\ db = Files.signer_store chain id st.
Proof.
  unfold Facade.GetSignerDb. destruct (Files.signer_exists chain id st);
    [apply open_signer_Ok|discriminate].
Qed.


Lemma wallet_exists_saved chain id db st :
  Files.can_open chain id = true ->
  Files.wallet_exists chain id (Files.save_wallet chain id db st) = true.
Proof.
  intros [Hd Hn]%can_open_true.
  unfold Files.wallet_exists, Files.save_wallet.
  rewrite Hd, Hn, chain_dir_set by exact Hd. simpl.
  rewrite lookup_insert_eq. apply bool_decide_eq_true_2. eauto.
Qed.


(** ** Transactions kept *)

Section VtxFacts.
Context `{DbKeys} `{TxCodec} `{TxUtils}.
Import WalletHistory.

Lemma exec_VTX_eq stmt db :
  WalletDb.exec_VTX stmt db
  = mkNunchukWalletDb
      (set_changes (snd (Sqlite.exec stmt (VTX db) (changes (wdb db))))
                   (wdb db))
      (IMMUTABLE_DATA db)
      (fst (Sqlite.exec stmt (VTX db) (changes (wdb db))))
      (ADDRESS db) (SIGNER db).
Proof. unfold WalletDb.exec_VTX. now destruct (Sqlite.exec _ _ _). Qed.

Lemma UseAddress_frame a db :
  VTX (snd (WalletDb.UseAddress a db)) = VTX db
  /\ IMMUTABLE_DATA (snd (WalletDb.UseAddress a db)) = IMMUTABLE_DATA db
  /\ SIGNER (snd (WalletDb.UseAddress a db)) = SIGNER db.
Proof.
  unfold WalletDb.UseAddress. destruct (string_empty a); [auto|].
  unfold WalletDb.exec_ADDRESS. cbn [snd].
  destruct (Sqlite.exec _ _ _). auto.
Qed.

Lemma UseAddresses_frame outputs db :
  VTX (WalletDb.UseAddresses outputs db) = VTX db
  /\ IMMUTABLE_DATA (WalletDb.UseAddresses outputs db) = IMMUTABLE_DATA db
  /\ SIGNER (WalletDb.UseAddresses outputs db) = SIGNER db.
Proof.
  unfold WalletDb.UseAddresses. revert db.
  induction outputs as [|o outputs IH]; intros db; cbn [fold_left]; [auto|].
  destruct (IH (snd (WalletDb.UseAddress (fst o) db))) as (-> & -> & ->).
  apply UseAddress_frame.
Qed.





Lemma in_vtx_first_row tx_id db :
  in_vtx tx_id db = false ->
  Sqlite.first_row (fun r => String.eqb (VTX.ID r) tx_id) (VTX db) = None.
Proof.
  unfold in_vtx, Sqlite.first_row. destruct (VTX db) as [rows|]; [|auto].
  intros Hno. destruct (List.find _ rows) as [r|] eqn:Hr; [|reflexivity].
  apply find_some in Hr. destruct Hr as [Hin Hp].
  assert (existsb (fun r => String.eqb (VTX.ID r) tx_id) rows = true)
    by (apply existsb_exists; eauto).
  congruence.
Qed.




Lemma GetTransaction_unknown tx_id db :
  in_vtx tx_id db = false ->
  WalletDb.GetTransaction tx_id db
  = Throw (StorageExc StorageException.TX_NOT_FOUND).
Proof.
  intros Hno. unfold WalletDb.GetTransaction.
  now rewrite (in_vtx_first_row tx_id db Hno).
Qed.








End VtxFacts.

(** ** Address discovery *)

Section StorageLedger.
Context `{DbKeys} `{Bip32} `{Descriptor} `{TxCodec} `{TxUtils}
        `{ElectrumClient}.
Import WalletHistory.










End StorageLedger.

(** ** Reconciled transactions *)


Section Reconciled.
Context `{DbKeys} `{Bip32} `{Descriptor} `{TxCodec} `{TxUtils}
        `{ElectrumClient}.
Import WalletHistory SynchronizerHistory.



Lemma Facade_GetTransaction_unknown chain w tx_id st db :
  Facade.GetWalletDb chain w st = Ok db ->
  in_vtx tx_id db = false ->
  Facade.GetTransaction chain w tx_id st
  = Throw (StorageExc StorageException.TX_NOT_FOUND).
Proof.
  intros Hdb Hno. unfold Facade.GetTransaction. rewrite Hdb. cbn.
  now rewrite (GetTransaction_unknown tx_id db Hno).
Qed.





End Reconciled.

Section LookAhead.
Context `{DbKeys} `{Bip32} `{Descriptor} `{TxCodec} `{TxUtils}
        `{ElectrumClient}.
Import WalletHistory SynchronizerHistory.







End LookAhead.


(** ** Signer records during wallet creation *)

Section SignerRecordFacts.
Context `{DbKeys} `{Bip32} `{Descriptor}.
Import SignerHistory SignerRecords.

Lemma names_directory_name id id' :
  Files.file_name id' = Files.file_name id ->
  Files.names_directory id' = Files.names_directory id.
Proof. unfold Files.names_directory. now intros ->. Qed.

Lemma signer_store_save_name chain id id' db st :
  Files.can_open chain id = true ->
  Files.file_name id' = Files.file_name id ->
  Files.signer_store chain id' (Files.save_signer chain id db st)
  = mkNunchukSignerDb (mkNunchukDb id' (VSTR (sdb db)) (VINT (sdb db)) 0)
                      chain (BIP32 db) (REMOTE db).
Proof.
  intros [Hd Hn]%can_open_true Hname.
  unfold Files.signer_store, Files.signer_file, Files.save_signer.
  rewrite (names_directory_name _ _ Hname), Hn, Hname.
  rewrite chain_dir_set by exact Hd. simpl. now rewrite lookup_insert_eq.
Qed.

Lemma signer_store_save_same chain id db st :
  Files.can_open chain id = true ->
  Files.signer_store chain id (Files.save_signer chain id db st)
  = mkNunchukSignerDb (mkNunchukDb id (VSTR (sdb db)) (VINT (sdb db)) 0)
                      chain (BIP32 db) (REMOTE db).
Proof. intros Hc. now apply signer_store_save_name. Qed.

Lemma signer_store_save_other chain id id' db st :
  Files.file_name id <> Files.file_name id' ->
  Files.signer_store chain id' (Files.save_signer chain id db st)
  = Files.signer_store chain id' st.
Proof.
  intros Hne. unfold Files.signer_store, Files.signer_file, Files.save_signer.
  destruct (Files.names_directory id'); [reflexivity|].
  destruct chain; simpl; try reflexivity; now rewrite lookup_insert_ne.
Qed.

(** The tables a connection reads depend on the file alone. *)
Lemma signer_store_name chain id id' st :
  Files.file_name id' = Files.file_name id ->
  BIP32 (Files.signer_store chain id' st)
  = BIP32 (Files.signer_store chain id st)
  /\ REMOTE (Files.signer_store chain id' st)
     = REMOTE (Files.signer_store chain id st).
Proof.
  intros Hname. unfold Files.signer_store, Files.signer_file.
  rewrite (names_directory_name _ _ Hname), Hname.
  destruct (Files.names_directory id); [auto|].
  destruct (signers (chain_dir chain st) !! Files.file_name id); auto.
Qed.

Lemma wallets_save_signer chain id db st :
  wallets (chain_dir chain (Files.save_signer chain id db st))
  = wallets (chain_dir chain st).
Proof. unfold Files.save_signer. now destruct chain. Qed.

Lemma signer_store_save_wallet chain id wid db st :
  Files.signer_store chain id (Files.save_wallet chain wid db st)
  = Files.signer_store chain id st.
Proof.
  unfold Files.signer_store, Files.signer_file, Files.save_wallet.
  now destruct chain.
Qed.

Lemma remote_le_refl path t : remote_le path t t.
Proof. intros r Hr. eauto. Qed.

Lemma remote_le_trans path t1 t2 t3 :
  remote_le path t1 t2 -> remote_le path t2 t3 -> remote_le path t1 t3.
Proof.
  intros H12 H23 r Hr. destruct (H12 r Hr) as (r2 & Hr2 & Hu2).
  destruct (H23 r2 Hr2) as (r3 & Hr3 & Hu3). eauto.
Qed.

Lemma signer_le_refl db : signer_le db db.
Proof.
  split; [reflexivity|].
  split; intros path; [apply cache_le_refl|apply remote_le_refl].
Qed.

Lemma signer_le_trans db1 db2 db3 :
  signer_le db1 db2 -> signer_le db2 db3 -> signer_le db1 db3.
Proof.
  intros (Ht & Hc & Hr) (Ht' & Hc' & Hr').
  split; [congruence|].
  split; intros path;
    [eapply cache_le_trans; eauto|eapply remote_le_trans; eauto].
Qed.

Lemma records_le_refl chain st : records_le chain st st.
Proof. intros id. apply signer_le_refl. Qed.

Lemma records_le_trans chain st1 st2 st3 :
  records_le chain st1 st2 -> records_le chain st2 st3 ->
  records_le chain st1 st3.
Proof. intros H12 H23 id. eapply signer_le_trans; eauto. Qed.

(** Saving a store that only moved forward moves the records forward. *)
Lemma records_le_save chain id db st :
  Files.can_open chain id = true ->
  signer_le (Files.signer_store chain id st) db ->
  records_le chain st (Files.save_signer chain id db st).
Proof.
  intros Hc Hle id'.
  destruct (decide (Files.file_name id = Files.file_name id')) as [He|Hne].
  - rewrite (signer_store_save_name chain id id' db st Hc (eq_sym He)).
    destruct (signer_store_name chain id id' st (eq_sym He)) as [Hb Hr].
    unfold signer_le in *. simpl. now rewrite Hb, Hr.
  - rewrite signer_store_save_other by exact Hne. apply signer_le_refl.
Qed.

Lemma find_remote_map_keeping path (p : REMOTE.row -> bool)
    (f : REMOTE.row -> REMOTE.row) (rows : list REMOTE.row) r :
  (forall x, REMOTE.PATH (f x) = REMOTE.PATH x) ->
  List.find (remote_is path) rows = Some r ->
  List.find (remote_is path) (map (fun x => if p x then f x else x) rows)
  = Some (if p r then f r else r).
Proof.
  intros Hf. induction rows as [|x rows IH]; simpl; [discriminate|].
  intros Hr.
  assert (remote_is path (if p x then f x else x) = remote_is path x) as ->
    by (unfold remote_is; destruct (p x); rewrite ?Hf; auto).
  destruct (remote_is path x); [now inversion Hr|auto].
Qed.

Lemma remote_le_update path p f t c :
  (forall x, REMOTE.PATH (f x) = REMOTE.PATH x) ->
  (forall x, REMOTE.USED x <> -1 -> REMOTE.USED (f x) <> -1) ->
  remote_le path t (fst (Sqlite.exec (Sqlite.update p f) t c)).
Proof.
  intros Hk Hu. destruct t as [rows|]; simpl; [|apply remote_le_refl].
  intros r Hr. simpl in Hr. exists (if p r then f r else r). split.
  - now apply find_remote_map_keeping.
  - destruct (p r); auto.
Qed.

Lemma remote_le_insert path r0 t c :
  remote_le path t
    (fst (Sqlite.exec (Sqlite.insert SignerDb.same_REMOTE r0) t c)).
Proof.
  destruct t as [rows|]; simpl; [|apply remote_le_refl].
  unfold Sqlite.insert. destruct (existsb _ rows); simpl.
  - apply remote_le_refl.
  - intros r Hr. simpl in Hr. exists r. split; [|auto].
    simpl. now apply find_app_l.
Qed.

Lemma exec_REMOTE_table stmt db :
  REMOTE (SignerDb.exec_REMOTE stmt db)
  = fst (Sqlite.exec stmt (REMOTE db) (changes (sdb db))).
Proof.
  unfold SignerDb.exec_REMOTE.
  now destruct (Sqlite.exec stmt (REMOTE db) (changes (sdb db))).
Qed.

Lemma exec_BIP32_REMOTE stmt db :
  REMOTE (SignerDb.exec_BIP32 stmt db) = REMOTE db.
Proof.
  unfold SignerDb.exec_BIP32.
  now destruct (Sqlite.exec stmt (BIP32 db) (changes (sdb db))).
Qed.

Lemma exec_keeps_table {R : Type} (stmt : list R -> Sqlite.outcome) t c :
  TableExists (fst (Sqlite.exec stmt t c)) = TableExists t.
Proof.
  destruct t as [rows|]; simpl; [|reflexivity]. now destruct (stmt rows).
Qed.

(** The four writes of the loop, each moving the record forward. *)
Lemma UseIndex_le w a i db :
  signer_le db (snd (SignerDb.UseIndex w a i db)).
Proof.
  unfold SignerDb.UseIndex. simpl. split; [|split].
  - rewrite exec_BIP32_table. apply exec_keeps_table.
  - intros path. rewrite exec_BIP32_table.
    apply cache_le_update; [auto|simpl; intros; lia].
  - intros path. rewrite exec_BIP32_REMOTE. apply remote_le_refl.
Qed.

Lemma AddXPubAt_le w a i xpub db :
  signer_le db (snd (SignerDb.AddXPubAt w a i xpub db)).
Proof.
  unfold SignerDb.AddXPubAt, SignerDb.AddXPub. simpl. split; [|split].
  - rewrite exec_BIP32_table. unfold Sqlite.exec.
    destruct (BIP32 db) as [rows|]; [|reflexivity].
    now destruct (Sqlite.upsert _ _ _ rows).
  - intros path. rewrite exec_BIP32_table. apply cache_le_upsert; auto.
  - intros path. rewrite exec_BIP32_REMOTE. apply remote_le_refl.
Qed.

Lemma UseRemote_le path db :
  signer_le db (snd (SignerDb.UseRemote path db)).
Proof.
  unfold SignerDb.UseRemote. simpl. split; [|split].
  - now rewrite exec_REMOTE_BIP32.
  - intros p. rewrite exec_REMOTE_BIP32. apply cache_le_refl.
  - intros p. rewrite exec_REMOTE_table.
    apply remote_le_update; [auto|simpl; intros; lia].
Qed.

Lemma AddRemote_le name xpub key path used db :
  signer_le db (snd (SignerDb.AddRemote name xpub key path used db)).
Proof.
  unfold SignerDb.AddRemote. simpl. split; [|split].
  - now rewrite exec_REMOTE_BIP32.
  - intros p. rewrite exec_REMOTE_BIP32. apply cache_le_refl.
  - intros p. rewrite exec_REMOTE_table.
    eapply remote_le_trans; [|apply remote_le_insert].
    unfold SignerDb.InitRemote. simpl.
    destruct (REMOTE db); [apply remote_le_refl|].
    intros r Hr. discriminate.
Qed.
End SignerRecordFacts.

Section LoopSteps.
Context `{DbKeys} `{Bip32} `{Descriptor} `{TxCodec} `{TxUtils}.
Import SignerHistory SignerRecords.

Lemma signer_store_chain chain id st :
  chain_ (Files.signer_store chain id st) = chain.
Proof.
  unfold Files.signer_store. now destruct (Files.signer_file chain id st).
Qed.

Lemma UseIndex_allocates w a i db r :
  Sqlite.first_row (path_is (GetBip32Path (chain_ db) w a i)) (BIP32 db)
  = Some r ->
  allocated (GetBip32Path (chain_ db) w a i) (snd (SignerDb.UseIndex w a i db))
  = true.
Proof.
  intros Hr. unfold allocated, SignerDb.UseIndex. simpl.
  rewrite exec_BIP32_table.
  destruct (BIP32 db) as [rows|]; simpl in *; [|discriminate].
  rewrite (find_path_map_keeping _ _ SignerDb.set_USED rows r
             (fun _ => eq_refl) Hr).
  assert (String.eqb (BIP32.PATH r) (GetBip32Path (chain_ db) w a i) = true)
    as -> by (apply find_some in Hr; apply Hr).
  simpl. destruct (BIP32.USED r =? -1) eqn:Hu; simpl; [reflexivity|].
  now rewrite Hu.
Qed.

Lemma UseIndex_true_row w a i db :
  SignerDb.IsMaster db = true ->
  fst (SignerDb.UseIndex w a i db) = true ->
  exists r,
    Sqlite.first_row (path_is (GetBip32Path (chain_ db) w a i)) (BIP32 db)
    = Some r.
Proof.
  unfold SignerDb.IsMaster. intros Hm.
  destruct (BIP32 db) as [rows|] eqn:Hrows; [|discriminate].
  rewrite (UseIndex_table w a i db rows Hrows). simpl. intros Hc.
  apply Z.eqb_eq in Hc.
  destruct (List.find (path_is (GetBip32Path (chain_ db) w a i)) rows)
    as [r|] eqn:Hr; [eauto|].
  exfalso.
  assert (existsb (fun r => String.eqb (BIP32.PATH r)
                                       (GetBip32Path (chain_ db) w a i)
                            && (BIP32.USED r =? -1)) rows = false) as Hno.
  { apply not_true_is_false. intros Hex. apply existsb_exists in Hex.
    destruct Hex as (x & Hx & Hp). apply andb_true_iff in Hp.
    destruct Hp as (Hp & _).
    eapply find_none in Hr; [|exact Hx]. unfold path_is in Hr. congruence. }
  rewrite (count_zero _ _ Hno) in Hc. discriminate.
Qed.

Lemma AddXPubAt_row w a i xpub db :
  SignerDb.IsMaster db = true ->
  exists r,
    Sqlite.first_row (path_is (GetBip32Path (chain_ db) w a i))
                     (BIP32 (snd (SignerDb.AddXPubAt w a i xpub db)))
    = Some r.
Proof.
  unfold SignerDb.IsMaster. intros Hm.
  destruct (BIP32 db) as [rows|] eqn:Hrows; [|discriminate].
  unfold SignerDb.AddXPubAt, SignerDb.AddXPub. simpl.
  rewrite exec_BIP32_table, Hrows. simpl.
  set (path := GetBip32Path (chain_ db) w a i).
  set (r0 := BIP32.mk path xpub (GetBip32Type w a) (-1)).
  unfold Sqlite.upsert.
  destruct (List.find (path_is path) rows) as [r|] eqn:Hr.
  - assert (existsb (SignerDb.same_PATH r0) rows = true) as ->.
    { apply existsb_exists. exists r. apply find_some in Hr.
      destruct Hr as (Hin & Hp). split; [exact Hin|].
      unfold SignerDb.same_PATH, path_is in *. simpl.
      now rewrite String.eqb_sym. }
    simpl. eexists.
    apply (find_path_map_keeping path (SignerDb.same_PATH r0)
             (SignerDb.set_XPUB xpub) rows r (fun _ => eq_refl) Hr).
  - assert (existsb (SignerDb.same_PATH r0) rows = false) as ->.
    { apply not_true_is_false. intros Hex. apply existsb_exists in Hex.
      destruct Hex as (x & Hx & Hp).
      eapply find_none in Hr; [|exact Hx].
      unfold SignerDb.same_PATH, path_is in *. simpl in Hp.
      rewrite String.eqb_sym in Hp. congruence. }
    simpl. exists r0. rewrite find_app_r by exact Hr. simpl.
    unfold path_is. simpl. now rewrite String.eqb_refl.
Qed.

Lemma AddXPubAt_chain w a i xpub db :
  chain_ (snd (SignerDb.AddXPubAt w a i xpub db)) = chain_ db.
Proof.
  unfold SignerDb.AddXPubAt, SignerDb.AddXPub. simpl.
  apply exec_BIP32_chain.
Qed.

Lemma UseRemote_used path db r :
  Sqlite.first_row (remote_is path) (REMOTE db) = Some r ->
  remote_used path (snd (SignerDb.UseRemote path db)) = true.
Proof.
  intros Hr. unfold remote_used, SignerDb.UseRemote. simpl.
  rewrite exec_REMOTE_table.
  destruct (REMOTE db) as [rows|]; simpl in *; [|discriminate].
  rewrite (find_remote_map_keeping _ _ SignerDb.set_REMOTE_USED rows r
             (fun _ => eq_refl) Hr).
  assert (String.eqb (REMOTE.PATH r) path = true) as ->
    by (apply find_some in Hr; apply Hr).
  simpl. destruct (REMOTE.USED r =? -1) eqn:Hu; simpl; [reflexivity|].
  now rewrite Hu.
Qed.

Lemma AddRemote_used name xpub key path db :
  Sqlite.first_row (remote_is path) (REMOTE db) = None ->
  remote_used path (snd (SignerDb.AddRemote name xpub key path true db))
  = true.
Proof.
  intros Hr. unfold remote_used, SignerDb.AddRemote. simpl.
  rewrite exec_REMOTE_table. unfold SignerDb.InitRemote. simpl.
  set (r0 := REMOTE.mk path xpub key name 0 1).
  assert (forall rows, List.find (remote_is path) rows = None ->
            existsb (SignerDb.same_REMOTE r0) rows = false) as Hno.
  { intros rows Hf. apply not_true_is_false. intros Hex.
    apply existsb_exists in Hex. destruct Hex as (x & Hx & Hp).
    eapply find_none in Hf; [|exact Hx].
    unfold SignerDb.same_REMOTE, remote_is in *. simpl in Hp.
    rewrite String.eqb_sym in Hp. congruence. }
  destruct (REMOTE db) as [rows|]; simpl in *.
  - unfold Sqlite.insert. rewrite (Hno rows Hr). simpl.
    rewrite find_app_r by exact Hr. simpl. unfold remote_is. simpl.
    now rewrite String.eqb_refl.
  - unfold remote_is. simpl. now rewrite String.eqb_refl.
Qed.

Lemma allocated_cache_le path db db' :
  cache_le path (BIP32 db) (BIP32 db') ->
  allocated path db = true -> allocated path db' = true.
Proof.
  unfold allocated. intros Hle.
  destruct (Sqlite.first_row (path_is path) (BIP32 db)) as [r|] eqn:Hr;
    [|discriminate].
  intros Hu. apply negb_true_iff, Z.eqb_neq in Hu.
  destruct (Hle r Hr) as (r' & Hr' & Hk). rewrite Hr'.
  apply negb_true_iff, Z.eqb_neq. auto.
Qed.

Lemma remote_used_le path db db' :
  remote_le path (REMOTE db) (REMOTE db') ->
  remote_used path db = true -> remote_used path db' = true.
Proof.
  unfold remote_used. intros Hle.
  destruct (Sqlite.first_row (remote_is path) (REMOTE db)) as [r|] eqn:Hr;
    [|discriminate].
  intros Hu. apply negb_true_iff, Z.eqb_neq in Hu.
  destruct (Hle r Hr) as (r' & Hr' & Hk). rewrite Hr'.
  apply negb_true_iff, Z.eqb_neq. auto.
Qed.

Lemma applied_mono local chain w a signer st st' :
  records_le chain st st' ->
  applied local chain w a signer st = true ->
  applied local chain w a signer st' = true.
Proof.
  intros Hle. unfold applied.
  destruct (Hle (get_master_fingerprint signer)) as (Ht & Hc & Hr).
  unfold SignerDb.IsMaster. rewrite Ht.
  destruct (TableExists _ && local signer).
  - apply allocated_cache_le, Hc.
  - apply remote_used_le, Hr.
Qed.
End LoopSteps.

Section CreateWalletLoop.
Context `{DbKeys} `{Bip32} `{Descriptor} `{TxCodec} `{TxUtils}.
Import SignerHistory SignerRecords.

Lemma IsMaster_can_open chain id st :
  SignerDb.IsMaster (Files.signer_store chain id st) = true ->
  Files.can_open chain id = true.
Proof.
  unfold SignerDb.IsMaster, Files.signer_store, Files.signer_file,
    Files.can_open.
  destruct (Files.names_directory id); simpl; [discriminate|].
  destruct chain; simpl; try reflexivity. rewrite lookup_empty. discriminate.
Qed.

Lemma remote_branch_closed name chain signer st :
  Files.can_open chain (get_master_fingerprint signer) = false ->
  remote_branch name chain signer st
  = (Throw (StorageExc StorageException.SQL_ERROR), st).
Proof. unfold remote_branch, Files.open_signer. now intros ->. Qed.

Lemma CreateWallet_signer_closed chain w a signer st :
  Files.can_open chain (get_master_fingerprint signer) = false ->
  Facade.CreateWallet_signer chain w a signer st
  = (Throw (StorageExc StorageException.SQL_ERROR), st).
Proof. unfold Facade.CreateWallet_signer, Files.open_signer. now intros ->. Qed.

Lemma CreateWallet0_signer_closed chain w a allow signer st :
  Files.can_open chain (get_master_fingerprint signer) = false ->
  FacadeRev.CreateWallet0_signer chain w a allow signer st
  = (Throw (StorageExc StorageException.SQL_ERROR), st).
Proof.
  unfold FacadeRev.CreateWallet0_signer, Files.open_signer. now intros ->.
Qed.

(** A path without an entry is inserted without a conflict. *)
Lemma AddRemote_fresh name xpub key path used db :
  Sqlite.first_row (remote_is path) (REMOTE db) = None ->
  fst (SignerDb.AddRemote name xpub key path used db) = Ok true.
Proof.
  intros Hr. unfold SignerDb.AddRemote, SignerDb.InitRemote. simpl.
  set (r0 := REMOTE.mk path xpub key name 0 (if used then 1 else -1)).
  assert (forall rows, List.find (remote_is path) rows = None ->
            existsb (SignerDb.same_REMOTE r0) rows = false) as Hno.
  { intros rows Hf. apply not_true_is_false. intros Hex.
    apply existsb_exists in Hex. destruct Hex as (x & Hx & Hp).
    eapply find_none in Hf; [|exact Hx].
    unfold SignerDb.same_REMOTE, remote_is in *. simpl in Hp.
    rewrite String.eqb_sym in Hp. congruence. }
  unfold SignerDb.exec_REMOTE, SignerDb.updated, Sqlite.insert.
  destruct (REMOTE db) as [rows|]; simpl in *.
  - now rewrite (Hno rows Hr).
  - reflexivity.
Qed.

Lemma remote_branch_step name chain signer st :
  let res := remote_branch name chain signer st in
  let id := get_master_fingerprint signer in
  records_le chain st (snd res)
  /\ wallets (chain_dir chain (snd res)) = wallets (chain_dir chain st)
  /\ (fst res = Ok tt ->
      remote_used (get_derivation_path signer)
                  (Files.signer_store chain id (snd res)) = true).
Proof.
  intros res id. unfold res.
  destruct (Files.can_open chain id) eqn:Hc;
    [|rewrite remote_branch_closed by exact Hc;
      split; [apply records_le_refl|]; split; [reflexivity|discriminate]].
  unfold remote_branch. fold id. rewrite open_signer_can by exact Hc.
  set (db0 := Files.signer_store chain id st).
  unfold SignerDb.GetRemoteSigner.
  change (fun r : REMOTE.row =>
            String.eqb (REMOTE.PATH r) (get_derivation_path signer))
    with (remote_is (get_derivation_path signer)).
  destruct (Sqlite.first_row (remote_is (get_derivation_path signer))
                             (REMOTE db0)) as [r|] eqn:Hr.
  - pose proof (UseRemote_le (get_derivation_path signer) db0) as Hle.
    pose proof (UseRemote_used (get_derivation_path signer) db0 r Hr) as Hu.
    destruct (SignerDb.UseRemote (get_derivation_path signer) db0)
      as [b db1]. simpl in *.
    split; [now apply records_le_save|].
    split; [apply wallets_save_signer|].
    intros _. now rewrite signer_store_save_same.
  - pose proof (AddRemote_le name (get_xpub signer) (get_public_key signer)
                  (get_derivation_path signer) true db0) as Hle.
    pose proof (AddRemote_used name (get_xpub signer) (get_public_key signer)
                  (get_derivation_path signer) db0 Hr) as Hu.
    destruct (SignerDb.AddRemote name (get_xpub signer)
                (get_public_key signer) (get_derivation_path signer) true db0)
      as [b db1]. simpl in *.
    split; [now apply records_le_save|].
    split; [apply wallets_save_signer|].
    intros _. now rewrite signer_store_save_same.
Qed.

Lemma IsMaster_le db db' :
  signer_le db db' -> SignerDb.IsMaster db' = SignerDb.IsMaster db.
Proof. intros (Ht & _). exact Ht. Qed.

Lemma CreateWallet_signer_remote chain w a signer st :
  SignerDb.IsMaster
    (Files.signer_store chain (get_master_fingerprint signer) st)
  && has_master_signer signer = false ->
  Facade.CreateWallet_signer chain w a signer st
  = remote_branch (get_name signer) chain signer st.
Proof.
  intros Hl. unfold Facade.CreateWallet_signer, remote_branch.
  destruct (Files.open_signer chain (get_master_fingerprint signer) st)
    as [db|e] eqn:Ho; [|reflexivity].
  apply open_signer_Ok in Ho. destruct Ho as [_ ->]. now rewrite Hl.
Qed.

(** One turn of the loop of part_002. *)
Lemma CreateWallet_signer_step chain w a signer st :
  let res := Facade.CreateWallet_signer chain w a signer st in
  records_le chain st (snd res)
  /\ wallets (chain_dir chain (snd res)) = wallets (chain_dir chain st)
  /\ (fst res = Ok tt ->
      applied local_part002 chain w a signer (snd res) = true).
Proof.
  intros res. unfold res. clear res.
  set (id := get_master_fingerprint signer).
  set (db0 := Files.signer_store chain id st).
  destruct (SignerDb.IsMaster db0 && has_master_signer signer) eqn:Hlocal.
  - assert (Files.can_open chain id = true) as Hc
      by (apply andb_true_iff in Hlocal;
          apply (IsMaster_can_open chain id st), Hlocal).
    unfold Facade.CreateWallet_signer. fold id.
    rewrite open_signer_can by exact Hc. fold db0. rewrite Hlocal.
    apply andb_true_iff in Hlocal. destruct Hlocal as (Hm & Hl).
    set (i := GetIndexFromPath (get_derivation_path signer)).
    pose proof (UseIndex_le w a i db0) as Hle.
    pose proof (UseIndex_true_row w a i db0 Hm) as Hrow.
    pose proof (UseIndex_allocates w a i db0) as Halloc.
    destruct (SignerDb.UseIndex w a i db0) as [used db1]. simpl in *.
    assert (records_le chain st (Files.save_signer chain id db1 st)) as Hrec
      by now apply records_le_save.
    destruct used; simpl.
    + split; [exact Hrec|]. split; [apply wallets_save_signer|].
      intros _. unfold applied. fold id.
      rewrite signer_store_save_same by exact Hc.
      unfold SignerDb.IsMaster in *. simpl.
      destruct Hle as (Ht & _). rewrite Ht, Hm. unfold local_part002.
      rewrite Hl. simpl.
      destruct (Hrow eq_refl) as (r & Hr).
      specialize (Halloc r Hr). unfold db0 in Halloc.
      rewrite signer_store_chain in Halloc. exact Halloc.
    + split; [exact Hrec|]. split; [apply wallets_save_signer|].
      intros Hd. discriminate.
  - rewrite (CreateWallet_signer_remote chain w a signer st Hlocal).
    pose proof (remote_branch_step (get_name signer) chain signer st) as Hs.
    cbv zeta in Hs. destruct Hs as (Hrec & Hw & Hu).
    split; [exact Hrec|]. split; [exact Hw|].
    intros Hok. unfold applied. fold id.
    rewrite (IsMaster_le _ _ (Hrec id)). fold db0. unfold local_part002.
    rewrite Hlocal. exact (Hu Hok).
Qed.

Lemma CreateWallet_signers_loop chain w a signers st :
  let res := Facade.CreateWallet_signers chain w a signers st in
  records_le chain st (snd res)
  /\ wallets (chain_dir chain (snd res)) = wallets (chain_dir chain st)
  /\ (fst res = Ok tt ->
      Forall (fun signer =>
                applied local_part002 chain w a signer (snd res) = true)
             signers).
Proof.
  revert st. induction signers as [|signer rest IH]; intros st; simpl.
  - split; [apply records_le_refl|]. split; [reflexivity|]. constructor.
  - destruct (CreateWallet_signer_step chain w a signer st)
      as (Hrec & Hw & Happ).
    destruct (Facade.CreateWallet_signer chain w a signer st)
      as [[u|e] st1]; simpl in *.
    + destruct (IH st1) as (Hrec' & Hw' & Happ').
      split; [eapply records_le_trans; eauto|].
      split; [congruence|].
      intros Hok. constructor; [|auto].
      eapply applied_mono; [exact Hrec'|]. destruct u. auto.
    + split; [exact Hrec|]. split; [exact Hw|]. intros Hd. discriminate.
Qed.

Lemma CreateWallet0_signer_remote chain w a allow signer st :
  SignerDb.IsMaster
    (Files.signer_store chain (get_master_fingerprint signer) st)
  && negb (string_empty (get_xpub signer)) = false ->
  FacadeRev.CreateWallet0_signer chain w a allow signer st
  = remote_branch "import" chain signer st.
Proof.
  intros Hl. unfold FacadeRev.CreateWallet0_signer, remote_branch.
  destruct (Files.open_signer chain (get_master_fingerprint signer) st)
    as [db|e] eqn:Ho; [|reflexivity].
  apply open_signer_Ok in Ho. destruct Ho as [_ ->]. now rewrite Hl.
Qed.

Lemma AddXPubAt_allocated w a i xpub db :
  SignerDb.IsMaster db = true ->
  allocated (GetBip32Path (chain_ db) w a i)
            (snd (SignerDb.AddXPubAt w a i xpub db))
  = allocated (GetBip32Path (chain_ db) w a i) db.
Proof.
  unfold SignerDb.IsMaster. intros Hm.
  destruct (BIP32 db) as [rows|] eqn:Hrows; [|discriminate].
  unfold allocated, SignerDb.AddXPubAt, SignerDb.AddXPub. simpl.
  rewrite exec_BIP32_table, Hrows. simpl.
  set (path := GetBip32Path (chain_ db) w a i).
  set (r0 := BIP32.mk path xpub (GetBip32Type w a) (-1)).
  unfold Sqlite.upsert.
  destruct (List.find (path_is path) rows) as [r|] eqn:Hr.
  - assert (existsb (SignerDb.same_PATH r0) rows = true) as ->.
    { apply existsb_exists. exists r. apply find_some in Hr.
      destruct Hr as (Hin & Hp). split; [exact Hin|].
      unfold SignerDb.same_PATH, path_is in *. simpl.
      now rewrite String.eqb_sym. }
    simpl.
    rewrite (find_path_map_keeping path (SignerDb.same_PATH r0)
               (SignerDb.set_XPUB xpub) rows r (fun _ => eq_refl) Hr).
    now destruct (SignerDb.same_PATH r0 r).
  - assert (existsb (SignerDb.same_PATH r0) rows = false) as ->.
    { apply not_true_is_false. intros Hex. apply existsb_exists in Hex.
      destruct Hex as (x & Hx & Hp).
      eapply find_none in Hr; [|exact Hx].
      unfold SignerDb.same_PATH, path_is in *. simpl in Hp.
      rewrite String.eqb_sym in Hp. congruence. }
    simpl. rewrite find_app_r by exact Hr. simpl.
    unfold path_is. simpl. now rewrite String.eqb_refl.
Qed.

Lemma AddXPubAt_unique w a i xpub db :
  unique_paths db -> unique_paths (snd (SignerDb.AddXPubAt w a i xpub db)).
Proof.
  unfold unique_paths, SignerDb.AddXPubAt, SignerDb.AddXPub. simpl.
  rewrite exec_BIP32_table. apply unique_upsert. auto.
Qed.

(** Under the key constraint, [UseIndex] answers whether the entry of
    the index was unallocated. *)
Lemma UseIndex_result w a i db r :
  unique_paths db ->
  Sqlite.first_row (path_is (GetBip32Path (chain_ db) w a i)) (BIP32 db)
  = Some r ->
  fst (SignerDb.UseIndex w a i db)
  = negb (allocated (GetBip32Path (chain_ db) w a i) db).
Proof.
  unfold unique_paths, unique_table, allocated. intros Hkey Hr.
  destruct (BIP32 db) as [rows|] eqn:Hrows; [|discriminate].
  rewrite (UseIndex_table w a i db rows Hrows). simpl in *.
  rewrite (count_unallocated _ rows Hkey), Hr.
  now destruct (BIP32.USED r =? -1).
Qed.

Lemma CreateWallet0_signer_master_eq chain w a allow signer st :
  let id := get_master_fingerprint signer in
  let db0 := Files.signer_store chain id st in
  let index := GetIndexFromPath (get_derivation_path signer) in
  let db1 := snd (SignerDb.AddXPubAt w a index (get_xpub signer) db0) in
  let used := SignerDb.UseIndex w a index db1 in
  SignerDb.IsMaster db0 = true ->
  string_empty (get_xpub signer) = false ->
  FormalizePath (GetBip32Path chain w a index)
  = FormalizePath (get_derivation_path signer) ->
  FacadeRev.CreateWallet0_signer chain w a allow signer st
  = (if negb (fst used) && negb allow
     then Throw (StorageExc StorageException.SIGNER_USED) else Ok tt,
     Files.save_signer chain id (snd used) st).
Proof.
  intros id db0 index db1 used Hm Hx Heq.
  unfold FacadeRev.CreateWallet0_signer. fold id.
  rewrite open_signer_can by (apply (IsMaster_can_open chain id st), Hm).
  fold db0. rewrite Hm, Hx. cbn [negb andb]. fold index.
  rewrite Heq, String.eqb_refl. cbn [negb].
  unfold used, db1.
  destruct (SignerDb.AddXPubAt w a index (get_xpub signer) db0) as [b1 d1].
  cbn [snd]. destruct (SignerDb.UseIndex w a index d1) as [u d2].
  cbn [fst snd]. now destruct (negb u && negb allow).
Qed.

(** One turn of the loop of the later revision, for a key of a local
    master signer. *)
Lemma CreateWallet0_signer_master chain w a allow signer st :
  let id := get_master_fingerprint signer in
  let db0 := Files.signer_store chain id st in
  let index := GetIndexFromPath (get_derivation_path signer) in
  let canonical := GetBip32Path chain w a index in
  let res := FacadeRev.CreateWallet0_signer chain w a allow signer st in
  SignerDb.IsMaster db0 = true ->
  string_empty (get_xpub signer) = false ->
  (FormalizePath canonical <> FormalizePath (get_derivation_path signer) ->
     fst res = Throw (NunchukExc NunchukException.INVALID_BIP32_PATH))
  /\ (FormalizePath canonical = FormalizePath (get_derivation_path signer) ->
        records_le chain st (snd res)
        /\ wallets (chain_dir chain (snd res)) = wallets (chain_dir chain st)
        /\ allocated canonical (Files.signer_store chain id (snd res)) = true
        /\ (unique_paths db0 ->
            fst res
            = if allocated canonical db0 && negb allow
              then Throw (StorageExc StorageException.SIGNER_USED)
              else Ok tt)).
Proof.
  intros id db0 index canonical res Hm Hx.
  assert (Files.can_open chain id = true) as Hc
    by apply (IsMaster_can_open chain id st), Hm.
  split.
  - intros Hne. apply String.eqb_neq in Hne.
    unfold res, FacadeRev.CreateWallet0_signer. fold id.
    rewrite open_signer_can by exact Hc. fold db0.
    rewrite Hm, Hx. cbn [negb andb]. fold index. fold canonical.
    now rewrite Hne.
  - intros Heq. unfold res.
    rewrite (CreateWallet0_signer_master_eq chain w a allow signer st Hm Hx
               Heq).
    fold id. fold db0. fold index. cbn [fst snd].
    assert (chain_ db0 = chain) as Hchain by apply signer_store_chain.
    pose proof (AddXPubAt_le w a index (get_xpub signer) db0) as Hle1.
    pose proof (AddXPubAt_row w a index (get_xpub signer) db0 Hm) as Hrow1.
    pose proof (AddXPubAt_allocated w a index (get_xpub signer) db0 Hm)
      as Hal1.
    pose proof (AddXPubAt_chain w a index (get_xpub signer) db0) as Hch1.
    pose proof (AddXPubAt_unique w a index (get_xpub signer) db0) as Hun1.
    set (db1 := snd (SignerDb.AddXPubAt w a index (get_xpub signer) db0)) in *.
    rewrite Hchain in Hrow1, Hal1, Hch1. fold canonical in Hrow1, Hal1.
    destruct Hrow1 as (r1 & Hr1).
    pose proof (UseIndex_le w a index db1) as Hle2.
    pose proof (UseIndex_allocates w a index db1 r1) as Halloc.
    pose proof (UseIndex_result w a index db1 r1) as Hres.
    rewrite Hch1 in Halloc, Hres. fold canonical in Halloc, Hres.
    specialize (Halloc Hr1).
    set (used := SignerDb.UseIndex w a index db1) in *.
    split; [apply records_le_save; [exact Hc|];
            fold db0; eapply signer_le_trans; eauto|].
    split; [apply wallets_save_signer|].
    split; [rewrite signer_store_save_same by exact Hc; exact Halloc|].
    intros Hkey. rewrite (Hres (Hun1 Hkey) Hr1), Hal1.
    now rewrite negb_involutive.
Qed.

(** One turn of the loop of the later revision. *)
Lemma CreateWallet0_signer_step chain w a allow signer st :
  let res := FacadeRev.CreateWallet0_signer chain w a allow signer st in
  records_le chain st (snd res)
  /\ wallets (chain_dir chain (snd res)) = wallets (chain_dir chain st)
  /\ (fst res = Ok tt ->
      applied local_rev chain w a signer (snd res) = true).
Proof.
  intros res. unfold res. clear res.
  set (id := get_master_fingerprint signer).
  set (db0 := Files.signer_store chain id st).
  destruct (SignerDb.IsMaster db0 && negb (string_empty (get_xpub signer)))
    eqn:Hlocal.
  - apply andb_true_iff in Hlocal. destruct Hlocal as (Hm & Hl).
    assert (Files.can_open chain id = true) as Hc
      by apply (IsMaster_can_open chain id st), Hm.
    apply negb_true_iff in Hl.
    destruct (CreateWallet0_signer_master chain w a allow signer st Hm Hl)
      as (Hbad & Hgood).
    destruct (decide (FormalizePath
                        (GetBip32Path chain w a
                           (GetIndexFromPath (get_derivation_path signer)))
                      = FormalizePath (get_derivation_path signer)))
      as [Heq|Hne].
    + destruct (Hgood Heq) as (Hrec & Hw & Hal & _).
      split; [exact Hrec|]. split; [exact Hw|].
      intros _. unfold applied. fold id.
      rewrite (IsMaster_le _ _ (Hrec id)). fold db0. unfold local_rev.
      rewrite Hm, Hl. exact Hal.
    + specialize (Hbad Hne).
      unfold FacadeRev.CreateWallet0_signer in *. fold id in Hbad |- *.
      rewrite open_signer_can in Hbad |- * by exact Hc.
      fold db0 in Hbad |- *. rewrite Hm, Hl in Hbad |- *. simpl in Hbad |- *.
      apply String.eqb_neq in Hne. rewrite Hne in Hbad |- *. simpl.
      split; [apply records_le_save; [exact Hc|apply signer_le_refl]|].
      split; [apply wallets_save_signer|]. intros Hd. discriminate.
  - rewrite (CreateWallet0_signer_remote chain w a allow signer st Hlocal).
    pose proof (remote_branch_step "import" chain signer st) as Hs.
    cbv zeta in Hs. destruct Hs as (Hrec & Hw & Hu).
    split; [exact Hrec|]. split; [exact Hw|].
    intros Hok. unfold applied. fold id.
    rewrite (IsMaster_le _ _ (Hrec id)). fold db0. unfold local_rev.
    rewrite Hlocal. exact (Hu Hok).
Qed.

Lemma CreateWallet0_signers_loop chain w a allow signers st :
  let res := FacadeRev.CreateWallet0_signers chain w a allow signers st in
  records_le chain st (snd res)
  /\ wallets (chain_dir chain (snd res)) = wallets (chain_dir chain st)
  /\ (fst res = Ok tt ->
      Forall (fun signer =>
                applied local_rev chain w a signer (snd res) = true)
             signers).
Proof.
  revert st. induction signers as [|signer rest IH]; intros st; simpl.
  - split; [apply records_le_refl|]. split; [reflexivity|]. constructor.
  - destruct (CreateWallet0_signer_step chain w a allow signer st)
      as (Hrec & Hw & Happ).
    destruct (FacadeRev.CreateWallet0_signer chain w a allow signer st)
      as [[u|e] st1]; simpl in *.
    + destruct (IH st1) as (Hrec' & Hw' & Happ').
      split; [eapply records_le_trans; eauto|].
      split; [congruence|].
      intros Hok. constructor; [|auto].
      eapply applied_mono; [exact Hrec'|]. destruct u. auto.
    + split; [exact Hrec|]. split; [exact Hw|]. intros Hd. discriminate.
Qed.

End CreateWalletLoop.

(** ** Wallet creation *)

Section CreateWallet.
Context `{DbKeys} `{Bip32} `{Descriptor} `{TxCodec} `{TxUtils}.
Import SignerHistory SignerRecords.

Lemma AddSigner_throws signer db e :
  fst (WalletDb.AddSigner signer db) = Throw e ->
  e = StorageExc StorageException.SQL_ERROR.
Proof.
  unfold WalletDb.AddSigner.
  destruct (WalletDb.GetSingleSignerKey signer) as [[[x p] d] f].
  cbn [fst]. destruct (Sqlite.constraint_failed _ _ _); simpl; congruence.
Qed.

Lemma AddSigners_throws signers db e :
  fst (WalletDb.AddSigners signers db) = Throw e ->
  e = StorageExc StorageException.SQL_ERROR.
Proof.
  revert db. induction signers as [|signer rest IH]; intros db;
    cbn [WalletDb.AddSigners fst]; [discriminate|].
  pose proof (AddSigner_throws signer db) as Hs.
  destruct (WalletDb.AddSigner signer db) as [[u|e'] db1]; cbn [fst] in *;
    [apply IH|].
  intros He. inversion He; subst. now apply Hs.
Qed.

Lemma InitWallet_throws name m n signers a is_escrow create_date description
    db e :
  fst (WalletDb.InitWallet name m n signers a is_escrow create_date
                           description db) = Throw e ->
  e = StorageExc StorageException.SQL_ERROR.
Proof. unfold WalletDb.InitWallet. apply AddSigners_throws. Qed.

(** The branch throws only when the store of the fingerprint cannot be
    opened. *)
Lemma remote_branch_returns name chain signer st :
  Files.can_open chain (get_master_fingerprint signer) = true ->
  fst (remote_branch name chain signer st) = Ok tt.
Proof.
  intros Hc. unfold remote_branch. rewrite open_signer_can by exact Hc.
  unfold SignerDb.GetRemoteSigner.
  change (fun r : REMOTE.row =>
            String.eqb (REMOTE.PATH r) (get_derivation_path signer))
    with (remote_is (get_derivation_path signer)).
  destruct (Sqlite.first_row _ _) as [r|] eqn:Hr.
  - now destruct (SignerDb.UseRemote _ _).
  - pose proof (AddRemote_fresh name (get_xpub signer) (get_public_key signer)
                  (get_derivation_path signer) true _ Hr) as Hadd.
    destruct (SignerDb.AddRemote _ _ _ _ _ _) as [b db1]. simpl in Hadd.
    now rewrite Hadd.
Qed.

Lemma remote_branch_throws name chain signer st e :
  fst (remote_branch name chain signer st) = Throw e ->
  e = StorageExc StorageException.SQL_ERROR.
Proof.
  destruct (Files.can_open chain (get_master_fingerprint signer)) eqn:Hc.
  - rewrite remote_branch_returns by exact Hc. discriminate.
  - rewrite remote_branch_closed by exact Hc. simpl. congruence.
Qed.

Lemma CreateWallet_signer_throws chain w a signer st e :
  fst (Facade.CreateWallet_signer chain w a signer st) = Throw e ->
  e = StorageExc StorageException.SIGNER_USED
  \/ e = StorageExc StorageException.SQL_ERROR.
Proof.
  destruct (SignerDb.IsMaster
              (Files.signer_store chain (get_master_fingerprint signer) st)
            && has_master_signer signer) eqn:Hl.
  - assert (Files.can_open chain (get_master_fingerprint signer) = true)
      as Hc by (apply andb_true_iff in Hl;
                apply (IsMaster_can_open chain _ st), Hl).
    unfold Facade.CreateWallet_signer. rewrite open_signer_can by exact Hc.
    rewrite Hl.
    destruct (SignerDb.UseIndex _ _ _ _) as [[|] db]; simpl;
      [discriminate|intros He; left; congruence].
  - rewrite (CreateWallet_signer_remote chain w a signer st Hl).
    intros He. right. eapply remote_branch_throws, He.
Qed.

Lemma CreateWallet_signers_throws chain w a signers st e :
  fst (Facade.CreateWallet_signers chain w a signers st) = Throw e ->
  e = StorageExc StorageException.SIGNER_USED
  \/ e = StorageExc StorageException.SQL_ERROR.
Proof.
  revert st. induction signers as [|signer rest IH]; intros st; simpl;
    [discriminate|].
  pose proof (CreateWallet_signer_throws chain w a signer st) as Hs.
  destruct (Facade.CreateWallet_signer chain w a signer st) as [[u|e'] st1];
    simpl in *; [apply IH|].
  intros He. inversion He; subst. now apply Hs.
Qed.

Lemma CreateWallet0_signer_throws chain w a allow signer st e :
  fst (FacadeRev.CreateWallet0_signer chain w a allow signer st) = Throw e ->
  e = StorageExc StorageException.SIGNER_USED
  \/ e = NunchukExc NunchukException.INVALID_BIP32_PATH
  \/ e = StorageExc StorageException.SQL_ERROR.
Proof.
  destruct (SignerDb.IsMaster
              (Files.signer_store chain (get_master_fingerprint signer) st)
            && negb (string_empty (get_xpub signer))) eqn:Hl.
  - assert (Files.can_open chain (get_master_fingerprint signer) = true)
      as Hc by (apply andb_true_iff in Hl;
                apply (IsMaster_can_open chain _ st), Hl).
    unfold FacadeRev.CreateWallet0_signer.
    rewrite open_signer_can by exact Hc. rewrite Hl.
    destruct (negb (String.eqb _ _)); cbn [fst];
      [intros He; right; left; congruence|].
    destruct (SignerDb.AddXPubAt _ _ _ _ _) as [b1 db1].
    destruct (SignerDb.UseIndex _ _ _ _) as [used db2].
    destruct (negb used && negb allow); cbn [fst];
      [intros He; left; congruence|discriminate].
  - rewrite (CreateWallet0_signer_remote chain w a allow signer st Hl).
    intros He. right. right. eapply remote_branch_throws, He.
Qed.

Lemma CreateWallet0_signers_throws chain w a allow signers st e :
  fst (FacadeRev.CreateWallet0_signers chain w a allow signers st) = Throw e ->
  e = StorageExc StorageException.SIGNER_USED
  \/ e = NunchukExc NunchukException.INVALID_BIP32_PATH
  \/ e = StorageExc StorageException.SQL_ERROR.
Proof.
  revert st. induction signers as [|signer rest IH]; intros st; simpl;
    [discriminate|].
  pose proof (CreateWallet0_signer_throws chain w a allow signer st) as Hs.
  destruct (FacadeRev.CreateWallet0_signer chain w a allow signer st)
    as [[u|e'] st1]; simpl in *; [apply IH|].
  intros He. inversion He; subst. now apply Hs.
Qed.

(** C9.  In both revisions, when [CreateWallet] throws WALLET_EXISTED,
    the storage it leaves behind is the one the loop over the signers
    produced: the loop ran to its end before the existence check, no
    signer record is behind where it was, and every signer's mutation is
    in place (the cache index of a master signer's key allocated, the
    remote entry of any other signer present and marked used), while the
    wallet stores are untouched. *)
Theorem CreateWallet_signer_records_not_rolled_back (chain : Chain)
    (name : string) (m n : Z) (signers : list SingleSigner)
    (address_type : AddressType) (is_escrow : bool) (description : string)
    (allow_used_signer : bool) (now : time_t) (st st' : NunchukStorage) :
  let wallet_type := wallet_type_of n is_escrow in
  (Facade.CreateWallet chain name m n signers address_type is_escrow
                       description now st
   = (Throw (StorageExc StorageException.WALLET_EXISTED), st') ->
   Facade.CreateWallet_signers chain wallet_type address_type signers st
   = (Ok tt, st')
   /\ records_le chain st st'
   /\ wallets (chain_dir chain st') = wallets (chain_dir chain st)
   /\ Forall (fun signer =>
                applied local_part002 chain wallet_type address_type signer
                        st' = true)
             signers)
  /\ (FacadeRev.CreateWallet chain name m n signers address_type is_escrow
                             description allow_used_signer now st
      = (Throw (StorageExc StorageException.WALLET_EXISTED), st') ->
      FacadeRev.CreateWallet0_signers chain wallet_type address_type
                                      allow_used_signer signers st
      = (Ok tt, st')
      /\ records_le chain st st'
      /\ wallets (chain_dir chain st') = wallets (chain_dir chain st)
      /\ Forall (fun signer =>
                   applied local_rev chain wallet_type address_type signer
                           st' = true)
                signers).
Proof.
  intros wallet_type. split.
  - unfold Facade.CreateWallet. fold wallet_type.
    pose proof (CreateWallet_signers_loop chain wallet_type address_type
                  signers st) as (Hrec & Hw & Happ).
    pose proof (CreateWallet_signers_throws chain wallet_type address_type
                  signers st) as Hthrow.
    destruct (Facade.CreateWallet_signers chain wallet_type address_type
                signers st) as [[[]|e] st1]; simpl in *.
    + destruct (Files.wallet_exists _ _ st1);
        [intros Heq; inversion Heq; subst st1; auto|].
      destruct (Files.open_wallet _ _ st1) as [wallet_db|e] eqn:Ho.
      * destruct (WalletDb.InitWallet _ _ _ _ _ _ _ _ _) as [[u|e] db1] eqn:Hi;
          [discriminate|].
        apply (f_equal fst) in Hi. apply InitWallet_throws in Hi.
        simpl. intros Heq. inversion Heq. congruence.
      * apply open_wallet_Throw in Ho. destruct Ho as [_ ->]. discriminate.
    + intros Heq. inversion Heq. subst e.
      destruct (Hthrow _ eq_refl); discriminate.
  - unfold FacadeRev.CreateWallet, FacadeRev.CreateWallet0.
    destruct (m >? n); [discriminate|].
    destruct (negb (n =? Z.of_nat (length signers))); [discriminate|].
    fold wallet_type.
    pose proof (CreateWallet0_signers_loop chain wallet_type address_type
                  allow_used_signer signers st) as (Hrec & Hw & Happ).
    pose proof (CreateWallet0_signers_throws chain wallet_type address_type
                  allow_used_signer signers st) as Hthrow.
    destruct (FacadeRev.CreateWallet0_signers chain wallet_type address_type
                allow_used_signer signers st) as [[[]|e] st1]; simpl in *.
    + destruct (Files.wallet_exists _ _ st1);
        [intros Heq; inversion Heq; subst st1; auto|].
      destruct (Files.open_wallet _ _ st1) as [wallet_db|e] eqn:Ho.
      * destruct (WalletDb.InitWallet _ _ _ _ _ _ _ _ _) as [[u|e] db1] eqn:Hi;
          [discriminate|].
        apply (f_equal fst) in Hi. apply InitWallet_throws in Hi.
        simpl. intros Heq. inversion Heq. congruence.
      * apply open_wallet_Throw in Ho. destruct Ho as [_ ->]. discriminate.
    + intros Heq. inversion Heq. subst e.
      destruct (Hthrow _ eq_refl) as [|[|]]; discriminate.
Qed.
End CreateWallet.

Lemma CreateWallet_signer_records_not_rolled_back_witness :
  exists st',
    @Facade.CreateWallet SpecModel.keys SpecModel.bip32 SpecModel.descriptor
      TESTNET "shared" 2 2 C9Example.wallet_signers NATIVE_SEGWIT false
      EmptyString 0 C9Example.storage
    = (Throw (StorageExc StorageException.WALLET_EXISTED), st')
    /\ SignerHistory.allocated "m/48h/1h/0h"
         (Files.signer_store TESTNET "abcd1234" C9Example.storage) = false
    /\ SignerHistory.allocated "m/48h/1h/0h"
         (Files.signer_store TESTNET "abcd1234" st') = true
    /\ SignerRecords.remote_used "m/48h/1h/9h"
         (Files.signer_store TESTNET "ffff0000" st') = true.
Proof.
  eexists. split; [vm_compute; reflexivity|].
  match goal with
  | |- _ /\ SignerHistory.allocated _ (Files.signer_store _ _ ?s) = _ /\ _ =>
    destruct (@CreateWallet_signer_records_not_rolled_back
                SpecModel.keys SpecModel.bip32 SpecModel.descriptor
                TESTNET "shared" 2 2 C9Example.wallet_signers NATIVE_SEGWIT
                false EmptyString false 0 C9Example.storage s)
      as ((_ & _ & _ & Happlied) & _); [vm_compute; reflexivity|]
  end.
  split; [vm_compute; reflexivity|].
  inversion Happlied as [|? ? Hmaster Hrest]; subst.
  inversion Hrest as [|? ? Hairgap _]; subst.
  split; [exact Hmaster|exact Hairgap].
Defined.

(** ** The path check and the override flag (roomdb.cpp:617-682) *)

Section PathCheck.
Context `{DbKeys} `{Bip32} `{Descriptor} `{TxCodec} `{TxUtils}.
Import SignerHistory SignerRecords.






End PathCheck.

(** The revision of part_002:1575-1624 has neither the comparison of
    the paths nor the flag: a key of the master signer under a path
    other than the derived one is taken, and the entry of the derived
    path is allocated for it. *)
Remark CreateWallet_part002_takes_other_path :
  let created :=
    @Facade.CreateWallet SpecModel.keys SpecModel.bip32 SpecModel.descriptor
      TESTNET "shared" 2 2
      [C9Example.master_key_other_path; C9Example.airgap_key] NATIVE_SEGWIT
      false EmptyString 0 C9Example.records in
  (exists wallet, fst created = Ok wallet)
  /\ SignerHistory.allocated "m/48h/1h/0h"
       (Files.signer_store TESTNET "abcd1234" (snd created)) = true.
Proof. split; [eexists|]; vm_compute; reflexivity. Qed.


(** ** The wallet id *)

Section WalletId.
Context `{DbKeys} `{Bip32} `{Descriptor} `{TxCodec} `{TxUtils}.
Import SignerRecords.








Lemma filter_all {A : Type} (l : list A) : List.filter (fun _ => true) l = l.
Proof. induction l as [|x l IH]; [reflexivity|cbn; now rewrite IH]. Qed.





Lemma wallet_exists_wallets chain id st st' :
  wallets (chain_dir chain st') = wallets (chain_dir chain st) ->
  Files.wallet_exists chain id st' = Files.wallet_exists chain id st.
Proof. unfold Files.wallet_exists. now intros ->. Qed.

End WalletId.




(** * Further properties of the stores *)

(** ** The address ledger *)

Section IndexScan.
Context {R : Type} (key : R -> string).

Lemma insert_by_key_perm (r : R) (t : list R) :
  Sqlite.insert_by_key key r t ≡ₚ r :: t.
Proof.
  induction t as [|x t IH]; cbn; [reflexivity|].
  destruct (String.leb (key r) (key x)); [reflexivity|].
  rewrite IH. apply Permutation_swap.
Qed.

Lemma index_scan_perm (rows : list R) :
  Sqlite.index_scan key (Some rows) ≡ₚ rows.
Proof.
  induction rows as [|r rows IH]; cbn; [reflexivity|].
  rewrite insert_by_key_perm. now constructor.
Qed.

Lemma index_scan_snoc (rows : list R) (r : R) :
  Sqlite.index_scan key (Some (rows ++ [r]))
  ≡ₚ r :: Sqlite.index_scan key (Some rows).
Proof.
  rewrite !index_scan_perm. symmetry. apply Permutation_cons_append.
Qed.

Lemma insert_by_key_HdRel (r a : R) (t : list R) :
  String.leb (key a) (key r) = true ->
  HdRel (fun x y => String.leb (key x) (key y) = true) a t ->
  HdRel (fun x y => String.leb (key x) (key y) = true) a
        (Sqlite.insert_by_key key r t).
Proof.
  intros Har Hat. destruct t as [|x t]; cbn; [now constructor|].
  destruct (String.leb (key r) (key x)); constructor; [exact Har|].
  now inversion Hat.
Qed.

Lemma insert_by_key_sorted (r : R) (t : list R) :
  Sorted (fun x y => String.leb (key x) (key y) = true) t ->
  Sorted (fun x y => String.leb (key x) (key y) = true)
         (Sqlite.insert_by_key key r t).
Proof.
  induction 1 as [|x t Hs IH Hhd]; cbn; [repeat constructor|].
  destruct (String.leb (key r) (key x)) eqn:Hle.
  - constructor; [now constructor|]. now constructor.
  - constructor; [exact IH|]. apply insert_by_key_HdRel; [|exact Hhd].
    destruct (String.leb_total (key r) (key x)); congruence.
Qed.

(** The rows of an index scan come in the order of their keys. *)
Lemma index_scan_sorted (t : option (list R)) :
  Sorted (fun x y => String.leb (key x) (key y) = true)
         (Sqlite.index_scan key t).
Proof.
  destruct t as [rows|]; cbn; [|constructor].
  induction rows as [|r rows IH]; cbn; [constructor|].
  now apply insert_by_key_sorted.
Qed.
End IndexScan.

Section LedgerWrites.
Context `{DbKeys} `{TxCodec} `{TxUtils}.
Import WalletHistory Invariants.

Lemma to_int_id z : is_int z -> to_int z = z.
Proof.
  unfold is_int, to_int. intros Hz.
  rewrite Z.mod_small; [lia|]. change (2 ^ 32) with (2 ^ 31 + 2 ^ 31). lia.
Qed.

Lemma existsb_same_ADDR r0 (rows : list ADDRESS.row) :
  existsb (WalletDb.same_ADDR r0) rows
  = existsb (fun r => String.eqb (ADDRESS.ADDR r) (ADDRESS.ADDR r0)) rows.
Proof.
  induction rows as [|r rows IH]; [reflexivity|]. cbn [existsb].
  rewrite IH. unfold WalletDb.same_ADDR. now rewrite String.eqb_sym.
Qed.

Lemma AddAddress_table address index internal db rows :
  ADDRESS db = Some rows ->
  ADDRESS (snd (WalletDb.AddAddress address index internal db))
  = Some (if existsb (fun r => String.eqb (ADDRESS.ADDR r) address) rows
          then rows
          else rows ++ [ADDRESS.mk address index (if internal then 1 else 0)
                                   0 None]).
Proof.
  intros Hrows. unfold WalletDb.AddAddress. cbn [snd].
  rewrite exec_ADDRESS_table, Hrows. unfold Sqlite.exec, Sqlite.insert.
  rewrite existsb_same_ADDR. cbn [ADDRESS.ADDR].
  now destruct (existsb _ rows).
Qed.

(** [AddAddress] on an address the ledger already records throws
    SQL_ERROR (the INSERT violates the primary key) and leaves the
    ledger, the transactions and the signer slots as they are: the
    index, the change flag, the used flag and the snapshot of the
    recorded row are kept.  On an address the ledger does not record it
    returns [true]. *)
Theorem AddAddress_recorded_throws (db : NunchukWalletDb)
    (address : string) (index : Z) (internal : bool) :
  let added := WalletDb.AddAddress address index internal db in
  (in_ledger address db = true ->
   fst added = Throw (StorageExc StorageException.SQL_ERROR)
   /\ ADDRESS (snd added) = ADDRESS db
   /\ VTX (snd added) = VTX db
   /\ SIGNER (snd added) = SIGNER db
   /\ IMMUTABLE_DATA (snd added) = IMMUTABLE_DATA db)
  /\ (in_ledger address db = false -> fst added = Ok true).
Proof.
  intros added.
  assert (fst added
          = if in_ledger address db
            then Throw (StorageExc StorageException.SQL_ERROR)
            else Ok true) as Hfst.
  { unfold added, WalletDb.AddAddress, Sqlite.constraint_failed, in_ledger.
    cbn [fst]. destruct (ADDRESS db) as [rows|]; [|reflexivity].
    rewrite existsb_same_ADDR. cbn [ADDRESS.ADDR].
    now destruct (existsb _ rows). }
  split; [|intros Hno; now rewrite Hfst, Hno].
  intros Hin. rewrite Hfst, Hin. unfold in_ledger in Hin.
  destruct (ADDRESS db) as [rows|] eqn:Hrows; [|discriminate].
  split; [reflexivity|]. split.
  - unfold added. rewrite (AddAddress_table _ _ _ _ rows Hrows), Hin.
    reflexivity.
  - unfold added, WalletDb.AddAddress, WalletDb.exec_ADDRESS. cbn [snd].
    destruct (Sqlite.exec _ _ _). repeat split; reflexivity.
Qed.

Lemma find_addr_none a (rows : list ADDRESS.row) :
  existsb (fun r => String.eqb (ADDRESS.ADDR r) a) rows = false ->
  List.find (fun r => String.eqb (ADDRESS.ADDR r) a) rows = None.
Proof. apply find_none_existsb. Qed.

Lemma filter_snoc {A : Type} (p : A -> bool) (l : list A) (x : A) :
  List.filter p (l ++ [x])
  = List.filter p l ++ (if p x then [x] else []).
Proof.
  induction l as [|y l IH]; cbn.
  - now destruct (p x).
  - rewrite IH. now destruct (p y).
Qed.

(** [AddAddress] on an address the ledger does not record yet, with an
    index in the range of [int]: the address had no index (-1) and has
    the given one afterwards; [GetAllAddresses] lists it next to the
    addresses it listed before, all in the order of the stored texts
    (the order of the index of the primary key, not of insertion); the
    address is appended to the unused addresses of its change flag; the
    index of every other address is as before. *)
Theorem AddAddress_then_GetAddressIndex (db : NunchukWalletDb)
    (rows : list ADDRESS.row) (address : string) (index : Z)
    (internal : bool) :
  ADDRESS db = Some rows ->
  in_ledger address db = false ->
  is_int index ->
  let db' := snd (WalletDb.AddAddress address index internal db) in
  WalletDb.GetAddressIndex address db = -1
  /\ WalletDb.GetAddressIndex address db' = index
  /\ WalletDb.GetAllAddresses db'
     ≡ₚ cstr address :: WalletDb.GetAllAddresses db
  /\ (exists sorted,
        WalletDb.GetAllAddresses db'
        = map (fun r => cstr (ADDRESS.ADDR r)) sorted
        /\ sorted
           ≡ₚ rows ++ [ADDRESS.mk address index (if internal then 1 else 0)
                                  0 None]
        /\ Sorted (fun r r' => String.leb (ADDRESS.ADDR r) (ADDRESS.ADDR r')
                               = true) sorted)
  /\ WalletDb.GetAddresses false internal db'
     = WalletDb.GetAddresses false internal db ++ [cstr address]
  /\ WalletDb.GetAddresses true internal db'
     = WalletDb.GetAddresses true internal db
  /\ forall other,
       other <> address ->
       WalletDb.GetAddressIndex other db'
       = WalletDb.GetAddressIndex other db.
Proof.
  intros Hrows Hfresh Hint db'.
  unfold in_ledger in Hfresh. rewrite Hrows in Hfresh.
  assert (ADDRESS db'
          = Some (rows ++ [ADDRESS.mk address index
                                      (if internal then 1 else 0) 0 None]))
    as Hrows'.
  { unfold db'. rewrite (AddAddress_table _ _ _ _ rows Hrows), Hfresh.
    reflexivity. }
  unfold WalletDb.GetAddressIndex, WalletDb.GetAllAddresses,
    WalletDb.GetAddresses, Sqlite.first_row, Sqlite.all_rows.
  rewrite Hrows', Hrows.
  split; [|split; [|split; [|split; [|split; [|split]]]]].
  - now rewrite find_addr_none.
  - rewrite find_app_r by now apply find_addr_none.
    cbn. rewrite String.eqb_refl. now apply to_int_id.
  - rewrite index_scan_snoc. reflexivity.
  - eexists. split; [reflexivity|].
    split; [apply index_scan_perm|apply index_scan_sorted].
  - rewrite filter_snoc, map_app. cbn [ADDRESS.USED ADDRESS.INTERNAL].
    rewrite !Z.eqb_refl. reflexivity.
  - rewrite filter_snoc, map_app. cbn [ADDRESS.USED]. cbn.
    now rewrite app_nil_r.
  - intros other Hother.
    destruct (List.find (fun r => String.eqb (ADDRESS.ADDR r) other) rows)
      as [r|] eqn:Hfind.
    + now rewrite (find_app_l _ _ _ _ Hfind).
    + rewrite find_app_r by exact Hfind. cbn.
      destruct (String.eqb_spec address other); [congruence|reflexivity].
Qed.

(** [UseAddress] and [SetUtxos] addressed to an address the ledger does
    not record, and [UseAddress] of the empty address, answer [false]
    and leave the ledger as it is. *)
Theorem UseAddress_SetUtxos_unrecorded (db : NunchukWalletDb)
    (rows : list ADDRESS.row) (address : string) (utxo : list UtxoItem) :
  ADDRESS db = Some rows ->
  in_ledger address db = false ->
  let used := WalletDb.UseAddress address db in
  let set := WalletDb.SetUtxos address utxo db in
  fst used = false /\ ADDRESS (snd used) = ADDRESS db
  /\ fst set = false /\ ADDRESS (snd set) = ADDRESS db
  /\ WalletDb.UseAddress EmptyString db = (false, db).
Proof.
  intros Hrows Hfresh used set.
  unfold in_ledger in Hfresh. rewrite Hrows in Hfresh.
  assert (forall f,
             WalletDb.exec_ADDRESS
               (Sqlite.update
                  (fun r => String.eqb (ADDRESS.ADDR r) address) f) db
             = mkNunchukWalletDb (set_changes 0 (wdb db)) (IMMUTABLE_DATA db)
                                 (VTX db) (Some rows) (SIGNER db)) as Hexec.
  { intros f. unfold WalletDb.exec_ADDRESS, Sqlite.exec. rewrite Hrows.
    now rewrite update_none. }
  unfold used, set, WalletDb.UseAddress, WalletDb.SetUtxos.
  rewrite !Hexec. destruct (string_empty address); repeat split; auto.
Qed.
End LedgerWrites.

Section LedgerInvariant.
Context `{DbKeys} `{TxCodec} `{TxUtils}.
Import WalletHistory Invariants.

Variable P : ADDRESS.row -> Prop.
Hypothesis P_added :
  forall a i (b : bool), P (ADDRESS.mk a i (if b then 1 else 0) 0 None).
Hypothesis P_used : forall r, P r -> P (WalletDb.set_USED r).
Hypothesis P_utxo : forall u r, P r -> P (WalletDb.set_UTXO u r).

Lemma update_all p f (t : option (list ADDRESS.row)) c :
  (forall r, P r -> P (f r)) ->
  table_all P t -> table_all P (fst (Sqlite.exec (Sqlite.update p f) t c)).
Proof.
  intros Hf. destruct t as [rows|]; [|exact id]. cbn.
  intros Hall. induction Hall as [|r rows Hr _ IH]; cbn; constructor; auto.
  destruct (p r); auto.
Qed.

Lemma UseAddress_all a db :
  table_all P (ADDRESS db) ->
  table_all P (ADDRESS (snd (WalletDb.UseAddress a db))).
Proof.
  unfold WalletDb.UseAddress. destruct (string_empty a); [exact id|].
  cbn [snd]. rewrite exec_ADDRESS_table. now apply update_all.
Qed.

Lemma UseAddresses_all outputs db :
  table_all P (ADDRESS db) ->
  table_all P (ADDRESS (WalletDb.UseAddresses outputs db)).
Proof.
  unfold WalletDb.UseAddresses. revert db.
  induction outputs as [|o outputs IH]; intros db Hall; cbn; [exact Hall|].
  now apply IH, UseAddress_all.
Qed.

Lemma call_all c db :
  table_all P (ADDRESS db) -> table_all P (ADDRESS (call c db)).
Proof.
  intros Hall. destruct c; cbn [call].
  - unfold WalletDb.AddSigner.
    destruct (WalletDb.GetSingleSignerKey signer) as [[[x p] d] f].
    cbn [snd]. now rewrite exec_SIGNER_ADDRESS.
  - destruct (ADDRESS db) as [rows|] eqn:Hrows.
    + rewrite (AddAddress_table _ _ _ _ rows Hrows).
      destruct (existsb _ rows); cbn; [exact Hall|].
      apply Forall_app. split; [exact Hall|]. constructor; [|constructor].
      apply P_added.
    + unfold WalletDb.AddAddress. cbn [snd].
      rewrite exec_ADDRESS_table, Hrows. exact I.
  - now apply UseAddress_all.
  - unfold WalletDb.SetUtxos. cbn [snd]. rewrite exec_ADDRESS_table.
    apply update_all; [apply P_utxo|exact Hall].
  - unfold WalletDb.InsertTransaction.
    destruct (SQLCHECK _); cbn [snd]; [|now rewrite exec_VTX_ADDRESS].
    destruct (WalletDb.GetTransaction _ _) as [tx|e]; cbn [snd].
    + destruct (height >? 0); cbn [snd].
      * apply UseAddresses_all. now rewrite exec_VTX_ADDRESS.
      * now rewrite exec_VTX_ADDRESS.
    + now rewrite exec_VTX_ADDRESS.
  - unfold WalletDb.UpdateTransaction.
    destruct (height =? -1); [exact Hall|].
    pose proof (persist_signers_ADDRESS
                  (GetHash (DecodeRawTransaction raw_tx)) reject_msg height db)
      as Hp.
    destruct (WalletDb.persist_signers _ _ _ db) as [[extra|e] db1];
      cbn [snd] in Hp; cbn [snd]; [|now rewrite Hp].
    match goal with
    | |- context [WalletDb.exec_VTX ?s db1] =>
      set (db2 := WalletDb.exec_VTX s db1)
    end.
    assert (ADDRESS db2 = ADDRESS db) as H2
      by (unfold db2; rewrite exec_VTX_ADDRESS; exact Hp).
    destruct (WalletDb.updated db2 && (height >? 0)).
    + destruct (WalletDb.GetTransaction _ db2) as [tx|e]; cbn [snd].
      * apply UseAddresses_all. now rewrite H2.
      * now rewrite H2.
    + cbn [snd]. now rewrite H2.
  - unfold WalletDb.UpdateTransactionMemo. cbn [snd].
    now rewrite exec_VTX_ADDRESS.
  - unfold WalletDb.DeleteTransaction. cbn [snd].
    now rewrite exec_VTX_ADDRESS.
Qed.

Lemma calls_all cs db :
  table_all P (ADDRESS db) -> table_all P (ADDRESS (calls cs db)).
Proof.
  unfold calls. revert db.
  induction cs as [|c cs IH]; intros db Hall; cbn; [exact Hall|].
  now apply IH, call_all.
Qed.
End LedgerInvariant.

Section LedgerPartition.
Context `{DbKeys} `{TxCodec} `{TxUtils}.
Import WalletHistory Invariants.

Lemma calls_flags_set cs db :
  table_all flags_set (ADDRESS db) ->
  table_all flags_set (ADDRESS (calls cs db)).
Proof.
  apply calls_all; unfold flags_set; cbn.
  - intros _ _ []; auto.
  - intros r [_ Hi]. auto.
  - intros _ r Hr. exact Hr.
Qed.

Lemma partition_by_flags (A : Type) (f : ADDRESS.row -> A)
    (rows : list ADDRESS.row) :
  Forall flags_set rows ->
  let class (used internal : bool) :=
    map f (List.filter
             (fun r => (ADDRESS.USED r =? (if used then 1 else 0))
                       && (ADDRESS.INTERNAL r
                           =? (if internal then 1 else 0))) rows) in
  map f rows
  ≡ₚ class false false ++ class false true ++ class true false
     ++ class true true.
Proof.
  intros Hall. cbn zeta.
  induction Hall as [|r rows [[Hu|Hu] [Hi|Hi]] _ IH]; [reflexivity|..];
    cbn [map List.filter]; rewrite Hu, Hi; cbn [Z.eqb andb map app];
    rewrite IH at 1.
  - reflexivity.
  - apply Permutation_middle.
  - rewrite !(app_assoc (map f (List.filter _ rows))
                        (map f (List.filter _ rows))).
    apply Permutation_middle.
  - match goal with
    | |- ?x :: ?a ++ ?b ++ ?c ++ ?d ≡ₚ _ =>
      transitivity ((a ++ b ++ c) ++ x :: d);
        [rewrite <- Permutation_middle, <- !app_assoc; reflexivity
        |rewrite <- !app_assoc; reflexivity]
    end.
Qed.

(** In every state a wallet store reaches from a ledger whose flags are
    0 or 1 (the empty ledger of [InitWallet] among them) by its writing
    calls, the four lists [GetAddresses] returns for the two flags split
    the addresses of [GetAllAddresses]: each address of the ledger is in
    exactly one of them. *)
Theorem GetAddresses_partition (db : NunchukWalletDb) (cs : list Call) :
  table_all flags_set (ADDRESS db) ->
  let db' := calls cs db in
  WalletDb.GetAllAddresses db'
  ≡ₚ WalletDb.GetAddresses false false db'
     ++ WalletDb.GetAddresses false true db'
     ++ WalletDb.GetAddresses true false db'
     ++ WalletDb.GetAddresses true true db'.
Proof.
  intros Hflags db'. pose proof (calls_flags_set cs db Hflags) as Hall.
  fold db' in Hall. unfold WalletDb.GetAllAddresses, WalletDb.GetAddresses.
  destruct (ADDRESS db') as [rows|]; [|reflexivity].
  cbn [Sqlite.all_rows table_all] in *. rewrite index_scan_perm.
  apply (partition_by_flags _ (fun r => cstr (ADDRESS.ADDR r)) rows Hall).
Qed.
End LedgerPartition.

Section CurrentIndex.
Context `{DbKeys} `{TxCodec} `{TxUtils}.
Import WalletHistory Invariants.

Lemma fold_max_ge (l : list Z) (a : Z) :
  a <= fold_left Z.max l a /\ Forall (fun x => x <= fold_left Z.max l a) l.
Proof.
  revert a. induction l as [|x l IH]; intros a; cbn [fold_left].
  - split; [lia|constructor].
  - destruct (IH (Z.max a x)) as [Ha Hl]. split; [lia|].
    constructor; [lia|exact Hl].
Qed.

Lemma fold_max_in (l : list Z) (a : Z) :
  fold_left Z.max l a = a \/ In (fold_left Z.max l a) l.
Proof.
  revert a. induction l as [|x l IH]; intros a; cbn [fold_left];
    [now left|].
  destruct (IH (Z.max a x)) as [Heq|Hin]; [|now right; right].
  rewrite Heq. destruct (Z.max_spec a x) as [[_ ->]|[_ ->]];
    [right; now left|now left].
Qed.

Lemma flagged_rows (internal : bool) (rows : list ADDRESS.row) r l :
  List.filter (fun r => ADDRESS.INTERNAL r =? (if internal then 1 else 0))
              rows = r :: l ->
  let m := fold_left Z.max (map ADDRESS.IDX l) (ADDRESS.IDX r) in
  (forall x, In x rows ->
             ADDRESS.INTERNAL x = (if internal then 1 else 0) ->
             ADDRESS.IDX x <= m)
  /\ exists x, In x rows
               /\ ADDRESS.INTERNAL x = (if internal then 1 else 0)
               /\ ADDRESS.IDX x = m.
Proof.
  intros Hf m.
  assert (forall x, In x (r :: l) <->
                    In x rows
                    /\ ADDRESS.INTERNAL x = (if internal then 1 else 0))
    as Hin.
  { intros x. rewrite <- Hf, filter_In, Z.eqb_eq. reflexivity. }
  destruct (fold_max_ge (map ADDRESS.IDX l) (ADDRESS.IDX r)) as [Hr Hl].
  fold m in Hr, Hl. split.
  - intros x Hx Hflag. destruct (proj2 (Hin x) (conj Hx Hflag)) as [->|Hxl];
      [exact Hr|].
    rewrite List.Forall_forall in Hl. apply Hl. now apply in_map.
  - destruct (fold_max_in (map ADDRESS.IDX l) (ADDRESS.IDX r)) as [Heq|Hm].
    + exists r. destruct (proj1 (Hin r) (or_introl eq_refl)) as [Hr1 Hr2].
      fold m in Heq. auto.
    + fold m in Hm. apply in_map_iff in Hm as (x & Hx & Hxl).
      exists x. destruct (proj1 (Hin x) (or_intror Hxl)) as [Hx1 Hx2]. auto.
Qed.

(** On a ledger whose indices are in the range of [int],
    [GetCurrentAddressIndex] is -1 when no address has the change flag
    asked for, and otherwise the greatest index among the addresses of
    that flag: it bounds each of them and is the index of one.  After
    [AddAddress] of an address not yet recorded it is the given index
    when the flag had no address, the greater of the two otherwise, and
    the current index of the other flag is as before. *)
Theorem GetCurrentAddressIndex_is_max (db : NunchukWalletDb)
    (rows : list ADDRESS.row) (internal : bool) (address : string)
    (index : Z) :
  ADDRESS db = Some rows ->
  Forall (fun r => is_int (ADDRESS.IDX r)) rows ->
  in_ledger address db = false ->
  is_int index ->
  let flag := if internal then 1 else 0 in
  let current := WalletDb.GetCurrentAddressIndex internal db in
  let db' := snd (WalletDb.AddAddress address index internal db) in
  (Forall (fun r => ADDRESS.INTERNAL r <> flag) rows -> current = -1)
  /\ (forall r, In r rows -> ADDRESS.INTERNAL r = flag ->
                ADDRESS.IDX r <= current
                /\ exists r', In r' rows /\ ADDRESS.INTERNAL r' = flag
                              /\ ADDRESS.IDX r' = current)
  /\ WalletDb.GetCurrentAddressIndex internal db'
     = (if existsb (fun r => ADDRESS.INTERNAL r =? flag) rows
        then Z.max current index else index)
  /\ WalletDb.GetCurrentAddressIndex (negb internal) db'
     = WalletDb.GetCurrentAddressIndex (negb internal) db.
Proof.
  intros Hrows Hint Hfresh Hindex flag current db'.
  unfold in_ledger in Hfresh. rewrite Hrows in Hfresh.
  assert (ADDRESS db'
          = Some (rows ++ [ADDRESS.mk address index flag 0 None])) as Hrows'.
  { unfold db'. rewrite (AddAddress_table _ _ _ _ rows Hrows), Hfresh.
    reflexivity. }
  assert (forall r l,
             List.filter (fun r => ADDRESS.INTERNAL r =? flag) rows = r :: l ->
             is_int (fold_left Z.max (map ADDRESS.IDX l) (ADDRESS.IDX r)))
    as Hmax.
  { intros r l Hf.
    destruct (flagged_rows internal rows r l Hf) as (_ & x & Hx & _ & <-).
    rewrite List.Forall_forall in Hint. now apply Hint. }
  unfold current, WalletDb.GetCurrentAddressIndex, Sqlite.all_rows.
  rewrite Hrows', Hrows. fold flag. repeat split.
  - intros Hnone.
    replace (List.filter (fun r => ADDRESS.INTERNAL r =? flag) rows)
      with (@nil ADDRESS.row); [reflexivity|].
    symmetry. clear - Hnone.
    induction Hnone as [|r rows Hr _ IH]; [reflexivity|]. cbn.
    apply Z.eqb_neq in Hr. now rewrite Hr.
  - destruct (List.filter (fun r => ADDRESS.INTERNAL r =? flag) rows)
      as [|r0 l] eqn:Hf.
    + exfalso. assert (In r []) as [].
      rewrite <- Hf. apply filter_In. split; [assumption|].
      now apply Z.eqb_eq.
    + rewrite (to_int_id _ (Hmax r0 l eq_refl)).
      now apply (flagged_rows internal rows r0 l Hf).
  - destruct (List.filter (fun r => ADDRESS.INTERNAL r =? flag) rows)
      as [|r0 l] eqn:Hf.
    + exfalso. assert (In r []) as [].
      rewrite <- Hf. apply filter_In. split; [assumption|].
      now apply Z.eqb_eq.
    + rewrite (to_int_id _ (Hmax r0 l eq_refl)).
      now apply (flagged_rows internal rows r0 l Hf).
  - rewrite filter_snoc. cbn [ADDRESS.INTERNAL]. rewrite Z.eqb_refl.
    destruct (List.filter (fun r => ADDRESS.INTERNAL r =? flag) rows)
      as [|r0 l] eqn:Hf.
    + replace (existsb (fun r => ADDRESS.INTERNAL r =? flag) rows)
        with false.
      * cbn. now apply to_int_id.
      * symmetry. apply not_true_is_false. intros Hex.
        apply existsb_exists in Hex as (x & Hx & Hflag).
        assert (In x []) as []. rewrite <- Hf. now apply filter_In.
    + replace (existsb (fun r => ADDRESS.INTERNAL r =? flag) rows)
        with true.
      * cbn [app]. rewrite map_app, fold_left_app. cbn.
        rewrite (to_int_id _ (Hmax r0 l eq_refl)). apply to_int_id.
        pose proof (Hmax r0 l eq_refl) as Hm. unfold is_int in *. lia.
      * symmetry. apply existsb_exists. exists r0.
        apply (filter_In (fun r => ADDRESS.INTERNAL r =? flag)).
        rewrite Hf. now left.
  - rewrite filter_snoc. cbn [ADDRESS.INTERNAL].
    replace (flag =? (if negb internal then 1 else 0)) with false
      by (unfold flag; now destruct internal).
    now rewrite app_nil_r.
Qed.
End CurrentIndex.

(** ** Balances *)

Section Balances.
Context `{DbKeys} `{TxCodec} `{TxUtils}.

Lemma sum_amounts_cons (x : Amount) (l : list Amount) :
  WalletDb.sum_amounts (x :: l) = x + WalletDb.sum_amounts l.
Proof.
  unfold WalletDb.sum_amounts. cbn [fold_left].
  assert (forall l a, fold_left Z.add l a = a + fold_left Z.add l 0) as Hf.
  { clear. induction l as [|y l IH]; intros a; cbn [fold_left]; [lia|].
    rewrite (IH (a + y)), (IH (0 + y)). lia. }
  rewrite (Hf l (0 + x)). lia.
Qed.

Lemma sum_filter_le (l : list UnspentOutput.t)
    (p q : UnspentOutput.t -> bool) :
  (forall u, p u = true -> q u = true) ->
  Forall (fun u => 0 <= UnspentOutput.get_amount u) l ->
  0 <= WalletDb.sum_amounts
         (map UnspentOutput.get_amount (List.filter p l))
    <= WalletDb.sum_amounts
         (map UnspentOutput.get_amount (List.filter q l)).
Proof.
  intros Hpq Hall. induction Hall as [|u l Hu _ IH]; [cbn; lia|].
  cbn [List.filter]. specialize (Hpq u).
  destruct (p u), (q u); cbn [map]; rewrite ?sum_amounts_cons;
    first [discriminate (Hpq eq_refl)|lia].
Qed.

Lemma sum_filter_none (l : list UnspentOutput.t)
    (p : UnspentOutput.t -> bool) :
  (forall u, In u l -> p u = false) ->
  WalletDb.sum_amounts (map UnspentOutput.get_amount (List.filter p l)) = 0.
Proof.
  intros Hp. replace (List.filter p l) with (@nil UnspentOutput.t);
    [reflexivity|].
  symmetry. induction l as [|u l IH]; [reflexivity|]. cbn.
  rewrite (Hp u (or_introl eq_refl)). apply IH. intros x Hx. apply Hp.
  now right.
Qed.

Lemma change_outputs_height f tx u :
  In u (WalletDb.change_outputs f tx) ->
  UnspentOutput.get_height u = get_height tx.
Proof.
  unfold WalletDb.change_outputs. intros Hin.
  apply in_flat_map in Hin as ([i o] & _ & Hu). cbn in Hu.
  destruct (f (fst o)); [|destruct Hu]. now destruct Hu as [<-|[]].
Qed.

Lemma scan_snapshots_address sc db u :
  In u (WalletDb.scan_snapshots sc db) ->
  In (UnspentOutput.get_address u) (WalletDb.GetAllAddresses db).
Proof.
  unfold WalletDb.scan_snapshots, WalletDb.GetAllAddresses. intros Hin.
  apply in_flat_map in Hin as (r & Hr & Hu).
  destruct (ADDRESS.UTXO r) as [snapshot|]; [|destruct Hu].
  unfold WalletDb.snapshot_outputs in Hu.
  apply in_flat_map in Hu as (item & _ & Hu).
  destruct (WalletDb.is_locked _ _); [destruct Hu|].
  destruct Hu as [<-|[]]. cbn. apply in_map_iff. exists r.
  split; [reflexivity|]. unfold Sqlite.all_rows in Hr.
  destruct (ADDRESS db) as [rows|]; [|destruct Hr].
  apply filter_In in Hr. destruct Hr as [Hr _].
  apply list_elem_of_In. rewrite index_scan_perm.
  now apply list_elem_of_In.
Qed.

(** When [GetUnspentOutputs(true)] returns and none of the outputs it
    returns has a negative amount, [GetAddressBalance] and [GetBalance]
    return, the balance of an address is between 0 and the balance of
    the wallet, and it is 0 for an address that is not among
    [GetAllAddresses]. *)
Theorem GetAddressBalance_bounds (db : NunchukWalletDb)
    (utxos : list UnspentOutput.t) (address : string) :
  WalletDb.GetUnspentOutputs true db = Ok utxos ->
  Forall (fun u => 0 <= UnspentOutput.get_amount u) utxos ->
  exists of_address of_wallet,
    WalletDb.GetAddressBalance address db = Ok of_address
    /\ WalletDb.GetBalance db = Ok of_wallet
    /\ 0 <= of_address <= of_wallet
    /\ (~ In address (WalletDb.GetAllAddresses db) -> of_address = 0).
Proof.
  intros Hget Hall.
  unfold WalletDb.GetAddressBalance, WalletDb.GetBalance. rewrite Hget.
  cbn [bind]. eexists _, _. split; [reflexivity|]. split; [reflexivity|].
  split.
  - apply sum_filter_le; [|exact Hall].
    intros u Hu. apply andb_true_iff in Hu as [-> _]. reflexivity.
  - intros Hnot. apply sum_filter_none. intros u Hu.
    unfold WalletDb.GetUnspentOutputs in Hget.
    destruct (WalletDb.GetTransactions db) as [txs|e]; [|discriminate].
    cbn [bind] in Hget. injection Hget as <-.
    unfold WalletDb.scan_transactions in Hu at 1.
    rewrite fold_scan_rs in Hu. cbn [WalletDb.rs app] in Hu.
    apply in_app_iff in Hu as [Hu|Hu].
    + apply in_flat_map in Hu as (tx & Htx & Hu).
      apply filter_In in Htx as [_ Hh]. apply Z.eqb_eq in Hh.
      rewrite (change_outputs_height _ _ _ Hu), Hh. reflexivity.
    + apply scan_snapshots_address in Hu.
      destruct (String.eqb_spec (UnspentOutput.get_address u) address)
        as [Heq|_]; [|apply andb_false_r].
      rewrite Heq in Hu. contradiction.
Qed.
End Balances.

Lemma AddAddress_recorded_throws_witness :
  fst (WalletDb.AddAddress "addr2" 9 true LedgerExample.db)
  = Throw (StorageExc StorageException.SQL_ERROR)
  /\ ADDRESS (snd (WalletDb.AddAddress "addr2" 9 true LedgerExample.db))
     = ADDRESS LedgerExample.db
  /\ fst (WalletDb.AddAddress "addr4" 9 true LedgerExample.db) = Ok true.
Proof.
  destruct (AddAddress_recorded_throws LedgerExample.db "addr2" 9 true)
    as (Hrecorded & _).
  destruct (Hrecorded eq_refl) as (Hthrow & Hledger & _).
  destruct (AddAddress_recorded_throws LedgerExample.db "addr4" 9 true)
    as (_ & Hfresh).
  split; [exact Hthrow|]. split; [exact Hledger|exact (Hfresh eq_refl)].
Defined.

Lemma AddAddress_then_GetAddressIndex_witness :
  let db' := snd (WalletDb.AddAddress "addr4" 3 false LedgerExample.db) in
  WalletDb.GetAddressIndex "addr4" LedgerExample.db = -1
  /\ WalletDb.GetAddressIndex "addr4" db' = 3
  /\ WalletDb.GetAllAddresses LedgerExample.db
     = ["addr1"; "addr2"; "addr3"; "chg1"]
  /\ WalletDb.GetAllAddresses db'
     = ["addr1"; "addr2"; "addr3"; "addr4"; "chg1"]
  /\ WalletDb.GetAllAddresses db'
     ≡ₚ "addr4" :: WalletDb.GetAllAddresses LedgerExample.db.
Proof.
  intros db'.
  assert (Invariants.is_int 3) as Hint by (unfold Invariants.is_int; lia).
  destruct (AddAddress_then_GetAddressIndex LedgerExample.db _ "addr4" 3
              false eq_refl eq_refl Hint) as (Hbefore & Hafter & Hperm & _).
  split; [exact Hbefore|]. split; [exact Hafter|].
  split; [reflexivity|]. split; [reflexivity|exact Hperm].
Defined.

Lemma UseAddress_SetUtxos_unrecorded_witness :
  fst (WalletDb.UseAddress "addr9" LedgerExample.db) = false
  /\ fst (WalletDb.SetUtxos "addr9" [ElectrumUtxo "tx9" 0 10]
                            LedgerExample.db) = false.
Proof.
  destruct (UseAddress_SetUtxos_unrecorded LedgerExample.db _ "addr9"
              [ElectrumUtxo "tx9" 0 10] eq_refl eq_refl)
    as (Hused & _ & Hset & _).
  split; [exact Hused|exact Hset].
Defined.

Lemma GetAddresses_partition_witness :
  let db := @WalletHistory.calls LedgerExample.codec SpecModel.txutils
              LedgerExample.later LedgerExample.db in
  WalletDb.GetAllAddresses db
  ≡ₚ WalletDb.GetAddresses false false db
     ++ WalletDb.GetAddresses false true db
     ++ WalletDb.GetAddresses true false db
     ++ WalletDb.GetAddresses true true db.
Proof.
  apply (@GetAddresses_partition LedgerExample.codec SpecModel.txutils
           LedgerExample.db LedgerExample.later).
  cbn. unfold Invariants.flags_set.
  repeat (apply List.Forall_cons; [cbn; lia|]). apply List.Forall_nil.
Defined.

Lemma GetCurrentAddressIndex_is_max_witness :
  WalletDb.GetCurrentAddressIndex false LedgerExample.db = 2
  /\ WalletDb.GetCurrentAddressIndex false
       (snd (WalletDb.AddAddress "addr4" 3 false LedgerExample.db)) = 3
  /\ WalletDb.GetCurrentAddressIndex true
       (snd (WalletDb.AddAddress "addr4" 3 false LedgerExample.db)) = 0.
Proof.
  assert (Invariants.is_int 3) as Hint by (unfold Invariants.is_int; lia).
  assert (Forall (fun r => Invariants.is_int (ADDRESS.IDX r))
                 [ADDRESS.mk "addr1" 0 0 1 (Some [ElectrumUtxo "tx150" 0 5000]);
                  ADDRESS.mk "addr2" 1 0 1 (Some [ElectrumUtxo "tx150" 1 700]);
                  ADDRESS.mk "chg1" 0 1 0 None;
                  ADDRESS.mk "addr3" 2 0 0 None]) as Hall
    by (repeat constructor; cbn; lia).
  destruct (GetCurrentAddressIndex_is_max LedgerExample.db _ false "addr4" 3
              eq_refl Hall eq_refl Hint) as (_ & _ & Hsame & Hother).
  split; [reflexivity|]. split; [exact Hsame|exact Hother].
Defined.

Lemma GetAddressBalance_bounds_witness :
  @WalletDb.GetAddressBalance LedgerExample.codec SpecModel.txutils "addr1"
    LedgerExample.db = Ok 5000
  /\ @WalletDb.GetBalance LedgerExample.codec SpecModel.txutils
       LedgerExample.db = Ok 5150
  /\ exists a b,
      @WalletDb.GetAddressBalance LedgerExample.codec SpecModel.txutils
        "addr1" LedgerExample.db = Ok a
      /\ @WalletDb.GetBalance LedgerExample.codec SpecModel.txutils
           LedgerExample.db = Ok b
      /\ 0 <= a <= b.
Proof.
  split; [vm_compute; reflexivity|]. split; [vm_compute; reflexivity|].
  destruct (@GetAddressBalance_bounds LedgerExample.codec SpecModel.txutils
              LedgerExample.db
              [UnspentOutput.mk "b1" 1 "chg1" 150 0 "sent";
               UnspentOutput.mk "tx150" 0 "addr1" 5000 150 EmptyString]
              "addr1")
    as (a & b & Ha & Hb & Hle & _).
  - vm_compute. reflexivity.
  - repeat constructor; cbn; lia.
  - exists a, b. auto.
Defined.

(** ** The transaction ledger *)

Section TransactionLedger.
Context `{DbKeys} `{TxCodec} `{TxUtils}.
Import WalletHistory Invariants.

Lemma find_none_not_exists {A : Type} (p : A -> bool) (l : list A) :
  List.find p l = None -> existsb p l = false.
Proof.
  induction l as [|x l IH]; [reflexivity|]. cbn.
  destruct (p x); [discriminate|exact IH].
Qed.

Lemma row_transaction_ext r db db' :
  IMMUTABLE_DATA db' = IMMUTABLE_DATA db -> SIGNER db' = SIGNER db ->
  WalletDb.row_transaction r db' = WalletDb.row_transaction r db.
Proof.
  intros Him Hs. unfold WalletDb.row_transaction, WalletDb.GetSigners.
  now rewrite Him, Hs.
Qed.

Lemma GetTransaction_ext tx_id db db' :
  VTX db' = VTX db -> IMMUTABLE_DATA db' = IMMUTABLE_DATA db ->
  SIGNER db' = SIGNER db ->
  WalletDb.GetTransaction tx_id db' = WalletDb.GetTransaction tx_id db.
Proof.
  intros Hv Him Hs. unfold WalletDb.GetTransaction. rewrite Hv.
  destruct (Sqlite.first_row _ _); [|reflexivity].
  now apply row_transaction_ext.
Qed.

Lemma UseAddress_marks a db :
  a <> EmptyString -> in_ledger a db = true ->
  address_used a (snd (WalletDb.UseAddress a db)) = true.
Proof.
  intros Ha Hin. unfold in_ledger in Hin.
  destruct (ADDRESS db) as [rows|] eqn:Hrows; [|discriminate].
  unfold WalletDb.UseAddress.
  destruct (string_empty a) eqn:He;
    [destruct a; [congruence|discriminate]|].
  cbn [snd]. unfold address_used. rewrite exec_ADDRESS_table, Hrows.
  cbn [Sqlite.exec Sqlite.update fst Sqlite.first_row].
  destruct (List.find (fun r => String.eqb (ADDRESS.ADDR r) a) rows)
    as [r|] eqn:Hfind.
  - pose proof (find_some _ _ Hfind) as [_ Hr].
    rewrite (find_map_keeping a _ WalletDb.set_USED rows r (fun _ => eq_refl)
               Hfind).
    rewrite Hr. reflexivity.
  - apply find_none_not_exists in Hfind. congruence.
Qed.
Lemma find_filter_other {A : Type} (p q : A -> bool) (l : list A) :
  (forall x, p x = true -> q x = false) ->
  List.find p (List.filter (fun x => negb (q x)) l) = List.find p l.
Proof.
  intros Hpq. induction l as [|x l IH]; [reflexivity|]. cbn.
  destruct (p x) eqn:Hp.
  - rewrite (Hpq x Hp). cbn. now rewrite Hp.
  - destruct (q x); cbn; [|rewrite Hp]; exact IH.
Qed.

Lemma find_filter_same {A : Type} (p q : A -> bool) (l : list A) :
  (forall x, p x = true -> q x = true) ->
  List.find p (List.filter (fun x => negb (q x)) l) = None.
Proof.
  intros Hpq. induction l as [|x l IH]; [reflexivity|]. cbn.
  destruct (q x) eqn:Hq; cbn; [exact IH|].
  destruct (p x) eqn:Hp; [|exact IH].
  rewrite (Hpq x Hp) in Hq. discriminate.
Qed.

Lemma count_key_unique {A : Type} (key : A -> string) (k : string)
    (l : list A) :
  NoDup (map key l) ->
  Sqlite.count (fun r => String.eqb (key r) k) l
  = if existsb (fun r => String.eqb (key r) k) l then 1 else 0.
Proof.
  unfold Sqlite.count. induction l as [|x l IH]; [reflexivity|].
  cbn [map List.filter existsb]. intros Hnd.
  apply NoDup_cons in Hnd as [Hx Hnd]. specialize (IH Hnd).
  destruct (String.eqb_spec (key x) k) as [Heq|Hne]; cbn [orb].
  - replace (existsb (fun r => String.eqb (key r) k) l) with false in IH.
    + cbn [List.length]. lia.
    + symmetry. apply not_true_is_false. intros Hex.
      apply existsb_exists in Hex as (y & Hy & Hk).
      apply String.eqb_eq in Hk. apply Hx. rewrite Heq, <- Hk.
      apply list_elem_of_In. now apply in_map.
  - exact IH.
Qed.

(** [DeleteTransaction] forgets the transaction: whatever the store
    held, [GetTransaction] of the id throws TX_NOT_FOUND afterwards and
    [GetPsbt] of it is empty; every other transaction and draft reads
    as before and the address ledger is untouched; where the ids of
    [VTX] are distinct, the call answers whether the id was stored. *)
Theorem DeleteTransaction_forgets (db : NunchukWalletDb) (tx_id : string) :
  let deleted := WalletDb.DeleteTransaction tx_id db in
  WalletDb.GetTransaction tx_id (snd deleted)
  = Throw (StorageExc StorageException.TX_NOT_FOUND)
  /\ WalletDb.GetPsbt tx_id (snd deleted) = EmptyString
  /\ (forall other,
        other <> tx_id ->
        WalletDb.GetTransaction other (snd deleted)
        = WalletDb.GetTransaction other db
        /\ WalletDb.GetPsbt other (snd deleted) = WalletDb.GetPsbt other db)
  /\ ADDRESS (snd deleted) = ADDRESS db
  /\ (forall rows,
        VTX db = Some rows -> NoDup (map VTX.ID rows) ->
        fst deleted
        = existsb (fun r => String.eqb (VTX.ID r) tx_id) rows).
Proof.
  intros deleted. unfold deleted, WalletDb.DeleteTransaction.
  cbn [fst snd]. rewrite exec_VTX_eq.
  unfold WalletDb.GetTransaction, WalletDb.GetPsbt, WalletDb.updated.
  cbn [VTX ADDRESS wdb changes set_changes].
  destruct (VTX db) as [rows|] eqn:Hrows;
    cbn [Sqlite.exec Sqlite.delete fst snd Sqlite.first_row].
  - split; [now rewrite find_filter_same|].
    split.
    { rewrite find_filter_same; [reflexivity|].
      unfold WalletDb.is_draft. intros x Hx.
      now apply andb_true_iff in Hx as [-> _]. }
    split; [|split; [reflexivity|]].
    + intros other Hother. split.
      * rewrite find_filter_other.
        -- destruct (List.find _ rows); [|reflexivity].
           now apply row_transaction_ext.
        -- intros x Hx. apply String.eqb_eq in Hx. rewrite Hx.
           now apply String.eqb_neq.
      * rewrite find_filter_other; [reflexivity|].
        unfold WalletDb.is_draft. intros x Hx.
        apply andb_true_iff in Hx as [Hx _]. apply String.eqb_eq in Hx.
        rewrite Hx. now apply String.eqb_neq.
    + intros rows' Heq Hnd. injection Heq as <-.
      rewrite (count_key_unique VTX.ID tx_id rows Hnd).
      now destruct (existsb _ rows).
  - repeat split; try reflexivity; discriminate.
Qed.

Lemma InsertTransaction_eq raw_tx height blocktime fee memo change_pos db :
  let tx_id := GetHash (DecodeRawTransaction raw_tx) in
  let db1 :=
    WalletDb.exec_VTX
      (Sqlite.insert WalletDb.same_ID
         (VTX.mk tx_id raw_tx height fee memo change_pos blocktime None))
      db in
  WalletDb.InsertTransaction raw_tx height blocktime fee memo change_pos db
  = if Sqlite.constraint_failed WalletDb.same_ID
         (VTX.mk tx_id raw_tx height fee memo change_pos blocktime None)
         (VTX db)
    then (Throw (StorageExc StorageException.SQL_ERROR), db1)
    else
      match WalletDb.GetTransaction tx_id db1 with
      | Ok tx => (Ok tx, if height >? 0
                         then WalletDb.UseAddresses (get_outputs tx) db1
                         else db1)
      | Throw e => (Throw e, db1)
      end.
Proof.
  cbn zeta. unfold WalletDb.InsertTransaction.
  destruct (Sqlite.constraint_failed _ _ _); [reflexivity|]. cbn [SQLCHECK].
  destruct (WalletDb.GetTransaction _ _); [|reflexivity].
  now destruct (height >? 0).
Qed.

Lemma constraint_failed_ID r0 db rows :
  VTX db = Some rows ->
  Sqlite.constraint_failed WalletDb.same_ID r0 (VTX db)
  = existsb (fun r => String.eqb (VTX.ID r) (VTX.ID r0)) rows.
Proof.
  intros ->. unfold Sqlite.constraint_failed.
  induction rows as [|r rows IH]; [reflexivity|]. cbn [existsb].
  rewrite IH. unfold WalletDb.same_ID. now rewrite String.eqb_sym.
Qed.

Lemma existsb_same_ID r0 (rows : list VTX.row) :
  existsb (WalletDb.same_ID r0) rows
  = existsb (fun r => String.eqb (VTX.ID r) (VTX.ID r0)) rows.
Proof.
  induction rows as [|r rows IH]; [reflexivity|]. cbn [existsb].
  rewrite IH. unfold WalletDb.same_ID. now rewrite String.eqb_sym.
Qed.

Lemma insert_VTX r0 db rows :
  VTX db = Some rows ->
  VTX (WalletDb.exec_VTX (Sqlite.insert WalletDb.same_ID r0) db)
  = Some (if existsb (fun r => String.eqb (VTX.ID r) (VTX.ID r0)) rows
          then rows else rows ++ [r0]).
Proof.
  intros Hrows. rewrite exec_VTX_eq. cbn [VTX]. rewrite Hrows.
  unfold Sqlite.exec, Sqlite.insert. rewrite existsb_same_ID.
  now destruct (existsb _ rows).
Qed.

(** [InsertTransaction] of a transaction whose id [VTX] already holds
    throws SQL_ERROR (the INSERT violates the primary key) and does not
    overwrite: the transactions, the address ledger and the signer slots
    are as before, whatever height, fee or memo was passed, and
    [GetTransaction] of the id reads as before. *)
Theorem InsertTransaction_stored_id (db : NunchukWalletDb)
    (rows : list VTX.row) (raw_tx : string) (height : Z)
    (blocktime : time_t) (fee : Amount) (memo : string) (change_pos : Z) :
  let tx_id := GetHash (DecodeRawTransaction raw_tx) in
  VTX db = Some rows ->
  existsb (fun r => String.eqb (VTX.ID r) tx_id) rows = true ->
  let inserted :=
    WalletDb.InsertTransaction raw_tx height blocktime fee memo change_pos
                               db in
  fst inserted = Throw (StorageExc StorageException.SQL_ERROR)
  /\ VTX (snd inserted) = VTX db
  /\ ADDRESS (snd inserted) = ADDRESS db
  /\ SIGNER (snd inserted) = SIGNER db
  /\ IMMUTABLE_DATA (snd inserted) = IMMUTABLE_DATA db
  /\ WalletDb.GetTransaction tx_id (snd inserted)
     = WalletDb.GetTransaction tx_id db.
Proof.
  intros tx_id Hrows Hex inserted. unfold inserted.
  rewrite InsertTransaction_eq. fold tx_id.
  rewrite (constraint_failed_ID _ db rows Hrows). cbn [VTX.ID].
  rewrite Hex. cbn [fst snd].
  set (db1 := WalletDb.exec_VTX _ db).
  assert (VTX db1 = VTX db) as Hv.
  { unfold db1. rewrite (insert_VTX _ db rows Hrows). cbn [VTX.ID].
    now rewrite Hex. }
  assert (ADDRESS db1 = ADDRESS db /\ SIGNER db1 = SIGNER db
          /\ IMMUTABLE_DATA db1 = IMMUTABLE_DATA db) as (Ha & Hs & Him)
    by (unfold db1; rewrite exec_VTX_eq; auto).
  split; [reflexivity|]. split; [exact Hv|]. split; [exact Ha|].
  split; [exact Hs|]. split; [exact Him|].
  now apply GetTransaction_ext.
Qed.
Lemma in_ledger_first_row a db :
  in_ledger a db = true <->
  exists r, Sqlite.first_row (addr_is a) (ADDRESS db) = Some r.
Proof.
  unfold in_ledger, Sqlite.first_row, addr_is.
  destruct (ADDRESS db) as [rows|]; [|split; [discriminate|intros [r Hr];
                                                 discriminate]].
  split.
  - intros Hex.
    destruct (List.find (fun r => String.eqb (ADDRESS.ADDR r) a) rows)
      as [r|] eqn:Hf; [now exists r|].
    apply find_none_not_exists in Hf. congruence.
  - intros [r Hr]. apply find_some in Hr as [Hin Hr].
    apply existsb_exists. now exists r.
Qed.

Lemma in_ledger_le a db db' :
  ledger_le a (ADDRESS db) (ADDRESS db') ->
  in_ledger a db = true -> in_ledger a db' = true.
Proof.
  intros Hle Hin. apply in_ledger_first_row in Hin as [r Hr].
  destruct (Hle r Hr) as (r' & Hr' & _). apply in_ledger_first_row.
  now exists r'.
Qed.

Lemma UseAddresses_marks outputs db a :
  In a (map fst outputs) -> a <> EmptyString -> in_ledger a db = true ->
  address_used a (WalletDb.UseAddresses outputs db) = true.
Proof.
  unfold WalletDb.UseAddresses. revert db.
  induction outputs as [|o outputs IH]; intros db Hin Ha Hl; [destruct Hin|].
  cbn [fold_left]. destruct Hin as [Ho|Hin].
  - cbn [map] in Ho. rewrite Ho.
    apply (address_used_le a (snd (WalletDb.UseAddress a db))).
    + apply (UseAddresses_le a outputs).
    + now apply UseAddress_marks.
  - apply IH; [exact Hin|exact Ha|].
    apply (in_ledger_le a db); [apply UseAddress_le|exact Hl].
Qed.

Lemma row_transaction_plain r db im :
  IMMUTABLE_DATA db = Some im -> VTX.EXTRA r = None ->
  exists tx,
    WalletDb.row_transaction r db = Ok tx
    /\ get_txid tx = cstr (VTX.ID r)
    /\ get_memo tx = cstr (VTX.MEMO r)
    /\ get_change_index tx = VTX.CHANGEPOS r
    /\ get_blocktime tx = VTX.BLOCKTIME r
    /\ get_fee tx = to_int (VTX.FEE r)
    /\ get_m tx = im_m im.
Proof.
  intros Him Hextra. unfold WalletDb.row_transaction.
  rewrite Him, Hextra. cbn [WalletDb.FillExtra]. eexists.
  split; [reflexivity|]. cbn. repeat split.
Qed.

(** [InsertTransaction] of a transaction whose id [VTX] does not hold
    yet, into an initialised store: the call returns the transaction
    that [GetTransaction] returns for the id afterwards; it carries the
    id, the memo, the change index, the block time, the fee as an [int]
    and the wallet's m.  Inserted at a height of 0 or below, the address
    ledger is untouched; inserted above 0, every non-empty output
    address that the ledger records is marked used. *)
Theorem InsertTransaction_fresh_id (db : NunchukWalletDb)
    (rows : list VTX.row) (im : ImmutableData) (raw_tx : string)
    (height : Z) (blocktime : time_t) (fee : Amount) (memo : string)
    (change_pos : Z) :
  let tx_id := GetHash (DecodeRawTransaction raw_tx) in
  VTX db = Some rows ->
  existsb (fun r => String.eqb (VTX.ID r) tx_id) rows = false ->
  IMMUTABLE_DATA db = Some im ->
  let inserted :=
    WalletDb.InsertTransaction raw_tx height blocktime fee memo change_pos
                               db in
  exists tx,
    fst inserted = Ok tx
    /\ WalletDb.GetTransaction tx_id (snd inserted) = Ok tx
    /\ get_txid tx = cstr tx_id
    /\ get_memo tx = cstr memo
    /\ get_change_index tx = change_pos
    /\ get_blocktime tx = blocktime
    /\ get_fee tx = to_int fee
    /\ get_m tx = im_m im
    /\ (height <= 0 -> ADDRESS (snd inserted) = ADDRESS db)
    /\ (0 < height ->
        forall a, In a (map fst (get_outputs tx)) -> a <> EmptyString ->
                  in_ledger a db = true ->
                  address_used a (snd inserted) = true).
Proof.
  intros tx_id Hrows Hfresh Him inserted. unfold inserted.
  rewrite InsertTransaction_eq. fold tx_id.
  rewrite (constraint_failed_ID _ db rows Hrows). cbn [VTX.ID].
  rewrite Hfresh.
  set (r0 := VTX.mk tx_id raw_tx height fee memo change_pos blocktime None).
  set (db1 := WalletDb.exec_VTX _ db).
  assert (VTX db1 = Some (rows ++ [r0])) as Hv.
  { unfold db1. rewrite (insert_VTX r0 db rows Hrows). cbn [VTX.ID r0].
    now rewrite Hfresh. }
  assert (IMMUTABLE_DATA db1 = IMMUTABLE_DATA db /\ SIGNER db1 = SIGNER db
          /\ ADDRESS db1 = ADDRESS db) as (Him1 & Hs1 & Ha1)
    by (unfold db1; rewrite exec_VTX_eq; auto).
  assert (WalletDb.GetTransaction tx_id db1
          = WalletDb.row_transaction r0 db1) as Hget.
  { unfold WalletDb.GetTransaction. rewrite Hv. cbn [Sqlite.first_row].
    rewrite find_app_r by now apply find_none_existsb.
    cbn. now rewrite String.eqb_refl. }
  destruct (row_transaction_plain r0 db1 im) as (tx & Hrow & Hfields);
    [congruence|reflexivity|].
  rewrite Hget, Hrow. cbn [fst snd]. exists tx. split; [reflexivity|].
  assert (WalletDb.GetTransaction tx_id
            (if height >? 0
             then WalletDb.UseAddresses (get_outputs tx) db1 else db1)
          = Ok tx) as Hread.
  { destruct (height >? 0); [|now rewrite Hget].
    destruct (UseAddresses_frame (get_outputs tx) db1) as (Hv2 & Him2 & Hs2).
    now rewrite (GetTransaction_ext tx_id db1 _ Hv2 Him2 Hs2), Hget. }
  split; [exact Hread|].
  destruct Hfields as (Hid & Hmemo & Hpos & Htime & Hfee & Hm).
  cbn [VTX.ID VTX.MEMO VTX.CHANGEPOS VTX.BLOCKTIME VTX.FEE r0] in *.
  repeat (split; [assumption|]). split.
  - intros Hh. replace (height >? 0) with false by lia. exact Ha1.
  - intros Hh a Hin Ha Hl. replace (height >? 0) with true by lia.
    apply UseAddresses_marks; [exact Hin|exact Ha|].
    unfold in_ledger in *. now rewrite Ha1.
Qed.
Lemma find_map_key {A : Type} (key : A -> string) (k : string)
    (p : A -> bool) (f : A -> A) (l : list A) :
  (forall x, key (f x) = key x) ->
  List.find (fun r => String.eqb (key r) k)
            (map (fun x => if p x then f x else x) l)
  = match List.find (fun r => String.eqb (key r) k) l with
    | Some r => Some (if p r then f r else r)
    | None => None
    end.
Proof.
  intros Hkey. induction l as [|x l IH]; [reflexivity|]. cbn.
  replace (key (if p x then f x else x)) with (key x)
    by (destruct (p x); [now rewrite Hkey|reflexivity]).
  destruct (String.eqb (key x) k); [reflexivity|exact IH].
Qed.

Lemma persist_signers_no_draft tx_id reject_msg height db rows :
  VTX db = Some rows ->
  (0 < height
   \/ existsb (fun r => String.eqb (VTX.ID r) tx_id) rows = false) ->
  WalletDb.persist_signers tx_id reject_msg height db = (Ok None, db).
Proof.
  intros Hrows Hcase. unfold WalletDb.persist_signers.
  destruct (height <=? 0) eqn:Hh; [|reflexivity].
  destruct Hcase as [Hpos|Hnone]; [lia|].
  rewrite Hrows. cbn [Sqlite.first_row].
  rewrite find_none_existsb; [reflexivity|].
  apply (existsb_weaken _ (fun r => String.eqb (VTX.ID r) tx_id));
    [|exact Hnone].
  intros x Hx. now apply andb_true_iff in Hx as [-> _].
Qed.

(** [UpdateTransaction] at height -1, or of a transaction whose id
    [VTX] does not hold, answers [false] and leaves the transactions
    and the address ledger as they are. *)
Theorem UpdateTransaction_unknown_id (db : NunchukWalletDb)
    (rows : list VTX.row) (raw_tx : string) (height : Z)
    (blocktime : time_t) (reject_msg : string) :
  let tx_id := GetHash (DecodeRawTransaction raw_tx) in
  VTX db = Some rows ->
  height = -1
  \/ existsb (fun r => String.eqb (VTX.ID r) tx_id) rows = false ->
  let updated :=
    WalletDb.UpdateTransaction raw_tx height blocktime reject_msg db in
  fst updated = Ok false
  /\ VTX (snd updated) = VTX db
  /\ ADDRESS (snd updated) = ADDRESS db.
Proof.
  intros tx_id Hrows Hcase updated. unfold updated, WalletDb.UpdateTransaction.
  destruct (height =? -1) eqn:Hh; [auto|].
  destruct Hcase as [Hm|Hnone]; [lia|]. fold tx_id.
  rewrite (persist_signers_no_draft tx_id reject_msg height db rows Hrows
             (or_intror Hnone)).
  rewrite exec_VTX_eq, Hrows. unfold WalletDb.updated.
  cbn [Sqlite.exec wdb changes set_changes].
  rewrite (update_none _ _ rows Hnone). cbn. auto.
Qed.

(** [UpdateTransaction] above height 0 of a transaction the initialised
    store holds, ids being distinct: it answers [true]; the row of the
    id holds the new raw transaction, the height and the block time and
    keeps its fee, memo, change index and extension blob; every other
    row is as before; and every non-empty output address of the
    transaction that the ledger records is marked used. *)
Theorem UpdateTransaction_confirms (db : NunchukWalletDb)
    (rows : list VTX.row) (r0 : VTX.row) (im : ImmutableData)
    (raw_tx : string) (height : Z) (blocktime : time_t)
    (reject_msg : string) :
  let tx_id := GetHash (DecodeRawTransaction raw_tx) in
  VTX db = Some rows ->
  NoDup (map VTX.ID rows) ->
  List.find (fun r => String.eqb (VTX.ID r) tx_id) rows = Some r0 ->
  IMMUTABLE_DATA db = Some im ->
  0 < height ->
  let updated :=
    WalletDb.UpdateTransaction raw_tx height blocktime reject_msg db in
  let row x := Sqlite.first_row (fun r => String.eqb (VTX.ID r) x) in
  row tx_id (VTX (snd updated))
  = Some (VTX.mk (VTX.ID r0) raw_tx height (VTX.FEE r0) (VTX.MEMO r0)
                 (VTX.CHANGEPOS r0) blocktime (VTX.EXTRA r0))
  /\ (forall other, other <> tx_id ->
                    row other (VTX (snd updated)) = row other (VTX db))
  /\ exists tx,
      fst updated = Ok true
      /\ WalletDb.GetTransaction tx_id (snd updated) = Ok tx
      /\ forall a, In a (map fst (get_outputs tx)) -> a <> EmptyString ->
                   in_ledger a db = true ->
                   address_used a (snd updated) = true.
Proof.
  intros tx_id Hrows Hnd Hfind Him Hh updated row.
  unfold updated, WalletDb.UpdateTransaction.
  replace (height =? -1) with false by lia. fold tx_id.
  rewrite (persist_signers_no_draft tx_id reject_msg height db rows Hrows
             (or_introl Hh)).
  set (db2 := WalletDb.exec_VTX _ db).
  set (p := fun r : VTX.row => String.eqb (VTX.ID r) tx_id) in *.
  assert (VTX db2
          = Some (map (fun r => if p r
                                then WalletDb.set_tx raw_tx height blocktime
                                                     None r
                                else r) rows)
          /\ WalletDb.updated db2 = true
          /\ IMMUTABLE_DATA db2 = IMMUTABLE_DATA db
          /\ ADDRESS db2 = ADDRESS db) as (Hv2 & Hup & Him2 & Ha2).
  { unfold db2. rewrite exec_VTX_eq, Hrows. unfold WalletDb.updated.
    cbn [Sqlite.exec Sqlite.update VTX wdb changes set_changes fst snd
         IMMUTABLE_DATA ADDRESS].
    repeat split. unfold p. rewrite (count_key_unique VTX.ID tx_id rows Hnd).
    fold p. replace (existsb p rows) with true; [reflexivity|].
    symmetry. apply existsb_exists. exists r0. now apply find_some in Hfind. }
  assert (forall x,
             row x (VTX db2)
             = match List.find (fun r => String.eqb (VTX.ID r) x) rows with
               | Some r => Some (if p r
                                 then WalletDb.set_tx raw_tx height blocktime
                                                      None r
                                 else r)
               | None => None
               end) as Hrow.
  { intros x. unfold row. rewrite Hv2. cbn [Sqlite.first_row].
    apply (find_map_key VTX.ID x p). reflexivity. }
  assert (row tx_id (VTX db2)
          = Some (VTX.mk (VTX.ID r0) raw_tx height (VTX.FEE r0) (VTX.MEMO r0)
                         (VTX.CHANGEPOS r0) blocktime (VTX.EXTRA r0)))
    as Hmine.
  { rewrite Hrow. fold p. rewrite Hfind.
    apply find_some in Hfind as [_ Hp]. now rewrite Hp. }
  assert (forall other, other <> tx_id ->
                        row other (VTX db2) = row other (VTX db)) as Hothers.
  { intros other Hne. rewrite Hrow, Hrows. unfold row.
    cbn [Sqlite.first_row].
    destruct (List.find (fun r => String.eqb (VTX.ID r) other) rows)
      as [r|] eqn:Hf; [|reflexivity].
    apply find_some in Hf as [_ Hr]. apply String.eqb_eq in Hr.
    replace (p r) with false; [reflexivity|].
    symmetry. unfold p. rewrite Hr. now apply String.eqb_neq. }
  rewrite Hup. replace (height >? 0) with true by lia. cbn [andb].
  assert (exists tx, WalletDb.GetTransaction tx_id db2 = Ok tx) as [tx Htx].
  { unfold WalletDb.GetTransaction. fold (row tx_id (VTX db2)).
    rewrite Hmine. unfold WalletDb.row_transaction. rewrite Him2, Him.
    eexists. reflexivity. }
  rewrite Htx. cbn [fst snd].
  destruct (UseAddresses_frame (get_outputs tx) db2) as (Hv3 & Him3 & Hs3).
  rewrite Hv3. split; [exact Hmine|]. split; [exact Hothers|].
  exists tx. split; [reflexivity|]. split.
  - now rewrite (GetTransaction_ext tx_id db2 _ Hv3 Him3 Hs3).
  - intros a Hin Ha Hl. apply UseAddresses_marks; [exact Hin|exact Ha|].
    unfold in_ledger in *. now rewrite Ha2.
Qed.
Lemma count_key_and_unique {A : Type} (key : A -> string) (k : string)
    (q : A -> bool) (l : list A) :
  NoDup (map key l) ->
  Sqlite.count (fun r => String.eqb (key r) k && q r) l
  = if existsb (fun r => String.eqb (key r) k && q r) l then 1 else 0.
Proof.
  unfold Sqlite.count. induction l as [|x l IH]; [reflexivity|].
  cbn [map List.filter existsb]. intros Hnd.
  apply NoDup_cons in Hnd as [Hx Hnd]. specialize (IH Hnd).
  destruct (String.eqb_spec (key x) k) as [Heq|Hne]; cbn [andb orb];
    [|exact IH].
  replace (existsb (fun r => String.eqb (key r) k && q r) l) with false
    in IH |- *.
  - destruct (q x); cbn [List.length orb]; lia.
  - symmetry. apply not_true_is_false. intros Hex.
    apply existsb_exists in Hex as (y & Hy & Hk).
    apply andb_true_iff in Hk as [Hk _]. apply String.eqb_eq in Hk.
    apply Hx. rewrite Heq, <- Hk. apply list_elem_of_In. now apply in_map.
Qed.

Lemma find_map_stable {A : Type} (p q : A -> bool) (f : A -> A)
    (l : list A) :
  (forall x, p (f x) = p x) ->
  List.find p (map (fun x => if q x then f x else x) l)
  = match List.find p l with
    | Some r => Some (if q r then f r else r)
    | None => None
    end.
Proof.
  intros Hp. induction l as [|x l IH]; [reflexivity|]. cbn.
  replace (p (if q x then f x else x)) with (p x)
    by (destruct (q x); [now rewrite Hp|reflexivity]).
  destruct (p x); [reflexivity|exact IH].
Qed.

Lemma row_transaction_memo r db tx memo :
  WalletDb.row_transaction r db = Ok tx ->
  WalletDb.row_transaction (WalletDb.set_MEMO memo r) db
  = Ok {| get_txid := get_txid tx; get_height := get_height tx;
          get_inputs := get_inputs tx; get_outputs := get_outputs tx;
          get_user_outputs := get_user_outputs tx;
          get_receive_outputs := get_receive_outputs tx;
          get_change_index := get_change_index tx; get_m := get_m tx;
          get_signers := get_signers tx; get_memo := cstr memo;
          get_status := get_status tx;
          get_replaced_by_txid := get_replaced_by_txid tx;
          get_fee := get_fee tx; get_fee_rate := get_fee_rate tx;
          get_blocktime := get_blocktime tx;
          subtract_fee_from_amount := subtract_fee_from_amount tx;
          is_receive := is_receive tx;
          get_sub_amount := get_sub_amount tx |}.
Proof.
  unfold WalletDb.row_transaction.
  destruct (IMMUTABLE_DATA db) as [im|]; [|discriminate].
  intros [= <-]. cbn [WalletDb.set_MEMO VTX.ID VTX.VALUE VTX.HEIGHT VTX.FEE
                      VTX.MEMO VTX.CHANGEPOS VTX.BLOCKTIME VTX.EXTRA].
  destruct (VTX.EXTRA r) as [e|]; reflexivity.
Qed.

(** [UpdateTransactionMemo] of a transaction the store holds, ids being
    distinct, answers [true]; afterwards [GetTransaction] returns the
    same transaction with the new memo and nothing else changed, every
    other transaction reads as before and the address ledger is
    untouched. *)
Theorem UpdateTransactionMemo_changes_memo (db : NunchukWalletDb)
    (rows : list VTX.row) (tx : Transaction) (tx_id memo : string) :
  VTX db = Some rows ->
  NoDup (map VTX.ID rows) ->
  WalletDb.GetTransaction tx_id db = Ok tx ->
  let updated := WalletDb.UpdateTransactionMemo tx_id memo db in
  fst updated = true
  /\ WalletDb.GetTransaction tx_id (snd updated)
     = Ok {| get_txid := get_txid tx; get_height := get_height tx;
             get_inputs := get_inputs tx; get_outputs := get_outputs tx;
             get_user_outputs := get_user_outputs tx;
             get_receive_outputs := get_receive_outputs tx;
             get_change_index := get_change_index tx; get_m := get_m tx;
             get_signers := get_signers tx; get_memo := cstr memo;
             get_status := get_status tx;
             get_replaced_by_txid := get_replaced_by_txid tx;
             get_fee := get_fee tx; get_fee_rate := get_fee_rate tx;
             get_blocktime := get_blocktime tx;
             subtract_fee_from_amount := subtract_fee_from_amount tx;
             is_receive := is_receive tx;
             get_sub_amount := get_sub_amount tx |}
  /\ (forall other, other <> tx_id ->
                    WalletDb.GetTransaction other (snd updated)
                    = WalletDb.GetTransaction other db)
  /\ ADDRESS (snd updated) = ADDRESS db.
Proof.
  intros Hrows Hnd Hget updated.
  unfold updated, WalletDb.UpdateTransactionMemo. cbn [fst snd].
  rewrite exec_VTX_eq, Hrows. unfold WalletDb.updated, WalletDb.GetTransaction.
  cbn [Sqlite.exec Sqlite.update VTX wdb changes set_changes fst snd ADDRESS
       Sqlite.first_row].
  unfold WalletDb.GetTransaction in Hget. rewrite Hrows in Hget.
  cbn [Sqlite.first_row] in Hget.
  destruct (List.find (fun r => String.eqb (VTX.ID r) tx_id) rows)
    as [r|] eqn:Hfind; [|discriminate].
  pose proof (find_some _ _ Hfind) as [Hin Hr].
  split; [|split; [|split; [|reflexivity]]].
  - rewrite (count_key_unique VTX.ID tx_id rows Hnd).
    replace (existsb (fun r => String.eqb (VTX.ID r) tx_id) rows) with true;
      [reflexivity|].
    symmetry. apply existsb_exists. now exists r.
  - rewrite (find_map_key VTX.ID tx_id) by reflexivity.
    rewrite Hfind, Hr.
    rewrite (row_transaction_ext _ db) by reflexivity.
    now apply row_transaction_memo.
  - intros other Hne. rewrite (find_map_key VTX.ID other) by reflexivity.
    rewrite Hrows. cbn [Sqlite.first_row].
    destruct (List.find (fun r => String.eqb (VTX.ID r) other) rows)
      as [x|] eqn:Hx; [|reflexivity].
    apply find_some in Hx as [_ Hx]. apply String.eqb_eq in Hx.
    replace (String.eqb (VTX.ID x) tx_id) with false
      by (symmetry; rewrite Hx; now apply String.eqb_neq).
    now apply row_transaction_ext.
Qed.
Lemma cstr_idempotent s : cstr (cstr s) = cstr s.
Proof.
  induction s as [|c s IH]; [reflexivity|]. cbn.
  destruct (Ascii.eqb c _) eqn:Hc; [reflexivity|]. cbn.
  now rewrite Hc, IH.
Qed.

Lemma is_draft_id tx_id (l : list VTX.row) :
  existsb (fun r => String.eqb (VTX.ID r) tx_id) l = false ->
  List.find (WalletDb.is_draft tx_id) l = None.
Proof.
  intros Hnone. apply find_none_existsb.
  apply (existsb_weaken _ (fun r => String.eqb (VTX.ID r) tx_id));
    [|exact Hnone].
  unfold WalletDb.is_draft. intros x Hx.
  now apply andb_true_iff in Hx as [-> _].
Qed.

(** [CreatePsbt] of a draft whose id [VTX] does not hold yet: the id
    had no draft and has the given one afterwards, as the text up to
    its first NUL; the call returns what [GetTransaction] returns for
    the id; the draft of every other id reads as before and the address
    ledger is untouched. *)
Theorem CreatePsbt_then_GetPsbt (db : NunchukWalletDb)
    (rows : list VTX.row) (psbt : string) (fee : Amount) (memo : string)
    (change_pos : Z) (outputs : gmap string Amount) (fee_rate : Amount)
    (subtract_fee_from_amount : bool) (replace_tx : string) :
  let tx_id := GetHash (psbt_tx (DecodePsbt psbt)) in
  VTX db = Some rows ->
  existsb (fun r => String.eqb (VTX.ID r) tx_id) rows = false ->
  let created :=
    WalletDb.CreatePsbt psbt fee memo change_pos outputs fee_rate
                        subtract_fee_from_amount replace_tx db in
  WalletDb.GetPsbt tx_id db = EmptyString
  /\ WalletDb.GetPsbt tx_id (snd created) = cstr psbt
  /\ fst created = WalletDb.GetTransaction tx_id (snd created)
  /\ (forall other, other <> tx_id ->
                    WalletDb.GetPsbt other (snd created)
                    = WalletDb.GetPsbt other db)
  /\ ADDRESS (snd created) = ADDRESS db.
Proof.
  intros tx_id Hrows Hfresh created.
  unfold created, WalletDb.CreatePsbt. fold tx_id.
  rewrite (constraint_failed_ID _ db rows Hrows). cbn [VTX.ID].
  rewrite Hfresh. cbn [fst snd SQLCHECK].
  match goal with
  | |- context [WalletDb.exec_VTX (Sqlite.insert WalletDb.same_ID ?r) db] =>
    set (r0 := r);
    pose proof (insert_VTX r0 db rows Hrows) as Hv
  end.
  cbn [VTX.ID r0] in Hv. rewrite Hfresh in Hv.
  unfold WalletDb.GetPsbt. rewrite Hv, Hrows. cbn [Sqlite.first_row].
  rewrite (is_draft_id tx_id rows Hfresh).
  split; [reflexivity|]. split.
  { rewrite find_app_r by now apply is_draft_id.
    cbn. unfold WalletDb.is_draft. cbn. now rewrite String.eqb_refl. }
  split; [reflexivity|]. split; [|now rewrite exec_VTX_eq].
  intros other Hne.
  destruct (List.find (WalletDb.is_draft other) rows) as [r|] eqn:Hf.
  - now rewrite (find_app_l _ _ _ _ Hf).
  - rewrite find_app_r by exact Hf. cbn. unfold WalletDb.is_draft. cbn.
    destruct (String.eqb_spec tx_id other); [congruence|reflexivity].
Qed.

(** [UpdatePsbt] writes into drafts only, ids being distinct: when the
    store holds a draft (height -1) under the id of the PSBT, the call
    answers [true] and [GetPsbt] returns the new text afterwards; when
    it holds none (no such id, or a transaction that was broadcast
    already), the call answers [false] and the table is as before. *)
Theorem UpdatePsbt_only_drafts (db : NunchukWalletDb) (rows : list VTX.row)
    (psbt : string) :
  let tx_id := GetHash (psbt_tx (DecodePsbt psbt)) in
  VTX db = Some rows ->
  NoDup (map VTX.ID rows) ->
  let updated := WalletDb.UpdatePsbt psbt db in
  (existsb (WalletDb.is_draft tx_id) rows = true ->
   fst updated = true /\ WalletDb.GetPsbt tx_id (snd updated) = cstr psbt)
  /\ (existsb (WalletDb.is_draft tx_id) rows = false ->
      fst updated = false /\ VTX (snd updated) = VTX db).
Proof.
  intros tx_id Hrows Hnd updated.
  unfold updated, WalletDb.UpdatePsbt. fold tx_id. cbn [fst snd].
  rewrite exec_VTX_eq, Hrows. unfold WalletDb.updated, WalletDb.GetPsbt.
  cbn [Sqlite.exec Sqlite.update VTX wdb changes set_changes fst snd
       Sqlite.first_row].
  assert (Sqlite.count (WalletDb.is_draft tx_id) rows
          = if existsb (WalletDb.is_draft tx_id) rows then 1 else 0)
    as Hcount
    by exact (count_key_and_unique VTX.ID tx_id
                (fun r => VTX.HEIGHT r =? -1) rows Hnd).
  rewrite Hcount. split; intros Hex; rewrite Hex.
  - split; [reflexivity|].
    rewrite (find_map_stable (WalletDb.is_draft tx_id)) by reflexivity.
    destruct (List.find (WalletDb.is_draft tx_id) rows) as [r|] eqn:Hf.
    + apply find_some in Hf as [_ ->]. reflexivity.
    + apply find_none_not_exists in Hf. congruence.
  - split; [reflexivity|]. f_equal.
    clear - Hex. induction rows as [|x rows IH]; [reflexivity|].
    cbn in *. apply orb_false_iff in Hex as [-> Hex]. now rewrite IH.
Qed.
Lemma UpdatePsbtTxId_eq old_id new_id db rows r :
  VTX db = Some rows ->
  NoDup (map VTX.ID rows) ->
  List.find (WalletDb.is_draft old_id) rows = Some r ->
  let copy := VTX.mk new_id (cstr (VTX.VALUE r)) (-1) (to_int (VTX.FEE r))
                     (cstr (VTX.MEMO r)) (VTX.CHANGEPOS r) 0 (VTX.EXTRA r) in
  let kept := List.filter (fun x => negb (String.eqb (VTX.ID x) old_id)) in
  let moved := WalletDb.UpdatePsbtTxId old_id new_id db in
  VTX.ID r = old_id
  /\ fst moved
     = (if existsb (fun x => String.eqb (VTX.ID x) new_id) rows
        then Throw (StorageExc StorageException.SQL_ERROR) else Ok true)
  /\ VTX (snd moved)
     = Some (if existsb (fun x => String.eqb (VTX.ID x) new_id) rows
             then rows else kept rows ++ [copy])
  /\ IMMUTABLE_DATA (snd moved) = IMMUTABLE_DATA db
  /\ SIGNER (snd moved) = SIGNER db
  /\ ADDRESS (snd moved) = ADDRESS db.
Proof.
  intros Hrows Hnd Hfind copy kept moved.
  pose proof (find_some _ _ Hfind) as [Hin Hdraft].
  unfold WalletDb.is_draft in Hdraft.
  apply andb_true_iff in Hdraft as [Hid _]. apply String.eqb_eq in Hid.
  split; [exact Hid|].
  unfold moved, WalletDb.UpdatePsbtTxId.
  pose proof (constraint_failed_ID copy db rows Hrows) as Hfailed.
  cbn [VTX.ID copy] in Hfailed.
  rewrite Hrows in Hfailed |- *.
  cbn [Sqlite.first_row]. rewrite Hfind. fold copy. rewrite Hfailed.
  set (db1 := WalletDb.exec_VTX (Sqlite.insert WalletDb.same_ID copy) db).
  pose proof (insert_VTX copy db rows Hrows) as Hv1. fold db1 in Hv1.
  cbn [VTX.ID copy] in Hv1.
  assert (existsb (fun x => String.eqb (VTX.ID x) old_id) rows = true)
    as Hold.
  { apply existsb_exists. exists r. split; [exact Hin|].
    now apply String.eqb_eq. }
  assert (IMMUTABLE_DATA db1 = IMMUTABLE_DATA db /\ SIGNER db1 = SIGNER db
          /\ ADDRESS db1 = ADDRESS db) as (Him1 & Hs1 & Ha1)
    by (unfold db1; rewrite exec_VTX_eq; auto).
  destruct (existsb (fun x => String.eqb (VTX.ID x) new_id) rows) eqn:Hnew.
  - cbn [SQLCHECK fst snd]. auto.
  - cbn [SQLCHECK].
    unfold WalletDb.DeleteTransaction. rewrite exec_VTX_eq, Hv1.
    unfold WalletDb.updated.
    cbn [Sqlite.exec Sqlite.delete fst snd VTX IMMUTABLE_DATA SIGNER ADDRESS
         wdb changes set_changes].
    rewrite Him1, Hs1, Ha1.
    assert (new_id <> old_id) as Hne.
    { intros ->. congruence. }
    assert (NoDup (map VTX.ID (rows ++ [copy]))) as Hnd'.
    { rewrite map_app. apply NoDup_app. split; [exact Hnd|]. split.
      - intros x Hx Hx'. apply list_elem_of_In in Hx, Hx'.
        destruct Hx' as [<-|[]]. apply in_map_iff in Hx as (y & Hy & Hyin).
        assert (existsb (fun x => String.eqb (VTX.ID x) new_id) rows = true)
          as Habs; [|congruence].
        apply existsb_exists. exists y. split; [exact Hyin|].
        now apply String.eqb_eq.
      - apply NoDup_singleton. }
    rewrite (count_key_unique VTX.ID old_id (rows ++ [copy]) Hnd').
    rewrite existsb_app, Hold. cbn [orb]. repeat split.
    rewrite filter_snoc. cbn [VTX.ID copy]. unfold kept.
    replace (String.eqb new_id old_id) with false
      by (symmetry; now apply String.eqb_neq).
    reflexivity.
Qed.

(** [UpdatePsbtTxId] moves a draft to an id [VTX] does not hold, ids
    being distinct: it answers [true]; the draft is the last row, under
    the new id, with the text and the memo up to their first NUL, the
    fee as an [int], the change index and the extension blob, at height
    -1 with block time 0; [GetPsbt] returns the text under the new id
    and nothing under the old one, and [GetTransaction] of the old id
    throws TX_NOT_FOUND. *)
Theorem UpdatePsbtTxId_moves_draft (db : NunchukWalletDb)
    (rows : list VTX.row) (r : VTX.row) (old_id new_id : string) :
  VTX db = Some rows ->
  NoDup (map VTX.ID rows) ->
  List.find (WalletDb.is_draft old_id) rows = Some r ->
  existsb (fun x => String.eqb (VTX.ID x) new_id) rows = false ->
  let moved := WalletDb.UpdatePsbtTxId old_id new_id db in
  fst moved = Ok true
  /\ VTX (snd moved)
     = Some (List.filter (fun x => negb (String.eqb (VTX.ID x) old_id)) rows
             ++ [VTX.mk new_id (cstr (VTX.VALUE r)) (-1)
                        (to_int (VTX.FEE r)) (cstr (VTX.MEMO r))
                        (VTX.CHANGEPOS r) 0 (VTX.EXTRA r)])
  /\ WalletDb.GetPsbt new_id (snd moved) = cstr (VTX.VALUE r)
  /\ WalletDb.GetPsbt old_id (snd moved) = EmptyString
  /\ WalletDb.GetTransaction old_id (snd moved)
     = Throw (StorageExc StorageException.TX_NOT_FOUND).
Proof.
  intros Hrows Hnd Hfind Hnew moved.
  destruct (UpdatePsbtTxId_eq old_id new_id db rows r Hrows Hnd Hfind)
    as (Hid & Hres & Hv & _).
  fold moved in Hres, Hv. rewrite Hnew in Hv, Hres.
  assert (new_id <> old_id) as Hne.
  { intros ->. apply find_some in Hfind as [Hin _].
    assert (existsb (fun x => String.eqb (VTX.ID x) old_id) rows = true)
      as Habs; [|congruence].
    apply existsb_exists. exists r. split; [exact Hin|].
    now apply String.eqb_eq. }
  split; [exact Hres|]. split; [exact Hv|].
  unfold WalletDb.GetPsbt, WalletDb.GetTransaction. rewrite Hv.
  cbn [Sqlite.first_row]. repeat split.
  - rewrite find_app_r.
    + cbn. unfold WalletDb.is_draft. cbn. rewrite String.eqb_refl. cbn.
      apply cstr_idempotent.
    + apply is_draft_id.
      apply (existsb_weaken _ (fun x => String.eqb (VTX.ID x) new_id));
        [|clear - Hnew; induction rows as [|x rows IH]; [reflexivity|];
          cbn in *; apply orb_false_iff in Hnew as [Hx Hnew];
          destruct (negb (String.eqb (VTX.ID x) old_id)); cbn;
          rewrite ?Hx; auto].
      auto.
  - rewrite find_app_r.
    + cbn. unfold WalletDb.is_draft. cbn.
      now replace (String.eqb new_id old_id) with false
        by (symmetry; now apply String.eqb_neq).
    + apply find_filter_same. unfold WalletDb.is_draft. intros x Hx.
      now apply andb_true_iff in Hx as [-> _].
  - rewrite find_app_r by now apply find_filter_same.
    cbn. now replace (String.eqb new_id old_id) with false
      by (symmetry; now apply String.eqb_neq).
Qed.

(** [UpdatePsbtTxId] without a move, ids being distinct.  When the
    store holds no draft under the old id, the call throws TX_NOT_FOUND
    and the store is as it was.  When it holds one and the new id is
    taken already (the old id itself among the cases), the insertion of
    the copy violates the primary key and the call throws SQL_ERROR
    before anything is deleted: the table is as before and the draft is
    still read under the old id. *)
Theorem UpdatePsbtTxId_without_move (db : NunchukWalletDb)
    (rows : list VTX.row) (old_id new_id : string) :
  VTX db = Some rows ->
  NoDup (map VTX.ID rows) ->
  let moved := WalletDb.UpdatePsbtTxId old_id new_id db in
  (List.find (WalletDb.is_draft old_id) rows = None ->
   moved = (Throw (StorageExc StorageException.TX_NOT_FOUND), db))
  /\ (forall r,
        List.find (WalletDb.is_draft old_id) rows = Some r ->
        existsb (fun x => String.eqb (VTX.ID x) new_id) rows = true ->
        fst moved = Throw (StorageExc StorageException.SQL_ERROR)
        /\ VTX (snd moved) = VTX db
        /\ ADDRESS (snd moved) = ADDRESS db
        /\ WalletDb.GetPsbt old_id (snd moved) = cstr (VTX.VALUE r))
  /\ (forall r,
        List.find (WalletDb.is_draft old_id) rows = Some r ->
        fst (WalletDb.UpdatePsbtTxId old_id old_id db)
        = Throw (StorageExc StorageException.SQL_ERROR)).
Proof.
  intros Hrows Hnd moved. split; [|split].
  - intros Hnone. unfold moved, WalletDb.UpdatePsbtTxId.
    rewrite Hrows. cbn [Sqlite.first_row]. now rewrite Hnone.
  - intros r Hfind Hnew.
    destruct (UpdatePsbtTxId_eq old_id new_id db rows r Hrows Hnd Hfind)
      as (Hid & Hres & Hv & _ & _ & Ha).
    fold moved in Hres, Hv, Ha. rewrite Hnew in Hv, Hres.
    split; [exact Hres|]. split; [congruence|]. split; [exact Ha|].
    unfold WalletDb.GetPsbt. rewrite Hv.
    cbn [Sqlite.first_row]. now rewrite Hfind.
  - intros r Hfind.
    destruct (UpdatePsbtTxId_eq old_id old_id db rows r Hrows Hnd Hfind)
      as (Hid & Hres & _).
    rewrite Hres.
    assert (existsb (fun x => String.eqb (VTX.ID x) old_id) rows = true)
      as ->; [|reflexivity].
    apply find_some in Hfind as [Hin _]. apply existsb_exists.
    exists r. split; [exact Hin|]. now apply String.eqb_eq.
Qed.
End TransactionLedger.

Lemma InsertTransaction_stored_id_witness :
  let inserted :=
    @WalletDb.InsertTransaction LedgerExample.codec SpecModel.txutils
      "raw-tx150" 0 0 0 "again" (-1) LedgerExample.db in
  fst inserted = Throw (StorageExc StorageException.SQL_ERROR)
  /\ VTX (snd inserted) = VTX LedgerExample.db.
Proof.
  destruct (@InsertTransaction_stored_id LedgerExample.codec
              SpecModel.txutils LedgerExample.db _ "raw-tx150" 0 0 0 "again"
              (-1) eq_refl eq_refl) as (Hthrow & Hvtx & _).
  split; [exact Hthrow|exact Hvtx].
Defined.

Lemma InsertTransaction_fresh_id_witness :
  WalletHistory.address_used "addr3" LedgerExample.db = false
  /\ WalletHistory.address_used "addr3"
       (snd (@WalletDb.InsertTransaction LedgerExample.codec
               SpecModel.txutils "raw-tx200" 200 1700000000 0 "in" (-1)
               LedgerExample.db)) = true.
Proof.
  split; [reflexivity|].
  destruct (@InsertTransaction_fresh_id LedgerExample.codec SpecModel.txutils
              LedgerExample.db _ _ "raw-tx200" 200 1700000000 0 "in" (-1)
              eq_refl eq_refl eq_refl)
    as (tx & Hres & _ & _ & _ & _ & _ & _ & _ & _ & Hused).
  assert (tx = match @WalletDb.InsertTransaction LedgerExample.codec
                       SpecModel.txutils "raw-tx200" 200 1700000000 0 "in"
                       (-1) LedgerExample.db with
               | (Ok t, _) => t
               | _ => tx
               end) as Htx.
  { destruct (@WalletDb.InsertTransaction LedgerExample.codec
                SpecModel.txutils "raw-tx200" 200 1700000000 0 "in" (-1)
                LedgerExample.db) as [[t|e] db']; cbn in Hres; congruence. }
  apply Hused; [lia| |discriminate|reflexivity].
  rewrite Htx. vm_compute. now left.
Defined.

Lemma UpdateTransaction_unknown_id_witness :
  fst (@WalletDb.UpdateTransaction LedgerExample.codec SpecModel.txutils
         "raw-tx200" 200 1700000000 EmptyString LedgerExample.db)
  = Ok false.
Proof.
  apply (@UpdateTransaction_unknown_id LedgerExample.codec SpecModel.txutils
           LedgerExample.db _ "raw-tx200" 200 1700000000 EmptyString
           eq_refl (or_intror eq_refl)).
Defined.

Lemma UpdateTransaction_confirms_witness :
  WalletHistory.address_used "chg1" LedgerExample.db = false
  /\ exists tx,
      fst (@WalletDb.UpdateTransaction LedgerExample.codec SpecModel.txutils
             "raw-b1" 151 1600000600 EmptyString LedgerExample.db) = Ok true
      /\ @WalletDb.GetTransaction LedgerExample.codec SpecModel.txutils "b1"
           (snd (@WalletDb.UpdateTransaction LedgerExample.codec
                   SpecModel.txutils "raw-b1" 151 1600000600 EmptyString
                   LedgerExample.db)) = Ok tx.
Proof.
  split; [reflexivity|].
  assert (NoDup (map VTX.ID
                     [VTX.mk "tx150" "raw-tx150" 150 0 EmptyString (-1)
                             1600000000 None;
                      VTX.mk "b1" "raw-b1" 0 50 "sent" (-1) 0 None]))
    as Hnd by (apply (bool_decide_unpack _); vm_compute; exact I).
  assert (0 < 151) as Hh by lia.
  destruct (@UpdateTransaction_confirms LedgerExample.codec SpecModel.txutils
              LedgerExample.db _ _ _ "raw-b1" 151 1600000600 EmptyString
              eq_refl Hnd eq_refl eq_refl Hh)
    as (_ & _ & tx & Hres & Hget & _).
  exists tx. split; [exact Hres|exact Hget].
Defined.

Lemma UpdateTransactionMemo_changes_memo_witness :
  exists tx,
    @WalletDb.GetTransaction LedgerExample.codec SpecModel.txutils "tx150"
      (snd (WalletDb.UpdateTransactionMemo "tx150" "salary" LedgerExample.db))
    = Ok tx
    /\ get_memo tx = "salary".
Proof.
  assert (NoDup (map VTX.ID
                     [VTX.mk "tx150" "raw-tx150" 150 0 EmptyString (-1)
                             1600000000 None;
                      VTX.mk "b1" "raw-b1" 0 50 "sent" (-1) 0 None]))
    as Hnd by (apply (bool_decide_unpack _); vm_compute; exact I).
  destruct (@WalletDb.GetTransaction LedgerExample.codec SpecModel.txutils
              "tx150" LedgerExample.db) as [tx|e] eqn:Hget;
    [|vm_compute in Hget; discriminate].
  destruct (@UpdateTransactionMemo_changes_memo LedgerExample.codec
              SpecModel.txutils LedgerExample.db _ tx "tx150" "salary"
              eq_refl Hnd Hget) as (_ & Hread & _).
  eexists. split; [exact Hread|reflexivity].
Defined.

Lemma CreatePsbt_then_GetPsbt_witness :
  WalletDb.GetPsbt "d2"
    (snd (@WalletDb.CreatePsbt LedgerExample.codec SpecModel.txutils
            "psbt-d2" 100 "draft" (-1) {[ "dest" := 4900 ]} 2 false
            EmptyString LedgerExample.db))
  = "psbt-d2".
Proof.
  apply (@CreatePsbt_then_GetPsbt LedgerExample.codec SpecModel.txutils
           LedgerExample.db _ "psbt-d2" 100 "draft" (-1)
           {[ "dest" := 4900 ]} 2 false EmptyString eq_refl eq_refl).
Defined.

Lemma UpdatePsbt_only_drafts_witness :
  WalletDb.GetPsbt "d2"
    (snd (@WalletDb.UpdatePsbt LedgerExample.codec "psbt-d2-signed"
            LedgerExample.drafted)) = "psbt-d2-signed"
  /\ fst (@WalletDb.UpdatePsbt LedgerExample.codec "raw-b1"
            LedgerExample.drafted) = false.
Proof.
  assert (NoDup (map VTX.ID
                     [VTX.mk "tx150" "raw-tx150" 150 0 EmptyString (-1)
                             1600000000 None;
                      VTX.mk "b1" "raw-b1" 0 50 "sent" (-1) 0 None;
                      VTX.mk "d2" "psbt-d2" (-1) 100 "draft" (-1) 0
                        (Some (mkExtra None (Some [("dest", 4900)]) (Some 2)
                                       (Some false) None None None))]))
    as Hnd by (apply (bool_decide_unpack _); vm_compute; exact I).
  split.
  - apply (@UpdatePsbt_only_drafts LedgerExample.codec LedgerExample.drafted
             _ "psbt-d2-signed" eq_refl Hnd). reflexivity.
  - apply (@UpdatePsbt_only_drafts LedgerExample.codec LedgerExample.drafted
             _ "raw-b1" eq_refl Hnd). reflexivity.
Defined.

Lemma UpdatePsbtTxId_moves_draft_witness :
  WalletDb.GetPsbt "d3"
    (snd (WalletDb.UpdatePsbtTxId "d2" "d3" LedgerExample.drafted)) = "psbt-d2"
  /\ WalletDb.GetPsbt "d2"
       (snd (WalletDb.UpdatePsbtTxId "d2" "d3" LedgerExample.drafted)) = EmptyString.
Proof.
  assert (NoDup (map VTX.ID
                     [VTX.mk "tx150" "raw-tx150" 150 0 EmptyString (-1)
                             1600000000 None;
                      VTX.mk "b1" "raw-b1" 0 50 "sent" (-1) 0 None;
                      VTX.mk "d2" "psbt-d2" (-1) 100 "draft" (-1) 0
                        (Some (mkExtra None (Some [("dest", 4900)]) (Some 2)
                                       (Some false) None None None))]))
    as Hnd by (apply (bool_decide_unpack _); vm_compute; exact I).
  destruct (@UpdatePsbtTxId_moves_draft LedgerExample.codec SpecModel.txutils
              LedgerExample.drafted _ _ "d2" "d3" eq_refl Hnd eq_refl
              eq_refl) as (_ & _ & Hnew & Hold & _).
  split; [exact Hnew|exact Hold].
Defined.

Lemma UpdatePsbtTxId_without_move_witness :
  fst (WalletDb.UpdatePsbtTxId "d2" "d2" LedgerExample.drafted)
  = Throw (StorageExc StorageException.SQL_ERROR)
  /\ WalletDb.GetPsbt "d2"
       (snd (WalletDb.UpdatePsbtTxId "d2" "d2" LedgerExample.drafted))
     = "psbt-d2"
  /\ fst (WalletDb.UpdatePsbtTxId "d9" "d3" LedgerExample.drafted)
     = Throw (StorageExc StorageException.TX_NOT_FOUND).
Proof.
  assert (NoDup (map VTX.ID
                     [VTX.mk "tx150" "raw-tx150" 150 0 EmptyString (-1)
                             1600000000 None;
                      VTX.mk "b1" "raw-b1" 0 50 "sent" (-1) 0 None;
                      VTX.mk "d2" "psbt-d2" (-1) 100 "draft" (-1) 0
                        (Some (mkExtra None (Some [("dest", 4900)]) (Some 2)
                                       (Some false) None None None))]))
    as Hnd by (apply (bool_decide_unpack _); vm_compute; exact I).
  destruct (UpdatePsbtTxId_without_move LedgerExample.drafted _ "d2" "d2"
              eq_refl Hnd) as (_ & Htaken & _).
  destruct (Htaken _ eq_refl eq_refl) as (Hres & _ & _ & Hkept).
  destruct (UpdatePsbtTxId_without_move LedgerExample.drafted _ "d9" "d3"
              eq_refl Hnd) as (Hnone & _).
  split; [exact Hres|]. split; [exact Hkept|].
  now rewrite (Hnone eq_refl).
Defined.

(** ** The key cache of a master signer *)

Section KeyCacheReads.
Context `{DbKeys} `{Bip32}.
Import SignerHistory SignerRecords.

Lemma exec_BIP32_eq stmt db :
  SignerDb.exec_BIP32 stmt db
  = mkNunchukSignerDb
      (set_changes (snd (Sqlite.exec stmt (BIP32 db) (changes (sdb db))))
                   (sdb db))
      (chain_ db)
      (fst (Sqlite.exec stmt (BIP32 db) (changes (sdb db))))
      (REMOTE db).
Proof. unfold SignerDb.exec_BIP32. now destruct (Sqlite.exec _ _ _). Qed.

Lemma existsb_same_PATH r0 (rows : list BIP32.row) :
  existsb (SignerDb.same_PATH r0) rows
  = existsb (fun r => String.eqb (BIP32.PATH r) (BIP32.PATH r0)) rows.
Proof.
  induction rows as [|r rows IH]; [reflexivity|]. cbn [existsb].
  rewrite IH. unfold SignerDb.same_PATH. now rewrite String.eqb_sym.
Qed.

Lemma AddXPub_table path xpub type db rows :
  BIP32 db = Some rows ->
  BIP32 (snd (SignerDb.AddXPub path xpub type db))
  = Some (if existsb (fun r => String.eqb (BIP32.PATH r) path) rows
          then map (fun r => if String.eqb (BIP32.PATH r) path
                             then SignerDb.set_XPUB xpub r else r) rows
          else rows ++ [BIP32.mk path xpub type (-1)])
  /\ fst (SignerDb.AddXPub path xpub type db) = true.
Proof.
  intros Hrows. unfold SignerDb.AddXPub. cbn [fst snd].
  rewrite exec_BIP32_eq, Hrows. unfold SignerDb.updated.
  cbn [BIP32 sdb changes set_changes Sqlite.exec].
  unfold Sqlite.upsert. rewrite existsb_same_PATH. cbn [BIP32.PATH].
  destruct (existsb _ rows); cbn [fst snd]; split; try reflexivity.
  f_equal. apply map_ext. intros r. unfold SignerDb.same_PATH. cbn.
  now rewrite String.eqb_sym.
Qed.

(** [AddXPub] on a master signer's store answers [true]; afterwards
    [GetXpub] of the path returns the key, up to its first NUL; the key
    of every other path and the entries of the remote signers are as
    before; and no entry changes its allocation state: a key cached
    again stays allocated if it was, a key cached first is
    unallocated. *)
Theorem AddXPub_then_GetXpub (db : NunchukSignerDb) (rows : list BIP32.row)
    (path xpub type : string) :
  BIP32 db = Some rows ->
  let added := SignerDb.AddXPub path xpub type db in
  fst added = true
  /\ SignerDb.GetXpub path (snd added) = cstr xpub
  /\ (forall other, other <> path ->
                    SignerDb.GetXpub other (snd added)
                    = SignerDb.GetXpub other db)
  /\ (forall any, allocated any (snd added) = allocated any db)
  /\ (in_cache path db = false -> unallocated path (snd added) = true)
  /\ REMOTE (snd added) = REMOTE db.
Proof.
  intros Hrows added.
  destruct (AddXPub_table path xpub type db rows Hrows) as [Htable Htrue].
  fold added in Htable, Htrue.
  split; [exact Htrue|].
  unfold SignerDb.GetXpub, allocated, unallocated, in_cache, path_is.
  rewrite Htable, Hrows. cbn [Sqlite.first_row].
  destruct (existsb (fun r => String.eqb (BIP32.PATH r) path) rows) eqn:Hex.
  - repeat split.
    + rewrite (find_map_key BIP32.PATH path) by reflexivity.
      destruct (List.find _ rows) as [r|] eqn:Hf.
      * apply find_some in Hf as [_ ->]. reflexivity.
      * apply find_none_not_exists in Hf. congruence.
    + intros other Hne.
      rewrite (find_map_key BIP32.PATH other) by reflexivity.
      destruct (List.find _ rows) as [r|] eqn:Hf; [|reflexivity].
      apply find_some in Hf as [_ Hr]. apply String.eqb_eq in Hr.
      now replace (String.eqb (BIP32.PATH r) path) with false
        by (symmetry; rewrite Hr; now apply String.eqb_neq).
    + intros any. rewrite (find_map_key BIP32.PATH any) by reflexivity.
      destruct (List.find _ rows) as [r|]; [|reflexivity].
      now destruct (String.eqb (BIP32.PATH r) path).
    + discriminate.
    + unfold added, SignerDb.AddXPub. cbn [snd].
      now rewrite exec_BIP32_eq.
  - pose proof (find_none_existsb _ _ Hex) as Hnone. repeat split.
    + rewrite find_app_r by exact Hnone. cbn. now rewrite String.eqb_refl.
    + intros other Hne.
      destruct (List.find (fun r => String.eqb (BIP32.PATH r) other) rows)
        as [r|] eqn:Hf.
      * now rewrite (find_app_l _ _ _ _ Hf).
      * rewrite find_app_r by exact Hf. cbn.
        destruct (String.eqb_spec path other); [congruence|reflexivity].
    + intros any.
      destruct (List.find (fun r => String.eqb (BIP32.PATH r) any) rows)
        as [r|] eqn:Hf.
      * now rewrite (find_app_l _ _ _ _ Hf).
      * rewrite find_app_r by exact Hf. cbn.
        now destruct (String.eqb path any).
    + intros _. rewrite find_app_r by exact Hnone. cbn.
      now rewrite String.eqb_refl.
    + unfold added, SignerDb.AddXPub. cbn [snd].
      now rewrite exec_BIP32_eq.
Qed.
Lemma fold_cached_ge (rows : list BIP32.row) (v : Z) :
  let step := fun value r =>
    let index := GetIndexFromPath (cstr (BIP32.PATH r)) in
    if index >? value then index else value in
  v <= fold_left step rows v
  /\ forall r, In r rows ->
               GetIndexFromPath (cstr (BIP32.PATH r)) <= fold_left step rows v.
Proof.
  cbn zeta. revert v. induction rows as [|x rows IH]; intros v;
    cbn [fold_left].
  - split; [lia|intros r []].
  - match goal with
    | |- context [fold_left ?s rows ?v'] =>
      destruct (IH v') as [Hv Hrows]
    end.
    destruct (GetIndexFromPath (cstr (BIP32.PATH x)) >? v) eqn:Hx.
    + split; [lia|]. intros r [<-|Hr]; [exact Hv|now apply Hrows].
    + split; [exact Hv|]. intros r [<-|Hr]; [lia|now apply Hrows].
Qed.

Lemma filter_map_keeping (t : string) (p : BIP32.row -> bool)
    (f : BIP32.row -> BIP32.row) (rows : list BIP32.row) :
  (forall x, BIP32.PATH (f x) = BIP32.PATH x) ->
  (forall x, BIP32.TYPE (f x) = BIP32.TYPE x) ->
  map BIP32.PATH
      (List.filter (fun r => String.eqb (BIP32.TYPE r) t)
                   (map (fun x => if p x then f x else x) rows))
  = map BIP32.PATH
        (List.filter (fun r => String.eqb (BIP32.TYPE r) t) rows).
Proof.
  intros Hpath Htype. induction rows as [|x rows IH]; [reflexivity|].
  cbn [map List.filter].
  replace (BIP32.TYPE (if p x then f x else x)) with (BIP32.TYPE x)
    by (destruct (p x); [now rewrite Htype|reflexivity]).
  destruct (String.eqb (BIP32.TYPE x) t); [|exact IH].
  cbn [map]. rewrite IH. f_equal.
  destruct (p x); [apply Hpath|reflexivity].
Qed.

Lemma fold_cached_paths (rows rows' : list BIP32.row) (v : Z) :
  map BIP32.PATH rows = map BIP32.PATH rows' ->
  fold_left (fun value r =>
               let index := GetIndexFromPath (cstr (BIP32.PATH r)) in
               if index >? value then index else value) rows v
  = fold_left (fun value r =>
                 let index := GetIndexFromPath (cstr (BIP32.PATH r)) in
                 if index >? value then index else value) rows' v.
Proof.
  revert rows' v. induction rows as [|x rows IH]; intros [|y rows'] v Heq;
    try discriminate; [reflexivity|].
  cbn [map] in Heq. injection Heq as Hxy Heq. cbn [fold_left].
  rewrite Hxy. now apply IH.
Qed.

(** [GetCachedIndex] is at least -1 and bounds the index of every
    cached key of the bucket, whatever its allocation state; allocating
    an index with [UseIndex], in this bucket or another, does not
    change it. *)
Theorem GetCachedIndex_highest (db : NunchukSignerDb)
    (wallet_type : WalletType) (address_type : AddressType) :
  let cached := SignerDb.GetCachedIndex wallet_type address_type db in
  -1 <= cached
  /\ (forall r,
        In r (Sqlite.all_rows (fun _ => true) (BIP32 db)) ->
        BIP32.TYPE r = GetBip32Type wallet_type address_type ->
        GetIndexFromPath (cstr (BIP32.PATH r)) <= cached)
  /\ (forall w a index,
        SignerDb.GetCachedIndex wallet_type address_type
                                (snd (SignerDb.UseIndex w a index db))
        = cached).
Proof.
  intros cached. unfold cached, SignerDb.GetCachedIndex. split; [|split].
  - apply fold_cached_ge.
  - intros r Hr Htype. apply fold_cached_ge.
    destruct (BIP32 db) as [rows|]; [|destruct Hr].
    cbn [Sqlite.all_rows] in *. rewrite filter_all in Hr.
    apply filter_In. split; [exact Hr|]. rewrite Htype.
    apply String.eqb_refl.
  - intros w a index. unfold SignerDb.UseIndex. cbn [snd].
    rewrite exec_BIP32_table.
    destruct (BIP32 db) as [rows|]; [|reflexivity].
    cbn [Sqlite.exec Sqlite.update fst Sqlite.all_rows].
    apply fold_cached_paths. now apply filter_map_keeping.
Qed.

(** On a master signer's store whose paths are distinct and whose
    bucket holds the derived paths of its indices: when the bucket has
    an unallocated key, the index [GetUnusedIndex] returns is the index
    of its first one, [UseIndex] of that index answers [true] and
    allocates it, and the key cached for it is the key of that
    entry. *)
Theorem GetUnusedIndex_then_UseIndex (db : NunchukSignerDb)
    (rows : list BIP32.row) (wallet_type : WalletType)
    (address_type : AddressType) (r : BIP32.row) :
  BIP32 db = Some rows ->
  NoDup (map BIP32.PATH rows) ->
  bucket_canonical wallet_type address_type db = true ->
  List.find (fun r => String.eqb (BIP32.TYPE r)
                                 (GetBip32Type wallet_type address_type)
                      && (BIP32.USED r =? -1)) rows = Some r ->
  let index := SignerDb.GetUnusedIndex wallet_type address_type db in
  let used := SignerDb.UseIndex wallet_type address_type index db in
  index = GetIndexFromPath (cstr (BIP32.PATH r))
  /\ GetBip32Path (chain_ db) wallet_type address_type index = BIP32.PATH r
  /\ fst used = true
  /\ allocated (BIP32.PATH r) (snd used) = true
  /\ SignerDb.GetXpubAt wallet_type address_type index db
     = cstr (BIP32.XPUB r).
Proof.
  intros Hrows Hnd Hcanon Hfind index used.
  assert (index = GetIndexFromPath (cstr (BIP32.PATH r))) as Hindex.
  { unfold index, SignerDb.GetUnusedIndex. rewrite Hrows.
    cbn [Sqlite.first_row]. now rewrite Hfind. }
  pose proof (find_some _ _ Hfind) as [Hin Hr].
  apply andb_true_iff in Hr as [Htype Hunused].
  assert (GetBip32Path (chain_ db) wallet_type address_type index
          = BIP32.PATH r) as Hpath.
  { unfold bucket_canonical in Hcanon. rewrite Hrows in Hcanon.
    cbn [Sqlite.all_rows] in Hcanon. rewrite filter_all in Hcanon.
    rewrite forallb_forall in Hcanon. specialize (Hcanon r Hin).
    rewrite Htype in Hcanon. cbn [negb orb] in Hcanon.
    apply String.eqb_eq in Hcanon. now rewrite Hindex, <- Hcanon. }
  assert (List.find (path_is (BIP32.PATH r)) rows = Some r) as Hmine.
  { destruct (List.find (path_is (BIP32.PATH r)) rows) as [x|] eqn:Hx.
    - f_equal. symmetry. now apply (unique_row_of_path rows x r Hnd).
    - apply find_none_not_exists in Hx.
      assert (existsb (path_is (BIP32.PATH r)) rows = true) as Habs;
        [|congruence].
      apply existsb_exists. exists r. split; [exact Hin|].
      apply String.eqb_refl. }
  split; [exact Hindex|]. split; [exact Hpath|].
  assert (fst used = true) as Hused.
  { unfold used.
    rewrite (UseIndex_table wallet_type address_type index db rows Hrows).
    cbn [fst]. rewrite Hpath, (count_unallocated _ rows Hnd), Hmine.
    now rewrite Hunused. }
  split; [exact Hused|]. split.
  - rewrite <- Hpath. apply (UseIndex_allocates _ _ _ _ r).
    rewrite Hpath, Hrows. exact Hmine.
  - unfold SignerDb.GetXpubAt, SignerDb.GetXpub. rewrite Hpath, Hrows.
    cbn [Sqlite.first_row]. fold (path_is (BIP32.PATH r)).
    now rewrite Hmine.
Qed.

(** [GetSingleSigners] lists the allocated keys: on a store none of
    whose keys is allocated it is empty, and once [UseIndex] has
    answered [true] for an index it holds a signer under the derived
    path of the index, up to its first NUL, marked used, that carries
    the key cached for the index and the id of the store as its master
    signer. *)
Theorem GetSingleSigners_after_UseIndex (db : NunchukSignerDb)
    (wallet_type : WalletType) (address_type : AddressType) (index : Z) :
  SignerDb.IsMaster db = true ->
  fst (SignerDb.UseIndex wallet_type address_type index db) = true ->
  let db' := snd (SignerDb.UseIndex wallet_type address_type index db) in
  let path := GetBip32Path (chain_ db) wallet_type address_type index in
  (Forall (fun r => BIP32.USED r = -1)
          (Sqlite.all_rows (fun _ => true) (BIP32 db)) ->
   SignerDb.GetSingleSigners db = [])
  /\ exists signer,
      In signer (SignerDb.GetSingleSigners db')
      /\ get_derivation_path signer = cstr path
      /\ get_xpub signer
         = SignerDb.GetXpubAt wallet_type address_type index db
      /\ get_master_signer_id signer = id_ (sdb db)
      /\ is_used signer = true.
Proof.
  intros Hmaster Hused db' path. split.
  - intros Hall. unfold SignerDb.GetSingleSigners.
    destruct (BIP32 db) as [rows|]; [|reflexivity].
    cbn [Sqlite.all_rows] in *. rewrite filter_all in Hall.
    replace (List.filter (fun r => negb (BIP32.USED r =? -1)) rows)
      with (@nil BIP32.row); [reflexivity|].
    symmetry. induction Hall as [|r rows Hr _ IH]; [reflexivity|].
    cbn. now rewrite Hr.
  - destruct (UseIndex_true_row _ _ _ _ Hmaster Hused) as [r Hr].
    pose proof (UseIndex_allocates wallet_type address_type index db r Hr)
      as Halloc.
    fold path db' in Halloc, Hr.
    unfold SignerDb.IsMaster in Hmaster.
    destruct (BIP32 db) as [rows|] eqn:Hrows; [|discriminate].
    cbn [Sqlite.first_row] in Hr.
    pose proof (UseIndex_table wallet_type address_type index db rows Hrows)
      as Htable.
    cbn zeta in Htable. fold path in Htable.
    unfold allocated in Halloc.
    assert (BIP32 db'
            = Some (map (fun r => if String.eqb (BIP32.PATH r) path
                                     && (BIP32.USED r =? -1)
                                  then SignerDb.set_USED r else r) rows))
      as Hrows' by (unfold db'; now rewrite Htable).
    rewrite Hrows' in Halloc. cbn [Sqlite.first_row] in Halloc.
    unfold path_is in Halloc, Hr.
    rewrite (find_map_key BIP32.PATH path) in Halloc by reflexivity.
    rewrite Hr in Halloc.
    set (r' := if String.eqb (BIP32.PATH r) path && (BIP32.USED r =? -1)
               then SignerDb.set_USED r else r) in *.
    pose proof (find_some _ _ Hr) as [Hin Hpath].
    apply String.eqb_eq in Hpath.
    exists (mkSingleSigner (SignerDb.GetName db') (cstr (BIP32.XPUB r'))
                           EmptyString (cstr (BIP32.PATH r'))
                           (SignerDb.GetFingerprint db')
                           (SignerDb.GetLastHealthCheck db') (id_ (sdb db'))
                           true).
    assert (BIP32.PATH r' = path /\ BIP32.XPUB r' = BIP32.XPUB r)
      as [Hp' Hx'].
    { unfold r'. destruct (_ && _); cbn; auto. }
    split; [|cbn [get_derivation_path get_xpub get_master_signer_id
                  is_used]; rewrite Hp', Hx'; repeat split].
    + unfold SignerDb.GetSingleSigners. rewrite Hrows'.
      cbn [Sqlite.all_rows].
      apply in_map_iff. exists r'. split; [reflexivity|].
      apply filter_In. split; [|exact Halloc].
      apply (in_map (fun r => if String.eqb (BIP32.PATH r) path
                                 && (BIP32.USED r =? -1)
                              then SignerDb.set_USED r else r)) in Hin.
      exact Hin.
    + unfold SignerDb.GetXpubAt, SignerDb.GetXpub. fold path.
      rewrite Hrows. cbn [Sqlite.first_row]. now rewrite Hr.
    + unfold db'. now rewrite Htable.
Qed.
End KeyCacheReads.

(** ** The entries of remote signers *)

Section RemoteEntries.
Context `{DbKeys} `{Bip32}.
Import SignerHistory SignerRecords.

Lemma exec_REMOTE_eq stmt db :
  SignerDb.exec_REMOTE stmt db
  = mkNunchukSignerDb
      (set_changes (snd (Sqlite.exec stmt (REMOTE db) (changes (sdb db))))
                   (sdb db))
      (chain_ db) (BIP32 db)
      (fst (Sqlite.exec stmt (REMOTE db) (changes (sdb db)))).
Proof. unfold SignerDb.exec_REMOTE. now destruct (Sqlite.exec _ _ _). Qed.

Lemma existsb_same_REMOTE r0 (rows : list REMOTE.row) :
  existsb (SignerDb.same_REMOTE r0) rows
  = existsb (fun r => String.eqb (REMOTE.PATH r) (REMOTE.PATH r0)) rows.
Proof.
  induction rows as [|r rows IH]; [reflexivity|]. cbn [existsb].
  rewrite IH. unfold SignerDb.same_REMOTE. now rewrite String.eqb_sym.
Qed.

Lemma AddRemote_entry (db : NunchukSignerDb)
    (name xpub public_key path : string) (used : bool) :
  let added := SignerDb.AddRemote name xpub public_key path used db in
  (SignerDb.GetRemoteSigner path db
   = Throw (StorageExc StorageException.SIGNER_NOT_FOUND) ->
   fst added = Ok true
   /\ SignerDb.GetRemoteSigner path (snd added)
      = Ok (mkSingleSigner (cstr name) (cstr xpub) (cstr public_key) path
                           (id_ (sdb db)) 0 EmptyString used))
  /\ (forall signer,
        SignerDb.GetRemoteSigner path db = Ok signer ->
        fst added = Throw (StorageExc StorageException.SQL_ERROR)
        /\ SignerDb.GetRemoteSigner path (snd added) = Ok signer
        /\ REMOTE (snd added) = REMOTE db)
  /\ (forall other, other <> path ->
                    SignerDb.GetRemoteSigner other (snd added)
                    = SignerDb.GetRemoteSigner other db)
  /\ BIP32 (snd added) = BIP32 db.
Proof.
  intros added. unfold added, SignerDb.AddRemote. cbn [fst snd].
  rewrite exec_REMOTE_eq. unfold SignerDb.updated, SignerDb.GetRemoteSigner.
  unfold SignerDb.InitRemote, Sqlite.constraint_failed.
  cbn [REMOTE BIP32 sdb changes set_changes id_].
  set (r0 := REMOTE.mk path xpub public_key name 0 (if used then 1 else -1)).
  assert (forall rows,
             existsb (SignerDb.same_REMOTE r0) rows
             = existsb (fun r => String.eqb (REMOTE.PATH r) path) rows)
    as Hfailed by (intros rows; now rewrite existsb_same_REMOTE).
  assert (forall rows,
             Sqlite.exec (Sqlite.insert SignerDb.same_REMOTE r0) (Some rows)
                         (changes (sdb db))
             = if existsb (fun r => String.eqb (REMOTE.PATH r) path) rows
               then (Some rows, 0) else (Some (rows ++ [r0]), 1)) as Hexec.
  { intros rows. unfold Sqlite.exec, Sqlite.insert.
    rewrite existsb_same_REMOTE. cbn [REMOTE.PATH r0].
    now destruct (existsb _ rows). }
  destruct (REMOTE db) as [rows|]; cbn [create_table Sqlite.first_row];
    rewrite Hexec, Hfailed.
  - destruct (List.find (fun r => String.eqb (REMOTE.PATH r) path) rows)
      as [r|] eqn:Hf.
    + replace (existsb (fun r => String.eqb (REMOTE.PATH r) path) rows)
        with true
        by (symmetry; apply existsb_exists; exists r;
            now apply find_some in Hf).
      cbn [fst snd Sqlite.first_row]. rewrite Hf.
      split; [discriminate|]. split; [auto|]. split; [auto|reflexivity].
    + rewrite (find_none_not_exists _ _ Hf). cbn [fst snd Sqlite.first_row].
      split; [|split; [discriminate|split; [|reflexivity]]].
      * intros _. split; [reflexivity|].
        rewrite find_app_r by exact Hf. cbn. rewrite String.eqb_refl.
        unfold SignerDb.remote_signer. cbn. now destruct used.
      * intros other Hne.
        destruct (List.find (fun r => String.eqb (REMOTE.PATH r) other) rows)
          as [r|] eqn:Ho.
        -- now rewrite (find_app_l _ _ _ _ Ho).
        -- rewrite find_app_r by exact Ho. cbn.
           destruct (String.eqb_spec path other); [congruence|reflexivity].
  - cbn [existsb fst snd app Sqlite.first_row List.find REMOTE.PATH r0].
    rewrite String.eqb_refl.
    split; [|split; [discriminate|split; [|reflexivity]]].
    + intros _. split; [reflexivity|].
      unfold SignerDb.remote_signer. cbn. now destruct used.
    + intros other Hne.
      destruct (String.eqb_spec path other); [congruence|reflexivity].
Qed.

Lemma AddRemote_throws db name xpub public_key path used e :
  fst (SignerDb.AddRemote name xpub public_key path used db) = Throw e ->
  e = StorageExc StorageException.SQL_ERROR.
Proof.
  unfold SignerDb.AddRemote. cbn [fst].
  destruct (Sqlite.constraint_failed _ _ _); cbn; congruence.
Qed.

Lemma AddRemote_not_false db name xpub public_key path used :
  fst (SignerDb.AddRemote name xpub public_key path used db) <> Ok false.
Proof.
  destruct (AddRemote_entry db name xpub public_key path used)
    as (Hfresh & Hstored & _).
  destruct (SignerDb.GetRemoteSigner path db) as [signer|e] eqn:Hget.
  - destruct (Hstored signer eq_refl) as (-> & _). discriminate.
  - assert (e = StorageExc StorageException.SIGNER_NOT_FOUND) as ->.
    { unfold SignerDb.GetRemoteSigner in Hget.
      destruct (Sqlite.first_row _ _); [discriminate|]. congruence. }
    destruct (Hfresh eq_refl) as (-> & _). discriminate.
Qed.

(** [AddRemote] and [GetRemoteSigner] round trip, whether or not the
    store had a table of remote entries.  For a path without an entry
    the call answers [true] and [GetRemoteSigner] returns the signer
    afterwards: name, key and public key up to their first NUL, the
    path, the id of the store as fingerprint, no health check yet, and
    the used flag as given.  For a path that has an entry the call
    throws SQL_ERROR (the INSERT violates the primary key) and the
    entry, like the table, is as before; the call never answers
    [false].  Other paths and the key cache are untouched. *)
Theorem AddRemote_then_GetRemoteSigner (db : NunchukSignerDb)
    (name xpub public_key path : string) (used : bool) :
  let added := SignerDb.AddRemote name xpub public_key path used db in
  (SignerDb.GetRemoteSigner path db
   = Throw (StorageExc StorageException.SIGNER_NOT_FOUND) ->
   fst added = Ok true
   /\ SignerDb.GetRemoteSigner path (snd added)
      = Ok (mkSingleSigner (cstr name) (cstr xpub) (cstr public_key) path
                           (id_ (sdb db)) 0 EmptyString used))
  /\ (forall signer,
        SignerDb.GetRemoteSigner path db = Ok signer ->
        fst added = Throw (StorageExc StorageException.SQL_ERROR)
        /\ SignerDb.GetRemoteSigner path (snd added) = Ok signer
        /\ REMOTE (snd added) = REMOTE db)
  /\ (forall other, other <> path ->
                    SignerDb.GetRemoteSigner other (snd added)
                    = SignerDb.GetRemoteSigner other db)
  /\ BIP32 (snd added) = BIP32 db
  /\ fst added <> Ok false.
Proof.
  intros added.
  destruct (AddRemote_entry db name xpub public_key path used)
    as (Hfresh & Hstored & Hother & Hcache).
  fold added in Hfresh, Hstored, Hother, Hcache.
  split; [exact Hfresh|]. split; [exact Hstored|]. split; [exact Hother|].
  split; [exact Hcache|]. apply AddRemote_not_false.
Qed.

(** [DeleteRemoteSigner] deletes an entry only while it is unused,
    paths being distinct: for an unused entry the call answers [true]
    and [GetRemoteSigner] of the path throws SIGNER_NOT_FOUND
    afterwards; for a used entry, or a path without one, it answers
    [false] and the table is as before. *)
Theorem DeleteRemoteSigner_only_unused (db : NunchukSignerDb)
    (rows : list REMOTE.row) (path : string) :
  REMOTE db = Some rows ->
  NoDup (map REMOTE.PATH rows) ->
  let unused := existsb (fun r => String.eqb (REMOTE.PATH r) path
                                  && (REMOTE.USED r =? -1)) rows in
  let deleted := SignerDb.DeleteRemoteSigner path db in
  fst deleted = unused
  /\ (unused = true ->
      SignerDb.GetRemoteSigner path (snd deleted)
      = Throw (StorageExc StorageException.SIGNER_NOT_FOUND))
  /\ (unused = false ->
      REMOTE (snd deleted) = REMOTE db
      /\ SignerDb.GetRemoteSigner path (snd deleted)
         = SignerDb.GetRemoteSigner path db)
  /\ BIP32 (snd deleted) = BIP32 db.
Proof.
  intros Hrows Hnd unused deleted.
  unfold deleted, SignerDb.DeleteRemoteSigner. cbn [fst snd].
  rewrite exec_REMOTE_eq, Hrows.
  unfold SignerDb.updated, SignerDb.GetRemoteSigner.
  cbn [REMOTE BIP32 sdb changes set_changes id_ Sqlite.exec Sqlite.delete
       fst snd Sqlite.first_row].
  rewrite (count_key_and_unique REMOTE.PATH path
             (fun r => REMOTE.USED r =? -1) rows Hnd).
  fold unused. split; [now destruct unused|].
  split; [|split; [|reflexivity]].
  - intros Hu.
    destruct (List.find (fun r => String.eqb (REMOTE.PATH r) path)
                (List.filter
                   (fun r => negb (String.eqb (REMOTE.PATH r) path
                                   && (REMOTE.USED r =? -1))) rows))
      as [x|] eqn:Hx; [|reflexivity].
    exfalso. apply find_some in Hx as [Hin Hpath].
    apply filter_In in Hin as [Hin Hkeep]. rewrite Hpath in Hkeep.
    cbn [andb] in Hkeep. apply negb_true_iff in Hkeep.
    unfold unused in Hu. apply existsb_exists in Hu as (y & Hy & Hyu).
    apply andb_true_iff in Hyu as [Hyp Hyu].
    apply String.eqb_eq in Hpath, Hyp.
    assert (x = y) as ->; [|congruence].
    clear - Hnd Hin Hy Hpath Hyp. rewrite <- Hyp in Hpath. clear Hyp.
    induction rows as [|z rows IH]; [destruct Hin|].
    cbn [map] in Hnd. apply NoDup_cons in Hnd as [Hz Hnd].
    destruct Hin as [->|Hin], Hy as [->|Hy]; auto.
    + exfalso. apply Hz. rewrite Hpath. apply list_elem_of_In.
      now apply in_map.
    + exfalso. apply Hz. rewrite <- Hpath. apply list_elem_of_In.
      now apply in_map.
  - intros Hu.
    assert (List.filter
              (fun r => negb (String.eqb (REMOTE.PATH r) path
                              && (REMOTE.USED r =? -1))) rows = rows) as ->.
    { unfold unused in Hu. clear - Hu.
      induction rows as [|x rows IH]; [reflexivity|]. cbn in *.
      apply orb_false_iff in Hu as [-> Hu]. cbn. now rewrite IH. }
    rewrite Hrows. split; reflexivity.
Qed.

(** [UseRemote] marks an entry used once, paths being distinct: a
    second call on the same path answers [false] and leaves the table
    as the first call left it; a first call that answers [true] leaves
    the entry marked used, and [DeleteRemoteSigner] answers [false] for
    it from then on. *)
Theorem UseRemote_once (db : NunchukSignerDb) (rows : list REMOTE.row)
    (path : string) :
  REMOTE db = Some rows ->
  NoDup (map REMOTE.PATH rows) ->
  let first := SignerDb.UseRemote path db in
  let second := SignerDb.UseRemote path (snd first) in
  fst second = false
  /\ REMOTE (snd second) = REMOTE (snd first)
  /\ (fst first = true ->
      remote_used path (snd first) = true
      /\ fst (SignerDb.DeleteRemoteSigner path (snd first)) = false).
Proof.
  intros Hrows Hnd first second.
  set (p := fun r => String.eqb (REMOTE.PATH r) path && (REMOTE.USED r =? -1)).
  set (rows' := map (fun r => if p r then SignerDb.set_REMOTE_USED r else r)
                    rows).
  assert (REMOTE (snd first) = Some rows') as Hfirst.
  { unfold first, SignerDb.UseRemote. cbn [snd].
    now rewrite exec_REMOTE_eq, Hrows. }
  assert (existsb p rows' = false) as Hnone.
  { unfold rows'. clear. induction rows as [|x rows IH]; [reflexivity|].
    cbn [map existsb]. rewrite IH, orb_false_r.
    destruct (p x) eqn:Hx; [|exact Hx].
    unfold p. cbn. apply andb_false_r. }
  assert (fst second = false /\ REMOTE (snd second) = Some rows')
    as [Hres Hsecond].
  { unfold second, SignerDb.UseRemote. cbn [fst snd].
    rewrite exec_REMOTE_eq, Hfirst. unfold SignerDb.updated.
    cbn [REMOTE sdb changes set_changes Sqlite.exec].
    fold p. rewrite (update_none p _ rows' Hnone). auto. }
  split; [exact Hres|]. split; [congruence|].
  intros Htrue.
  assert (exists r, List.find (remote_is path) rows = Some r) as [r Hr].
  { unfold first, SignerDb.UseRemote in Htrue. cbn [fst] in Htrue.
    rewrite exec_REMOTE_eq, Hrows in Htrue. unfold SignerDb.updated in Htrue.
    cbn [REMOTE sdb changes set_changes Sqlite.exec Sqlite.update snd]
      in Htrue.
    destruct (List.find (remote_is path) rows) as [r|] eqn:Hf;
      [now exists r|].
    apply find_none_not_exists in Hf.
    rewrite count_zero in Htrue; [discriminate|].
    apply (existsb_weaken _ (remote_is path)); [|exact Hf].
    intros x Hx. apply andb_true_iff in Hx as [Hx _]. exact Hx. }
  split.
  - apply (UseRemote_used path db r). now rewrite Hrows.
  - unfold SignerDb.DeleteRemoteSigner. cbn [fst].
    rewrite exec_REMOTE_eq, Hfirst. unfold SignerDb.updated.
    cbn [REMOTE sdb changes set_changes Sqlite.exec Sqlite.delete snd].
    fold p. now rewrite (count_zero p rows' Hnone).
Qed.
End RemoteEntries.

Lemma AddXPub_then_GetXpub_witness :
  SignerDb.GetXpub "m/48h/0h/1h"
    (snd (SignerDb.AddXPub "m/48h/0h/1h" "xpub1-again" "bip48" C3Example.db))
  = "xpub1-again"
  /\ SignerDb.GetXpub "m/48h/0h/0h"
       (snd (SignerDb.AddXPub "m/48h/0h/1h" "xpub1-again" "bip48"
                              C3Example.db))
     = "xpub0".
Proof.
  destruct (AddXPub_then_GetXpub C3Example.db _ "m/48h/0h/1h" "xpub1-again"
              "bip48" eq_refl) as (_ & Hmine & Hothers & _).
  split; [exact Hmine|]. rewrite Hothers; [reflexivity|discriminate].
Defined.

Lemma GetUnusedIndex_then_UseIndex_witness :
  let db := snd (@SignerDb.UseIndex SpecModel.bip32 MULTI_SIG ANY 0
                   C3Example.db) in
  @SignerDb.GetUnusedIndex SpecModel.bip32 MULTI_SIG ANY db = 1
  /\ fst (@SignerDb.UseIndex SpecModel.bip32 MULTI_SIG ANY
            (@SignerDb.GetUnusedIndex SpecModel.bip32 MULTI_SIG ANY db) db)
     = true.
Proof.
  intros db. split; [vm_compute; reflexivity|].
  assert (NoDup (map BIP32.PATH
                     [BIP32.mk "m/48h/0h/0h" "xpub0" "bip48" 1;
                      BIP32.mk "m/48h/0h/1h" "xpub1" "bip48" (-1);
                      BIP32.mk "m/48h/0h/2h" "xpub2" "bip48" (-1);
                      BIP32.mk "m/48h/0h/3h" "xpub3" "bip48" (-1);
                      BIP32.mk "m/48h/0h/4h" "xpub4" "bip48" (-1)]))
    as Hnd by (apply (bool_decide_unpack _); vm_compute; exact I).
  apply (@GetUnusedIndex_then_UseIndex SpecModel.bip32 db _ MULTI_SIG ANY
           (BIP32.mk "m/48h/0h/1h" "xpub1" "bip48" (-1)) eq_refl Hnd).
  - vm_compute. reflexivity.
  - vm_compute. reflexivity.
Defined.

Lemma GetSingleSigners_after_UseIndex_witness :
  @SignerDb.GetSingleSigners SpecModel.keys C3Example.db = []
  /\ exists signer,
      In signer
         (@SignerDb.GetSingleSigners SpecModel.keys
            (snd (@SignerDb.UseIndex SpecModel.bip32 MULTI_SIG ANY 2
                    C3Example.db)))
      /\ get_derivation_path signer = "m/48h/0h/2h"
      /\ get_xpub signer = "xpub2".
Proof.
  destruct (@GetSingleSigners_after_UseIndex SpecModel.keys SpecModel.bip32
              C3Example.db MULTI_SIG ANY 2 eq_refl eq_refl)
    as (Hnone & signer & Hin & Hpath & Hxpub & _).
  split.
  - apply Hnone. repeat constructor.
  - exists signer. split; [exact Hin|]. split; [exact Hpath|exact Hxpub].
Defined.

Lemma DeleteRemoteSigner_only_unused_witness :
  fst (SignerDb.DeleteRemoteSigner "m/48h/1h/7h" RemoteExample.db) = true
  /\ fst (SignerDb.DeleteRemoteSigner "m/48h/1h/9h" RemoteExample.db) = false
  /\ SignerDb.GetRemoteSigner "m/48h/1h/7h"
       (snd (SignerDb.DeleteRemoteSigner "m/48h/1h/7h" RemoteExample.db))
     = Throw (StorageExc StorageException.SIGNER_NOT_FOUND).
Proof.
  assert (NoDup (map REMOTE.PATH
                     [REMOTE.mk "m/48h/1h/7h" "xpubA" EmptyString "airgap" 0
                                (-1);
                      REMOTE.mk "m/48h/1h/9h" "xpubB" EmptyString "import" 0
                                1]))
    as Hnd by (apply (bool_decide_unpack _); vm_compute; exact I).
  destruct (DeleteRemoteSigner_only_unused RemoteExample.db _ "m/48h/1h/7h"
              eq_refl Hnd) as (Hres & Hgone & _).
  destruct (DeleteRemoteSigner_only_unused RemoteExample.db _ "m/48h/1h/9h"
              eq_refl Hnd) as (Hres' & _).
  split; [exact Hres|]. split; [exact Hres'|exact (Hgone eq_refl)].
Defined.

Lemma UseRemote_once_witness :
  fst (SignerDb.UseRemote "m/48h/1h/7h" RemoteExample.db) = true
  /\ fst (SignerDb.UseRemote "m/48h/1h/7h"
            (snd (SignerDb.UseRemote "m/48h/1h/7h" RemoteExample.db)))
     = false
  /\ fst (SignerDb.DeleteRemoteSigner "m/48h/1h/7h"
            (snd (SignerDb.UseRemote "m/48h/1h/7h" RemoteExample.db)))
     = false.
Proof.
  assert (NoDup (map REMOTE.PATH
                     [REMOTE.mk "m/48h/1h/7h" "xpubA" EmptyString "airgap" 0
                                (-1);
                      REMOTE.mk "m/48h/1h/9h" "xpubB" EmptyString "import" 0
                                1]))
    as Hnd by (apply (bool_decide_unpack _); vm_compute; exact I).
  destruct (UseRemote_once RemoteExample.db _ "m/48h/1h/7h" eq_refl Hnd)
    as (Hsecond & _ & Hfirst).
  split; [reflexivity|]. split; [exact Hsecond|].
  now apply Hfirst.
Defined.

Lemma AddRemote_then_GetRemoteSigner_witness :
  let fresh :=
    SignerDb.AddRemote "cold" "xpubC" EmptyString "m/48h/1h/3h" false
                       RemoteExample.db in
  let taken :=
    SignerDb.AddRemote "cold" "xpubC" EmptyString "m/48h/1h/7h" false
                       RemoteExample.db in
  fst fresh = Ok true
  /\ SignerDb.GetRemoteSigner "m/48h/1h/3h" (snd fresh)
     = Ok (mkSingleSigner "cold" "xpubC" EmptyString "m/48h/1h/3h"
                          "ffff0000" 0 EmptyString false)
  /\ fst taken = Throw (StorageExc StorageException.SQL_ERROR)
  /\ SignerDb.GetRemoteSigner "m/48h/1h/7h" (snd taken)
     = Ok (mkSingleSigner "airgap" "xpubA" EmptyString "m/48h/1h/7h"
                          "ffff0000" 0 EmptyString false)
  /\ REMOTE (snd taken) = REMOTE RemoteExample.db.
Proof.
  intros fresh taken.
  pose proof (AddRemote_then_GetRemoteSigner RemoteExample.db "cold" "xpubC"
                EmptyString "m/48h/1h/3h" false) as Hfresh.
  pose proof (AddRemote_then_GetRemoteSigner RemoteExample.db "cold" "xpubC"
                EmptyString "m/48h/1h/7h" false) as Htaken.
  cbv zeta in Hfresh, Htaken.
  destruct Hfresh as (Hfresh & _). destruct Htaken as (_ & Htaken & _).
  destruct (Hfresh eq_refl) as (Hadded & Hfound).
  destruct (Htaken _ eq_refl) as (Hthrown & Hkept & Htable).
  split; [exact Hadded|]. split; [exact Hfound|].
  split; [exact Hthrown|]. split; [exact Hkept|exact Htable].
Defined.

(** ** The storage facade *)

Section FacadeErrors.
Context `{DbKeys} `{Bip32} `{Descriptor} `{TxCodec} `{TxUtils}.
Import SignerHistory SignerRecords.

Lemma GetWalletDb_unknown chain wallet_id st :
  Files.wallet_exists chain wallet_id st = false ->
  Facade.GetWalletDb chain wallet_id st
  = Throw (StorageExc StorageException.WALLET_NOT_FOUND).
Proof. intros Hno. unfold Facade.GetWalletDb. now rewrite Hno. Qed.

Lemma on_wallet_unknown {A : Type} chain wallet_id
    (f : NunchukWalletDb -> Result A * NunchukWalletDb) st :
  Files.wallet_exists chain wallet_id st = false ->
  Facade.on_wallet chain wallet_id f st
  = (Throw (StorageExc StorageException.WALLET_NOT_FOUND), st).
Proof.
  intros Hno. unfold Facade.on_wallet.
  now rewrite (GetWalletDb_unknown _ _ _ Hno).
Qed.

(** An id that names the wallets directory itself (empty up to its
    first NUL, [.] or [..]) passes the existence check of a chain that
    has directories, and the store cannot be opened. *)
Lemma GetWalletDb_directory chain id st :
  Files.has_directories chain = true ->
  Files.names_directory id = true ->
  Files.wallet_exists chain id st = true
  /\ Facade.GetWalletDb chain id st
     = Throw (StorageExc StorageException.SQL_ERROR).
Proof.
  intros Hd Hn.
  assert (Files.wallet_exists chain id st = true) as Hex
    by (unfold Files.wallet_exists; now rewrite Hd, Hn).
  split; [exact Hex|].
  unfold Facade.GetWalletDb, Files.open_wallet, Files.can_open.
  now rewrite Hex, Hd, Hn.
Qed.

(** Every call of the facade that names a wallet, by an id without a
    path separator, whose path does not exist throws WALLET_NOT_FOUND,
    and the writing ones leave the storage as it is.  On a chain that
    has directories such an id names a file (not the wallets directory)
    and the file is missing. *)
Theorem wallet_calls_on_unknown_wallet (chain : Chain) (wallet_id : string)
    (st : NunchukStorage) :
  Files.has_separator wallet_id = false ->
  Files.wallet_exists chain wallet_id st = false ->
  let not_found := StorageExc StorageException.WALLET_NOT_FOUND in
  (forall address index internal,
      Facade.AddAddress chain wallet_id address index internal st
      = (Throw not_found, st))
  /\ (forall address,
         Facade.UseAddress chain wallet_id address st = (Throw not_found, st))
  /\ (forall address utxo,
         Facade.SetUtxos chain wallet_id address utxo st
         = (Throw not_found, st))
  /\ (forall raw_tx height blocktime fee memo change_pos,
         Facade.InsertTransaction chain wallet_id raw_tx height blocktime
                                  fee memo change_pos st
         = (Throw not_found, st))
  /\ (forall raw_tx height blocktime reject_msg,
         Facade.UpdateTransaction chain wallet_id raw_tx height blocktime
                                  reject_msg st
         = (Throw not_found, st))
  /\ (forall tx_id memo,
         Facade.UpdateTransactionMemo chain wallet_id tx_id memo st
         = (Throw not_found, st))
  /\ (forall tx_id,
         Facade.DeleteTransaction chain wallet_id tx_id st
         = (Throw not_found, st))
  /\ Facade.DeleteWallet chain wallet_id st = (Throw not_found, st)
  /\ (forall tx_id,
         Facade.GetTransaction chain wallet_id tx_id st = Throw not_found)
  /\ Facade.GetAllAddresses chain wallet_id st = Throw not_found
  /\ (forall remove_locked,
         Facade.GetUnspentOutputs chain wallet_id remove_locked st
         = Throw not_found)
  /\ Facade.GetBalance chain wallet_id st = Throw not_found
  /\ (forall address,
         Facade.GetAddressIndex chain wallet_id address st = Throw not_found)
  /\ (forall address,
         Facade.GetAddressBalance chain wallet_id address st
         = Throw not_found)
  /\ (Files.has_directories chain = true ->
      Files.names_directory wallet_id = false
      /\ wallets (chain_dir chain st) !! Files.file_name wallet_id = None).
Proof.
  intros _ Hno not_found.
  assert (Files.has_directories chain = true ->
          Files.names_directory wallet_id = false
          /\ wallets (chain_dir chain st) !! Files.file_name wallet_id = None)
    as Hfile.
  { intros Hd. unfold Files.wallet_exists in Hno. rewrite Hd in Hno.
    cbn [andb] in Hno. apply orb_false_iff in Hno as [Hn Hl].
    split; [exact Hn|].
    apply bool_decide_eq_false_1 in Hl.
    destruct (wallets (chain_dir chain st) !! Files.file_name wallet_id)
      as [f|] eqn:Hf; [|reflexivity].
    exfalso. apply Hl. eauto. }
  pose proof (GetWalletDb_unknown chain wallet_id st Hno) as Hget.
  unfold Facade.AddAddress, Facade.UseAddress, Facade.SetUtxos,
    Facade.InsertTransaction, Facade.UpdateTransaction,
    Facade.UpdateTransactionMemo, Facade.DeleteTransaction,
    Facade.DeleteWallet, Facade.GetTransaction, Facade.GetAllAddresses,
    Facade.GetUnspentOutputs, Facade.GetBalance, Facade.GetAddressIndex,
    Facade.GetAddressBalance.
  rewrite Hget. cbn [bind].
  repeat match goal with |- _ /\ _ => split end; intros;
    first [reflexivity|now apply on_wallet_unknown|now apply Hfile].
Qed.

Lemma wallets_remove chain id st :
  wallets (chain_dir chain (Files.remove_wallet chain id st))
  = delete (Files.file_name id) (wallets (chain_dir chain st)).
Proof.
  unfold Files.remove_wallet. destruct chain; cbn; try reflexivity.
Qed.

Lemma chain_dir_set_other chain c d st :
  c <> chain -> chain_dir c (set_chain_dir chain d st) = chain_dir c st.
Proof. intros Hne. destruct chain, c; try reflexivity; congruence. Qed.

Lemma signers_remove_wallet chain id st :
  signers (chain_dir chain (Files.remove_wallet chain id st))
  = signers (chain_dir chain st).
Proof. unfold Files.remove_wallet. now destruct chain. Qed.

(** [DeleteWallet] of an id whose path exists.  When the path is a
    file of the chain, the call answers [true] and removes that store
    and nothing else: [GetWalletDb] of the id, and of every id that
    names the same file, throws WALLET_NOT_FOUND afterwards; every
    wallet in another file of the chain, every signer record of the
    chain (an allocated key stays allocated, a used remote entry stays
    used) and the other chains are as before.  When the path is a
    directory (the id is empty up to its first NUL, [.] or [..]) the
    store cannot be opened: the call throws SQL_ERROR and removes
    nothing. *)
Theorem DeleteWallet_removes_store (chain : Chain) (id : string)
    (st : NunchukStorage) :
  Files.wallet_exists chain id st = true ->
  let deleted := Facade.DeleteWallet chain id st in
  (Files.names_directory id = true ->
   deleted = (Throw (StorageExc StorageException.SQL_ERROR), st))
  /\ (Files.names_directory id = false ->
      fst deleted = Ok true
      /\ Facade.GetWalletDb chain id (snd deleted)
         = Throw (StorageExc StorageException.WALLET_NOT_FOUND)
      /\ (forall other, Files.file_name other = Files.file_name id ->
                        Facade.GetWalletDb chain other (snd deleted)
                        = Throw (StorageExc StorageException.WALLET_NOT_FOUND))
      /\ (forall other, Files.file_name other <> Files.file_name id ->
                        Facade.GetWalletDb chain other (snd deleted)
                        = Facade.GetWalletDb chain other st)
      /\ (forall fingerprint,
             Files.open_signer chain fingerprint (snd deleted)
             = Files.open_signer chain fingerprint st)
      /\ (forall c, c <> chain ->
                    chain_dir c (snd deleted) = chain_dir c st)).
Proof.
  intros Hex deleted.
  assert (Files.has_directories chain = true) as Hd.
  { unfold Files.wallet_exists in Hex.
    now destruct (Files.has_directories chain). }
  split; intros Hfile.
  - unfold deleted, Facade.DeleteWallet, Facade.GetWalletDb.
    rewrite Hex. unfold Files.open_wallet, Files.can_open.
    now rewrite Hd, Hfile.
  - assert (Files.can_open chain id = true) as Hc
      by (unfold Files.can_open; now rewrite Hd, Hfile).
    assert (deleted = (Ok true, Files.remove_wallet chain id st)) as ->.
    { unfold deleted, Facade.DeleteWallet, Facade.GetWalletDb.
      now rewrite Hex, open_wallet_can. }
    assert (forall other, Files.file_name other = Files.file_name id ->
              Facade.GetWalletDb chain other
                (Files.remove_wallet chain id st)
              = Throw (StorageExc StorageException.WALLET_NOT_FOUND))
      as Hgone.
    { intros other Hsame.
      assert (Files.names_directory other = false) as Hother
        by (unfold Files.names_directory in Hfile |- *; now rewrite Hsame).
      unfold Facade.GetWalletDb, Files.wallet_exists.
      rewrite wallets_remove, Hd, Hother, Hsame, lookup_delete_eq.
      cbn [andb orb].
      rewrite bool_decide_eq_false_2; [reflexivity|].
      intros [x Hx]. discriminate. }
    cbn [fst snd]. split; [reflexivity|].
    split; [now apply Hgone|]. split; [exact Hgone|].
    split; [|split].
    + intros other Hne.
      unfold Facade.GetWalletDb, Files.wallet_exists, Files.open_wallet,
        Files.wallet_store, Files.wallet_file.
      rewrite wallets_remove. now rewrite lookup_delete_ne by congruence.
    + intros fingerprint.
      unfold Files.open_signer, Files.signer_store, Files.signer_file.
      now rewrite signers_remove_wallet.
    + intros c Hne. unfold Files.remove_wallet.
      now apply chain_dir_set_other.
Qed.

Lemma GetRemoteSigner_ext path db db' :
  REMOTE db' = REMOTE db -> id_ (sdb db') = id_ (sdb db) ->
  SignerDb.GetRemoteSigner path db' = SignerDb.GetRemoteSigner path db.
Proof.
  intros Hr Hid. unfold SignerDb.GetRemoteSigner. now rewrite Hr, Hid.
Qed.

Lemma signer_store_id chain id st :
  id_ (sdb (Files.signer_store chain id st)) = id.
Proof.
  unfold Files.signer_store. now destruct (Files.signer_file chain id st).
Qed.

Lemma CreateSingleSigner_eq chain name xpub public_key path fingerprint st :
  let db := Files.signer_store chain fingerprint st in
  let added := SignerDb.AddRemote name xpub public_key path false db in
  Files.can_open chain fingerprint = true ->
  SignerDb.IsMaster db = false ->
  Facade.CreateSingleSigner chain name xpub public_key path fingerprint st
  = (match fst added with
     | Ok true =>
       Ok (mkSingleSigner name xpub public_key path fingerprint 0
                          EmptyString false)
     | Ok false => Throw (StorageExc StorageException.SIGNER_EXISTS)
     | Throw e => Throw e
     end,
     Files.save_signer chain fingerprint (snd added) st).
Proof.
  intros db added Hc Hremote. unfold Facade.CreateSingleSigner.
  rewrite open_signer_can by exact Hc.
  fold db. rewrite Hremote. fold added.
  destruct added as [[[|]|e] db1]; reflexivity.
Qed.

(** [CreateSingleSigner], for a fingerprint without a path separator,
    creates the remote entry of a path once.  When the store of the
    fingerprint cannot be opened (regtest, or a fingerprint that names
    a directory) it throws SQL_ERROR and writes nothing.  Under the fingerprint of a master signer it throws
    SIGNER_EXISTS, and it throws SIGNER_EXISTS in no other case.
    Otherwise, for a path without an entry it returns the signer as
    given, unused and without health check, and [GetRemoteSigner] finds
    it afterwards under the fingerprint, its texts up to their first
    NUL; from then on, and for any path that had an entry before, the
    call throws SQL_ERROR (the INSERT of [AddRemote] violates the
    primary key) and the entry is the one that was there.  The wallet
    stores are untouched. *)
Theorem CreateSingleSigner_once (chain : Chain)
    (name xpub public_key path fingerprint : string) (st : NunchukStorage) :
  Files.has_separator fingerprint = false ->
  let db := Files.signer_store chain fingerprint st in
  let created :=
    Facade.CreateSingleSigner chain name xpub public_key path fingerprint
                              st in
  let db' := Files.signer_store chain fingerprint (snd created) in
  (Files.can_open chain fingerprint = false ->
   created = (Throw (StorageExc StorageException.SQL_ERROR), st))
  /\ (SignerDb.IsMaster db = true ->
      fst created = Throw (StorageExc StorageException.SIGNER_EXISTS))
  /\ (fst created = Throw (StorageExc StorageException.SIGNER_EXISTS) ->
      SignerDb.IsMaster db = true)
  /\ (Files.can_open chain fingerprint = true ->
      SignerDb.IsMaster db = false ->
      SignerDb.GetRemoteSigner path db
      = Throw (StorageExc StorageException.SIGNER_NOT_FOUND) ->
      fst created
      = Ok (mkSingleSigner name xpub public_key path fingerprint 0
                           EmptyString false)
      /\ SignerDb.GetRemoteSigner path db'
         = Ok (mkSingleSigner (cstr name) (cstr xpub) (cstr public_key) path
                              fingerprint 0 EmptyString false)
      /\ forall name' xpub' public_key',
           fst (Facade.CreateSingleSigner chain name' xpub' public_key' path
                                          fingerprint (snd created))
           = Throw (StorageExc StorageException.SQL_ERROR))
  /\ (forall signer,
        Files.can_open chain fingerprint = true ->
        SignerDb.IsMaster db = false ->
        SignerDb.GetRemoteSigner path db = Ok signer ->
        fst created = Throw (StorageExc StorageException.SQL_ERROR)
        /\ SignerDb.GetRemoteSigner path db' = Ok signer)
  /\ wallets (chain_dir chain (snd created)) = wallets (chain_dir chain st).
Proof.
  intros _ db created db'.
  assert (forall n x k s,
             Files.can_open chain fingerprint = true ->
             SignerDb.IsMaster (Files.signer_store chain fingerprint s)
             = false ->
             forall signer,
               SignerDb.GetRemoteSigner path
                 (Files.signer_store chain fingerprint s) = Ok signer ->
               fst (Facade.CreateSingleSigner chain n x k path fingerprint s)
               = Throw (StorageExc StorageException.SQL_ERROR)
               /\ SignerDb.GetRemoteSigner path
                    (Files.signer_store chain fingerprint
                       (snd (Facade.CreateSingleSigner chain n x k path
                                                       fingerprint s)))
                  = Ok signer) as Hexisting.
  { intros n x k s Hc Hremote signer Hentry.
    rewrite (CreateSingleSigner_eq chain n x k path fingerprint s Hc Hremote).
    destruct (AddRemote_entry (Files.signer_store chain fingerprint s)
                n x k path false) as (_ & Hold & _).
    destruct (Hold signer Hentry) as (Hthrow & Hsame & _).
    cbn [fst snd]. rewrite Hthrow. split; [reflexivity|].
    rewrite signer_store_save_same by exact Hc. rewrite <- Hsame.
    apply GetRemoteSigner_ext; cbn [REMOTE sdb id_]; [reflexivity|].
    unfold SignerDb.AddRemote. cbn [snd]. rewrite exec_REMOTE_eq.
    cbn [sdb set_changes id_]. unfold SignerDb.InitRemote. cbn [sdb].
    symmetry. apply signer_store_id. }
  assert (Files.can_open chain fingerprint = false ->
          created = (Throw (StorageExc StorageException.SQL_ERROR), st))
    as Hclosed.
  { intros Hc. unfold created, Facade.CreateSingleSigner, Files.open_signer.
    now rewrite Hc. }
  split; [exact Hclosed|]. split; [|split; [|split; [|split]]].
  - intros Hmaster. unfold created, Facade.CreateSingleSigner.
    rewrite open_signer_can by (eapply IsMaster_can_open; exact Hmaster).
    fold db. now rewrite Hmaster.
  - destruct (SignerDb.IsMaster db) eqn:Hm; [reflexivity|]. intros Hthrow.
    destruct (Files.can_open chain fingerprint) eqn:Hc;
      [|rewrite (Hclosed eq_refl) in Hthrow; discriminate].
    pose proof (CreateSingleSigner_eq chain name xpub public_key path
                  fingerprint st Hc Hm) as Heq.
    cbn zeta in Heq. fold db created in Heq. rewrite Heq in Hthrow.
    cbn [fst] in Hthrow.
    pose proof (AddRemote_not_false db name xpub public_key path false)
      as Hnf.
    pose proof (AddRemote_throws db name xpub public_key path false) as Hth.
    destruct (fst (SignerDb.AddRemote name xpub public_key path false db))
      as [[|]|e]; [discriminate|congruence|].
    rewrite (Hth e eq_refl) in Hthrow. discriminate.
  - intros Hc Hremote Hnone.
    pose proof (CreateSingleSigner_eq chain name xpub public_key path
                  fingerprint st Hc Hremote) as Heq.
    cbn zeta in Heq. fold db created in Heq.
    destruct (AddRemote_entry db name xpub public_key path false)
      as (Hnew & _ & _ & Hcache).
    destruct (Hnew Hnone) as (Htrue & Hfound).
    rewrite Htrue in Heq.
    assert (SignerDb.GetRemoteSigner path db'
            = Ok (mkSingleSigner (cstr name) (cstr xpub) (cstr public_key)
                                 path fingerprint 0 EmptyString false))
      as Hentry.
    { unfold db'. rewrite Heq. cbn [snd].
      rewrite signer_store_save_same by exact Hc.
      unfold db in Hfound at 2. rewrite signer_store_id in Hfound.
      rewrite <- Hfound.
      apply GetRemoteSigner_ext; cbn [REMOTE sdb id_]; [reflexivity|].
      unfold SignerDb.AddRemote. cbn [snd]. rewrite exec_REMOTE_eq.
      cbn [sdb set_changes id_]. unfold SignerDb.InitRemote. cbn [sdb].
      symmetry. apply signer_store_id. }
    split; [now rewrite Heq|]. split; [exact Hentry|].
    intros name' xpub' public_key'.
    assert (SignerDb.IsMaster db' = false) as Hremote'.
    { unfold db'. rewrite Heq. cbn [snd].
      rewrite signer_store_save_same by exact Hc.
      unfold SignerDb.IsMaster in *. cbn [BIP32]. now rewrite Hcache. }
    exact (proj1 (Hexisting name' xpub' public_key' (snd created) Hc Hremote'
                    _ Hentry)).
  - intros signer Hc Hremote Hentry.
    apply (Hexisting name xpub public_key st Hc Hremote signer Hentry).
  - unfold created, Facade.CreateSingleSigner.
    destruct (Files.open_signer chain fingerprint st) as [db0|e];
      [|reflexivity].
    destruct (SignerDb.IsMaster db0); cbn [snd];
      [apply wallets_save_signer|].
    destruct (SignerDb.AddRemote _ _ _ _ _ db0) as [[[|]|e] db1]; cbn [snd];
      apply wallets_save_signer.
Qed.
End FacadeErrors.

Section CreateWalletTwice.
Context `{DbKeys} `{Bip32} `{Descriptor} `{TxCodec} `{TxUtils}.
Import SignerHistory SignerRecords.

Lemma records_le_save_wallet chain id db st :
  records_le chain st (Files.save_wallet chain id db st).
Proof.
  intros fp. rewrite signer_store_save_wallet. apply signer_le_refl.
Qed.

(** A turn of the loop that returns has opened the store of the
    fingerprint. *)
Lemma CreateWallet_signer_opened chain w a signer st :
  fst (Facade.CreateWallet_signer chain w a signer st) = Ok tt ->
  Files.can_open chain (get_master_fingerprint signer) = true.
Proof.
  destruct (Files.can_open chain (get_master_fingerprint signer)) eqn:Hc;
    [reflexivity|].
  rewrite CreateWallet_signer_closed by exact Hc. discriminate.
Qed.

Lemma CreateWallet_signers_opened chain w a signers :
  forall st,
    fst (Facade.CreateWallet_signers chain w a signers st) = Ok tt ->
    Forall (fun signer =>
              Files.can_open chain (get_master_fingerprint signer) = true)
           signers.
Proof.
  induction signers as [|signer rest IH]; intros st; simpl; [constructor|].
  pose proof (CreateWallet_signer_opened chain w a signer st) as Hs.
  destruct (Facade.CreateWallet_signer chain w a signer st)
    as [[[]|e] st1]; simpl in *; [|discriminate].
  intros Hr. constructor; [now apply Hs|]. eapply IH, Hr.
Qed.

(** With the store opened, a turn throws nothing but SIGNER_USED. *)
Lemma CreateWallet_signer_open_throws chain w a signer st e :
  Files.can_open chain (get_master_fingerprint signer) = true ->
  fst (Facade.CreateWallet_signer chain w a signer st) = Throw e ->
  e = StorageExc StorageException.SIGNER_USED.
Proof.
  intros Hc.
  destruct (SignerDb.IsMaster
              (Files.signer_store chain (get_master_fingerprint signer) st)
            && has_master_signer signer) eqn:Hl.
  - unfold Facade.CreateWallet_signer. rewrite open_signer_can by exact Hc.
    rewrite Hl.
    destruct (SignerDb.UseIndex _ _ _ _) as [[|] db]; simpl;
      [discriminate|congruence].
  - rewrite (CreateWallet_signer_remote chain w a signer st Hl).
    rewrite remote_branch_returns by exact Hc. discriminate.
Qed.

Lemma CreateWallet_signers_open_throws chain w a signers :
  forall st e,
    Forall (fun signer =>
              Files.can_open chain (get_master_fingerprint signer) = true)
           signers ->
    fst (Facade.CreateWallet_signers chain w a signers st) = Throw e ->
    e = StorageExc StorageException.SIGNER_USED.
Proof.
  induction signers as [|signer rest IH]; intros st e Hall; simpl;
    [discriminate|].
  apply Forall_cons in Hall as [Hs Hrest].
  pose proof (CreateWallet_signer_open_throws chain w a signer st) as Hthrow.
  destruct (Facade.CreateWallet_signer chain w a signer st)
    as [[[]|e'] st1]; simpl in *; [now apply IH|].
  intros [= <-]. now apply Hthrow.
Qed.

Lemma CreateWallet0_signer_opened chain w a allow signer st :
  fst (FacadeRev.CreateWallet0_signer chain w a allow signer st) = Ok tt ->
  Files.can_open chain (get_master_fingerprint signer) = true.
Proof.
  destruct (Files.can_open chain (get_master_fingerprint signer)) eqn:Hc;
    [reflexivity|].
  rewrite CreateWallet0_signer_closed by exact Hc. discriminate.
Qed.

Lemma CreateWallet0_signers_opened chain w a allow signers :
  forall st,
    fst (FacadeRev.CreateWallet0_signers chain w a allow signers st)
    = Ok tt ->
    Forall (fun signer =>
              Files.can_open chain (get_master_fingerprint signer) = true)
           signers.
Proof.
  induction signers as [|signer rest IH]; intros st; simpl; [constructor|].
  pose proof (CreateWallet0_signer_opened chain w a allow signer st) as Hs.
  destruct (FacadeRev.CreateWallet0_signer chain w a allow signer st)
    as [[[]|e] st1]; simpl in *; [|discriminate].
  intros Hr. constructor; [now apply Hs|]. eapply IH, Hr.
Qed.

Lemma path_checked_le chain w a signer st st' :
  records_le chain st st' ->
  let fp := get_master_fingerprint signer in
  let canonical :=
    GetBip32Path chain w a (GetIndexFromPath (get_derivation_path signer)) in
  (SignerDb.IsMaster (Files.signer_store chain fp st)
   && negb (string_empty (get_xpub signer)) = true ->
   FormalizePath canonical = FormalizePath (get_derivation_path signer)) ->
  SignerDb.IsMaster (Files.signer_store chain fp st')
  && negb (string_empty (get_xpub signer)) = true ->
  FormalizePath canonical = FormalizePath (get_derivation_path signer).
Proof.
  intros Hle fp canonical Hok. now rewrite (IsMaster_le _ _ (Hle fp)).
Qed.

Lemma CreateWallet0_signer_checked chain w a allow signer st :
  fst (FacadeRev.CreateWallet0_signer chain w a allow signer st) = Ok tt ->
  SignerDb.IsMaster
    (Files.signer_store chain (get_master_fingerprint signer) st)
  && negb (string_empty (get_xpub signer)) = true ->
  FormalizePath
    (GetBip32Path chain w a (GetIndexFromPath (get_derivation_path signer)))
  = FormalizePath (get_derivation_path signer).
Proof.
  intros Hok Hlocal.
  pose proof (CreateWallet0_signer_opened chain w a allow signer st Hok)
    as Hc.
  unfold FacadeRev.CreateWallet0_signer in Hok.
  rewrite open_signer_can in Hok by exact Hc.
  rewrite Hlocal in Hok.
  destruct (String.eqb_spec
              (FormalizePath
                 (GetBip32Path chain w a
                    (GetIndexFromPath (get_derivation_path signer))))
              (FormalizePath (get_derivation_path signer))) as [Heq|Hne];
    [exact Heq|discriminate].
Qed.

Lemma CreateWallet0_signers_checked chain w a allow signers :
  forall st st1,
    FacadeRev.CreateWallet0_signers chain w a allow signers st
    = (Ok tt, st1) ->
    Forall (fun signer =>
              SignerDb.IsMaster
                (Files.signer_store chain (get_master_fingerprint signer) st1)
              && negb (string_empty (get_xpub signer)) = true ->
              FormalizePath
                (GetBip32Path chain w a
                   (GetIndexFromPath (get_derivation_path signer)))
              = FormalizePath (get_derivation_path signer))
           signers.
Proof.
  induction signers as [|signer rest IH]; intros st st1 Hloop;
    [constructor|].
  cbn in Hloop.
  pose proof (CreateWallet0_signer_checked chain w a allow signer st) as Hs.
  destruct (FacadeRev.CreateWallet0_signer chain w a allow signer st)
    as [[[]|e] st'] eqn:Hstep; [|discriminate].
  pose proof (CreateWallet0_signer_step chain w a allow signer st)
    as (Hle1 & _).
  rewrite Hstep in Hle1. cbn [snd] in Hle1.
  pose proof (CreateWallet0_signers_loop chain w a allow rest st')
    as (Hle2 & _).
  rewrite Hloop in Hle2. cbn [snd] in Hle2.
  constructor; [|now apply (IH st')].
  apply (path_checked_le chain w a signer st st1).
  - eapply records_le_trans; eauto.
  - now apply Hs.
Qed.

Lemma CreateWallet0_signer_checked_throws chain w a allow signer st e :
  Files.can_open chain (get_master_fingerprint signer) = true ->
  (SignerDb.IsMaster
     (Files.signer_store chain (get_master_fingerprint signer) st)
   && negb (string_empty (get_xpub signer)) = true ->
   FormalizePath
     (GetBip32Path chain w a (GetIndexFromPath (get_derivation_path signer)))
   = FormalizePath (get_derivation_path signer)) ->
  fst (FacadeRev.CreateWallet0_signer chain w a allow signer st) = Throw e ->
  e = StorageExc StorageException.SIGNER_USED /\ allow = false.
Proof.
  intros Hc Hok.
  destruct (SignerDb.IsMaster
              (Files.signer_store chain (get_master_fingerprint signer) st)
            && negb (string_empty (get_xpub signer))) eqn:Hl.
  - unfold FacadeRev.CreateWallet0_signer.
    rewrite open_signer_can by exact Hc. rewrite Hl, (Hok eq_refl).
    rewrite String.eqb_refl. cbn [negb].
    destruct (SignerDb.AddXPubAt _ _ _ _ _) as [b1 db1].
    destruct (SignerDb.UseIndex _ _ _ _) as [used db2].
    destruct used, allow; cbn [negb andb fst]; try discriminate.
    intros [= <-]. auto.
  - rewrite (CreateWallet0_signer_remote chain w a allow signer st Hl).
    rewrite remote_branch_returns by exact Hc. discriminate.
Qed.

Lemma CreateWallet0_signers_checked_throws chain w a allow signers :
  forall st e,
    Forall (fun signer =>
              Files.can_open chain (get_master_fingerprint signer) = true)
           signers ->
    Forall (fun signer =>
              SignerDb.IsMaster
                (Files.signer_store chain (get_master_fingerprint signer) st)
              && negb (string_empty (get_xpub signer)) = true ->
              FormalizePath
                (GetBip32Path chain w a
                   (GetIndexFromPath (get_derivation_path signer)))
              = FormalizePath (get_derivation_path signer))
           signers ->
    fst (FacadeRev.CreateWallet0_signers chain w a allow signers st)
    = Throw e ->
    e = StorageExc StorageException.SIGNER_USED /\ allow = false.
Proof.
  induction signers as [|signer rest IH]; intros st e Hopen Hall;
    [discriminate|].
  cbn. apply Forall_cons in Hall as [Hs Hrest].
  apply Forall_cons in Hopen as [Hc Hopen].
  pose proof (CreateWallet0_signer_checked_throws chain w a allow signer st)
    as Hthrow.
  pose proof (CreateWallet0_signer_step chain w a allow signer st)
    as (Hle & _).
  destruct (FacadeRev.CreateWallet0_signer chain w a allow signer st)
    as [[[]|e'] st']; cbn [fst snd] in *.
  - apply IH; [exact Hopen|]. eapply Forall_impl; [exact Hrest|].
    intros x Hx. now apply (path_checked_le chain w a x st st').
  - intros [= <-]. now apply Hthrow.
Qed.

(** After [CreateWallet] has returned a wallet, a second call for the
    same signers, m, n, address type and escrow flag, under whatever
    name and description, creates nothing: it throws WALLET_EXISTED or
    SIGNER_USED, and the wallet stores are as the first call left them.
    In the revision with [allow_used_signer] the second call throws
    WALLET_EXISTED when the flag is set, and SIGNER_USED only when it
    is not. *)
Theorem CreateWallet_twice (chain : Chain) (name name' : string) (m n : Z)
    (signers : list SingleSigner) (address_type : AddressType)
    (is_escrow : bool) (description description' : string)
    (allow allow' : bool) (now now' : time_t) (st : NunchukStorage) :
  let first :=
    Facade.CreateWallet chain name m n signers address_type is_escrow
                        description now st in
  let second :=
    Facade.CreateWallet chain name' m n signers address_type is_escrow
                        description' now' (snd first) in
  let first0 :=
    FacadeRev.CreateWallet chain name m n signers address_type is_escrow
                           description allow now st in
  let second0 :=
    FacadeRev.CreateWallet chain name' m n signers address_type is_escrow
                           description' allow' now' (snd first0) in
  ((exists wallet, fst first = Ok wallet) ->
   (fst second = Throw (StorageExc StorageException.WALLET_EXISTED)
    \/ fst second = Throw (StorageExc StorageException.SIGNER_USED))
   /\ wallets (chain_dir chain (snd second))
      = wallets (chain_dir chain (snd first)))
  /\ ((exists wallet, fst first0 = Ok wallet) ->
      (fst second0 = Throw (StorageExc StorageException.WALLET_EXISTED)
       \/ (fst second0 = Throw (StorageExc StorageException.SIGNER_USED)
           /\ allow' = false))
      /\ wallets (chain_dir chain (snd second0))
         = wallets (chain_dir chain (snd first0))).
Proof.
  intros first second first0 second0. split.
  - intros [wallet Hfirst]. unfold second.
    unfold first, Facade.CreateWallet in Hfirst |- *.
    set (w := wallet_type_of n is_escrow) in *.
    set (id := GetDescriptorChecksum _) in *.
    pose proof (CreateWallet_signers_opened chain w address_type signers st)
      as Hopen.
    destruct (Facade.CreateWallet_signers chain w address_type signers st)
      as [[[]|e] st1]; [|discriminate].
    specialize (Hopen eq_refl).
    destruct (Files.wallet_exists chain id st1); [discriminate|].
    destruct (Files.open_wallet chain id st1) as [wallet_db|e] eqn:Ho;
      [|discriminate].
    apply open_wallet_Ok in Ho. destruct Ho as [Hc _].
    destruct (WalletDb.InitWallet name m n signers address_type is_escrow
                now description wallet_db) as [initialized wallet_db'].
    cbn [fst snd] in *. clear Hfirst.
    set (st2 := Files.save_wallet chain id wallet_db' st1).
    pose proof (CreateWallet_signers_loop chain w address_type signers st2)
      as (_ & Hw & _).
    pose proof (CreateWallet_signers_open_throws chain w address_type signers
                  st2) as Hthrow.
    destruct (Facade.CreateWallet_signers chain w address_type signers st2)
      as [[[]|e] st3]; cbn [fst snd] in *.
    + rewrite (wallet_exists_wallets chain id st2 st3 Hw).
      assert (Files.wallet_exists chain id st2 = true) as ->
        by (apply wallet_exists_saved, Hc).
      cbn [fst snd]. auto.
    + rewrite (Hthrow e Hopen eq_refl). auto.
  - intros [wallet Hfirst]. unfold second0.
    unfold first0, FacadeRev.CreateWallet, FacadeRev.CreateWallet0
      in Hfirst |- *.
    destruct (m >? n); [discriminate|].
    destruct (negb (n =? Z.of_nat (length signers))); [discriminate|].
    set (w := wallet_type_of n is_escrow) in *.
    set (id := GetDescriptorChecksum _) in *.
    pose proof (CreateWallet0_signers_checked chain w address_type allow
                  signers st) as Hchecked.
    pose proof (CreateWallet0_signers_opened chain w address_type allow
                  signers st) as Hopen.
    destruct (FacadeRev.CreateWallet0_signers chain w address_type allow
                signers st) as [[[]|e] st1]; [|discriminate].
    specialize (Hchecked st1 eq_refl). specialize (Hopen eq_refl).
    destruct (Files.wallet_exists chain id st1); [discriminate|].
    destruct (Files.open_wallet chain id st1) as [wallet_db|e] eqn:Ho;
      [|discriminate].
    apply open_wallet_Ok in Ho. destruct Ho as [Hc _].
    destruct (WalletDb.InitWallet name m n signers address_type is_escrow
                now description wallet_db) as [initialized wallet_db'].
    cbn [fst snd] in *. clear Hfirst.
    set (st2 := Files.save_wallet chain id wallet_db' st1).
    assert (Forall (fun signer =>
                      SignerDb.IsMaster
                        (Files.signer_store chain
                           (get_master_fingerprint signer) st2)
                      && negb (string_empty (get_xpub signer)) = true ->
                      FormalizePath
                        (GetBip32Path chain w address_type
                           (GetIndexFromPath (get_derivation_path signer)))
                      = FormalizePath (get_derivation_path signer))
                   signers) as Hchecked2.
    { eapply Forall_impl; [exact Hchecked|]. intros x Hx.
      apply (path_checked_le chain w address_type x st1 st2); [|exact Hx].
      apply records_le_save_wallet. }
    pose proof (CreateWallet0_signers_loop chain w address_type allow'
                  signers st2) as (_ & Hw & _).
    pose proof (CreateWallet0_signers_checked_throws chain w address_type
                  allow' signers st2) as Hthrow.
    destruct (FacadeRev.CreateWallet0_signers chain w address_type allow'
                signers st2) as [[[]|e] st3]; cbn [fst snd] in *.
    + rewrite (wallet_exists_wallets chain id st2 st3 Hw).
      assert (Files.wallet_exists chain id st2 = true) as ->
        by (apply wallet_exists_saved, Hc).
      cbn [fst snd]. auto.
    + destruct (Hthrow e Hopen Hchecked2 eq_refl) as [-> ->]. auto.
Qed.
End CreateWalletTwice.

Lemma wallet_calls_on_unknown_wallet_witness :
  Files.wallet_exists TESTNET C9Example.id C9Example.records = false
  /\ Facade.UseAddress TESTNET C9Example.id "addr1" C9Example.records
     = (Throw (StorageExc StorageException.WALLET_NOT_FOUND),
        C9Example.records)
  /\ @Facade.GetBalance C6Example.codec SpecModel.txutils TESTNET
       C9Example.id C9Example.records
     = Throw (StorageExc StorageException.WALLET_NOT_FOUND).
Proof.
  assert (Files.wallet_exists TESTNET C9Example.id C9Example.records = false)
    as Hunknown by (vm_compute; reflexivity).
  pose proof (@wallet_calls_on_unknown_wallet C6Example.codec
                SpecModel.txutils TESTNET C9Example.id C9Example.records
                eq_refl Hunknown) as Hcalls.
  cbv zeta in Hcalls.
  destruct Hcalls
    as (_ & Huse & _ & _ & _ & _ & _ & _ & _ & _ & _ & Hbalance & _).
  split; [exact Hunknown|]. split; [apply Huse|exact Hbalance].
Defined.

(** The empty wallet id on testnet: its path is the wallets directory,
    which exists, so the id is not unknown; the store cannot be opened
    and the calls throw SQL_ERROR. *)
Remark wallet_calls_on_directory_id :
  Files.wallet_exists TESTNET EmptyString C9Example.records = true
  /\ Facade.UseAddress TESTNET EmptyString "addr1" C9Example.records
     = (Throw (StorageExc StorageException.SQL_ERROR), C9Example.records)
  /\ Facade.DeleteWallet TESTNET EmptyString C9Example.records
     = (Throw (StorageExc StorageException.SQL_ERROR), C9Example.records).
Proof. repeat split; vm_compute; reflexivity. Qed.

Lemma DeleteWallet_removes_store_witness :
  Files.wallet_exists TESTNET C9Example.id C9Example.storage = true
  /\ fst (Facade.DeleteWallet TESTNET C9Example.id C9Example.storage)
     = Ok true
  /\ Facade.GetWalletDb TESTNET C9Example.id
       (snd (Facade.DeleteWallet TESTNET C9Example.id C9Example.storage))
     = Throw (StorageExc StorageException.WALLET_NOT_FOUND).
Proof.
  assert (Files.wallet_exists TESTNET C9Example.id C9Example.storage = true)
    as Hknown by (vm_compute; reflexivity).
  pose proof (DeleteWallet_removes_store TESTNET C9Example.id
                C9Example.storage Hknown) as Hdeleted.
  cbv zeta in Hdeleted. destruct Hdeleted as (_ & Hfile).
  destruct (Hfile eq_refl) as (Hret & Hgone & _).
  split; [exact Hknown|]. split; [exact Hret|exact Hgone].
Defined.

Lemma CreateSingleSigner_once_witness :
  let create chain fingerprint st :=
    Facade.CreateSingleSigner chain "airgap" "xpubA" EmptyString
                              "m/48h/1h/9h" fingerprint st in
  let first := create TESTNET "ffff0000" C9Example.records in
  fst first = Ok C9Example.airgap_key
  /\ SignerDb.GetRemoteSigner "m/48h/1h/9h"
       (Files.signer_store TESTNET "ffff0000" (snd first))
     = Ok C9Example.airgap_key
  /\ fst (create TESTNET "ffff0000" (snd first))
     = Throw (StorageExc StorageException.SQL_ERROR)
  /\ fst (create TESTNET "abcd1234" C9Example.records)
     = Throw (StorageExc StorageException.SIGNER_EXISTS)
  /\ create REGTEST "ffff0000" C9Example.records
     = (Throw (StorageExc StorageException.SQL_ERROR), C9Example.records).
Proof.
  intros create first.
  pose proof (CreateSingleSigner_once TESTNET "airgap" "xpubA" EmptyString
                "m/48h/1h/9h" "ffff0000" C9Example.records eq_refl)
    as Hfresh.
  pose proof (CreateSingleSigner_once TESTNET "airgap" "xpubA" EmptyString
                "m/48h/1h/9h" "abcd1234" C9Example.records eq_refl)
    as Hmaster.
  pose proof (CreateSingleSigner_once REGTEST "airgap" "xpubA" EmptyString
                "m/48h/1h/9h" "ffff0000" C9Example.records eq_refl)
    as Hclosed.
  cbv zeta in Hfresh, Hmaster, Hclosed.
  destruct Hfresh as (_ & _ & _ & Hfresh & _).
  destruct Hmaster as (_ & Hmaster & _).
  destruct Hclosed as (Hclosed & _).
  destruct (Hfresh eq_refl eq_refl eq_refl) as (Hret & Hfound & Hlater).
  split; [exact Hret|]. split; [exact Hfound|].
  split; [apply Hlater|]. split; [apply Hmaster|apply Hclosed]; reflexivity.
Defined.

Lemma CreateWallet_twice_witness :
  let create name now st :=
    @Facade.CreateWallet SpecModel.keys SpecModel.bip32 SpecModel.descriptor
      TESTNET name 2 2 C9Example.wallet_signers NATIVE_SEGWIT false
      EmptyString now st in
  let first := create "shared" 0 C9Example.records in
  let second := create "again" 5 (snd first) in
  (exists wallet, fst first = Ok wallet)
  /\ (fst second = Throw (StorageExc StorageException.WALLET_EXISTED)
      \/ fst second = Throw (StorageExc StorageException.SIGNER_USED))
  /\ wallets (chain_dir TESTNET (snd second))
     = wallets (chain_dir TESTNET (snd first)).
Proof.
  intros create first second.
  assert (exists wallet, fst first = Ok wallet) as Hfirst.
  { assert (match fst first with Ok _ => True | Throw _ => False end)
      as Hreturns by (vm_compute; exact I).
    destruct (fst first) as [wallet|e];
      [now exists wallet|destruct Hreturns]. }
  pose proof (@CreateWallet_twice SpecModel.keys SpecModel.bip32
                SpecModel.descriptor TESTNET "shared" "again" 2 2
                C9Example.wallet_signers NATIVE_SEGWIT false EmptyString
                EmptyString false false 0 5 C9Example.records) as Htwice.
  cbv zeta in Htwice. destruct Htwice as [Htwice _].
  split; [exact Hfirst|]. exact (Htwice Hfirst).
Defined.

Section SynchronizerErrors.
Context `{DbKeys} `{Bip32} `{Descriptor} `{TxCodec} `{TxUtils}
        `{ElectrumClient}.

Lemma UpdateTransactions_item_unknown chain wallet_id item s :
  Files.wallet_exists chain wallet_id (storage_ s) = false ->
  Synchronizer.UpdateTransactions_item chain wallet_id item s = (Ok tt, s).
Proof.
  intros Hno.
  unfold Synchronizer.UpdateTransactions_item, Synchronizer.reconcile_known,
    Facade.GetTransaction.
  now rewrite (GetWalletDb_unknown _ _ _ Hno).
Qed.

(** [UpdateTransactions] for a wallet the storage does not hold swallows
    the WALLET_NOT_FOUND of every history item: it returns normally,
    whatever the history, with the storage untouched and no transaction
    event fired. *)
Theorem UpdateTransactions_unknown_wallet (chain : Chain)
    (wallet_id : string) (history : HistoryJson) (s : ElectrumSynchronizer) :
  Files.wallet_exists chain wallet_id (storage_ s) = false ->
  Synchronizer.UpdateTransactions chain wallet_id history s = (Ok tt, s).
Proof.
  intros Hno. destruct history as [|items]; [reflexivity|].
  cbn [Synchronizer.UpdateTransactions].
  induction items as [|item rest IH]; [reflexivity|].
  cbn [Synchronizer.UpdateTransactions_items].
  now rewrite (UpdateTransactions_item_unknown chain wallet_id item s Hno).
Qed.
End SynchronizerErrors.

Lemma UpdateTransactions_unknown_wallet_witness :
  let history :=
    HistoryArray [mkHistoryItem "tx150" 150 None;
                  mkHistoryItem "tx9" 0 None] in
  Files.wallet_exists TESTNET "w2" (storage_ C6Example.synchronizer) = false
  /\ @Synchronizer.UpdateTransactions C6Example.codec SpecModel.txutils
       C6Example.backend TESTNET "w2" history C6Example.synchronizer
     = (Ok tt, C6Example.synchronizer).
Proof.
  intros history.
  assert (Files.wallet_exists TESTNET "w2" (storage_ C6Example.synchronizer)
          = false) as Hunknown by (vm_compute; reflexivity).
  split; [exact Hunknown|].
  exact (@UpdateTransactions_unknown_wallet C6Example.codec
           SpecModel.txutils C6Example.backend TESTNET "w2" history
           C6Example.synchronizer Hunknown).
Defined.
